(** * Pipeline build lifecycle of the CDS engine

    A shallow embedding of [engine/api/pipeline/pipeline_build.go]:
    the relational store is a record of tables, every function that
    receives a [gorp.SqlExecutor] is a computation in a state-and-error
    monad over that record, and the collaborators that live outside the
    file (version-control client, clock, Go runtime choices) are fields of
    an environment record.

    Integers declared [int64] in Go are [Z] values kept in range by
    [Int64.wrap]; Go strings are [string]; [time.Time] is a [Z] whose zero
    is Go's zero time; a nullable column is an [option]. *)

From Stdlib Require Import ZArith List String Ascii Bool Lia Permutation Sorted.
From stdpp Require Import gmap strings list pretty.

Open Scope string_scope.
Open Scope Z_scope.
Open Scope list_scope.

(** ** Machine integers *)

Module Int64.

Definition min_int : Z := - 2 ^ 63.
Definition max_int : Z := 2 ^ 63 - 1.

(** Two's-complement wrap-around of Go's [int64] arithmetic. *)
Definition wrap (z : Z) : Z := (z + 2 ^ 63) mod 2 ^ 64 - 2 ^ 63.

Definition add (a b : Z) : Z := wrap (a + b).

Definition in_range (z : Z) : Prop := min_int <= z <= max_int.

End Int64.

(** ** JSON text, as [encoding/json] reads and writes it

    [encoding/json] belongs to the Go standard library.  [Unmarshal] first
    checks that the whole input is one well-formed JSON value surrounded
    by optional white space and only then decodes it into the target; the
    same two steps are kept here: [Json.parse] is the syntax check (it
    also builds the tree), the [decode_*] functions of the data model are
    the second step. *)

Module Json.

#[local] Unset Elimination Schemes.
Inductive value : Type :=
| JNull
| JBool (b : bool)
| JNumber (lexeme : string)
| JString (s : string)
| JArray (elements : list value)
| JObject (members : list (string * value)).
#[local] Set Elimination Schemes.

Inductive parse_result (A : Type) : Type :=
| Parsed (a : A) (rest : string)
| SyntaxError
| OutOfFuel.
Arguments Parsed {A} a rest.
Arguments SyntaxError {A}.
Arguments OutOfFuel {A}.

Definition is_ws (c : ascii) : bool :=
  match c with
  | " "%char | "009"%char | "010"%char | "013"%char => true
  | _ => false
  end.

Fixpoint skip_ws (s : string) : string :=
  match s with
  | String c rest => if is_ws c then skip_ws rest else s
  | EmptyString => s
  end.

Definition is_digit (c : ascii) : bool :=
  let n := N_of_ascii c in ((48 <=? n) && (n <=? 57))%N.

Definition hex_digit (c : ascii) : option N :=
  let n := N_of_ascii c in
  if ((48 <=? n) && (n <=? 57))%N then Some (n - 48)%N
  else if ((97 <=? n) && (n <=? 102))%N then Some (n - 87)%N
  else if ((65 <=? n) && (n <=? 70))%N then Some (n - 55)%N
  else None.

(** The longest prefix of digits, and what follows it. *)
Fixpoint take_digits (s : string) : string * string :=
  match s with
  | String c rest =>
      if is_digit c
      then let '(ds, r) := take_digits rest in (String c ds, r)
      else (EmptyString, s)
  | EmptyString => (EmptyString, EmptyString)
  end.

(** [int = zero / ( digit1-9 *DIGIT )] *)
Definition lex_int (s : string) : option (string * string) :=
  match s with
  | String "0" rest => Some ("0", rest)
  | String c _ =>
      if is_digit c then Some (take_digits s) else None
  | EmptyString => None
  end.

(** [frac = decimal-point 1*DIGIT], optional. *)
Definition lex_frac (s : string) : option (string * string) :=
  match s with
  | String "." rest =>
      match take_digits rest with
      | (EmptyString, _) => None
      | (ds, r) => Some (String "." ds, r)
      end
  | _ => Some (EmptyString, s)
  end.

(** [exp = e [ minus / plus ] 1*DIGIT], optional. *)
Definition lex_exp (s : string) : option (string * string) :=
  match s with
  | String e rest =>
      if (Ascii.eqb e "e" || Ascii.eqb e "E")%bool then
        let '(sign, rest') :=
          match rest with
          | String "+" r => ("+", r)
          | String "-" r => ("-", r)
          | _ => (EmptyString, rest)
          end in
        match take_digits rest' with
        | (EmptyString, _) => None
        | (ds, r) => Some (String e (sign +:+ ds), r)
        end
      else Some (EmptyString, s)
  | EmptyString => Some (EmptyString, s)
  end.

(** [number = [ minus ] int [ frac ] [ exp ]] *)
Definition lex_number (s : string) : option (string * string) :=
  let '(sign, s1) :=
    match s with
    | String "-" r => ("-", r)
    | _ => (EmptyString, s)
    end in
  match lex_int s1 with
  | None => None
  | Some (i, s2) =>
      match lex_frac s2 with
      | None => None
      | Some (f, s3) =>
          match lex_exp s3 with
          | None => None
          | Some (e, s4) => Some (sign +:+ i +:+ f +:+ e, s4)
          end
      end
  end.

(** UTF-8 bytes of a code point of the basic plane. *)
Definition utf8 (n : N) : string :=
  let byte (k : N) := String (ascii_of_N k) EmptyString in
  if (n <? 128)%N then byte n
  else if (n <? 2048)%N then
    byte (192 + n / 64)%N +:+ byte (128 + n mod 64)%N
  else
    byte (224 + n / 4096)%N +:+ byte (128 + (n / 64) mod 64)%N
      +:+ byte (128 + n mod 64)%N.

Definition hex4 (a b c d : ascii) : option N :=
  match hex_digit a, hex_digit b, hex_digit c, hex_digit d with
  | Some x, Some y, Some z, Some w => Some (((x * 16 + y) * 16 + z) * 16 + w)%N
  | _, _, _, _ => None
  end.

(** A code point written [\uXXXX]; half of a surrogate pair decodes to
    U+FFFD (pairs are not recombined). *)
Definition unicode_escape (n : N) : string :=
  if ((55296 <=? n) && (n <=? 57343))%N then utf8 65533 else utf8 n.

Definition simple_escape (e : ascii) : option ascii :=
  match e with
  | "034"%char => Some "034"%char
  | "\"%char => Some "\"%char
  | "/"%char => Some "/"%char
  | "b"%char => Some "008"%char
  | "f"%char => Some "012"%char
  | "n"%char => Some "010"%char
  | "r"%char => Some "013"%char
  | "t"%char => Some "009"%char
  | _ => None
  end.

(** The characters of a string literal after its opening quote, decoded,
    and the text after the closing quote. *)
Fixpoint lex_string (s : string) : option (string * string) :=
  match s with
  | EmptyString => None
  | String c rest =>
      if Ascii.eqb c "034" then Some (EmptyString, rest)
      else if Ascii.eqb c "\" then
        match rest with
        | String "u" (String h1 (String h2 (String h3 (String h4 rest2)))) =>
            match hex4 h1 h2 h3 h4 with
            | Some n =>
                match lex_string rest2 with
                | Some (body, r) => Some (unicode_escape n +:+ body, r)
                | None => None
                end
            | None => None
            end
        | String e rest1 =>
            match simple_escape e with
            | Some d =>
                match lex_string rest1 with
                | Some (body, r) => Some (String d body, r)
                | None => None
                end
            | None => None
            end
        | EmptyString => None
        end
      else if (N_of_ascii c <? 32)%N then None
      else
        match lex_string rest with
        | Some (body, r) => Some (String c body, r)
        | None => None
        end
  end.

(** What follows [word] at the head of [s]. *)
Fixpoint strip (word s : string) : option string :=
  match word with
  | EmptyString => Some s
  | String c word' =>
      match s with
      | String d rest => if Ascii.eqb c d then strip word' rest else None
      | EmptyString => None
      end
  end.

Definition expect (word : string) (s : string) (v : value) : parse_result value :=
  match strip word s with
  | Some rest => Parsed v rest
  | None => SyntaxError
  end.

(** Recursive descent over [value], the elements of an array after its
    opening bracket and the members of an object after its opening
    brace.  [fuel] bounds the depth of calls; [parse] supplies enough. *)
Fixpoint parse_value (fuel : nat) (s : string) : parse_result value :=
  match fuel with
  | O => OutOfFuel
  | S fuel' =>
      match skip_ws s with
      | EmptyString => SyntaxError
      | String c rest =>
          if Ascii.eqb c "n" then expect "ull" rest JNull
          else if Ascii.eqb c "t" then expect "rue" rest (JBool true)
          else if Ascii.eqb c "f" then expect "alse" rest (JBool false)
          else if Ascii.eqb c "034" then
            match lex_string rest with
            | Some (str, r) => Parsed (JString str) r
            | None => SyntaxError
            end
          else if Ascii.eqb c "[" then
            match skip_ws rest with
            | String "]" r => Parsed (JArray nil) r
            | _ =>
                match parse_elements fuel' rest with
                | Parsed vs r => Parsed (JArray vs) r
                | SyntaxError => SyntaxError
                | OutOfFuel => OutOfFuel
                end
            end
          else if Ascii.eqb c "{" then
            match skip_ws rest with
            | String "}" r => Parsed (JObject nil) r
            | _ =>
                match parse_members fuel' rest with
                | Parsed ms r => Parsed (JObject ms) r
                | SyntaxError => SyntaxError
                | OutOfFuel => OutOfFuel
                end
            end
          else if (Ascii.eqb c "-" || is_digit c)%bool then
            match lex_number (String c rest) with
            | Some (lexeme, r) => Parsed (JNumber lexeme) r
            | None => SyntaxError
            end
          else SyntaxError
      end
  end
with parse_elements (fuel : nat) (s : string) : parse_result (list value) :=
  match fuel with
  | O => OutOfFuel
  | S fuel' =>
      match parse_value fuel' s with
      | Parsed v r =>
          match skip_ws r with
          | String "," r' =>
              match parse_elements fuel' r' with
              | Parsed vs r'' => Parsed (v :: vs) r''
              | SyntaxError => SyntaxError
              | OutOfFuel => OutOfFuel
              end
          | String "]" r' => Parsed (v :: nil) r'
          | _ => SyntaxError
          end
      | SyntaxError => SyntaxError
      | OutOfFuel => OutOfFuel
      end
  end
with parse_members (fuel : nat) (s : string) : parse_result (list (string * value)) :=
  match fuel with
  | O => OutOfFuel
  | S fuel' =>
      match skip_ws s with
      | String "034" r0 =>
          match lex_string r0 with
          | Some (key, r1) =>
              match skip_ws r1 with
              | String ":" r2 =>
                  match parse_value fuel' r2 with
                  | Parsed v r3 =>
                      match skip_ws r3 with
                      | String "," r4 =>
                          match parse_members fuel' r4 with
                          | Parsed ms r5 => Parsed ((key, v) :: ms) r5
                          | SyntaxError => SyntaxError
                          | OutOfFuel => OutOfFuel
                          end
                      | String "}" r4 => Parsed ((key, v) :: nil) r4
                      | _ => SyntaxError
                      end
                  | SyntaxError => SyntaxError
                  | OutOfFuel => OutOfFuel
                  end
              | _ => SyntaxError
              end
          | None => SyntaxError
          end
      | _ => SyntaxError
      end
  end.

Definition enough_fuel (s : string) : nat := 2 * String.length s + 2.

(** One JSON value and nothing else but white space. *)
Definition parse (s : string) : option value :=
  match parse_value (enough_fuel s) s with
  | Parsed v rest =>
      match skip_ws rest with
      | EmptyString => Some v
      | _ => None
      end
  | _ => None
  end.

Definition valid (s : string) : bool :=
  match parse s with Some _ => true | None => false end.

(** *** Writing *)

Definition dquote : string := String "034" EmptyString.

Definition hex_char (n : N) : ascii :=
  if (n <? 10)%N then ascii_of_N (48 + n) else ascii_of_N (87 + n).

Definition u00 (c : ascii) : string :=
  let n := N_of_ascii c in
  "\u00" +:+ String (hex_char (n / 16)) (String (hex_char (n mod 16)) EmptyString).

(** The encoder's escaping: quote, backslash and control characters,
    and the three characters it escapes for HTML. *)
Definition escape_char (c : ascii) : string :=
  if Ascii.eqb c "034" then "\" +:+ dquote
  else if Ascii.eqb c "\" then "\\"
  else if Ascii.eqb c "010" then "\n"
  else if Ascii.eqb c "013" then "\r"
  else if Ascii.eqb c "009" then "\t"
  else if (N_of_ascii c <? 32)%N then u00 c
  else if (Ascii.eqb c "<" || Ascii.eqb c ">" || Ascii.eqb c "&")%bool then u00 c
  else String c EmptyString.

Fixpoint escape (s : string) : string :=
  match s with
  | EmptyString => EmptyString
  | String c rest => escape_char c +:+ escape rest
  end.

Definition quote (s : string) : string := dquote +:+ escape s +:+ dquote.

Fixpoint print (v : value) : string :=
  match v with
  | JNull => "null"
  | JBool true => "true"
  | JBool false => "false"
  | JNumber lexeme => lexeme
  | JString s => quote s
  | JArray vs =>
      "[" +:+ (fix elems (l : list value) : string :=
                match l with
                | nil => EmptyString
                | x :: nil => print x
                | x :: r => print x +:+ "," +:+ elems r
                end) vs +:+ "]"
  | JObject ms =>
      "{" +:+ (fix membs (l : list (string * value)) : string :=
                match l with
                | nil => EmptyString
                | (k, x) :: nil => quote k +:+ ":" +:+ print x
                | (k, x) :: r => quote k +:+ ":" +:+ print x +:+ "," +:+ membs r
                end) ms +:+ "}"
  end.

(** *** Decoding into Go values

    A missing key and a [null] leave the zero value of the target; a
    value of another JSON type is a type error.  When a key occurs
    twice the last occurrence is the one that stays. *)

Definition field (k : string) (ms : list (string * value)) : option value :=
  fold_left (fun acc kv => if String.eqb k (fst kv) then Some (snd kv) else acc) ms None.

Definition as_string (v : option value) : option string :=
  match v with
  | None | Some JNull => Some EmptyString
  | Some (JString s) => Some s
  | Some _ => None
  end.

Definition as_bool (v : option value) : option bool :=
  match v with
  | None | Some JNull => Some false
  | Some (JBool b) => Some b
  | Some _ => None
  end.

Fixpoint digits_value (acc : Z) (s : string) : option Z :=
  match s with
  | EmptyString => Some acc
  | String c rest =>
      if is_digit c
      then digits_value (10 * acc + Z.of_N (N_of_ascii c) - 48) rest
      else None
  end.

(** An [int64] target takes an integer literal within range. *)
Definition as_int64 (v : option value) : option Z :=
  match v with
  | None | Some JNull => Some 0
  | Some (JNumber lexeme) =>
      let signed :=
        match lexeme with
        | String "-" ds => option_map Z.opp (digits_value 0 ds)
        | _ => digits_value 0 lexeme
        end in
      match signed with
      | Some z => if (Int64.min_int <=? z) && (z <=? Int64.max_int) then Some z else None
      | None => None
      end
  | Some _ => None
  end.

Fixpoint all_some {A : Type} (l : list (option A)) : option (list A) :=
  match l with
  | nil => Some nil
  | Some a :: r => option_map (cons a) (all_some r)
  | None :: _ => None
  end.

Definition as_slice {A : Type} (elem : value -> option A) (v : option value) : option (list A) :=
  match v with
  | None | Some JNull => Some nil
  | Some (JArray vs) => all_some (List.map elem vs)
  | Some _ => None
  end.

End Json.

(** ** Errors and results

    A Go function returning [(T, error)] returns a [result T]. *)

Inductive error : Type :=
| ErrNoRows                                  (* sql.ErrNoRows *)
| ErrNoPipelineBuild                         (* sdk.ErrNoPipelineBuild *)
| ErrNoBranch                                (* sdk.ErrNoBranch *)
| ErrJSONSyntax                              (* *json.SyntaxError *)
| ErrJSONType                                (* *json.UnmarshalTypeError *)
| ErrExternal (what : string)                (* an error of a collaborator *)
| Wrapped (cause : error) (context : string) (* sdk.WrapError *).

Inductive result (A : Type) : Type :=
| Ok (a : A)
| Err (e : error).
Arguments Ok {A} a.
Arguments Err {A} e.

Definition WrapError {A : Type} (e : error) (context : string) : result A :=
  Err (Wrapped e context).

Definition is_Ok {A : Type} (r : result A) : bool :=
  match r with Ok _ => true | Err _ => false end.

(** ** The data model of package [sdk] *)

Module Sdk.

(** Modelled from the spec: [sdk.Status], a Go string type declared in
    package [sdk] (not under src); the names are those of section 3 of
    the specification, [StatusFromString] sends any other text to
    [StatusUnknown]. *)
Definition Status : Type := string.
Definition StatusWaiting : Status := "Waiting".
Definition StatusBuilding : Status := "Building".
Definition StatusSuccess : Status := "Success".
Definition StatusFail : Status := "Fail".
Definition StatusDisabled : Status := "Disabled".
Definition StatusSkipped : Status := "Skipped".
Definition StatusStopped : Status := "Stopped".
Definition StatusUnknown : Status := "Unknown".

Definition known_statuses : list Status :=
  [StatusWaiting; StatusBuilding; StatusSuccess; StatusFail;
   StatusDisabled; StatusSkipped; StatusStopped].

Definition StatusFromString (s : string) : Status :=
  if existsb (String.eqb s) known_statuses then s else StatusUnknown.

(** Terminal statuses, as the glossary of the specification lists them. *)
Definition terminal (s : Status) : bool :=
  existsb (String.eqb s)
    [StatusSuccess; StatusFail; StatusStopped; StatusSkipped; StatusDisabled].

(** [time.Time]; [zero_time] is [time.Time{}]. *)
Definition Time : Type := Z.
Definition zero_time : Time := 0.

Definition BuildPipeline : string := "build".
Definition StringParameter : string := "string".

(** [sdk.Parameter]. *)
Record Param : Type := {
  Param_Name : string;
  Param_Type : string;
  Param_Value : string }.

(** Modelled from the spec: [sdk.AddParameter] (package [sdk], not
    under src) appends one parameter to the slice it is given. *)
Definition AddParameter (array : list Param) (name type value : string) : list Param :=
  array ++ [{| Param_Name := name; Param_Type := type; Param_Value := value |}].

(** Modelled from the spec: [sdk.ParameterValue] (package [sdk], not
    under src) is the value of the first parameter of that name, the
    empty string when there is none. *)
Fixpoint ParameterValue (params : list Param) (name : string) : string :=
  match params with
  | [] => ""
  | p :: rest =>
      if String.eqb (Param_Name p) name then Param_Value p
      else ParameterValue rest name
  end.

Record PipelineBuildJob : Type := {
  Job_ID : Z;
  Job_Status : string }.

Record Stage : Type := {
  Stage_Name : string;
  Stage_BuildOrder : Z;
  Stage_Enabled : bool;
  Stage_Status : Status;
  Stage_PipelineBuildJobs : list PipelineBuildJob }.

Record VCSCommit : Type := {
  Commit_Hash : string;
  Commit_Author_Name : string;
  Commit_Message : string }.

Record VCSBranch : Type := {
  Branch_DisplayID : string;
  Branch_Default : bool;
  Branch_LatestCommit : string }.

Record VCSRepo : Type := {
  Repo_SSHCloneURL : string;
  Repo_HTTPCloneURL : string }.

Record RepositoriesManager : Type := { RM_Name : string }.

Record User : Type := {
  User_ID : Z;
  User_Username : string;
  User_Fullname : string;
  User_Email : string }.

Record Project : Type := {
  Project_ID : Z;
  Project_Key : string }.

Record Application : Type := {
  App_ID : Z;
  App_Name : string;
  App_ProjectKey : string;
  App_RepositoriesManager : option RepositoriesManager;
  App_RepositoryFullname : string }.

Record Pipeline : Type := {
  Pip_ID : Z;
  Pip_Name : string;
  Pip_Type : string;
  Pip_ProjectKey : string;
  Pip_ProjectID : Z;
  Pip_Parameter : list Param;
  Pip_Stages : list Stage }.

Record Environment : Type := {
  Env_ID : Z;
  Env_Name : string;
  Env_ProjectKey : string;
  Env_ProjectID : Z }.

(** [sdk.PipelineBuild] and its trigger, which points to the parent
    build. *)
Inductive PipelineBuild : Type := Build_PipelineBuild {
  PB_ID : Z;
  PB_Application : Application;
  PB_Pipeline : Pipeline;
  PB_Environment : Environment;
  PB_BuildNumber : Z;
  PB_Version : Z;
  PB_Status : Status;
  PB_Start : Time;
  PB_Done : Time;
  PB_Trigger : PipelineBuildTrigger;
  PB_Parameters : list Param;
  PB_Stages : list Stage;
  PB_Commits : list VCSCommit }
with PipelineBuildTrigger : Type := Build_PipelineBuildTrigger {
  Trigger_ManualTrigger : bool;
  Trigger_ScheduledTrigger : bool;
  Trigger_TriggeredBy : option User;
  Trigger_ParentPipelineBuild : option PipelineBuild;
  Trigger_VCSChangesBranch : string;
  Trigger_VCSChangesHash : string;
  Trigger_VCSChangesAuthor : string }.

(** The interface [sdk.RepositoriesManagerClient], as far as this file
    calls it. *)
Record RepositoriesManagerClient : Type := {
  RepoByFullname : string -> result VCSRepo;
  Branches : string -> result (list VCSBranch);
  Branch : string -> string -> result (option VCSBranch);
  Commit : string -> string -> result VCSCommit;
  Commits : string -> string -> string -> string -> result (list VCSCommit) }.

End Sdk.

(** ** [json.Marshal] and [json.Unmarshal] at the types of the three
    serialized columns *)

Module Codec.
Import Json Sdk.

(** Modelled from the spec: the JSON keys of [sdk.Parameter],
    [sdk.Stage], [sdk.PipelineBuildJob] and [sdk.VCSCommit] are struct
    tags of package [sdk] (not under src); the keys below are the field
    names of section 3 of the specification. *)
Definition encode_Param (p : Param) : value :=
  JObject [("name", JString (Param_Name p));
           ("type", JString (Param_Type p));
           ("value", JString (Param_Value p))].

Definition decode_Param (v : value) : option Param :=
  match v with
  | JObject ms =>
      n ← as_string (field "name" ms);
      t ← as_string (field "type" ms);
      x ← as_string (field "value" ms);
      Some {| Param_Name := n; Param_Type := t; Param_Value := x |}
  | JNull => Some {| Param_Name := ""; Param_Type := ""; Param_Value := "" |}
  | _ => None
  end.

Definition encode_Job (j : PipelineBuildJob) : value :=
  JObject [("id", JNumber (pretty (Job_ID j)));
           ("status", JString (Job_Status j))].

Definition decode_Job (v : value) : option PipelineBuildJob :=
  match v with
  | JObject ms =>
      i ← as_int64 (field "id" ms);
      s ← as_string (field "status" ms);
      Some {| Job_ID := i; Job_Status := s |}
  | JNull => Some {| Job_ID := 0; Job_Status := "" |}
  | _ => None
  end.

Definition encode_Stage (s : Stage) : value :=
  JObject [("name", JString (Stage_Name s));
           ("order", JNumber (pretty (Stage_BuildOrder s)));
           ("enabled", JBool (Stage_Enabled s));
           ("status", JString (Stage_Status s));
           ("jobs", JArray (List.map encode_Job (Stage_PipelineBuildJobs s)))].

Definition decode_Stage (v : value) : option Stage :=
  match v with
  | JObject ms =>
      n ← as_string (field "name" ms);
      o ← as_int64 (field "order" ms);
      e ← as_bool (field "enabled" ms);
      s ← as_string (field "status" ms);
      js ← as_slice decode_Job (field "jobs" ms);
      Some {| Stage_Name := n; Stage_BuildOrder := o; Stage_Enabled := e;
              Stage_Status := s; Stage_PipelineBuildJobs := js |}
  | JNull =>
      Some {| Stage_Name := ""; Stage_BuildOrder := 0; Stage_Enabled := false;
              Stage_Status := ""; Stage_PipelineBuildJobs := [] |}
  | _ => None
  end.

Definition encode_Commit (c : VCSCommit) : value :=
  JObject [("hash", JString (Commit_Hash c));
           ("author", JObject [("name", JString (Commit_Author_Name c))]);
           ("message", JString (Commit_Message c))].

Definition decode_Commit (v : value) : option VCSCommit :=
  match v with
  | JObject ms =>
      h ← as_string (field "hash" ms);
      a ← match field "author" ms with
          | None | Some JNull => Some ""
          | Some (JObject am) => as_string (field "name" am)
          | Some _ => None
          end;
      m ← as_string (field "message" ms);
      Some {| Commit_Hash := h; Commit_Author_Name := a; Commit_Message := m |}
  | JNull => Some {| Commit_Hash := ""; Commit_Author_Name := ""; Commit_Message := "" |}
  | _ => None
  end.

(** [json.Marshal] of a slice.  A Go slice is a list here, so that a
    nil slice is written like an empty one. *)
Definition Marshal {A : Type} (encode : A -> value) (l : list A) : string :=
  print (JArray (List.map encode l)).

(** [json.Unmarshal] into a slice: the syntax check, then the typed
    decoding. *)
Definition Unmarshal {A : Type} (decode : value -> option A) (data : string) : result (list A) :=
  match parse data with
  | None => Err ErrJSONSyntax
  | Some v =>
      match as_slice decode (Some v) with
      | Some l => Ok l
      | None => Err ErrJSONType
      end
  end.

End Codec.

(** ** The relational store and the other things a call acts on *)

Module Store.
Import Sdk.

Record ProjectRow : Type := {
  project_id : Z;
  project_projectkey : string }.

Record ApplicationRow : Type := {
  application_id : Z;
  application_name : string;
  application_project_id : Z }.

Record PipelineRow : Type := {
  pipeline_id : Z;
  pipeline_name : string;
  pipeline_type : string }.

Record EnvironmentRow : Type := {
  environment_id : Z;
  environment_name : string }.

Record UserRow : Type := {
  user_id : Z;
  user_username : string }.

(** Table [pipeline_build], with the columns of the INSERT statement of
    [insertPipelineBuild]. *)
Record PipelineBuildRow : Type := {
  pb_id : Z;
  pb_pipeline_id : Z;
  pb_build_number : Z;
  pb_version : Z;
  pb_status : string;
  pb_args : string;
  pb_start : Time;
  pb_application_id : Z;
  pb_environment_id : Z;
  pb_done : option Time;
  pb_manual_trigger : bool;
  pb_triggered_by : option Z;
  pb_parent_pipeline_build_id : option Z;
  pb_vcs_changes_branch : option string;
  pb_vcs_changes_hash : option string;
  pb_vcs_changes_author : option string;
  pb_scheduled_trigger : bool;
  pb_stages : string;
  pb_commits : string }.

(** Modelled from the spec: tables [build_log], [pipeline_build_job],
    [artifact], [pipeline_test_result] and the stages of a pipeline are
    read and written by functions that are not under src; section 3 of
    the specification has logs referenced by job, and jobs, artifacts
    and test results by build. *)
Record BuildLogRow : Type := {
  log_pipeline_build_job_id : Z;
  log_value : string }.

Record PipelineBuildJobRow : Type := {
  pbj_id : Z;
  pbj_pipeline_build_id : Z;
  pbj_status : string }.

Record ArtifactRow : Type := {
  artifact_id : Z;
  artifact_pipeline_id : Z;
  artifact_application_id : Z;
  artifact_environment_id : Z;
  artifact_build_number : Z }.

Record TestResultRow : Type := {
  test_pipeline_build_id : Z;
  test_value : string }.

Record StageRow : Type := {
  stage_pipeline_id : Z;
  stage_definition : Stage }.

(** What [event.PublishPipelineBuild] hands to the event bus. *)
Record Event : Type := {
  event_build : PipelineBuild;
  event_previous : option PipelineBuild }.

Record State : Type := {
  t_project : list ProjectRow;
  t_application : list ApplicationRow;
  t_pipeline : list PipelineRow;
  t_environment : list EnvironmentRow;
  t_user : list UserRow;
  t_pipeline_build : list PipelineBuildRow;
  seq_pipeline_build : Z;               (* next value of the id sequence *)
  t_build_log : list BuildLogRow;
  t_pipeline_build_job : list PipelineBuildJobRow;
  t_artifact : list ArtifactRow;
  t_pipeline_test_result : list TestResultRow;
  t_pipeline_stage : list StageRow;
  published : list Event;               (* the event bus, oldest first *)
  cache_deleted : list string;          (* keys given to cache.DeleteAll *)
  stats_events : list (string * Z * Z); (* calls of stats.PipelineEvent *)
  ticks : nat                           (* calls of time.Now so far *) }.

Definition with_pipeline_build (f : list PipelineBuildRow -> list PipelineBuildRow) (s : State) : State :=
  {| t_project := t_project s; t_application := t_application s;
     t_pipeline := t_pipeline s; t_environment := t_environment s;
     t_user := t_user s;
     t_pipeline_build := f (t_pipeline_build s);
     seq_pipeline_build := seq_pipeline_build s;
     t_build_log := t_build_log s;
     t_pipeline_build_job := t_pipeline_build_job s;
     t_artifact := t_artifact s;
     t_pipeline_test_result := t_pipeline_test_result s;
     t_pipeline_stage := t_pipeline_stage s;
     published := published s; cache_deleted := cache_deleted s;
     stats_events := stats_events s; ticks := ticks s |}.

Definition with_seq_pipeline_build (n : Z) (s : State) : State :=
  {| t_project := t_project s; t_application := t_application s;
     t_pipeline := t_pipeline s; t_environment := t_environment s;
     t_user := t_user s;
     t_pipeline_build := t_pipeline_build s;
     seq_pipeline_build := n;
     t_build_log := t_build_log s;
     t_pipeline_build_job := t_pipeline_build_job s;
     t_artifact := t_artifact s;
     t_pipeline_test_result := t_pipeline_test_result s;
     t_pipeline_stage := t_pipeline_stage s;
     published := published s; cache_deleted := cache_deleted s;
     stats_events := stats_events s; ticks := ticks s |}.

Definition with_build_log (f : list BuildLogRow -> list BuildLogRow) (s : State) : State :=
  {| t_project := t_project s; t_application := t_application s;
     t_pipeline := t_pipeline s; t_environment := t_environment s;
     t_user := t_user s;
     t_pipeline_build := t_pipeline_build s;
     seq_pipeline_build := seq_pipeline_build s;
     t_build_log := f (t_build_log s);
     t_pipeline_build_job := t_pipeline_build_job s;
     t_artifact := t_artifact s;
     t_pipeline_test_result := t_pipeline_test_result s;
     t_pipeline_stage := t_pipeline_stage s;
     published := published s; cache_deleted := cache_deleted s;
     stats_events := stats_events s; ticks := ticks s |}.

Definition with_pipeline_build_job (f : list PipelineBuildJobRow -> list PipelineBuildJobRow) (s : State) : State :=
  {| t_project := t_project s; t_application := t_application s;
     t_pipeline := t_pipeline s; t_environment := t_environment s;
     t_user := t_user s;
     t_pipeline_build := t_pipeline_build s;
     seq_pipeline_build := seq_pipeline_build s;
     t_build_log := t_build_log s;
     t_pipeline_build_job := f (t_pipeline_build_job s);
     t_artifact := t_artifact s;
     t_pipeline_test_result := t_pipeline_test_result s;
     t_pipeline_stage := t_pipeline_stage s;
     published := published s; cache_deleted := cache_deleted s;
     stats_events := stats_events s; ticks := ticks s |}.

Definition with_artifact (f : list ArtifactRow -> list ArtifactRow) (s : State) : State :=
  {| t_project := t_project s; t_application := t_application s;
     t_pipeline := t_pipeline s; t_environment := t_environment s;
     t_user := t_user s;
     t_pipeline_build := t_pipeline_build s;
     seq_pipeline_build := seq_pipeline_build s;
     t_build_log := t_build_log s;
     t_pipeline_build_job := t_pipeline_build_job s;
     t_artifact := f (t_artifact s);
     t_pipeline_test_result := t_pipeline_test_result s;
     t_pipeline_stage := t_pipeline_stage s;
     published := published s; cache_deleted := cache_deleted s;
     stats_events := stats_events s; ticks := ticks s |}.

Definition with_pipeline_test_result (f : list TestResultRow -> list TestResultRow) (s : State) : State :=
  {| t_project := t_project s; t_application := t_application s;
     t_pipeline := t_pipeline s; t_environment := t_environment s;
     t_user := t_user s;
     t_pipeline_build := t_pipeline_build s;
     seq_pipeline_build := seq_pipeline_build s;
     t_build_log := t_build_log s;
     t_pipeline_build_job := t_pipeline_build_job s;
     t_artifact := t_artifact s;
     t_pipeline_test_result := f (t_pipeline_test_result s);
     t_pipeline_stage := t_pipeline_stage s;
     published := published s; cache_deleted := cache_deleted s;
     stats_events := stats_events s; ticks := ticks s |}.

Definition with_published (f : list Event -> list Event) (s : State) : State :=
  {| t_project := t_project s; t_application := t_application s;
     t_pipeline := t_pipeline s; t_environment := t_environment s;
     t_user := t_user s;
     t_pipeline_build := t_pipeline_build s;
     seq_pipeline_build := seq_pipeline_build s;
     t_build_log := t_build_log s;
     t_pipeline_build_job := t_pipeline_build_job s;
     t_artifact := t_artifact s;
     t_pipeline_test_result := t_pipeline_test_result s;
     t_pipeline_stage := t_pipeline_stage s;
     published := f (published s); cache_deleted := cache_deleted s;
     stats_events := stats_events s; ticks := ticks s |}.

Definition with_cache_deleted (f : list string -> list string) (s : State) : State :=
  {| t_project := t_project s; t_application := t_application s;
     t_pipeline := t_pipeline s; t_environment := t_environment s;
     t_user := t_user s;
     t_pipeline_build := t_pipeline_build s;
     seq_pipeline_build := seq_pipeline_build s;
     t_build_log := t_build_log s;
     t_pipeline_build_job := t_pipeline_build_job s;
     t_artifact := t_artifact s;
     t_pipeline_test_result := t_pipeline_test_result s;
     t_pipeline_stage := t_pipeline_stage s;
     published := published s; cache_deleted := f (cache_deleted s);
     stats_events := stats_events s; ticks := ticks s |}.

Definition with_stats_events (f : list (string * Z * Z) -> list (string * Z * Z)) (s : State) : State :=
  {| t_project := t_project s; t_application := t_application s;
     t_pipeline := t_pipeline s; t_environment := t_environment s;
     t_user := t_user s;
     t_pipeline_build := t_pipeline_build s;
     seq_pipeline_build := seq_pipeline_build s;
     t_build_log := t_build_log s;
     t_pipeline_build_job := t_pipeline_build_job s;
     t_artifact := t_artifact s;
     t_pipeline_test_result := t_pipeline_test_result s;
     t_pipeline_stage := t_pipeline_stage s;
     published := published s; cache_deleted := cache_deleted s;
     stats_events := f (stats_events s); ticks := ticks s |}.

Definition with_ticks (n : nat) (s : State) : State :=
  {| t_project := t_project s; t_application := t_application s;
     t_pipeline := t_pipeline s; t_environment := t_environment s;
     t_user := t_user s;
     t_pipeline_build := t_pipeline_build s;
     seq_pipeline_build := seq_pipeline_build s;
     t_build_log := t_build_log s;
     t_pipeline_build_job := t_pipeline_build_job s;
     t_artifact := t_artifact s;
     t_pipeline_test_result := t_pipeline_test_result s;
     t_pipeline_stage := t_pipeline_stage s;
     published := published s; cache_deleted := cache_deleted s;
     stats_events := stats_events s; ticks := n |}.

(** *** Computations on the store

    A call ends with a value or an error; what it wrote before an error
    stays written (undoing it is the caller's rollback). *)
Definition M (A : Type) : Type := State -> result A * State.

#[export] Instance M_ret : MRet M := fun A a s => (Ok a, s).

#[export] Instance M_bind : MBind M := fun A B k m s =>
  match m s with
  | (Ok a, s') => k a s'
  | (Err e, s') => (Err e, s')
  end.

Definition fail {A : Type} (e : error) : M A := fun s => (Err e, s).
Definition get : M State := fun s => (Ok s, s).
Definition modify (f : State -> State) : M unit := fun s => (Ok tt, f s).
Definition lift {A : Type} (r : result A) : M A := fun s => (r, s).

(** The outcome of a call whose error the caller inspects itself. *)
Definition try {A : Type} (m : M A) : M (result A) := fun s =>
  let '(r, s') := m s in (Ok r, s').

Fixpoint for_each {A : Type} (l : list A) (body : A -> M unit) : M unit :=
  match l with
  | [] => mret tt
  | a :: rest => body a ≫= fun _ => for_each rest body
  end.

(** *** Clauses of SQL *)

Fixpoint insert_sorted {A : Type} (before : A -> A -> bool) (a : A) (l : list A) : list A :=
  match l with
  | [] => [a]
  | b :: rest => if before b a then b :: insert_sorted before a rest
                 else a :: b :: rest
  end.

(** [ORDER BY]: [before b a] holds when [b] ranks strictly before [a];
    rows of equal rank keep the order of the table. *)
Definition order_by {A : Type} (before : A -> A -> bool) (l : list A) : list A :=
  fold_right (insert_sorted before) [] l.

Definition limit {A : Type} (n : Z) (l : list A) : list A :=
  firstn (Z.to_nat n) l.

(** Comparison of a nullable column to a value: unknown, hence not
    selected, when the column is NULL. *)
Definition column_eq (c : option string) (v : string) : bool :=
  match c with
  | Some x => String.eqb x v
  | None => false
  end.

End Store.

(** ** Collaborators outside the file *)

Record Env : Type := {
  (** what the n-th call of [time.Now] returns *)
  env_now : nat -> Sdk.Time;
  (** [repositoriesmanager.AuthorizedClient], by project key and name of
      the repositories manager *)
  env_AuthorizedClient : string -> string -> result Sdk.RepositoriesManagerClient;
  (** [repositoriesmanager.LoadFromApplicationByID]: repository full name
      and repositories manager of an application (its error is only
      logged by its one caller here) *)
  env_LoadFromApplicationByID : Z -> string * option Sdk.RepositoriesManager;
  (** the order in which one [range] statement of the Go runtime visits
      the entries of a map *)
  env_range : gmap string Sdk.Param -> list Sdk.Param }.


(** ** Package [pipeline], file [pipeline_build.go] *)

Module Pipeline.
Import Sdk Store Codec.

(** [PipelineBuildDbResult]: one row of [selectPipelineBuild]. *)
Record PipelineBuildDbResult : Type := {
  Res_ID : Z;
  Res_ApplicationID : Z;
  Res_PipelineID : Z;
  Res_EnvironmentID : Z;
  Res_ProjectID : Z;
  Res_ApplicatioName : string;
  Res_PipelineName : string;
  Res_PipelineType : string;
  Res_EnvironmentName : string;
  Res_ProjectKey : string;
  Res_BuildNumber : Z;
  Res_Version : Z;
  Res_Status : string;
  Res_Args : string;
  Res_Stages : string;
  Res_Commits : string;
  Res_Start : Time;
  Res_Done : option Time;
  Res_ManualTrigger : bool;
  Res_TriggeredBy : option Z;
  Res_VCSChangesBranch : option string;
  Res_VCSChangesHash : option string;
  Res_VCSChangesAuthor : option string;
  Res_ParentPipelineBuildID : option Z;
  Res_Username : option string;
  Res_ScheduledTrigger : bool }.

Definition joined (pb : PipelineBuildRow) (app : ApplicationRow) (pip : PipelineRow)
    (env : EnvironmentRow) (proj : ProjectRow) (username : option string)
    : PipelineBuildDbResult :=
  {| Res_ID := pb_id pb;
     Res_ApplicationID := pb_application_id pb;
     Res_PipelineID := pb_pipeline_id pb;
     Res_EnvironmentID := pb_environment_id pb;
     Res_ProjectID := project_id proj;
     Res_ApplicatioName := application_name app;
     Res_PipelineName := pipeline_name pip;
     Res_PipelineType := pipeline_type pip;
     Res_EnvironmentName := environment_name env;
     Res_ProjectKey := project_projectkey proj;
     Res_BuildNumber := pb_build_number pb;
     Res_Version := pb_version pb;
     Res_Status := pb_status pb;
     Res_Args := pb_args pb;
     Res_Stages := pb_stages pb;
     Res_Commits := pb_commits pb;
     Res_Start := pb_start pb;
     Res_Done := pb_done pb;
     Res_ManualTrigger := pb_manual_trigger pb;
     Res_TriggeredBy := pb_triggered_by pb;
     Res_VCSChangesBranch := pb_vcs_changes_branch pb;
     Res_VCSChangesHash := pb_vcs_changes_hash pb;
     Res_VCSChangesAuthor := pb_vcs_changes_author pb;
     Res_ParentPipelineBuildID := pb_parent_pipeline_build_id pb;
     Res_Username := username;
     Res_ScheduledTrigger := pb_scheduled_trigger pb |}.

(** The query [selectPipelineBuild] followed by a WHERE clause on the
    columns of [pipeline_build]: four inner joins and a left join. *)
Definition selectPipelineBuild (s : State) (where_ : PipelineBuildRow -> bool)
    : list PipelineBuildDbResult :=
  pb ← List.filter where_ (t_pipeline_build s);
  app ← List.filter (fun a => application_id a =? pb_application_id pb) (t_application s);
  pip ← List.filter (fun p => pipeline_id p =? pb_pipeline_id pb) (t_pipeline s);
  env ← List.filter (fun e => environment_id e =? pb_environment_id pb) (t_environment s);
  proj ← List.filter (fun p => project_id p =? application_project_id app) (t_project s);
  match List.filter (fun u => match pb_triggered_by pb with
                              | Some t => user_id u =? t
                              | None => false
                              end) (t_user s) with
  | [] => [joined pb app pip env proj None]
  | us => List.map (fun u => joined pb app pip env proj (Some (user_username u))) us
  end.

Definition null_string (c : option string) : string :=
  match c with Some x => x | None => "" end.

(** [scanPipelineBuild], lines 357-420. *)
Definition scanPipelineBuild (pbResult : PipelineBuildDbResult) : result PipelineBuild :=
  match Unmarshal decode_Param (Res_Args pbResult) with
  | Err err => WrapError err "scanPipelineBuild> Unable to Unmarshal parameter"
  | Ok parameters =>
      match Unmarshal decode_Stage (Res_Stages pbResult) with
      | Err err => WrapError err "scanPipelineBuild> Unable to Unmarshal stages"
      | Ok stages =>
          match (if String.eqb (Res_Commits pbResult) "" then Ok []
                 else Unmarshal decode_Commit (Res_Commits pbResult)) with
          | Err err => WrapError err "scanPipelineBuild> Unable to Unmarshal commits"
          | Ok commits =>
              Ok {| PB_ID := Res_ID pbResult;
                    PB_Application :=
                      {| App_ID := Res_ApplicationID pbResult;
                         App_Name := Res_ApplicatioName pbResult;
                         App_ProjectKey := Res_ProjectKey pbResult;
                         App_RepositoriesManager := None;
                         App_RepositoryFullname := "" |};
                    PB_Pipeline :=
                      {| Pip_ID := Res_PipelineID pbResult;
                         Pip_Name := Res_PipelineName pbResult;
                         Pip_Type := Res_PipelineType pbResult;
                         Pip_ProjectKey := Res_ProjectKey pbResult;
                         Pip_ProjectID := Res_ProjectID pbResult;
                         Pip_Parameter := [];
                         Pip_Stages := [] |};
                    PB_Environment :=
                      {| Env_ID := Res_EnvironmentID pbResult;
                         Env_Name := Res_EnvironmentName pbResult;
                         Env_ProjectKey := Res_ProjectKey pbResult;
                         Env_ProjectID := Res_ProjectID pbResult |};
                    PB_BuildNumber := Res_BuildNumber pbResult;
                    PB_Version := Res_Version pbResult;
                    PB_Status := StatusFromString (Res_Status pbResult);
                    PB_Start := Res_Start pbResult;
                    PB_Done := match Res_Done pbResult with
                               | Some t => t
                               | None => zero_time
                               end;
                    PB_Trigger :=
                      {| Trigger_ManualTrigger := Res_ManualTrigger pbResult;
                         Trigger_ScheduledTrigger := Res_ScheduledTrigger pbResult;
                         Trigger_TriggeredBy :=
                           match Res_TriggeredBy pbResult, Res_Username pbResult with
                           | Some uid, Some name =>
                               Some {| User_ID := uid; User_Username := name;
                                       User_Fullname := ""; User_Email := "" |}
                           | _, _ => None
                           end;
                         Trigger_ParentPipelineBuild := None;
                         Trigger_VCSChangesBranch := null_string (Res_VCSChangesBranch pbResult);
                         Trigger_VCSChangesHash := null_string (Res_VCSChangesHash pbResult);
                         Trigger_VCSChangesAuthor := null_string (Res_VCSChangesAuthor pbResult) |};
                    PB_Parameters := parameters;
                    PB_Stages := stages;
                    PB_Commits := commits |}
          end
      end
  end.

(** The loop over the selected rows shared by every Load function: the
    first row that does not scan ends the call. *)
Fixpoint scan_rows (rows : list PipelineBuildDbResult) : result (list PipelineBuild) :=
  match rows with
  | [] => Ok []
  | r :: rest =>
      match scanPipelineBuild r with
      | Err errScan => Err errScan
      | Ok pb =>
          match scan_rows rest with
          | Err errScan => Err errScan
          | Ok pbs => Ok (pb :: pbs)
          end
      end
  end.

Definition by_id_asc (a b : PipelineBuildDbResult) : bool := Res_ID a <? Res_ID b.

(** [ORDER BY pb.version DESC, pb.id DESC] *)
Definition by_version_desc_id_desc (a b : PipelineBuildDbResult) : bool :=
  (Res_Version b <? Res_Version a)
  || ((Res_Version a =? Res_Version b) && (Res_ID b <? Res_ID a)).

(** [LoadPipelineBuildByApplicationAndBranch], lines 107-129. *)
Definition LoadPipelineBuildByApplicationAndBranch (appID : Z) (branch : string)
    : M (list PipelineBuild) :=
  s ← get;
  let rows :=
    order_by by_id_asc
      (selectPipelineBuild s (fun pb =>
         (pb_application_id pb =? appID) && column_eq (pb_vcs_changes_branch pb) branch)) in
  lift (scan_rows rows).

(** [LoadPipelineBuildsByApplicationAndPipeline], lines 273-310.
    [AttachPipelinesWarnings] fills a field of the builds that nothing
    here reads. *)
Definition LoadPipelineBuildsByApplicationAndPipeline
    (applicationID pipelineID environmentID : Z) (limit_ : Z) (status branchName : string)
    : M (list PipelineBuild) :=
  s ← get;
  let triple (pb : PipelineBuildRow) : bool :=
    (pb_application_id pb =? applicationID) && (pb_pipeline_id pb =? pipelineID)
    && (pb_environment_id pb =? environmentID) in
  let rows :=
    if String.eqb status "" && String.eqb branchName "" then
      limit limit_ (order_by by_version_desc_id_desc (selectPipelineBuild s triple))
    else if negb (String.eqb status "") && String.eqb branchName "" then
      limit limit_ (order_by by_version_desc_id_desc
        (selectPipelineBuild s (fun pb => triple pb && String.eqb (pb_status pb) status)))
    else if String.eqb status "" && negb (String.eqb branchName "") then
      limit limit_ (order_by by_version_desc_id_desc
        (selectPipelineBuild s (fun pb =>
           triple pb && column_eq (pb_vcs_changes_branch pb) branchName)))
    else
      limit limit_ (order_by by_version_desc_id_desc
        (selectPipelineBuild s (fun pb =>
           triple pb && String.eqb (pb_status pb) status
           && column_eq (pb_vcs_changes_branch pb) branchName))) in
  lift (scan_rows rows).

(** Modelled from the spec: [event.PublishPipelineBuild] (package
    [event], not under src) publishes the build together with the
    previous build, when there is one. *)
Definition PublishPipelineBuild (pb : PipelineBuild) (previous : option PipelineBuild) : M unit :=
  modify (with_published (fun evs => evs ++ [{| event_build := pb; event_previous := previous |}])).

(** The value of the first parameter called [.git.branch]
    (lines 436-443 and 837-843). *)
Fixpoint dotted_git_branch (params : list Param) : string :=
  match params with
  | [] => ""
  | param :: rest =>
      if String.eqb (Param_Name param) ".git.branch" then Param_Value param
      else dotted_git_branch rest
  end.

(** "Be sure to get the previous one": among exactly two builds, the one
    with the smaller build number, the first of them when they are
    equal (lines 451-457, 851-857 and 1322-1328). *)
Definition previous_of (history : list PipelineBuild) : option PipelineBuild :=
  if (length history =? 2)%nat then
    fold_left (fun previous h =>
                 match previous with
                 | None => Some h
                 | Some prev =>
                     if PB_BuildNumber h <? PB_BuildNumber prev then Some h else Some prev
                 end) history None
  else None.

Definition set_Application (app : Application) (pb : PipelineBuild) : PipelineBuild :=
  {| PB_ID := PB_ID pb; PB_Application := app; PB_Pipeline := PB_Pipeline pb;
     PB_Environment := PB_Environment pb; PB_BuildNumber := PB_BuildNumber pb;
     PB_Version := PB_Version pb; PB_Status := PB_Status pb; PB_Start := PB_Start pb;
     PB_Done := PB_Done pb; PB_Trigger := PB_Trigger pb;
     PB_Parameters := PB_Parameters pb; PB_Stages := PB_Stages pb;
     PB_Commits := PB_Commits pb |}.

Definition set_Status (status : Status) (pb : PipelineBuild) : PipelineBuild :=
  {| PB_ID := PB_ID pb; PB_Application := PB_Application pb; PB_Pipeline := PB_Pipeline pb;
     PB_Environment := PB_Environment pb; PB_BuildNumber := PB_BuildNumber pb;
     PB_Version := PB_Version pb; PB_Status := status; PB_Start := PB_Start pb;
     PB_Done := PB_Done pb; PB_Trigger := PB_Trigger pb;
     PB_Parameters := PB_Parameters pb; PB_Stages := PB_Stages pb;
     PB_Commits := PB_Commits pb |}.

(** The row after [UPDATE pipeline_build set status = $1, stages = $2,
    done = $4]. *)
Definition row_set_status_stages_done (status stages : string) (done : option Time)
    (r : PipelineBuildRow) : PipelineBuildRow :=
  {| pb_id := pb_id r; pb_pipeline_id := pb_pipeline_id r;
     pb_build_number := pb_build_number r; pb_version := pb_version r;
     pb_status := status; pb_args := pb_args r; pb_start := pb_start r;
     pb_application_id := pb_application_id r;
     pb_environment_id := pb_environment_id r;
     pb_done := done; pb_manual_trigger := pb_manual_trigger r;
     pb_triggered_by := pb_triggered_by r;
     pb_parent_pipeline_build_id := pb_parent_pipeline_build_id r;
     pb_vcs_changes_branch := pb_vcs_changes_branch r;
     pb_vcs_changes_hash := pb_vcs_changes_hash r;
     pb_vcs_changes_author := pb_vcs_changes_author r;
     pb_scheduled_trigger := pb_scheduled_trigger r;
     pb_stages := stages; pb_commits := pb_commits r |}.

Definition row_set_args (args : string) (r : PipelineBuildRow) : PipelineBuildRow :=
  {| pb_id := pb_id r; pb_pipeline_id := pb_pipeline_id r;
     pb_build_number := pb_build_number r; pb_version := pb_version r;
     pb_status := pb_status r; pb_args := args; pb_start := pb_start r;
     pb_application_id := pb_application_id r;
     pb_environment_id := pb_environment_id r;
     pb_done := pb_done r; pb_manual_trigger := pb_manual_trigger r;
     pb_triggered_by := pb_triggered_by r;
     pb_parent_pipeline_build_id := pb_parent_pipeline_build_id r;
     pb_vcs_changes_branch := pb_vcs_changes_branch r;
     pb_vcs_changes_hash := pb_vcs_changes_hash r;
     pb_vcs_changes_author := pb_vcs_changes_author r;
     pb_scheduled_trigger := pb_scheduled_trigger r;
     pb_stages := pb_stages r; pb_commits := pb_commits r |}.

Definition row_set_commits (commits : string) (r : PipelineBuildRow) : PipelineBuildRow :=
  {| pb_id := pb_id r; pb_pipeline_id := pb_pipeline_id r;
     pb_build_number := pb_build_number r; pb_version := pb_version r;
     pb_status := pb_status r; pb_args := pb_args r; pb_start := pb_start r;
     pb_application_id := pb_application_id r;
     pb_environment_id := pb_environment_id r;
     pb_done := pb_done r; pb_manual_trigger := pb_manual_trigger r;
     pb_triggered_by := pb_triggered_by r;
     pb_parent_pipeline_build_id := pb_parent_pipeline_build_id r;
     pb_vcs_changes_branch := pb_vcs_changes_branch r;
     pb_vcs_changes_hash := pb_vcs_changes_hash r;
     pb_vcs_changes_author := pb_vcs_changes_author r;
     pb_scheduled_trigger := pb_scheduled_trigger r;
     pb_stages := pb_stages r; pb_commits := commits |}.

(** [UPDATE pipeline_build SET ... WHERE id = $id] *)
Definition update_where_id (id : Z) (f : PipelineBuildRow -> PipelineBuildRow) : M unit :=
  modify (with_pipeline_build (List.map (fun r => if pb_id r =? id then f r else r))).

Section WithEnv.
Context (env : Env).

(** Lines 462-470: the repository of the application, loaded by
    [repositoriesmanager.LoadFromApplicationByID]. *)
Definition reload_repository (pb : PipelineBuild) : PipelineBuild :=
  let '(rfn, rm) := env_LoadFromApplicationByID env (App_ID (PB_Application pb)) in
  set_Application
    {| App_ID := App_ID (PB_Application pb);
       App_Name := App_Name (PB_Application pb);
       App_ProjectKey := App_ProjectKey (PB_Application pb);
       App_RepositoriesManager := rm;
       App_RepositoryFullname := rfn |} pb.

(** [time.Now] *)
Definition Now : M Time := fun s => (Ok (env_now env (ticks s)), with_ticks (S (ticks s)) s).

(** [UpdatePipelineBuildStatusAndStage], lines 422-479.  The build is
    passed by pointer in Go: the updated build is the value of the
    call. *)
Definition UpdatePipelineBuildStatusAndStage (pb : PipelineBuild) (newStatus : Status)
    : M PipelineBuild :=
  let stagesB := Marshal encode_Stage (PB_Stages pb) in
  _ ← update_where_id (PB_ID pb)
        (row_set_status_stages_done newStatus stagesB (Some (PB_Done pb)));
  let branch := dotted_git_branch (PB_Parameters pb) in
  loaded ← try (LoadPipelineBuildsByApplicationAndPipeline
                  (App_ID (PB_Application pb)) (Pip_ID (PB_Pipeline pb))
                  (Env_ID (PB_Environment pb)) 2 "" branch);
  let history := match loaded with Ok h => h | Err _ => [] end in
  let previous := previous_of history in
  _ ← modify (with_cache_deleted
                (fun ks => ks ++ ["application:" +:+ App_ProjectKey (PB_Application pb) +:+ ":*"]));
  let pb :=
    match App_RepositoriesManager (PB_Application pb) with
    | Some _ =>
        if String.eqb (App_RepositoryFullname (PB_Application pb)) ""
        then reload_repository pb
        else pb
    | None => reload_repository pb
    end in
  (if negb (String.eqb (PB_Status pb) newStatus)
   then PublishPipelineBuild (set_Status newStatus pb) previous
   else mret tt) ≫= fun _ =>
  mret (set_Status newStatus pb).

(** Modelled from the spec: [DeleteBuildLogsByPipelineBuildID],
    [DeletePipelineBuildJob] and [DeleteBuildLogs] are functions of
    package [pipeline] that are not under src; they delete the logs of
    every job of a build, the jobs of a build, and the logs of one
    job. *)
Definition DeleteBuildLogsByPipelineBuildID (pbID : Z) : M unit :=
  s ← get;
  let jobs := List.map pbj_id
                (List.filter (fun j => pbj_pipeline_build_id j =? pbID)
                   (t_pipeline_build_job s)) in
  modify (with_build_log
            (List.filter (fun l =>
               negb (existsb (Z.eqb (log_pipeline_build_job_id l)) jobs)))).

Definition DeletePipelineBuildJob (pbID : Z) : M unit :=
  modify (with_pipeline_build_job
            (List.filter (fun j => negb (pbj_pipeline_build_id j =? pbID)))).

Definition DeleteBuildLogs (pipJobID : Z) : M unit :=
  modify (with_build_log
            (List.filter (fun l => negb (log_pipeline_build_job_id l =? pipJobID)))).

(** [DeletePipelineBuildByID], lines 481-498. *)
Definition DeletePipelineBuildByID (pbID : Z) : M unit :=
  _ ← DeleteBuildLogsByPipelineBuildID pbID;
  _ ← DeletePipelineBuildJob pbID;
  modify (with_pipeline_build (List.filter (fun r => negb (pb_id r =? pbID)))).

Definition triple_is (pipID appID envID : Z) (r : PipelineBuildRow) : bool :=
  (pb_pipeline_id r =? pipID) && (pb_application_id r =? appID)
  && (pb_environment_id r =? envID).

Definition by_build_number_desc (a b : PipelineBuildRow) : bool :=
  pb_build_number b <? pb_build_number a.

(** [GetLastBuildNumber], lines 525-533: the first row of the query,
    and the zero value of the variable when it has no row. *)
Definition GetLastBuildNumber (pipID appID envID : Z) : M Z :=
  s ← get;
  match limit 1 (order_by by_build_number_desc
                   (List.filter (triple_is pipID appID envID) (t_pipeline_build s))) with
  | r :: _ => mret (pb_build_number r)
  | [] => mret 0
  end.

(** [BuildNumberAndHash], lines 1231-1236. *)
Record BuildNumberAndHash : Type := {
  BNH_BuildNumber : Z;
  BNH_Hash : string;
  BNH_Branch : string }.

Definition sql_eq (a b : option string) : bool :=
  match a, b with
  | Some x, Some y => String.eqb x y
  | _, _ => false
  end.

(** [ORDER BY previous_pipeline.build_number DESC]: a NULL ranks
    first in descending order. *)
Definition by_previous_build_number_desc
    (a b : PipelineBuildRow * option PipelineBuildRow) : bool :=
  match snd a, snd b with
  | None, Some _ => true
  | Some pa, Some pb => pb_build_number pb <? pb_build_number pa
  | _, _ => false
  end.

(** The query of [CurrentAndPreviousPipelineBuildNumberAndHash],
    lines 1242-1271. *)
Definition current_and_previous_rows (s : State)
    (buildNumber pipelineID applicationID environmentID : Z)
    : list (PipelineBuildRow * option PipelineBuildRow) :=
  let current_pipeline :=
    List.filter (fun r => (pb_build_number r =? buildNumber)
                          && triple_is pipelineID applicationID environmentID r)
      (t_pipeline_build s) in
  let previous_pipeline :=
    order_by by_build_number_desc
      (List.filter (fun r => (pb_build_number r <? buildNumber)
                             && triple_is pipelineID applicationID environmentID r)
         (t_pipeline_build s)) in
  let left_outer_join :=
    c ← current_pipeline;
    match List.filter (fun p => (pb_pipeline_id p =? pb_pipeline_id c)
                                && sql_eq (pb_vcs_changes_branch p) (pb_vcs_changes_branch c))
            previous_pipeline with
    | [] => [(c, None)]
    | ps => List.map (fun p => (c, Some p)) ps
    end in
  limit 1 (order_by by_previous_build_number_desc
             (List.filter (fun cp => pb_build_number (fst cp) =? buildNumber)
                left_outer_join)).

(** [CurrentAndPreviousPipelineBuildNumberAndHash], lines 1238-1307. *)
Definition CurrentAndPreviousPipelineBuildNumberAndHash
    (buildNumber pipelineID applicationID environmentID : Z)
    : M (BuildNumberAndHash * option BuildNumberAndHash) :=
  s ← get;
  match current_and_previous_rows s buildNumber pipelineID applicationID environmentID with
  | [] => fail ErrNoPipelineBuild
  | (c, previous) :: _ =>
      let cur := {| BNH_BuildNumber := pb_build_number c;
                    BNH_Hash := null_string (pb_vcs_changes_hash c);
                    BNH_Branch := null_string (pb_vcs_changes_branch c) |} in
      match previous with
      | None => mret (cur, None)
      | Some p =>
          mret (cur, Some {| BNH_BuildNumber := pb_build_number p;
                             BNH_Hash := null_string (pb_vcs_changes_hash p);
                             BNH_Branch := null_string (pb_vcs_changes_branch p) |})
      end
  end.

(** [updatePipelineBuildCommits], lines 909-920. *)
Definition updatePipelineBuildCommits (id : Z) (commits : list VCSCommit) : M unit :=
  update_where_id id (row_set_commits (Marshal encode_Commit commits)).

Definition wrap {A : Type} (context : string) (r : result A) : M A :=
  match r with
  | Ok a => mret a
  | Err e => fail (Wrapped e context)
  end.

(** [sdk.WrapError] around the error of a call. *)
Definition wrapping {A : Type} (context : string) (m : M A) : M A := fun s =>
  match m s with
  | (Err e, s') => (Err (Wrapped e context), s')
  | ok => ok
  end.

(** The case analysis of [UpdatePipelineBuildCommits], lines 616-652. *)
Definition commits_between (client : RepositoriesManagerClient) (app : Application)
    (cur : BuildNumberAndHash) (prev : option BuildNumberAndHash)
    : result (list VCSCommit) :=
  let same_hash :=
    match prev with
    | Some pr => String.eqb (BNH_Hash cur) (BNH_Hash pr)
    | None => false
    end in
  let both_known :=
    match prev with
    | Some pr => negb (String.eqb (BNH_Hash cur) "") && negb (String.eqb (BNH_Hash pr) "")
    | None => false
    end in
  if same_hash then Ok []
  else if both_known then
    match Commits client (App_RepositoryFullname app) (BNH_Branch cur)
            (match prev with Some pr => BNH_Hash pr | None => "" end) (BNH_Hash cur) with
    | Err err => WrapError err "UpdatePipelineBuildCommits> Cannot get commits"
    | Ok commits => Ok commits
    end
  else if negb (String.eqb (BNH_Hash cur) "") then
    match Commits client (App_RepositoryFullname app) (BNH_Branch cur) "" (BNH_Hash cur) with
    | Err err => WrapError err "UpdatePipelineBuildCommits> Cannot get commits"
    | Ok c => Ok c
    end
  else
    match Branch client (App_RepositoryFullname app) (BNH_Branch cur) with
    | Err err => WrapError err "UpdatePipelineBuildCommits> Cannot get branch"
    | Ok None => Ok []
    | Ok (Some br) =>
        if String.eqb (Branch_LatestCommit br) "" then
          WrapError ErrNoBranch "UpdatePipelineBuildCommits> Branch or lastest commit not found"
        else
          match Commit client (App_RepositoryFullname app) (Branch_LatestCommit br) with
          | Err errcm => WrapError errcm "UpdatePipelineBuildCommits> Cannot get commits"
          | Ok cm => Ok [cm]
          end
    end.

(** [UpdatePipelineBuildCommits], lines 590-659. *)
Definition UpdatePipelineBuildCommits (p : Project) (pip : Pipeline) (app : Application)
    (e : Environment) (pb : PipelineBuild) : M (list VCSCommit) :=
  match App_RepositoriesManager app with
  | None => mret []
  | Some rm =>
      client ← wrap "UpdatePipelineBuildCommits> Cannot get client"
                 (env_AuthorizedClient env (Project_Key p) (RM_Name rm));
      cp ← wrapping "UpdatePipelineBuildCommits> Cannot get build number and hashes"
             (CurrentAndPreviousPipelineBuildNumberAndHash
                (PB_BuildNumber pb) (Pip_ID pip) (App_ID app) (Env_ID e));
      res ← lift (commits_between client app (fst cp) (snd cp));
      _ ← wrapping "UpdatePipelineBuildCommits> Unable to update pipeline build commit"
            (updatePipelineBuildCommits (PB_ID pb) res);
      mret res
  end.

(** Modelled from the spec: [ProcessPipelineBuildVariables] (package
    [pipeline], not under src).  Section 4.B of the specification:
    the defaults of the pipeline, then the values of the application,
    then the parameters of the build, a later parameter replacing an
    earlier one of the same name.  Its result is the Go map over
    which [InsertPipelineBuild] ranges. *)
Definition ProcessPipelineBuildVariables
    (pipelineParameters applicationPipelineArgs buildArgs : list Param)
    : result (gmap string Param) :=
  Ok (fold_left (fun (m : gmap string Param) p => <[Param_Name p := p]> m)
        (pipelineParameters ++ applicationPipelineArgs ++ buildArgs) ∅).

Definition set_Stage_Status (status : Status) (st : Stage) : Stage :=
  {| Stage_Name := Stage_Name st; Stage_BuildOrder := Stage_BuildOrder st;
     Stage_Enabled := Stage_Enabled st; Stage_Status := status;
     Stage_PipelineBuildJobs := Stage_PipelineBuildJobs st |}.

Definition set_Stage_Jobs (jobs : list PipelineBuildJob) (st : Stage) : Stage :=
  {| Stage_Name := Stage_Name st; Stage_BuildOrder := Stage_BuildOrder st;
     Stage_Enabled := Stage_Enabled st; Stage_Status := Stage_Status st;
     Stage_PipelineBuildJobs := jobs |}.

Definition set_Pip_Stages (stages : list Stage) (p : Pipeline) : Pipeline :=
  {| Pip_ID := Pip_ID p; Pip_Name := Pip_Name p; Pip_Type := Pip_Type p;
     Pip_ProjectKey := Pip_ProjectKey p; Pip_ProjectID := Pip_ProjectID p;
     Pip_Parameter := Pip_Parameter p; Pip_Stages := stages |}.

(** Modelled from the spec: [LoadPipelineStage] (package [pipeline],
    not under src) loads the stages of the pipeline, in their order,
    into the pipeline. *)
Definition LoadPipelineStage (p : Pipeline) : M Pipeline :=
  s ← get;
  mret (set_Pip_Stages
          (order_by (fun a b => Stage_BuildOrder a <? Stage_BuildOrder b)
             (List.map stage_definition
                (List.filter (fun r => stage_pipeline_id r =? Pip_ID p)
                   (t_pipeline_stage s)))) p).

(** Modelled from the spec: [stats.PipelineEvent] (package [stats],
    not under src) counts one more build of that type. *)
Definition PipelineEvent (type : string) (projectID appID : Z) : M unit :=
  modify (with_stats_events (fun l => l ++ [(type, projectID, appID)])).

Definition set_Trigger_VCS (branch hash author : string) (t : PipelineBuildTrigger)
    : PipelineBuildTrigger :=
  {| Trigger_ManualTrigger := Trigger_ManualTrigger t;
     Trigger_ScheduledTrigger := Trigger_ScheduledTrigger t;
     Trigger_TriggeredBy := Trigger_TriggeredBy t;
     Trigger_ParentPipelineBuild := Trigger_ParentPipelineBuild t;
     Trigger_VCSChangesBranch := branch;
     Trigger_VCSChangesHash := hash;
     Trigger_VCSChangesAuthor := author |}.

(** [insertPipelineBuild], lines 878-907: the new row, numbered by the
    sequence of the table; [start] and [done] are two readings of the
    clock. *)
Definition insertPipelineBuild (args : string) (applicationID pipelineID : Z)
    (buildNumber version : Z) (trigger : PipelineBuildTrigger) (envID : Z)
    (stages : string) (commits : list VCSCommit) : M Z :=
  let triggeredBy :=
    match Trigger_TriggeredBy trigger with
    | Some u => User_ID u
    | None => 0
    end in
  let parentPipelineID :=
    match Trigger_ParentPipelineBuild trigger with
    | Some parent => PB_ID parent
    | None => 0
    end in
  let commitsBtes := Marshal encode_Commit commits in
  start ← Now;
  done ← Now;
  s ← get;
  let id := seq_pipeline_build s in
  _ ← modify (with_seq_pipeline_build (id + 1));
  _ ← modify (with_pipeline_build (fun rows => rows ++ [
         {| pb_id := id;
            pb_pipeline_id := pipelineID;
            pb_build_number := buildNumber;
            pb_version := version;
            pb_status := StatusBuilding;
            pb_args := args;
            pb_start := start;
            pb_application_id := applicationID;
            pb_environment_id := envID;
            pb_done := Some done;
            pb_manual_trigger := Trigger_ManualTrigger trigger;
            pb_triggered_by := if triggeredBy =? 0 then None else Some triggeredBy;
            pb_parent_pipeline_build_id :=
              if parentPipelineID =? 0 then None else Some parentPipelineID;
            pb_vcs_changes_branch := Some (Trigger_VCSChangesBranch trigger);
            pb_vcs_changes_hash := Some (Trigger_VCSChangesHash trigger);
            pb_vcs_changes_author := Some (Trigger_VCSChangesAuthor trigger);
            pb_scheduled_trigger := Trigger_ScheduledTrigger trigger;
            pb_stages := stages;
            pb_commits := commitsBtes |}]));
  mret id.

(** Lines 682-692: the version of the new build. *)
Definition resolve_version (version buildNumber : Z) (trigger : PipelineBuildTrigger)
    (app : Application) (p : Pipeline) : Z :=
  if (version <=? 0)
     || match Trigger_ParentPipelineBuild trigger with
        | None => true
        | Some parent =>
            negb (App_ID app =? App_ID (PB_Application parent))
            && String.eqb (Pip_Type p) BuildPipeline
        end
  then buildNumber
  else version.

(** Lines 693-698. *)
Definition canonical_parameters (params : list Param) (p : Pipeline) (app : Application)
    (e : Environment) (buildNumber version : Z) : list Param :=
  let params := AddParameter params "cds.pipeline" StringParameter (Pip_Name p) in
  let params := AddParameter params "cds.project" StringParameter (Pip_ProjectKey p) in
  let params := AddParameter params "cds.application" StringParameter (App_Name app) in
  let params := AddParameter params "cds.environment" StringParameter (Env_Name e) in
  let params := AddParameter params "cds.buildNumber" StringParameter (pretty buildNumber) in
  AddParameter params "cds.version" StringParameter (pretty version).

(** Lines 710-715. *)
Definition triggered_by_parameters (params : list Param) (trigger : PipelineBuildTrigger)
    : list Param :=
  match Trigger_TriggeredBy trigger with
  | Some u =>
      let params := AddParameter params "cds.triggered_by.username" StringParameter (User_Username u) in
      let params := AddParameter params "cds.triggered_by.fullname" StringParameter (User_Fullname u) in
      AddParameter params "cds.triggered_by.email" StringParameter (User_Email u)
  | None => params
  end.

(** Lines 723-735: the default branch and the latest commit of every
    branch, as the repositories manager gives them. *)
Definition default_branch_and_hashes (client : option RepositoriesManagerClient)
    (app : Application) : string * gmap string string :=
  let branches :=
    match client with
    | Some c =>
        match Branches c (App_RepositoryFullname app) with
        | Ok bs => bs
        | Err _ => []
        end
    | None => []
    end in
  fold_left (fun (acc : string * gmap string string) b =>
               ((if Branch_Default b then Branch_DisplayID b else fst acc),
                <[Branch_DisplayID b := Branch_LatestCommit b]> (snd acc)))
    branches ("master", ∅).

Definition hash_of (lastGitHash : gmap string string) (branch : string) : string :=
  default "" (lastGitHash !! branch).

(** Lines 740-751: [found], [hashFound] and the branch and hash of
    the trigger after the loop over the parameters. *)
Definition scan_git_parameters (params : list Param) (branch hash : string)
    : bool * bool * string * string :=
  fold_left (fun (acc : bool * bool * string * string) p =>
               let '(found, hashFound, br, h) := acc in
               let '(found, br) :=
                 if String.eqb (Param_Name p) "git.branch" && negb (String.eqb (Param_Value p) "")
                 then (true, Param_Value p) else (found, br) in
               let '(hashFound, h) :=
                 if String.eqb (Param_Name p) "git.hash" && negb (String.eqb (Param_Value p) "")
                 then (true, Param_Value p) else (hashFound, h) in
               (found, hashFound, br, h))
    params (false, false, branch, hash).

(** Lines 717-771: [git.branch] and [git.hash]. *)
Definition git_parameters (client : option RepositoriesManagerClient) (app : Application)
    (params : list Param) (trigger : PipelineBuildTrigger)
    : list Param * PipelineBuildTrigger :=
  if negb (String.eqb (Trigger_VCSChangesBranch trigger) "") then
    let params := AddParameter params "git.branch" StringParameter (Trigger_VCSChangesBranch trigger) in
    (AddParameter params "git.hash" StringParameter (Trigger_VCSChangesHash trigger), trigger)
  else
    let '(defautlBranch, lastGitHash) := default_branch_and_hashes client app in
    let '(found, hashFound, branch, hash) :=
      scan_git_parameters params (Trigger_VCSChangesBranch trigger)
        (Trigger_VCSChangesHash trigger) in
    if negb found then
      let params := AddParameter params "git.branch" StringParameter defautlBranch in
      if negb (String.eqb (hash_of lastGitHash defautlBranch) "") then
        (AddParameter params "git.hash" StringParameter (hash_of lastGitHash defautlBranch),
         set_Trigger_VCS defautlBranch (hash_of lastGitHash defautlBranch)
           (Trigger_VCSChangesAuthor trigger) trigger)
      else
        (params, set_Trigger_VCS defautlBranch hash (Trigger_VCSChangesAuthor trigger) trigger)
    else
      if negb hashFound && negb (String.eqb (hash_of lastGitHash branch) "") then
        (AddParameter params "git.hash" StringParameter (hash_of lastGitHash branch),
         set_Trigger_VCS branch (hash_of lastGitHash branch)
           (Trigger_VCSChangesAuthor trigger) trigger)
      else
        (params, set_Trigger_VCS branch hash (Trigger_VCSChangesAuthor trigger) trigger).

(** Lines 773-783: author and message of the commit. *)
Definition commit_parameters (client : option RepositoriesManagerClient) (app : Application)
    (params : list Param) (trigger : PipelineBuildTrigger)
    : list Param * PipelineBuildTrigger :=
  match client with
  | Some c =>
      if negb (String.eqb (Trigger_VCSChangesHash trigger) "") then
        match Commit c (App_RepositoryFullname app) (Trigger_VCSChangesHash trigger) with
        | Err _ => (params, trigger)
        | Ok commit =>
            let params := AddParameter params "git.author" StringParameter (Commit_Author_Name commit) in
            (AddParameter params "git.message" StringParameter (Commit_Message commit),
             set_Trigger_VCS (Trigger_VCSChangesBranch trigger) (Trigger_VCSChangesHash trigger)
               (Commit_Author_Name commit) trigger)
        end
      else (params, trigger)
  | None => (params, trigger)
  end.

(** Lines 807-813: the first stage waits. *)
Definition first_stage_waiting (stages : list Stage) : list Stage :=
  match stages with
  | [] => []
  | stage :: rest => set_Stage_Status StatusWaiting stage :: rest
  end.

(** Lines 667-670: the client of the repositories manager, nil when
    the application has none or when it cannot be had. *)
Definition repository_client (project : Project) (app : Application)
    : option RepositoriesManagerClient :=
  match App_RepositoriesManager app with
  | Some rm =>
      if negb (String.eqb (App_RepositoryFullname app) "") then
        match env_AuthorizedClient env (Project_Key project) (RM_Name rm) with
        | Ok c => Some c
        | Err _ => None
        end
      else None
  | None => None
  end.

(** Lines 700-708. *)
Definition repository_parameters (client : option RepositoriesManagerClient)
    (app : Application) (params : list Param) : result (list Param) :=
  match client with
  | Some c =>
      match RepoByFullname c (App_RepositoryFullname app) with
      | Err err => Err err
      | Ok repo =>
          let params := AddParameter params "git.url" StringParameter (Repo_SSHCloneURL repo) in
          Ok (AddParameter params "git.http_url" StringParameter (Repo_HTTPCloneURL repo))
      end
  | None => Ok params
  end.

(** Lines 693-783: the parameters of the build and its trigger, once
    the canonical parameters, those of the repository, of the user,
    of the branch and of the commit are in. *)
Definition build_parameters (client : option RepositoriesManagerClient) (p : Pipeline)
    (app : Application) (e : Environment) (buildNumber version : Z)
    (params : list Param) (trigger : PipelineBuildTrigger)
    : result (list Param * PipelineBuildTrigger) :=
  let params := canonical_parameters params p app e buildNumber version in
  match repository_parameters client app params with
  | Err err => Err err
  | Ok params =>
      let params := triggered_by_parameters params trigger in
      let '(params, trigger) := git_parameters client app params trigger in
      Ok (commit_parameters client app params trigger)
  end.

(** Lines 792-796: the values of the map, in the order in which
    [range] visits them. *)
Definition final_arguments (mapVar : gmap string Param) : list Param :=
  env_range env mapVar.

(** [InsertPipelineBuild], lines 661-876. *)
Definition InsertPipelineBuild (project : Project) (p : Pipeline) (app : Application)
    (applicationPipelineArgs params : list Param) (e : Environment) (version : Z)
    (trigger : PipelineBuildTrigger) : M PipelineBuild :=
  let client := repository_client project app in
  buildNumber ← GetLastBuildNumber (Pip_ID p) (App_ID app) (Env_ID e);
  let pbBuildNumber := Int64.add buildNumber 1 in
  let pbVersion := resolve_version version pbBuildNumber trigger app p in
  built ← lift (build_parameters client p app e pbBuildNumber pbVersion params trigger);
  let params := fst built in
  let trigger := snd built in
  mapVar ← lift (ProcessPipelineBuildVariables (Pip_Parameter p) applicationPipelineArgs params);
  let argsFinal := final_arguments mapVar in
  let argsJSON := Marshal encode_Param argsFinal in
  p ← wrapping "InsertPipelineBuild> Unable to load pipeline stages" (LoadPipelineStage p);
  let p := set_Pip_Stages (first_stage_waiting (Pip_Stages p)) p in
  let stages := Marshal encode_Stage (Pip_Stages p) in
  id ← wrapping "InsertPipelineBuild> Cannot insert pipeline build"
         (insertPipelineBuild argsJSON (App_ID app) (Pip_ID p) pbBuildNumber pbVersion
            trigger (Env_ID e) stages []);
  let pb :=
    {| PB_ID := id; PB_Application := app; PB_Pipeline := p; PB_Environment := e;
       PB_BuildNumber := pbBuildNumber; PB_Version := pbVersion;
       PB_Status := StatusBuilding; PB_Start := zero_time; PB_Done := zero_time;
       PB_Trigger := trigger; PB_Parameters := params; PB_Stages := [];
       PB_Commits := [] |} in
  _ ← PipelineEvent (Pip_Type p) (Project_ID project) (App_ID app);
  let branch := dotted_git_branch (PB_Parameters pb) in
  loaded ← try (LoadPipelineBuildsByApplicationAndPipeline
                  (App_ID (PB_Application pb)) (Pip_ID (PB_Pipeline pb))
                  (Env_ID (PB_Environment pb)) 2 "" branch);
  let history := match loaded with Ok h => h | Err _ => [] end in
  let previous := previous_of history in
  _ ← match previous with
      | Some prev =>
          let previousHash := ParameterValue (PB_Parameters prev) "git.hash" in
          if negb (String.eqb previousHash "") then
            wrapping "InsertPipelineBuild> Cannot update build parameters"
              (update_where_id (PB_ID pb)
                 (row_set_args
                    (Marshal encode_Param
                       (AddParameter argsFinal "git.previousHash" StringParameter previousHash))))
          else mret tt
      | None => mret tt
      end;
  _ ← PublishPipelineBuild pb previous;
  mret pb.

(** Modelled from the spec: [StopBuildingPipelineBuildJob] (package
    [pipeline], not under src) marks every job of the build that has
    not reached a terminal status as stopped. *)
Definition StopBuildingPipelineBuildJob (pb : PipelineBuild) : M unit :=
  modify (with_pipeline_build_job
            (List.map (fun j =>
               if (pbj_pipeline_build_id j =? PB_ID pb) && negb (terminal (pbj_status j))
               then {| pbj_id := pbj_id j;
                       pbj_pipeline_build_id := pbj_pipeline_build_id j;
                       pbj_status := StatusStopped |}
               else j))).

(** [StopPipelineBuild], lines 1309-1333. *)
Definition StopPipelineBuild (pb : PipelineBuild) : M unit :=
  _ ← StopBuildingPipelineBuildJob pb;
  loaded ← try (LoadPipelineBuildsByApplicationAndPipeline
                  (App_ID (PB_Application pb)) (Pip_ID (PB_Pipeline pb))
                  (Env_ID (PB_Environment pb)) 2 ""
                  (Trigger_VCSChangesBranch (PB_Trigger pb)));
  let history := match loaded with Ok h => h | Err _ => [] end in
  let previous := previous_of history in
  PublishPipelineBuild pb previous.

(** Modelled from the spec: [artifact.LoadArtifactsByBuildNumber],
    [artifact.DeleteArtifact] (package [artifact]) and
    [DeletePipelineTestResults] (package [pipeline]) are not under
    src; they select the artifacts of a build, delete one artifact,
    and delete the test results of a build. *)
Definition LoadArtifactsByBuildNumber (pipelineID applicationID buildNumber envID : Z)
    : M (list ArtifactRow) :=
  s ← get;
  mret (List.filter (fun a =>
          (artifact_pipeline_id a =? pipelineID)
          && (artifact_application_id a =? applicationID)
          && (artifact_build_number a =? buildNumber)
          && (artifact_environment_id a =? envID)) (t_artifact s)).

Definition DeleteArtifact (id : Z) : M unit :=
  modify (with_artifact (List.filter (fun a => negb (artifact_id a =? id)))).

Definition DeletePipelineTestResults (pbID : Z) : M unit :=
  modify (with_pipeline_test_result
            (List.filter (fun t => negb (test_pipeline_build_id t =? pbID)))).

Definition set_Stages_Start_Done (stages : list Stage) (start done : Time)
    (pb : PipelineBuild) : PipelineBuild :=
  {| PB_ID := PB_ID pb; PB_Application := PB_Application pb; PB_Pipeline := PB_Pipeline pb;
     PB_Environment := PB_Environment pb; PB_BuildNumber := PB_BuildNumber pb;
     PB_Version := PB_Version pb; PB_Status := PB_Status pb; PB_Start := start;
     PB_Done := done; PB_Trigger := PB_Trigger pb;
     PB_Parameters := PB_Parameters pb; PB_Stages := stages;
     PB_Commits := PB_Commits pb |}.

(** Lines 1338-1350: the loop over the stages of a successful build;
    [i] is the index of the first stage of [stages]. *)
Fixpoint restart_all_stages (i : nat) (stages : list Stage) : M (list Stage) :=
  match stages with
  | [] => mret []
  | stage :: rest =>
      let stage := if (i =? 0)%nat then set_Stage_Status StatusWaiting stage else stage in
      _ ← for_each (Stage_PipelineBuildJobs stage)
            (fun pbJob => DeleteBuildLogs (Job_ID pbJob));
      rest' ← restart_all_stages (S i) rest;
      mret (set_Stage_Jobs [] stage :: rest')
  end.

(** Lines 1371-1386: the loop over the stages of any other build. *)
Fixpoint restart_failed_stages (stages : list Stage) : M (list Stage) :=
  match stages with
  | [] => mret []
  | stage :: rest =>
      if negb (String.eqb (Stage_Status stage) StatusFail) then
        rest' ← restart_failed_stages rest;
        mret (stage :: rest')
      else
        let stage := set_Stage_Status StatusWaiting stage in
        _ ← for_each (Stage_PipelineBuildJobs stage)
              (fun pbJob =>
                 if String.eqb (Job_Status pbJob) StatusFail
                 then DeleteBuildLogs (Job_ID pbJob)
                 else mret tt);
        rest' ← restart_failed_stages rest;
        mret (set_Stage_Jobs [] stage :: rest')
  end.

(** [RestartPipelineBuild], lines 1335-1395. *)
Definition RestartPipelineBuild (pb : PipelineBuild) : M PipelineBuild :=
  pb ← (if String.eqb (PB_Status pb) StatusSuccess then
          stages ← restart_all_stages 0 (PB_Stages pb);
          start ← Now;
          let pb := set_Stages_Start_Done stages start zero_time pb in
          arts ← LoadArtifactsByBuildNumber (Pip_ID (PB_Pipeline pb))
                   (App_ID (PB_Application pb)) (PB_BuildNumber pb)
                   (Env_ID (PB_Environment pb));
          _ ← for_each arts (fun a => DeleteArtifact (artifact_id a));
          _ ← DeletePipelineTestResults (PB_ID pb);
          mret pb
        else
          stages ← restart_failed_stages (PB_Stages pb);
          mret (set_Stages_Start_Done stages (PB_Start pb) zero_time pb));
  UpdatePipelineBuildStatusAndStage pb StatusBuilding.

(** [DeleteBranchBuilds], lines 1397-1426. *)
Definition DeleteBranchBuilds (appID : Z) (branch : string) : M unit :=
  pbs ← LoadPipelineBuildByApplicationAndBranch appID branch;
  for_each pbs (fun pb =>
    if negb (String.eqb (PB_Status pb) StatusBuilding) then mret tt
    else
      stopped ← try (StopPipelineBuild pb);
      match stopped with
      | Err _ => mret tt
      | Ok _ =>
          deleted ← try (DeletePipelineBuildByID (PB_ID pb));
          mret tt
      end).

End WithEnv.

(** *** The other queries of the file *)

(** How a call that may index out of range ends: it returns, or the Go
    runtime panics. *)
Inductive outcome (A : Type) : Type :=
| Returns (a : A)
| Panics (what : string).
Arguments Returns {A} a.
Arguments Panics {A} what.

(** [gorp.SelectOne] (library go-gorp): the selected row when there is
    exactly one, [sql.ErrNoRows] when there is none, an error of its own
    when there are several. *)
Definition SelectOne {A : Type} (rows : list A) : result A :=
  match rows with
  | [] => Err ErrNoRows
  | [row] => Ok row
  | _ :: _ :: _ => Err (ErrExternal "gorp: multiple rows returned")
  end.

(** [QueryRow(...).Scan]: the first row of the query, [sql.ErrNoRows]
    when it has none. *)
Definition QueryRow {A : Type} (rows : list A) : result A :=
  match rows with
  | [] => Err ErrNoRows
  | row :: _ => Ok row
  end.


(** [LoadPipelineBuildID], lines 85-95. *)
Definition LoadPipelineBuildID (applicationID pipelineID environmentID buildNumber : Z) : M Z :=
  s ← get;
  lift (QueryRow
          (List.map pb_id
             (List.filter (fun r => (pb_application_id r =? applicationID)
                                    && (pb_pipeline_id r =? pipelineID)
                                    && (pb_environment_id r =? environmentID)
                                    && (pb_build_number r =? buildNumber))
                (t_pipeline_build s)))).

(** [CountBuildingPipelineByApplication], lines 97-105. *)
Definition CountBuildingPipelineByApplication (appID : Z) : M Z :=
  s ← get;
  mret (Z.of_nat (length
          (List.filter (fun r => (pb_application_id r =? appID)
                                 && String.eqb (pb_status r) StatusBuilding)
             (t_pipeline_build s)))).


Definition by_id_desc (a b : PipelineBuildDbResult) : bool := Res_ID b <? Res_ID a.

(** [LoadPipelineBuildByApplicationPipelineEnvVersion], lines 203-228:
    every selected row is scanned, then the slice is cut to [limit]. *)
Definition LoadPipelineBuildByApplicationPipelineEnvVersion
    (applicationID pipelineID environmentID version : Z) (limit_ : Z)
    : M (outcome (list PipelineBuild)) :=
  s ← get;
  let rows :=
    order_by by_id_desc
      (selectPipelineBuild s (fun pb =>
         (pb_application_id pb =? applicationID) && (pb_pipeline_id pb =? pipelineID)
         && (pb_environment_id pb =? environmentID) && (pb_version pb =? version))) in
  pbs ← lift (scan_rows rows);
  if limit_ <? Z.of_nat (length pbs) then
    if limit_ <? 0 then mret (Panics "slice bounds out of range")
    else mret (Returns (firstn (Z.to_nat limit_) pbs))
  else mret (Returns pbs).


(** [LoadPipelineBuildByHash], lines 251-271.  The query has no ORDER
    BY: the rows come in the order of the store. *)
Definition LoadPipelineBuildByHash (hash : string) : M (list PipelineBuild) :=
  s ← get;
  lift (scan_rows (selectPipelineBuild s (fun pb => column_eq (pb_vcs_changes_hash pb) hash))).

(** [LoadPipelineBuildByID], lines 312-323. *)
Definition LoadPipelineBuildByID (id : Z) : M PipelineBuild :=
  s ← get;
  row ← lift (SelectOne (selectPipelineBuild s (fun pb => pb_id pb =? id)));
  lift (scanPipelineBuild row).

Definition parent_is (pbID : Z) (pb : PipelineBuildRow) : bool :=
  match pb_parent_pipeline_build_id pb with
  | Some parent => parent =? pbID
  | None => false
  end.

(** [LoadPipelineBuildChildren], lines 325-355. *)
Definition LoadPipelineBuildChildren (pipelineID applicationID buildNumber environmentID : Z)
    : M (list PipelineBuild) :=
  loaded ← try (LoadPipelineBuildID applicationID pipelineID environmentID buildNumber);
  match loaded with
  | Err ErrNoRows => mret []
  | Err errLoad => fail errLoad
  | Ok pbID =>
      s ← get;
      lift (scan_rows (selectPipelineBuild s (parent_is pbID)))
  end.

(** [BuildExists], lines 922-937. *)
Definition BuildExists (appID pipID envID : Z) (trigger : PipelineBuildTrigger) : M bool :=
  s ← get;
  let count :=
    Z.of_nat (length
      (List.filter (fun r => (pb_application_id r =? appID) && (pb_pipeline_id r =? pipID)
                             && (pb_environment_id r =? envID)
                             && column_eq (pb_vcs_changes_hash r) (Trigger_VCSChangesHash trigger)
                             && column_eq (pb_vcs_changes_branch r)
                                  (Trigger_VCSChangesBranch trigger))
         (t_pipeline_build s))) in
  mret (0 <? count).


(** The condition that [GetAllLastBuildByApplication] adds to its
    subquery, lines 1173-1185. *)
Definition last_build_filter (branchName : string) (version : Z) (r : PipelineBuildRow) : bool :=
  if String.eqb branchName "" && (version =? 0) then true
  else if negb (String.eqb branchName "") && (version =? 0) then
    column_eq (pb_vcs_changes_branch r) branchName
  else if String.eqb branchName "" && negb (version =? 0) then pb_version r =? version
  else column_eq (pb_vcs_changes_branch r) branchName && (pb_version r =? version).

(** [select max(id) ... GROUP BY pipeline_id, environment_id]: the ids
    that are the highest of their group. *)
Definition max_id_by_pipeline_and_environment (rows : list PipelineBuildRow) : list Z :=
  List.map pb_id
    (List.filter (fun r =>
       forallb (fun r' =>
                  implb ((pb_pipeline_id r' =? pb_pipeline_id r)
                         && (pb_environment_id r' =? pb_environment_id r))
                    (pb_id r' <=? pb_id r)) rows) rows).

(** [GetAllLastBuildByApplication], lines 1162-1200. *)
Definition GetAllLastBuildByApplication (applicationID : Z) (branchName : string) (version : Z)
    : M (list PipelineBuild) :=
  s ← get;
  let subquery :=
    max_id_by_pipeline_and_environment
      (List.filter (fun r => (pb_application_id r =? applicationID)
                             && last_build_filter branchName version r)
         (t_pipeline_build s)) in
  lift (scan_rows
          (selectPipelineBuild s (fun pb =>
             existsb (Z.eqb (pb_id pb)) subquery && (pb_application_id pb =? applicationID)))).

Section Collation.
(** The collation of the database: [text_before a b] when text [a]
    sorts strictly before text [b]. *)
Context (text_before : string -> string -> bool).



End Collation.

(** [sdk.Variable], of which [InsertBuildVariable] reads the name and
    the value ([Variable] is a keyword here). *)
Record Variable_ : Type := {
  Var_Name : string;
  Var_Value : string }.

(** The parameter that carries a variable of the build. *)
Definition build_variable (v : Variable_) : Param :=
  {| Param_Name := "cds.build." +:+ Var_Name v;
     Param_Type := StringParameter;
     Param_Value := Var_Value v |}.

Section BuildVariable.
(** [GetPipelineBuildJobByPipelineBuildID] and [UpdatePipelineBuildJob]
    belong to another file of the package, which is not under src, and
    so does the type of the jobs they load and store; of a job
    [InsertBuildVariable] only extends the parameters. *)
Context {Job : Type}
        (append_parameter : Job -> Param -> Job)
        (GetPipelineBuildJobByPipelineBuildID : Z -> M (list Job))
        (UpdatePipelineBuildJob : Job -> M unit).

(** [InsertBuildVariable], lines 535-588. *)
Definition InsertBuildVariable (pbID : Z) (v : Variable_) : M unit :=
  s ← get;
  argsJSON ← lift (QueryRow (List.map pb_args
                               (List.filter (fun r => pb_id r =? pbID) (t_pipeline_build s))));
  params ← lift (Unmarshal decode_Param argsJSON);
  let params := params ++ [build_variable v] in
  let data := Marshal encode_Param params in
  _ ← update_where_id pbID (row_set_args data);
  pbJobs ← GetPipelineBuildJobByPipelineBuildID pbID;
  for_each pbJobs (fun j => UpdatePipelineBuildJob (append_parameter j (build_variable v))).

End BuildVariable.

End Pipeline.

(** ** Package [main], file [router.go]

    What a request does to the [http.ResponseWriter] and to the caches is
    a list of events, in the order in which they happen; a function of
    the file either runs to its end, or returns early, or panics. *)

Module Router.

(** The errors of package [sdk] that the router answers with, the errors
    of the collaborators, and [sdk.WrapError]. *)
Inductive Error : Type :=
| ErrServiceUnavailable
| ErrUnauthorized
| ErrForbidden
| ErrNotFound
| ErrUnknownError
| ErrOther (what : string)
| ErrWrapped (cause : Error) (context : string).

Inductive errorable (A : Type) : Type :=
| Success (a : A)
| Failure (err : Error).
Arguments Success {A} a.
Arguments Failure {A} err.

(** The value of a panic, by the cases of the type switch of
    [recoverWrap]. *)
Inductive PanicValue : Type :=
| PanicString (t : string)
| PanicError (err : Error)
| PanicOther.

(** A nil pointer dereference is a run-time error, which is an [error]. *)
Definition nil_dereference : PanicValue :=
  PanicError (ErrOther "runtime error: invalid memory address or nil pointer dereference").

(** [sdk.Group], [sdk.User], [sdk.Hatchery], [sdk.Worker], [sdk.Model]
    and [businesscontext.Ctx], as far as the file reads and writes
    them. *)
Record Group : Type := { Group_ID : Z }.

Record User : Type := {
  User_ID : Z;
  User_Username : string;
  User_Admin : bool;
  User_Groups : list Group }.

Record Hatchery : Type := { Hatchery_GroupID : Z }.

Record Worker : Type := {
  Worker_ID : string;
  Worker_GroupID : Z;
  Worker_Model : Z }.

Record Model : Type := { Model_GroupID : Z }.

Record Ctx : Type := {
  Ctx_Agent : string;
  Ctx_User : option User;
  Ctx_Hatchery : option Hatchery;
  Ctx_Worker : option Worker }.

(** [&businesscontext.Ctx{}] *)
Definition empty_Ctx : Ctx :=
  {| Ctx_Agent := ""; Ctx_User := None; Ctx_Hatchery := None; Ctx_Worker := None |}.

Definition set_Agent (agent : string) (c : Ctx) : Ctx :=
  {| Ctx_Agent := agent; Ctx_User := Ctx_User c; Ctx_Hatchery := Ctx_Hatchery c;
     Ctx_Worker := Ctx_Worker c |}.

Definition set_User (u : User) (c : Ctx) : Ctx :=
  {| Ctx_Agent := Ctx_Agent c; Ctx_User := Some u; Ctx_Hatchery := Ctx_Hatchery c;
     Ctx_Worker := Ctx_Worker c |}.

(** [u.Groups = append(u.Groups, g)] *)
Definition append_group (g : Group) (u : User) : User :=
  {| User_ID := User_ID u; User_Username := User_Username u; User_Admin := User_Admin u;
     User_Groups := User_Groups u ++ [g] |}.

(** [*http.Request]: its method, the path of its URL, [Header.Get] and
    [mux.Vars], a missing key reading as the empty string. *)
Record Request : Type := {
  Method : string;
  URL_Path : string;
  Header_Get : string -> string;
  Vars : string -> string }.

Inductive Event : Type :=
| AddHeader (name value : string)        (* w.Header().Add(name, value) *)
| WriteHeader (code : Z)                 (* w.WriteHeader(code) *)
| WriteError (err : Error)               (* WriteError(w, req, err) *)
| DeleteUserPermissionCache (c : Ctx)    (* deleteUserPermissionCache(c) *).

Inductive flow (A : Type) : Type :=
| Continue (a : A)
| Return_
| Panic (v : PanicValue).
Arguments Continue {A} a.
Arguments Return_ {A}.
Arguments Panic {A} v.

(** A piece of the body of a Go function: it adds to the events that
    have happened, and goes on with a value, returns from the function,
    or panics. *)
Definition R (A : Type) : Type := list Event -> list Event * flow A.

#[export] Instance R_ret : MRet R := fun A a events => (events, Continue a).

#[export] Instance R_bind : MBind R := fun A B k m events =>
  match m events with
  | (events', Continue a) => k a events'
  | (events', Return_) => (events', Return_)
  | (events', Panic v) => (events', Panic v)
  end.

Definition emit (e : Event) : R unit := fun events => (events ++ [e], Continue tt).
Definition return_ {A : Type} : R A := fun events => (events, Return_).
Definition panic {A : Type} (v : PanicValue) : R A := fun events => (events, Panic v).

(** [*p] *)
Definition deref {A : Type} (p : option A) : R A :=
  match p with
  | Some a => mret a
  | None => panic nil_dereference
  end.

(** [defer d] followed by [body]: [d] runs when [body] has run to its
    end, has returned or has panicked. *)
Definition defer_ {A : Type} (d : R unit) (body : R A) : R A := fun events =>
  let '(events', how) := body events in
  (fst (d events'), how).

(** [Handler], lines 35-36: the events of a handler, and the error that
    it returns or the value with which it panics. *)
Definition Handler (DbMap : Type) : Type :=
  Request -> option DbMap -> Ctx -> list Event * (option Error + PanicValue).

(** [routerConfig], lines 41-56. *)
Record routerConfig (DbMap : Type) : Type := {
  get : option (Handler DbMap);
  getDeprecated : bool;
  post : option (Handler DbMap);
  postDeprecated : bool;
  put : option (Handler DbMap);
  putDeprecated : bool;
  deleteHandler : option (Handler DbMap);
  deleteDeprecated : bool;
  auth : bool;
  isExecution : bool;
  needAdmin : bool;
  needUsernameOrAdmin : bool;
  needHatchery : bool;
  needWorker : bool }.
Arguments get {DbMap} _.
Arguments getDeprecated {DbMap} _.
Arguments post {DbMap} _.
Arguments postDeprecated {DbMap} _.
Arguments put {DbMap} _.
Arguments putDeprecated {DbMap} _.
Arguments deleteHandler {DbMap} _.
Arguments deleteDeprecated {DbMap} _.
Arguments auth {DbMap} _.
Arguments isExecution {DbMap} _.
Arguments needAdmin {DbMap} _.
Arguments needUsernameOrAdmin {DbMap} _.
Arguments needHatchery {DbMap} _.
Arguments needWorker {DbMap} _.

(** [RouterConfigParam], lines 38-39: the functions that the file makes
    of that type, lines 331-444. *)
#[local] Unset Elimination Schemes.
Inductive RouterConfigParam (DbMap : Type) : Type :=
| DEPRECATED
| GET (h : Handler DbMap) (cfg : list (RouterConfigParam DbMap))
| POST (h : Handler DbMap) (cfg : list (RouterConfigParam DbMap))
| POSTEXECUTE (h : Handler DbMap) (cfg : list (RouterConfigParam DbMap))
| PUT (h : Handler DbMap) (cfg : list (RouterConfigParam DbMap))
| DELETE (h : Handler DbMap) (cfg : list (RouterConfigParam DbMap))
| NeedAdmin (admin : bool)
| NeedUsernameOrAdmin (need : bool)
| NeedHatchery
| NeedWorker
| Auth (v : bool).
#[local] Set Elimination Schemes.
Arguments DEPRECATED {DbMap}.
Arguments GET {DbMap} h cfg.
Arguments POST {DbMap} h cfg.
Arguments POSTEXECUTE {DbMap} h cfg.
Arguments PUT {DbMap} h cfg.
Arguments DELETE {DbMap} h cfg.
Arguments NeedAdmin {DbMap} admin.
Arguments NeedUsernameOrAdmin {DbMap} need.
Arguments NeedHatchery {DbMap}.
Arguments NeedWorker {DbMap}.
Arguments Auth {DbMap} v.

Section Configuration.
Context {DbMap : Type}.

(** [reflect.ValueOf(c).Pointer() == reflect.ValueOf(DEPRECATED).Pointer()] *)
Definition is_DEPRECATED (c : RouterConfigParam DbMap) : bool :=
  match c with
  | DEPRECATED => true
  | _ => false
  end.

(** The loop over [cfg] of [GET], [POST], [POSTEXECUTE], [PUT] and
    [DELETE]: the flag of the verb after it. *)
Definition deprecated_by (cfg : list (RouterConfigParam DbMap)) (flag : bool) : bool :=
  fold_left (fun flag c => if is_DEPRECATED c then true else flag) cfg flag.

(** What a [RouterConfigParam] does to the configuration that it is
    given. *)
Definition configure (h : RouterConfigParam DbMap) (rc : routerConfig DbMap)
    : routerConfig DbMap :=
  match h with
  | DEPRECATED => rc
  | GET h cfg =>
      {| get := Some h; getDeprecated := deprecated_by cfg (getDeprecated rc);
         post := post rc; postDeprecated := postDeprecated rc;
         put := put rc; putDeprecated := putDeprecated rc;
         deleteHandler := deleteHandler rc; deleteDeprecated := deleteDeprecated rc;
         auth := auth rc; isExecution := isExecution rc; needAdmin := needAdmin rc;
         needUsernameOrAdmin := needUsernameOrAdmin rc; needHatchery := needHatchery rc;
         needWorker := needWorker rc |}
  | POST h cfg =>
      {| get := get rc; getDeprecated := getDeprecated rc;
         post := Some h; postDeprecated := deprecated_by cfg (postDeprecated rc);
         put := put rc; putDeprecated := putDeprecated rc;
         deleteHandler := deleteHandler rc; deleteDeprecated := deleteDeprecated rc;
         auth := auth rc; isExecution := isExecution rc; needAdmin := needAdmin rc;
         needUsernameOrAdmin := needUsernameOrAdmin rc; needHatchery := needHatchery rc;
         needWorker := needWorker rc |}
  | POSTEXECUTE h cfg =>
      {| get := get rc; getDeprecated := getDeprecated rc;
         post := Some h; postDeprecated := deprecated_by cfg (postDeprecated rc);
         put := put rc; putDeprecated := putDeprecated rc;
         deleteHandler := deleteHandler rc; deleteDeprecated := deleteDeprecated rc;
         auth := auth rc; isExecution := true; needAdmin := needAdmin rc;
         needUsernameOrAdmin := needUsernameOrAdmin rc; needHatchery := needHatchery rc;
         needWorker := needWorker rc |}
  | PUT h cfg =>
      {| get := get rc; getDeprecated := getDeprecated rc;
         post := post rc; postDeprecated := postDeprecated rc;
         put := Some h; putDeprecated := deprecated_by cfg (putDeprecated rc);
         deleteHandler := deleteHandler rc; deleteDeprecated := deleteDeprecated rc;
         auth := auth rc; isExecution := isExecution rc; needAdmin := needAdmin rc;
         needUsernameOrAdmin := needUsernameOrAdmin rc; needHatchery := needHatchery rc;
         needWorker := needWorker rc |}
  | DELETE h cfg =>
      {| get := get rc; getDeprecated := getDeprecated rc;
         post := post rc; postDeprecated := postDeprecated rc;
         put := put rc; putDeprecated := putDeprecated rc;
         deleteHandler := Some h; deleteDeprecated := deprecated_by cfg (deleteDeprecated rc);
         auth := auth rc; isExecution := isExecution rc; needAdmin := needAdmin rc;
         needUsernameOrAdmin := needUsernameOrAdmin rc; needHatchery := needHatchery rc;
         needWorker := needWorker rc |}
  | NeedAdmin admin =>
      {| get := get rc; getDeprecated := getDeprecated rc;
         post := post rc; postDeprecated := postDeprecated rc;
         put := put rc; putDeprecated := putDeprecated rc;
         deleteHandler := deleteHandler rc; deleteDeprecated := deleteDeprecated rc;
         auth := auth rc; isExecution := isExecution rc; needAdmin := admin;
         needUsernameOrAdmin := needUsernameOrAdmin rc; needHatchery := needHatchery rc;
         needWorker := needWorker rc |}
  | NeedUsernameOrAdmin need =>
      {| get := get rc; getDeprecated := getDeprecated rc;
         post := post rc; postDeprecated := postDeprecated rc;
         put := put rc; putDeprecated := putDeprecated rc;
         deleteHandler := deleteHandler rc; deleteDeprecated := deleteDeprecated rc;
         auth := auth rc; isExecution := isExecution rc; needAdmin := needAdmin rc;
         needUsernameOrAdmin := need; needHatchery := needHatchery rc;
         needWorker := needWorker rc |}
  | NeedHatchery =>
      {| get := get rc; getDeprecated := getDeprecated rc;
         post := post rc; postDeprecated := postDeprecated rc;
         put := put rc; putDeprecated := putDeprecated rc;
         deleteHandler := deleteHandler rc; deleteDeprecated := deleteDeprecated rc;
         auth := auth rc; isExecution := isExecution rc; needAdmin := needAdmin rc;
         needUsernameOrAdmin := needUsernameOrAdmin rc; needHatchery := true;
         needWorker := needWorker rc |}
  | NeedWorker =>
      {| get := get rc; getDeprecated := getDeprecated rc;
         post := post rc; postDeprecated := postDeprecated rc;
         put := put rc; putDeprecated := putDeprecated rc;
         deleteHandler := deleteHandler rc; deleteDeprecated := deleteDeprecated rc;
         auth := auth rc; isExecution := isExecution rc; needAdmin := needAdmin rc;
         needUsernameOrAdmin := needUsernameOrAdmin rc; needHatchery := needHatchery rc;
         needWorker := true |}
  | Auth v =>
      {| get := get rc; getDeprecated := getDeprecated rc;
         post := post rc; postDeprecated := postDeprecated rc;
         put := put rc; putDeprecated := putDeprecated rc;
         deleteHandler := deleteHandler rc; deleteDeprecated := deleteDeprecated rc;
         auth := v; isExecution := isExecution rc; needAdmin := needAdmin rc;
         needUsernameOrAdmin := needUsernameOrAdmin rc; needHatchery := needHatchery rc;
         needWorker := needWorker rc |}
  end.

(** Lines 151-156 of [Handle]: the configuration of a route. *)
Definition route_config (handlers : list (RouterConfigParam DbMap)) : routerConfig DbMap :=
  fold_left (fun rc h => configure h rc) handlers
    {| get := None; getDeprecated := false; post := None; postDeprecated := false;
       put := None; putDeprecated := false; deleteHandler := None; deleteDeprecated := false;
       auth := true; isExecution := false; needAdmin := false; needUsernameOrAdmin := false;
       needHatchery := false; needWorker := false |}.

End Configuration.

(** *** Serving a request *)

Section Serving.
Context {DbMap : Type}.

(** What lives outside the file. *)
Context
  (** [sdk.HatcheryAgent] and [sdk.WorkerAgent] *)
  (HatcheryAgent WorkerAgent : string)
  (** [auth.CheckHatcheryAuth], [auth.CheckWorkerAuth] and the
      [CheckAuthHeader] of the driver: the context that they fill *)
  (CheckHatcheryAuth CheckWorkerAuth CheckAuthHeader
     : option DbMap -> (string -> string) -> Ctx -> errorable Ctx)
  (** [loadUserPermissions]: the user with its permissions *)
  (loadUserPermissions : option DbMap -> User -> errorable User)
  (loadGroupPermissions : option DbMap -> Z -> errorable Group)
  (** [worker.RefreshWorker] and [worker.LoadWorkerModelByID] *)
  (RefreshWorker : option DbMap -> string -> option Error)
  (LoadWorkerModelByID : option DbMap -> Z -> errorable Model)
  (** [group.SharedInfraGroup] *)
  (SharedInfraGroup : Group)
  (checkWorkerPermission
     : option DbMap -> routerConfig DbMap -> (string -> string) -> Ctx -> bool)
  (checkPermission : (string -> string) -> Ctx -> Z -> bool)
  (getPermissionByMethod : string -> bool -> Z)
  (** the two headers that are made of [time.Now()] *)
  (X_Api_Time ETag : string).

(** [checkAuthentication], lines 446-457. *)
Definition checkAuthentication (db : option DbMap) (headers : string -> string) (c : Ctx)
    : errorable Ctx :=
  let c := set_Agent (headers "User-Agent") c in
  if String.eqb (headers "User-Agent") HatcheryAgent then CheckHatcheryAuth db headers c
  else if String.eqb (headers "User-Agent") WorkerAgent then CheckWorkerAuth db headers c
  else CheckAuthHeader db headers c.

(** Lines 162-167. *)
Definition response_headers : list Event :=
  [AddHeader "Access-Control-Allow-Origin" "*";
   AddHeader "Access-Control-Allow-Methods" "GET,OPTIONS,PUT,POST,DELETE";
   AddHeader "Access-Control-Allow-Headers"
     "Accept, Origin, Referer, User-Agent, Content-Type, Authorization, Session-Token, Last-Event-Id, If-Modified-Since, Content-Disposition";
   AddHeader "Access-Control-Expose-Headers"
     "Accept, Origin, Referer, User-Agent, Content-Type, Authorization, Session-Token, Last-Event-Id, ETag, Content-Disposition";
   AddHeader "X-Api-Time" X_Api_Time;
   AddHeader "ETag" ETag].

(** [WriteError(w, req, err); return] *)
Definition answer {A : Type} (err : Error) : R A :=
  _ ← emit (WriteError err); return_.

(** Lines 186-191. *)
Definition authenticate (rc : routerConfig DbMap) (req : Request) (db : option DbMap)
    (c : Ctx) : R Ctx :=
  if auth rc then
    match checkAuthentication db (Header_Get req) c with
    | Failure err => answer (ErrWrapped ErrUnauthorized "Router> Authorization denied")
    | Success c => mret c
    end
  else mret c.

(** Lines 193-198. *)
Definition load_user (db : option DbMap) (c : Ctx) : R Ctx :=
  match Ctx_User c with
  | Some user =>
      match loadUserPermissions db user with
      | Failure err => answer (ErrWrapped ErrUnauthorized "Router> Unable to load user permission")
      | Success user => mret (set_User user c)
      end
  | None => mret c
  end.

(** [c.User.Groups = append(c.User.Groups, g)] *)
Definition add_group (g : Group) (c : Ctx) : R Ctx :=
  user ← deref (Ctx_User c);
  mret (set_User (append_group g user) c).

(** Lines 200-207. *)
Definition load_hatchery (db : option DbMap) (c : Ctx) : R Ctx :=
  match Ctx_Hatchery c with
  | Some hatchery =>
      match loadGroupPermissions db (Hatchery_GroupID hatchery) with
      | Failure err =>
          answer (ErrWrapped ErrUnauthorized "Router> cannot load group permissions for GroupID")
      | Success g => add_group g c
      end
  | None => mret c
  end.

(** Lines 209-244. *)
Definition load_worker (db : option DbMap) (c : Ctx) : R Ctx :=
  match Ctx_Worker c with
  | Some w =>
      match RefreshWorker db (Worker_ID w) with
      | Some err => answer (ErrWrapped err "Router> Unable to refresh worker")
      | None =>
          match loadGroupPermissions db (Worker_GroupID w) with
          | Failure err =>
              answer (ErrWrapped ErrUnauthorized "Router> cannot load group permissions")
          | Success g =>
              c ← add_group g c;
              if negb (Worker_Model w =? 0) then
                match LoadWorkerModelByID db (Worker_Model w) with
                | Failure err => answer (ErrWrapped ErrUnauthorized "Router> cannot load worker")
                | Success m =>
                    if Model_GroupID m =? Group_ID SharedInfraGroup then
                      add_group SharedInfraGroup c
                    else
                      match loadGroupPermissions db (Model_GroupID m) with
                      | Failure errLoad2 =>
                          answer (ErrWrapped ErrUnauthorized "Router> Cannot load group")
                      | Success modelGroup => add_group modelGroup c
                      end
                end
              else mret c
          end
      end
  | None => mret c
  end.

(** Lines 246-274: [permissionOk]. *)
Definition permission (rc : routerConfig DbMap) (req : Request) (db : option DbMap)
    (c : Ctx) : R bool :=
  if negb (auth rc) then mret true
  else
    let permissionOk := false in
    let permissionOk :=
      if needHatchery rc && (match Ctx_Hatchery c with Some _ => true | None => false end)
      then true else permissionOk in
    let permissionOk :=
      if needWorker rc then checkWorkerPermission db rc (Vars req) c else permissionOk in
    permissionOk ←
      (if needUsernameOrAdmin rc then
         user ← deref (Ctx_User c);
         mret (if User_Admin user || String.eqb (User_Username user) (Vars req "username")
               then true else permissionOk)
       else mret permissionOk);
    permissionOk ←
      (if needAdmin rc then
         user ← deref (Ctx_User c);
         mret (if User_Admin user then true else permissionOk)
       else mret permissionOk);
    permissionOk ←
      (if negb (needAdmin rc) then
         user ← deref (Ctx_User c);
         mret (if negb (User_Admin user)
               then checkPermission (Vars req) c
                      (getPermissionByMethod (Method req) (isExecution rc))
               else permissionOk)
       else mret permissionOk);
    mret (if negb (needAdmin rc) && negb (needHatchery rc) && negb (needWorker rc)
             && negb (needUsernameOrAdmin rc)
          then true else permissionOk).

(** Lines 282-294: the deferred function. *)
Definition log_route (rc : routerConfig DbMap) (req : Request) : R unit :=
  if String.eqb (Method req) "GET" && getDeprecated rc
     || String.eqb (Method req) "POST" && postDeprecated rc
     || String.eqb (Method req) "PUT" && putDeprecated rc
     || String.eqb (Method req) "DELETE" && deleteDeprecated rc
  then emit (AddHeader "X-CDS-WARNING" "deprecated route")
  else mret tt.

(** The call of a handler, with the [WriteError] of the error that it
    returns. *)
Definition call (h : Handler DbMap) (req : Request) (db : option DbMap) (c : Ctx) : R unit :=
  fun events =>
    match h req db c with
    | (written, inl None) => (events ++ written, Continue tt)
    | (written, inl (Some err)) => (events ++ written ++ [WriteError err], Continue tt)
    | (written, inr v) => (events ++ written, Panic v)
    end.

(** Lines 296-326. *)
Definition dispatch (rc : routerConfig DbMap) (req : Request) (db : option DbMap) (c : Ctx)
    : R unit :=
  match (if String.eqb (Method req) "GET" then get rc else None) with
  | Some h => _ ← call h req db c; return_
  | None =>
      match (if String.eqb (Method req) "POST" then post rc else None) with
      | Some h =>
          _ ← call h req db c; _ ← emit (DeleteUserPermissionCache c); return_
      | None =>
          match (if String.eqb (Method req) "PUT" then put rc else None) with
          | Some h =>
              _ ← call h req db c; _ ← emit (DeleteUserPermissionCache c); return_
          | None =>
              match (if String.eqb (Method req) "DELETE" then deleteHandler rc else None) with
              | Some h =>
                  _ ← call h req db c; _ ← emit (DeleteUserPermissionCache c); return_
              | None => emit (WriteError ErrNotFound)
              end
          end
      end
  end.

(** The function [f] that [Handle] registers, lines 158-327. *)
Definition serve (rc : routerConfig DbMap) (req : Request) (db : option DbMap) : R unit :=
  _ ← (fun events => (events ++ response_headers, Continue tt));
  let c := empty_Ctx in
  _ ← (if String.eqb (Method req) "OPTIONS"
       then _ ← emit (WriteHeader 200); return_
       else mret tt);
  _ ← match db with
      | None =>
          if negb (String.eqb (URL_Path req) "/hook")
          then answer ErrServiceUnavailable
          else mret tt
      | Some _ => mret tt
      end;
  c ← authenticate rc req db c;
  c ← load_user db c;
  c ← load_hatchery db c;
  c ← load_worker db c;
  permissionOk ← permission rc req db c;
  _ ← (if negb permissionOk then answer ErrForbidden else mret tt);
  defer_ (log_route rc req) (dispatch rc req db c).

(** *** Recovery from a panic *)

(** The variables [panicked], [nbPanic] and [lastPanic], lines 26-31. *)
Record Panics : Type := {
  panicked : bool;
  nbPanic : Z;
  lastPanic : option Z   (* the time of the last panic, in nanoseconds *) }.

(** [nbPanicsBeforeFail], line 33. *)
Definition nbPanicsBeforeFail : Z := 50.

(** Two minutes, in nanoseconds: [dur.Minutes() > float64(2)]. *)
Definition two_minutes : Z := 120000000000.

(** The type switch of lines 77-86. *)
Definition recovered (re : PanicValue) : Error :=
  match re with
  | PanicString t => ErrOther t
  | PanicError err => err
  | PanicOther => ErrUnknownError
  end.

(** Lines 106-125: [since] and [now] are the times that [time.Since]
    and [time.Now] read. *)
Definition count_panic (since now : Z) (p : Panics) : Panics :=
  let nbPanic :=
    match lastPanic p with
    | None => 0
    | Some last => if two_minutes <? since - last then 0 else nbPanic p
    end in
  let nbPanic := Int64.add nbPanic 1 in
  {| panicked := if nbPanicsBeforeFail <? nbPanic then true else panicked p;
     nbPanic := nbPanic;
     lastPanic := Some now |}.

(** [recoverWrap], lines 72-132, around a function that has written
    [events] and ended as [how]. *)
Definition recoverWrap {A : Type} (h : list Event * flow A) (since now : Z) (p : Panics)
    : list Event * Panics :=
  match h with
  | (events, Panic re) => (events ++ [WriteError (recovered re)], count_panic since now p)
  | (events, _) => (events, p)
  end.

End Serving.

End Router.

Import Sdk Store Codec Pipeline.

(** ** The vocabulary of the claims *)

(** The builds already stored for a pipeline, an application and an
    environment. *)
Definition prior_builds (s : State) (pipID appID envID : Z) : list PipelineBuildRow :=
  List.filter (triple_is pipID appID envID) (t_pipeline_build s).

(** The highest build number among rows, zero when there is no row. *)
Inductive last_build_number (rows : list PipelineBuildRow) : Z -> Prop :=
| last_none : rows = [] -> last_build_number rows 0
| last_highest r :
    In r rows ->
    (forall x, In x rows -> pb_build_number x <= pb_build_number r) ->
    last_build_number rows (pb_build_number r).

(** The columns of a row that no UPDATE of [InsertPipelineBuild] touches. *)
Definition row_columns (r : PipelineBuildRow) : Z * Z * Z * Z * Z * Z * string * option Time :=
  (pb_id r, pb_pipeline_id r, pb_application_id r, pb_environment_id r,
   pb_build_number r, pb_version r, pb_status r, pb_done r).

Definition stored_version (s : State) (id : Z) (version : Z) : Prop :=
  In (id, version) (List.map (fun r => (pb_id r, pb_version r)) (t_pipeline_build s)).

(** When a build keeps the version it is given, in the words of
    invariant 6 of the specification. *)
Definition inherits_as_claimed (trigger : PipelineBuildTrigger) (app : Application)
    (p : Pipeline) : bool :=
  match Trigger_ParentPipelineBuild trigger with
  | Some parent =>
      (App_ID app =? App_ID (PB_Application parent))
      && negb (String.eqb (Pip_Type p) BuildPipeline)
  | None => false
  end.

Definition version_as_claimed (version : Z) (trigger : PipelineBuildTrigger)
    (app : Application) (p : Pipeline) (pb : PipelineBuild) : Prop :=
  PB_Version pb = if inherits_as_claimed trigger app p then version else PB_BuildNumber pb.

(** When a build keeps the version it is given, as lines 682-692 have it. *)
Definition keeps_supplied_version (trigger : PipelineBuildTrigger) (app : Application)
    (p : Pipeline) : bool :=
  match Trigger_ParentPipelineBuild trigger with
  | Some parent =>
      (App_ID app =? App_ID (PB_Application parent))
      || negb (String.eqb (Pip_Type p) BuildPipeline)
  | None => false
  end.

(** A [done] column that [scanPipelineBuild] reads back as the zero time:
    NULL, or the zero time itself. *)
Definition done_is_null (done : option Time) : bool :=
  match done with
  | None => true
  | Some t => t =? zero_time
  end.

(** Invariant 2 of the specification, on a row. *)
Definition done_iff_terminal (r : PipelineBuildRow) : Prop :=
  done_is_null (pb_done r) = false <-> terminal (pb_status r) = true.

(** The stages of a successful build after its restart. *)
Definition all_jobs_cleared_first_waiting (stages : list Stage) : list Stage :=
  match stages with
  | [] => []
  | first :: others =>
      set_Stage_Jobs [] (set_Stage_Status StatusWaiting first)
        :: List.map (set_Stage_Jobs []) others
  end.

(** The stages of a failed build after its restart. *)
Definition failed_stages_reset (stages : list Stage) : list Stage :=
  List.map (fun stage =>
              if String.eqb (Stage_Status stage) StatusFail
              then set_Stage_Jobs [] (set_Stage_Status StatusWaiting stage)
              else stage) stages.

Definition jobs_of (stages : list Stage) : list PipelineBuildJob :=
  List.concat (List.map Stage_PipelineBuildJobs stages).

Definition failed_stages (stages : list Stage) : list Stage :=
  List.filter (fun stage => String.eqb (Stage_Status stage) StatusFail) stages.

Definition failed_jobs (jobs : list PipelineBuildJob) : list PipelineBuildJob :=
  List.filter (fun j => String.eqb (Job_Status j) StatusFail) jobs.

(** The log belongs to none of these jobs. *)
Definition log_of_none (jobs : list PipelineBuildJob) (l : BuildLogRow) : bool :=
  negb (existsb (Z.eqb (log_pipeline_build_job_id l)) (List.map Job_ID jobs)).

Definition artifact_of_build (pb : PipelineBuild) (a : ArtifactRow) : bool :=
  (artifact_pipeline_id a =? Pip_ID (PB_Pipeline pb))
  && (artifact_application_id a =? App_ID (PB_Application pb))
  && (artifact_build_number a =? PB_BuildNumber pb)
  && (artifact_environment_id a =? Env_ID (PB_Environment pb)).

(** The tables that a restart reads or writes besides the logs, and the
    clock. *)
Definition same_but_logs (s s1 : State) : Prop :=
  t_artifact s1 = t_artifact s
  /\ t_pipeline_test_result s1 = t_pipeline_test_result s
  /\ ticks s1 = ticks s.

Definition has_key (params : list Param) (name : string) : Prop :=
  In name (List.map Param_Name params).

(** The canonical keys of invariant 4 of the specification. *)
Definition canonical_keys : list string :=
  ["cds.pipeline"; "cds.project"; "cds.application"; "cds.environment";
   "cds.buildNumber"; "cds.version"; "git.branch"; "git.hash"].

(** Those of them that every build has. *)
Definition keys_of_every_build : list string :=
  ["cds.pipeline"; "cds.project"; "cds.application"; "cds.environment";
   "cds.buildNumber"; "cds.version"; "git.branch"].

(** The latest commit that the repositories manager reports for a
    branch, empty when it reports none. *)
Definition latest_commit_of (client : option RepositoriesManagerClient) (app : Application)
    (branch : string) : string :=
  hash_of (snd (default_branch_and_hashes client app)) branch.

(** The last parameter of that name in a list. *)
Definition last_named (name : string) (params : list Param) : option Param :=
  fold_left (fun acc p => if String.eqb (Param_Name p) name then Some p else acc) params None.


(** The commit list of a build, case by case. *)
Inductive commits_as_amended (client : RepositoriesManagerClient) (app : Application)
    (cur : BuildNumberAndHash) : option BuildNumberAndHash -> list VCSCommit -> Prop :=
| same_hash prev :
    BNH_Hash prev = BNH_Hash cur ->
    commits_as_amended client app cur (Some prev) []
| both_hashes_known prev commits :
    BNH_Hash cur <> "" -> BNH_Hash prev <> "" -> BNH_Hash prev <> BNH_Hash cur ->
    Commits client (App_RepositoryFullname app) (BNH_Branch cur) (BNH_Hash prev) (BNH_Hash cur)
      = Ok commits ->
    commits_as_amended client app cur (Some prev) commits
| no_previous_build commits :
    BNH_Hash cur <> "" ->
    Commits client (App_RepositoryFullname app) (BNH_Branch cur) "" (BNH_Hash cur) = Ok commits ->
    commits_as_amended client app cur None commits
| latest_of_branch prev br cm :
    BNH_Hash cur = "" ->
    (forall pr, prev = Some pr -> BNH_Hash pr <> "") ->
    Branch client (App_RepositoryFullname app) (BNH_Branch cur) = Ok (Some br) ->
    Branch_LatestCommit br <> "" ->
    Commit client (App_RepositoryFullname app) (Branch_LatestCommit br) = Ok cm ->
    commits_as_amended client app cur prev [cm].

(** Fuel and input of the three parsers of [Json]. *)
Definition value_ok (fuel : nat) (s : string) : Prop :=
  Json.parse_value fuel s <> Json.OutOfFuel
  /\ forall v r, Json.parse_value fuel s = Json.Parsed v r
                 -> (String.length r < String.length s)%nat.

Definition elements_ok (fuel : nat) (s : string) : Prop :=
  Json.parse_elements fuel s <> Json.OutOfFuel
  /\ forall vs r, Json.parse_elements fuel s = Json.Parsed vs r
                  -> (String.length r < String.length s)%nat.

Definition members_ok (fuel : nat) (s : string) : Prop :=
  Json.parse_members fuel s <> Json.OutOfFuel
  /\ forall ms r, Json.parse_members fuel s = Json.Parsed ms r
                  -> (String.length r < String.length s)%nat.

(** ** The vocabulary of the further properties *)

(** The row is build [buildNumber] of the application, the pipeline and the
    environment. *)
Definition build_of (applicationID pipelineID environmentID buildNumber : Z)
    (r : PipelineBuildRow) : Prop :=
  pb_application_id r = applicationID /\ pb_pipeline_id r = pipelineID
  /\ pb_environment_id r = environmentID /\ pb_build_number r = buildNumber.

(** What [CurrentAndPreviousPipelineBuildNumberAndHash] keeps of a row. *)
Definition number_and_hash (r : PipelineBuildRow) : BuildNumberAndHash :=
  {| BNH_BuildNumber := pb_build_number r;
     BNH_Hash := null_string (pb_vcs_changes_hash r);
     BNH_Branch := null_string (pb_vcs_changes_branch r) |}.

(** The value of the last parameter of that name whose value is not
    empty. *)
Definition last_nonempty (name : string) (params : list Param) : option string :=
  fold_left (fun acc p =>
               if String.eqb (Param_Name p) name && negb (String.eqb (Param_Value p) "")
               then Some (Param_Value p) else acc) params None.

(** The counter after a series of recovered panics, each given by the
    two times that its recovery reads. *)
Definition count_panics (times : list (Z * Z)) (p : Router.Panics) : Router.Panics :=
  fold_left (fun p t => Router.count_panic (fst t) (snd t) p) times p.

(** Each panic of the series but the first is recovered at most two
    minutes after the one before it. *)
Fixpoint close_together (times : list (Z * Z)) : Prop :=
  match times with
  | first :: (second :: _) as rest =>
      fst second - snd first <= Router.two_minutes /\ close_together rest
  | _ => True
  end.

(** The variables when the process starts. *)
Definition no_panic_yet : Router.Panics :=
  {| Router.panicked := false; Router.nbPanic := 0; Router.lastPanic := None |}.

(** The tables that [selectPipelineBuild] reads are the same in both
    stores. *)
Definition same_builds (s s' : State) : Prop :=
  t_pipeline_build s' = t_pipeline_build s
  /\ t_application s' = t_application s /\ t_pipeline s' = t_pipeline s
  /\ t_environment s' = t_environment s /\ t_project s' = t_project s
  /\ t_user s' = t_user s.

(** The selected row after [UPDATE pipeline_build SET args = $1]. *)
Definition res_set_args (args : string) (r : PipelineBuildDbResult) : PipelineBuildDbResult :=
  {| Res_ID := Res_ID r; Res_ApplicationID := Res_ApplicationID r;
     Res_PipelineID := Res_PipelineID r; Res_EnvironmentID := Res_EnvironmentID r;
     Res_ProjectID := Res_ProjectID r; Res_ApplicatioName := Res_ApplicatioName r;
     Res_PipelineName := Res_PipelineName r; Res_PipelineType := Res_PipelineType r;
     Res_EnvironmentName := Res_EnvironmentName r; Res_ProjectKey := Res_ProjectKey r;
     Res_BuildNumber := Res_BuildNumber r; Res_Version := Res_Version r;
     Res_Status := Res_Status r; Res_Args := args; Res_Stages := Res_Stages r;
     Res_Commits := Res_Commits r; Res_Start := Res_Start r; Res_Done := Res_Done r;
     Res_ManualTrigger := Res_ManualTrigger r; Res_TriggeredBy := Res_TriggeredBy r;
     Res_VCSChangesBranch := Res_VCSChangesBranch r;
     Res_VCSChangesHash := Res_VCSChangesHash r;
     Res_VCSChangesAuthor := Res_VCSChangesAuthor r;
     Res_ParentPipelineBuildID := Res_ParentPipelineBuildID r;
     Res_Username := Res_Username r; Res_ScheduledTrigger := Res_ScheduledTrigger r |}.


Module Written.
Import Json.

(** The values the encoder writes: a number is an integer in decimal. *)
#[local] Unset Elimination Schemes.
Inductive written : value -> Prop :=
| written_null : written JNull
| written_bool (b : bool) : written (JBool b)
| written_number (z : Z) : written (JNumber (pretty z))
| written_string (s : string) : written (JString s)
| written_array (vs : list value) :
    Forall written vs -> written (JArray vs)
| written_object (ms : list (string * value)) :
    Forall (fun kv => written (snd kv)) ms -> written (JObject ms).
#[local] Set Elimination Schemes.

(** What may follow a value: the end of the text, or the comma or the
    closing bracket or brace of the array or object around it. *)
Definition after_value (rest : string) : Prop :=
  rest = "" \/ exists c r, rest = String c r /\ In c [","; "]"; "}"]%char.

Section Induction.
Variable P : value -> Prop.
Hypothesis P_null : P JNull.
Hypothesis P_bool : forall b, P (JBool b).
Hypothesis P_number : forall lexeme, P (JNumber lexeme).
Hypothesis P_string : forall s, P (JString s).
Hypothesis P_array : forall vs, Forall P vs -> P (JArray vs).
Hypothesis P_object : forall ms, Forall (fun kv => P (snd kv)) ms -> P (JObject ms).

Fixpoint value_induction (v : value) : P v :=
  match v with
  | JNull => P_null
  | JBool b => P_bool b
  | JNumber lexeme => P_number lexeme
  | JString s => P_string s
  | JArray vs =>
      P_array vs
        ((fix all (l : list value) : Forall P l :=
            match l with
            | [] => List.Forall_nil P
            | x :: r => List.Forall_cons P x r (value_induction x) (all r)
            end) vs)
  | JObject ms =>
      P_object ms
        ((fix all (l : list (string * value)) : Forall (fun kv => P (snd kv)) l :=
            match l with
            | [] => List.Forall_nil _
            | kv :: r => List.Forall_cons _ kv r (value_induction (snd kv)) (all r)
            end) ms)
  end.
End Induction.

End Written.

(** *** What the codec carries unchanged

    [encoding/json] replaces bytes that are not valid UTF-8 and Go's
    [int64] is bounded: the round trips are stated for text of ASCII
    characters and for integers of that range. *)

Definition ascii_text (s : string) : bool :=
  forallb (fun c => (N_of_ascii c <? 128)%N) (list_ascii_of_string s).

Definition in_int64 (z : Z) : bool := (Int64.min_int <=? z) && (z <=? Int64.max_int).

Definition plain_Param (p : Param) : bool :=
  ascii_text (Param_Name p) && ascii_text (Param_Type p) && ascii_text (Param_Value p).

Definition plain_Job (j : PipelineBuildJob) : bool :=
  in_int64 (Job_ID j) && ascii_text (Job_Status j).

Definition plain_Stage (st : Stage) : bool :=
  ascii_text (Stage_Name st) && in_int64 (Stage_BuildOrder st)
  && ascii_text (Stage_Status st) && forallb plain_Job (Stage_PipelineBuildJobs st).

Definition plain_Commit (c : VCSCommit) : bool :=
  ascii_text (Commit_Hash c) && ascii_text (Commit_Author_Name c)
  && ascii_text (Commit_Message c).

(** The keys of the store: an id names one row of its table, and the
    sequence of [pipeline_build] is ahead of the ids it has given. *)
Definition well_keyed (s : State) : Prop :=
  List.NoDup (List.map application_id (t_application s))
  /\ List.NoDup (List.map pipeline_id (t_pipeline s))
  /\ List.NoDup (List.map environment_id (t_environment s))
  /\ List.NoDup (List.map project_id (t_project s))
  /\ List.NoDup (List.map user_id (t_user s))
  /\ Forall (fun r => pb_id r < seq_pipeline_build s) (t_pipeline_build s).

(** The rows that the builds of an application, a pipeline and an
    environment refer to. *)
Definition referenced (s : State) (app : Application) (p : Pipeline) (e : Environment)
    (a : ApplicationRow) (pi : PipelineRow) (en : EnvironmentRow) (pr : ProjectRow) : Prop :=
  In a (t_application s) /\ application_id a = App_ID app
  /\ In pi (t_pipeline s) /\ pipeline_id pi = Pip_ID p
  /\ In en (t_environment s) /\ environment_id en = Env_ID e
  /\ In pr (t_project s) /\ project_id pr = application_project_id a.

(** The selected row after [UPDATE pipeline_build set status = $1,
    stages = $2, done = $4], and after [UPDATE pipeline_build SET
    commits = $1]. *)
Definition res_set_status_stages_done (status stages : string) (done : option Time)
    (r : PipelineBuildDbResult) : PipelineBuildDbResult :=
  {| Res_ID := Res_ID r; Res_ApplicationID := Res_ApplicationID r;
     Res_PipelineID := Res_PipelineID r; Res_EnvironmentID := Res_EnvironmentID r;
     Res_ProjectID := Res_ProjectID r; Res_ApplicatioName := Res_ApplicatioName r;
     Res_PipelineName := Res_PipelineName r; Res_PipelineType := Res_PipelineType r;
     Res_EnvironmentName := Res_EnvironmentName r; Res_ProjectKey := Res_ProjectKey r;
     Res_BuildNumber := Res_BuildNumber r; Res_Version := Res_Version r;
     Res_Status := status; Res_Args := Res_Args r; Res_Stages := stages;
     Res_Commits := Res_Commits r; Res_Start := Res_Start r; Res_Done := done;
     Res_ManualTrigger := Res_ManualTrigger r; Res_TriggeredBy := Res_TriggeredBy r;
     Res_VCSChangesBranch := Res_VCSChangesBranch r;
     Res_VCSChangesHash := Res_VCSChangesHash r;
     Res_VCSChangesAuthor := Res_VCSChangesAuthor r;
     Res_ParentPipelineBuildID := Res_ParentPipelineBuildID r;
     Res_Username := Res_Username r; Res_ScheduledTrigger := Res_ScheduledTrigger r |}.

Definition res_set_commits (commits : string) (r : PipelineBuildDbResult)
    : PipelineBuildDbResult :=
  {| Res_ID := Res_ID r; Res_ApplicationID := Res_ApplicationID r;
     Res_PipelineID := Res_PipelineID r; Res_EnvironmentID := Res_EnvironmentID r;
     Res_ProjectID := Res_ProjectID r; Res_ApplicatioName := Res_ApplicatioName r;
     Res_PipelineName := Res_PipelineName r; Res_PipelineType := Res_PipelineType r;
     Res_EnvironmentName := Res_EnvironmentName r; Res_ProjectKey := Res_ProjectKey r;
     Res_BuildNumber := Res_BuildNumber r; Res_Version := Res_Version r;
     Res_Status := Res_Status r; Res_Args := Res_Args r; Res_Stages := Res_Stages r;
     Res_Commits := commits; Res_Start := Res_Start r; Res_Done := Res_Done r;
     Res_ManualTrigger := Res_ManualTrigger r; Res_TriggeredBy := Res_TriggeredBy r;
     Res_VCSChangesBranch := Res_VCSChangesBranch r;
     Res_VCSChangesHash := Res_VCSChangesHash r;
     Res_VCSChangesAuthor := Res_VCSChangesAuthor r;
     Res_ParentPipelineBuildID := Res_ParentPipelineBuildID r;
     Res_Username := Res_Username r; Res_ScheduledTrigger := Res_ScheduledTrigger r |}.

(** ** Concrete projects, stores and collaborators *)

Module Fixture.

(** The entries of the map in the order of its keys in the trie. *)
Definition in_table_order (m : gmap string Param) : list Param :=
  List.map snd (map_to_list m).


(** No repositories manager answers. *)
Definition env_no_vcs : Env :=
  {| env_now := fun n => 1000 + Z.of_nat n;
     env_AuthorizedClient := fun _ _ => Err (ErrExternal "no repositories manager");
     env_LoadFromApplicationByID := fun _ => ("", None);
     env_range := in_table_order |}.


Definition commit_of (hash : string) : VCSCommit :=
  {| Commit_Hash := hash; Commit_Author_Name := "alice"; Commit_Message := "change" |}.

(** A repositories manager whose every branch ends at commit [abc]. *)
Definition vcs_client : RepositoriesManagerClient :=
  {| RepoByFullname := fun _ =>
       Ok {| Repo_SSHCloneURL := "ssh://git/org/repo"; Repo_HTTPCloneURL := "https://git/org/repo" |};
     Branches := fun _ =>
       Ok [{| Branch_DisplayID := "main"; Branch_Default := true; Branch_LatestCommit := "abc" |}];
     Branch := fun _ name =>
       Ok (Some {| Branch_DisplayID := name; Branch_Default := true;
                   Branch_LatestCommit := "abc" |});
     Commit := fun _ hash => Ok (commit_of hash);
     Commits := fun _ _ _ until => Ok [commit_of until] |}.

Definition env_vcs : Env :=
  {| env_now := env_now env_no_vcs;
     env_AuthorizedClient := fun _ _ => Ok vcs_client;
     env_LoadFromApplicationByID := fun _ => ("org/repo", Some {| RM_Name := "git" |});
     env_range := in_table_order |}.

Definition project : Project := {| Project_ID := 1; Project_Key := "KEY" |}.

Definition pipeline_of (type : string) : Pipeline :=
  {| Pip_ID := 7; Pip_Name := "pip"; Pip_Type := type; Pip_ProjectKey := "KEY";
     Pip_ProjectID := 1; Pip_Parameter := []; Pip_Stages := [] |}.

Definition application : Application :=
  {| App_ID := 42; App_Name := "app"; App_ProjectKey := "KEY";
     App_RepositoriesManager := None; App_RepositoryFullname := "" |}.

Definition application_vcs : Application :=
  {| App_ID := 42; App_Name := "app"; App_ProjectKey := "KEY";
     App_RepositoriesManager := Some {| RM_Name := "git" |};
     App_RepositoryFullname := "org/repo" |}.

Definition environment : Environment :=
  {| Env_ID := 3; Env_Name := "env"; Env_ProjectKey := "KEY"; Env_ProjectID := 1 |}.

Definition manual (parent : option PipelineBuild) (branch hash : string)
    : PipelineBuildTrigger :=
  {| Trigger_ManualTrigger := true; Trigger_ScheduledTrigger := false;
     Trigger_TriggeredBy := None; Trigger_ParentPipelineBuild := parent;
     Trigger_VCSChangesBranch := branch; Trigger_VCSChangesHash := hash;
     Trigger_VCSChangesAuthor := "" |}.

Definition git (branch : string) : list Param :=
  [{| Param_Name := "git.branch"; Param_Type := "string"; Param_Value := branch |}].

(** A row of [pipeline_build] for pipeline 7, application 42 and
    environment 3. *)
Definition build_row (id number : Z) (status : string) (done : option Time)
    (branch hash : string) (stages : list Stage) : PipelineBuildRow :=
  {| pb_id := id; pb_pipeline_id := 7; pb_build_number := number; pb_version := number;
     pb_status := status; pb_args := Marshal encode_Param (git branch); pb_start := 500;
     pb_application_id := 42; pb_environment_id := 3; pb_done := done;
     pb_manual_trigger := true; pb_triggered_by := None;
     pb_parent_pipeline_build_id := None;
     pb_vcs_changes_branch := Some branch; pb_vcs_changes_hash := Some hash;
     pb_vcs_changes_author := Some ""; pb_scheduled_trigger := false;
     pb_stages := Marshal encode_Stage stages; pb_commits := Marshal encode_Commit [] |}.

Definition store_with (builds : list PipelineBuildRow) (logs : list BuildLogRow) : State :=
  {| t_project := [{| project_id := 1; project_projectkey := "KEY" |}];
     t_application := [{| application_id := 42; application_name := "app";
                          application_project_id := 1 |}];
     t_pipeline := [{| pipeline_id := 7; pipeline_name := "pip"; pipeline_type := "build" |}];
     t_environment := [{| environment_id := 3; environment_name := "env" |}];
     t_user := [];
     t_pipeline_build := builds;
     seq_pipeline_build := 1 + Z.of_nat (length builds);
     t_build_log := logs;
     t_pipeline_build_job := [];
     t_artifact := [];
     t_pipeline_test_result := [];
     t_pipeline_stage := [];
     published := []; cache_deleted := []; stats_events := []; ticks := 0 |}.

Definition store (builds : list PipelineBuildRow) : State := store_with builds [].

(** One finished build, numbered 1. *)
Definition one_build : State :=
  store [build_row 1 1 StatusSuccess (Some 600) "master" "" []].

(** The in-memory build of a row of [build_row]. *)
Definition build (id number : Z) (status : Status) (branch : string) (stages : list Stage)
    : PipelineBuild :=
  {| PB_ID := id; PB_Application := application; PB_Pipeline := pipeline_of "build";
     PB_Environment := environment; PB_BuildNumber := number; PB_Version := number;
     PB_Status := status; PB_Start := 500; PB_Done := 600;
     PB_Trigger := manual None branch "";
     PB_Parameters := git branch; PB_Stages := stages; PB_Commits := [] |}.

(** The parent of a child build, in application 42. *)
Definition parent_build : PipelineBuild := build 1 5 StatusSuccess "master" [].

Definition job (id : Z) (status : string) : PipelineBuildJob :=
  {| Job_ID := id; Job_Status := status |}.

Definition stage (name : string) (order : Z) (status : Status) (jobs : list PipelineBuildJob)
    : Stage :=
  {| Stage_Name := name; Stage_BuildOrder := order; Stage_Enabled := true;
     Stage_Status := status; Stage_PipelineBuildJobs := jobs |}.

(** A failed build: its first stage succeeded, in its second stage job
    11 succeeded and job 12 failed; every job has a line of log. *)
Definition failed_stages_of_build : list Stage :=
  [stage "compile" 1 StatusSuccess [job 10 StatusSuccess];
   stage "test" 2 StatusFail [job 11 StatusSuccess; job 12 StatusFail]].

Definition failed_build : PipelineBuild := build 1 1 StatusFail "master" failed_stages_of_build.

Definition log_of (jobID : Z) : BuildLogRow :=
  {| log_pipeline_build_job_id := jobID; log_value := "line" |}.

Definition failed_store : State :=
  store_with [build_row 1 1 StatusFail (Some 600) "master" "" failed_stages_of_build]
    [log_of 10; log_of 11; log_of 12].

(** A branch with a finished build and a running one. *)
Definition feature_store : State :=
  store [build_row 1 1 StatusSuccess (Some 600) "feature" "" [];
         build_row 2 2 StatusBuilding (Some 700) "feature" "" []].

(** Builds 1 and 3 on branch main, build 2 on branch dev. *)
Definition two_branches_store : State :=
  store [build_row 1 1 StatusSuccess (Some 600) "main" "a" [];
         build_row 2 2 StatusSuccess (Some 700) "dev" "b" [];
         build_row 3 3 StatusBuilding (Some 800) "main" "c" []].

(** Two builds on branch main whose hash is not known. *)
Definition no_hash_store : State :=
  store [build_row 1 1 StatusSuccess (Some 600) "main" "" [];
         build_row 2 2 StatusBuilding (Some 700) "main" "" []].

(** Two builds on branch main, at commits [a] and [b]. *)
Definition two_hashes_store : State :=
  store [build_row 1 1 StatusSuccess (Some 600) "main" "a" [];
         build_row 2 2 StatusBuilding (Some 700) "main" "b" []].


(** A selected row with these three serialized columns. *)
Definition selected (args stages commits : string) : PipelineBuildDbResult :=
  {| Res_ID := 1; Res_ApplicationID := 42; Res_PipelineID := 7; Res_EnvironmentID := 3;
     Res_ProjectID := 1; Res_ApplicatioName := "app"; Res_PipelineName := "pip";
     Res_PipelineType := "build"; Res_EnvironmentName := "env"; Res_ProjectKey := "KEY";
     Res_BuildNumber := 1; Res_Version := 1; Res_Status := StatusBuilding;
     Res_Args := args; Res_Stages := stages; Res_Commits := commits;
     Res_Start := 500; Res_Done := None; Res_ManualTrigger := true;
     Res_TriggeredBy := None; Res_VCSChangesBranch := Some "master";
     Res_VCSChangesHash := None; Res_VCSChangesAuthor := None;
     Res_ParentPipelineBuildID := None; Res_Username := None;
     Res_ScheduledTrigger := false |}.

End Fixture.

(** Further collaborators. *)

Module Sample.

(** A repositories manager that does not know the repository. *)
Definition client_without_repository : RepositoriesManagerClient :=
  {| RepoByFullname := fun _ => Err (ErrExternal "repository not found");
     Branches := Branches Fixture.vcs_client;
     Branch := Branch Fixture.vcs_client;
     Commit := Commit Fixture.vcs_client;
     Commits := Commits Fixture.vcs_client |}.

Definition env_without_repository : Env :=
  {| env_now := env_now Fixture.env_no_vcs;
     env_AuthorizedClient := fun _ _ => Ok client_without_repository;
     env_LoadFromApplicationByID := env_LoadFromApplicationByID Fixture.env_vcs;
     env_range := Fixture.in_table_order |}.

(** Pipeline 7 with two stages, and a finished build on branch
    [master]. *)
Definition store_with_stages : State :=
  {| t_project := t_project Fixture.one_build;
     t_application := t_application Fixture.one_build;
     t_pipeline := t_pipeline Fixture.one_build;
     t_environment := t_environment Fixture.one_build;
     t_user := [{| user_id := 9; user_username := "alice" |}];
     t_pipeline_build := t_pipeline_build Fixture.one_build;
     seq_pipeline_build := seq_pipeline_build Fixture.one_build;
     t_build_log := [];
     t_pipeline_build_job := [];
     t_artifact := [];
     t_pipeline_test_result := [];
     t_pipeline_stage :=
       [{| stage_pipeline_id := 7; stage_definition := Fixture.stage "test & deploy" 2 "" [] |};
        {| stage_pipeline_id := 7;
           stage_definition := Fixture.stage "compile" 1 "" [Fixture.job 10 ""] |}];
     published := []; cache_deleted := []; stats_events := []; ticks := 0 |}.

(** A manual trigger by user 9 on branch [master]. *)
Definition triggered_by_alice : PipelineBuildTrigger :=
  {| Trigger_ManualTrigger := true; Trigger_ScheduledTrigger := false;
     Trigger_TriggeredBy :=
       Some {| User_ID := 9; User_Username := "alice"; User_Fullname := "Alice";
               User_Email := "" |};
     Trigger_ParentPipelineBuild := None;
     Trigger_VCSChangesBranch := "master"; Trigger_VCSChangesHash := "abc";
     Trigger_VCSChangesAuthor := "" |}.

End Sample.

(** A router with two users. *)

Module SampleRouter.
Import Router.

(** A handler that answers 200. *)
Definition hello : Handler unit :=
  fun _ _ _ => ([WriteHeader 200], inl None).

Definition user_of (name : string) (admin : bool) : User :=
  {| User_ID := 1; User_Username := name; User_Admin := admin; User_Groups := [] |}.

(** An authentication driver that knows the users [root], an
    administrator, and [alice], by the header [Authorization]. *)
Definition by_name (db : option unit) (headers : string -> string) (c : Ctx) : errorable Ctx :=
  if String.eqb (headers "Authorization") "root" then Success (set_User (user_of "root" true) c)
  else if String.eqb (headers "Authorization") "alice"
       then Success (set_User (user_of "alice" false) c)
       else Failure ErrUnauthorized.

(** A request of that method and path, with that [Authorization]. *)
Definition request (method path authorization : string) : Request :=
  {| Method := method; URL_Path := path;
     Header_Get := fun key => if String.eqb key "Authorization" then authorization else "";
     Vars := fun _ => "" |}.

(** [serve] with that driver, permissions that are loaded without
    change and checks that refuse. *)
Definition serve_sample (rc : routerConfig unit) (req : Request) (db : option unit) : R unit :=
  serve "CDS/hatchery" "CDS/worker" by_name by_name by_name
    (fun _ user => Success user) (fun _ id => Success {| Group_ID := id |})
    (fun _ _ => None) (fun _ id => Success {| Model_GroupID := id |})
    {| Group_ID := 1 |} (fun _ _ _ _ => false) (fun _ _ _ => false) (fun _ _ => 0)
    "now" "0" rc req db.

(** [Handle(uri, GET(hello), NeedAdmin(true))] *)
Definition admin_route : routerConfig unit := route_config [GET hello []; NeedAdmin true].

End SampleRouter.


(** * Properties *)

(** ** Computations on the store *)

Lemma bind_Ok {A B : Type} (m : M A) (k : A -> M B) s b s' :
  (m ≫= k) s = (Ok b, s') ->
  exists a s1, m s = (Ok a, s1) /\ k a s1 = (Ok b, s').
Proof.
  unfold mbind, M_bind. destruct (m s) as [[a|e] s1]; intros H.
  - eauto.
  - discriminate.
Qed.

Lemma wrapping_Ok {A : Type} context (m : M A) s a s' :
  wrapping context m s = (Ok a, s') -> m s = (Ok a, s').
Proof.
  unfold wrapping. destruct (m s) as [[x|e] s1]; intros H; [exact H|discriminate].
Qed.

Lemma lift_Ok {A : Type} (r : result A) s a s' :
  lift r s = (Ok a, s') -> r = Ok a /\ s' = s.
Proof. unfold lift. intros H. inversion H. auto. Qed.

Lemma try_Ok {A : Type} (m : M A) s r s' : try m s = (Ok r, s') -> m s = (r, s').
Proof. unfold try. destruct (m s). intros H. inversion H. reflexivity. Qed.

(** Splits a successful sequence [x ← m; k] found in hypothesis [H]. *)
Ltac step H a s1 H1 :=
  apply bind_Ok in H; destruct H as (a & s1 & H1 & H).

Lemma filter_filter {A : Type} (f g : A -> bool) l :
  List.filter f (List.filter g l) = List.filter (fun x => g x && f x) l.
Proof.
  induction l as [|a l IH]; simpl; [reflexivity|].
  destruct (g a); simpl; [destruct (f a)|]; rewrite ?IH; reflexivity.
Qed.

Lemma filter_true {A : Type} (l : list A) : List.filter (fun _ => true) l = l.
Proof. induction l; simpl; congruence. Qed.

Lemma eqb_false_of_neq a b : a <> b -> String.eqb a b = false.
Proof. intros H. destruct (String.eqb_spec a b); [contradiction|reflexivity]. Qed.

Lemma wrap_small z : Int64.min_int <= z <= Int64.max_int -> Int64.wrap z = z.
Proof.
  unfold Int64.wrap, Int64.min_int, Int64.max_int. intros H.
  rewrite Z.mod_small; lia.
Qed.

(** ** The JSON parser never runs out of the fuel it is given *)

Section JsonFuel.
  Import Json.

Lemma skip_ws_length s : (String.length (skip_ws s) <= String.length s)%nat.
Proof.
  induction s as [|c s IH]; cbn [skip_ws String.length]; [lia|].
  destruct (is_ws c); cbn [String.length]; lia.
Qed.

Lemma skip_ws_cons s c r : skip_ws s = String c r -> (String.length r < String.length s)%nat.
Proof.
  intros H. pose proof (skip_ws_length s) as Hl. rewrite H in Hl. cbn [String.length] in Hl. lia.
Qed.

Lemma strip_length word : forall s r, strip word s = Some r -> (String.length r <= String.length s)%nat.
Proof.
  induction word as [|c word IH]; intros s r H; cbn [strip] in H.
  - inversion H. lia.
  - destruct s as [|d s]; [discriminate|].
    destruct (Ascii.eqb c d); [|discriminate].
    apply IH in H. cbn [String.length]. lia.
Qed.

Lemma take_digits_length s : (String.length (snd (take_digits s)) <= String.length s)%nat.
Proof.
  induction s as [|c s IH]; cbn [take_digits]; [cbn; lia|].
  destruct (is_digit c); [|cbn; lia].
  destruct (take_digits s) as [ds r]. cbn [snd String.length] in *. lia.
Qed.

Lemma take_digits_nonempty s ds r :
  take_digits s = (ds, r) -> ds <> EmptyString -> (String.length r < String.length s)%nat.
Proof.
  destruct s as [|c s]; cbn [take_digits].
  - intros H. inversion H. congruence.
  - destruct (is_digit c).
    + pose proof (take_digits_length s) as Hl.
      destruct (take_digits s) as [ds' r']. intros H _. inversion H. subst.
      cbn [snd String.length] in *. lia.
    + intros H. inversion H. congruence.
Qed.

Lemma lex_int_length s i r : lex_int s = Some (i, r) -> (String.length r < String.length s)%nat.
Proof.
  unfold lex_int. destruct s as [|c s]; [discriminate|].
  assert (Hgen : (if is_digit c then Some (take_digits (String c s)) else None) = Some (i, r) ->
                 (String.length r < String.length (String c s))%nat).
  { destruct (is_digit c) eqn:E; [|discriminate]. intros H. inversion H as [H1].
    eapply take_digits_nonempty; [exact H1|].
    cbn [take_digits] in H1. rewrite E in H1. destruct (take_digits s). inversion H1. discriminate. }
  destruct c as [[] [] [] [] [] [] [] []]; try exact Hgen.
  intros H. inversion H. cbn [String.length]. lia.
Qed.

Lemma lex_frac_length s f r : lex_frac s = Some (f, r) -> (String.length r <= String.length s)%nat.
Proof.
  unfold lex_frac. destruct s as [|c s]; [intros H; inversion H; lia|].
  assert (Hgen : Some (EmptyString, String c s) = Some (f, r) -> (String.length r <= String.length (String c s))%nat).
  { intros H. inversion H. lia. }
  destruct c as [[] [] [] [] [] [] [] []]; try exact Hgen.
  pose proof (take_digits_length s) as Hl.
  destruct (take_digits s) as [[|d ds] r']; [discriminate|].
  intros H. inversion H. subst. cbn [snd String.length] in *. lia.
Qed.

Lemma lex_exp_length s e r : lex_exp s = Some (e, r) -> (String.length r <= String.length s)%nat.
Proof.
  unfold lex_exp. destruct s as [|c s]; [intros H; inversion H; lia|].
  destruct (Ascii.eqb c "e" || Ascii.eqb c "E")%bool; [|intros H; inversion H; lia].
  assert (Hsign : forall sign rest', 
            (String.length rest' <= String.length s)%nat ->
            match take_digits rest' with
            | (EmptyString, _) => None
            | (ds, r0) => Some (String c (sign +:+ ds), r0)
            end = Some (e, r) -> (String.length r <= String.length (String c s))%nat).
  { intros sign rest' Hle H.
    pose proof (take_digits_length rest') as Hl.
    destruct (take_digits rest') as [[|d ds] r0]; [discriminate|].
    inversion H. subst. cbn [snd String.length] in *. lia. }
  destruct s as [|d s']; [apply (Hsign EmptyString); lia|].
  assert (Hgen : (let '(sign, rest') := (EmptyString, String d s') in
                  match take_digits rest' with
                  | (EmptyString, _) => None
                  | (ds, r0) => Some (String c (sign +:+ ds), r0)
                  end) = Some (e, r) -> (String.length r <= String.length (String c (String d s')))%nat).
  { apply (Hsign EmptyString). lia. }
  destruct d as [[] [] [] [] [] [] [] []]; try exact Hgen.
  all: first [apply (Hsign "-") | apply (Hsign "+")]; cbn [String.length]; lia.
Qed.

Lemma lex_number_length s lx r : lex_number s = Some (lx, r) -> (String.length r < String.length s)%nat.
Proof.
  unfold lex_number.
  assert (Hgen : forall sign s1, (String.length s1 <= String.length s)%nat ->
            match lex_int s1 with
            | None => None
            | Some (i, s2) =>
                match lex_frac s2 with
                | None => None
                | Some (f, s3) =>
                    match lex_exp s3 with
                    | None => None
                    | Some (e, s4) => Some (sign +:+ i +:+ f +:+ e, s4)
                    end
                end
            end = Some (lx, r) -> (String.length r < String.length s)%nat).
  { intros sign s1 Hle H.
    destruct (lex_int s1) as [[i s2]|] eqn:E1; [|discriminate].
    destruct (lex_frac s2) as [[f s3]|] eqn:E2; [|discriminate].
    destruct (lex_exp s3) as [[e s4]|] eqn:E3; [|discriminate].
    inversion H; subst.
    apply lex_int_length in E1. apply lex_frac_length in E2. apply lex_exp_length in E3. lia. }
  destruct s as [|c s']; [apply (Hgen EmptyString); lia|].
  assert (Hdef : (let '(sign, s1) := (EmptyString, String c s') in
                  match lex_int s1 with
                  | None => None
                  | Some (i, s2) =>
                      match lex_frac s2 with
                      | None => None
                      | Some (f, s3) =>
                          match lex_exp s3 with
                          | None => None
                          | Some (e, s4) => Some (sign +:+ i +:+ f +:+ e, s4)
                          end
                      end
                  end) = Some (lx, r) -> (String.length r < String.length (String c s'))%nat).
  { apply (Hgen EmptyString). lia. }
  destruct c as [[] [] [] [] [] [] [] []]; try exact Hdef.
  apply (Hgen "-"). cbn [String.length]. lia.
Qed.

Lemma lex_string_length s : forall body r, lex_string s = Some (body, r) -> (String.length r < String.length s)%nat.
Proof.
  induction s as [s IH] using (well_founded_induction
                                 (well_founded_ltof _ String.length)).
  unfold ltof in IH. intros body r H.
  destruct s as [|c rest]; [discriminate|]. cbn [lex_string] in H.
  destruct (Ascii.eqb c "034"); [inversion H; cbn [String.length]; lia|].
  destruct (Ascii.eqb c "\").
  - destruct rest as [|e rest1]; [discriminate|].
    assert (Hsimple :
              match simple_escape e with
              | Some d => match lex_string rest1 with
                          | Some (body0, r0) => Some (String d body0, r0)
                          | None => None
                          end
              | None => None
              end = Some (body, r) -> (String.length r < String.length (String c (String e rest1)))%nat).
    { destruct (simple_escape e); [|discriminate].
      destruct (lex_string rest1) as [[b0 r0]|] eqn:E; [|discriminate].
      intros H'. inversion H'; subst. apply IH in E; cbn [String.length] in *; lia. }
    destruct (Ascii.eqb e "u") eqn:Eu.
    + apply Ascii.eqb_eq in Eu. subst e.
      destruct rest1 as [|h1 [|h2 [|h3 [|h4 rest2]]]]; try (exact (Hsimple H)).
      destruct (hex4 h1 h2 h3 h4); [|discriminate].
      destruct (lex_string rest2) as [[b0 r0]|] eqn:E; [|discriminate].
      inversion H; subst. apply IH in E; cbn [String.length] in *; lia.
    + apply Hsimple.
      destruct e as [[] [] [] [] [] [] [] []]; try exact H. discriminate Eu.
  - destruct (N.ltb _ _); [discriminate|].
    destruct (lex_string rest) as [[b0 r0]|] eqn:E; [|discriminate].
    inversion H; subst. apply IH in E; cbn [String.length] in *; lia.
Qed.

Lemma expect_ok word rest v s c :
  skip_ws s = String c rest ->
  expect word rest v <> OutOfFuel
  /\ forall v' r, expect word rest v = Parsed v' r -> (String.length r < String.length s)%nat.
Proof.
  intros Hs. apply skip_ws_cons in Hs. unfold expect.
  destruct (strip word rest) as [r0|] eqn:E.
  - split; [discriminate|]. intros v' r H. inversion H; subst.
    apply strip_length in E. lia.
  - split; [discriminate|]. intros v' r H. discriminate.
Qed.

Lemma enough_fuel_all : forall fuel s,
  ((2 * String.length s < fuel)%nat -> value_ok fuel s)
  /\ ((2 * String.length s + 1 < fuel)%nat -> elements_ok fuel s)
  /\ ((2 * String.length s + 1 < fuel)%nat -> members_ok fuel s).
Proof.
  induction fuel as [|fuel IH]; intros s.
  - repeat split; intros; lia.
  - assert (IHv : forall s', (2 * String.length s' < fuel)%nat -> value_ok fuel s') by (intros; apply IH; assumption).
    assert (IHe : forall s', (2 * String.length s' + 1 < fuel)%nat -> elements_ok fuel s') by (intros; apply IH; assumption).
    assert (IHm : forall s', (2 * String.length s' + 1 < fuel)%nat -> members_ok fuel s') by (intros; apply IH; assumption).
    clear IH. split; [|split]; intros Hfuel.
    + unfold value_ok. cbn [parse_value].
      destruct (skip_ws s) as [|c rest] eqn:Hs.
      { split; [discriminate|]. intros v r H. discriminate. }
      pose proof (skip_ws_cons _ _ _ Hs) as Hrest.
      destruct (Ascii.eqb c "n"); [exact (expect_ok _ _ _ _ _ Hs)|].
      destruct (Ascii.eqb c "t"); [exact (expect_ok _ _ _ _ _ Hs)|].
      destruct (Ascii.eqb c "f"); [exact (expect_ok _ _ _ _ _ Hs)|].
      destruct (Ascii.eqb c "034").
      { destruct (lex_string rest) as [[str r0]|] eqn:E.
        - split; [discriminate|]. intros v r H. inversion H; subst.
          apply lex_string_length in E. lia.
        - split; [discriminate|]. intros v r H. discriminate. }
      destruct (Ascii.eqb c "[").
      { destruct (IHe rest ltac:(lia)) as [He1 He2].
        assert (Hgen : match parse_elements fuel rest with
                       | Parsed vs r => Parsed (JArray vs) r
                       | SyntaxError => SyntaxError
                       | OutOfFuel => OutOfFuel
                       end <> OutOfFuel
                       /\ forall v r, match parse_elements fuel rest with
                                      | Parsed vs r => Parsed (JArray vs) r
                                      | SyntaxError => SyntaxError
                                      | OutOfFuel => OutOfFuel
                                      end = Parsed v r -> (String.length r < String.length s)%nat).
        { destruct (parse_elements fuel rest) as [vs r0| |]; [| |contradiction].
          - split; [discriminate|]. intros v r H. inversion H; subst.
            specialize (He2 vs r eq_refl). lia.
          - split; [discriminate|]. intros v r H. discriminate. }
        destruct (skip_ws rest) as [|d r1] eqn:Hs1; [exact Hgen|].
        destruct (Ascii.eqb d "]") eqn:Ed.
        - apply Ascii.eqb_eq in Ed. subst d. split; [discriminate|].
          intros v r H. inversion H; subst. apply skip_ws_cons in Hs1. lia.
        - destruct d as [[] [] [] [] [] [] [] []]; try exact Hgen. discriminate Ed. }
      destruct (Ascii.eqb c "{").
      { destruct (IHm rest ltac:(lia)) as [He1 He2].
        assert (Hgen : match parse_members fuel rest with
                       | Parsed ms r => Parsed (JObject ms) r
                       | SyntaxError => SyntaxError
                       | OutOfFuel => OutOfFuel
                       end <> OutOfFuel
                       /\ forall v r, match parse_members fuel rest with
                                      | Parsed ms r => Parsed (JObject ms) r
                                      | SyntaxError => SyntaxError
                                      | OutOfFuel => OutOfFuel
                                      end = Parsed v r -> (String.length r < String.length s)%nat).
        { destruct (parse_members fuel rest) as [ms r0| |]; [| |contradiction].
          - split; [discriminate|]. intros v r H. inversion H; subst.
            specialize (He2 ms r eq_refl). lia.
          - split; [discriminate|]. intros v r H. discriminate. }
        destruct (skip_ws rest) as [|d r1] eqn:Hs1; [exact Hgen|].
        destruct (Ascii.eqb d "}") eqn:Ed.
        - apply Ascii.eqb_eq in Ed. subst d. split; [discriminate|].
          intros v r H. inversion H; subst. apply skip_ws_cons in Hs1. lia.
        - destruct d as [[] [] [] [] [] [] [] []]; try exact Hgen. discriminate Ed. }
      destruct (Ascii.eqb c "-" || is_digit c)%bool.
      { destruct (lex_number (String c rest)) as [[lx r0]|] eqn:E.
        - split; [discriminate|]. intros v r H. inversion H; subst.
          apply lex_number_length in E. cbn [String.length] in E. lia.
        - split; [discriminate|]. intros v r H. discriminate. }
      split; [discriminate|]. intros v r H. discriminate.
    + unfold elements_ok. cbn [parse_elements].
      destruct (IHv s ltac:(lia)) as [Hv1 Hv2].
      destruct (parse_value fuel s) as [v r0| |]; [| |contradiction].
      2: { split; [discriminate|]. intros vs r H. discriminate. }
      specialize (Hv2 v r0 eq_refl).
      destruct (skip_ws r0) as [|d r1] eqn:Hs1.
      { split; [discriminate|]. intros vs r H. discriminate. }
      apply skip_ws_cons in Hs1.
      destruct (Ascii.eqb d ",") eqn:Ecomma.
      { apply Ascii.eqb_eq in Ecomma. subst d.
        destruct (IHe r1 ltac:(lia)) as [He1 He2].
        destruct (parse_elements fuel r1) as [vs r2| |]; [| |contradiction].
        - split; [discriminate|]. intros vs' r H. inversion H; subst.
          specialize (He2 vs r eq_refl). lia.
        - split; [discriminate|]. intros vs' r H. discriminate. }
      destruct (Ascii.eqb d "]") eqn:Eclose.
      { apply Ascii.eqb_eq in Eclose. subst d. split; [discriminate|].
        intros vs r H. inversion H; subst. lia. }
      destruct d as [[] [] [] [] [] [] [] []];
        try (split; [discriminate|intros vs r H; discriminate]);
        discriminate.
    + unfold members_ok. cbn [parse_members].
      destruct (skip_ws s) as [|c r0] eqn:Hs.
      { split; [discriminate|]. intros ms r H. discriminate. }
      apply skip_ws_cons in Hs.
      destruct (Ascii.eqb c "034") eqn:Equote.
      2: { destruct c as [[] [] [] [] [] [] [] []];
             try (split; [discriminate|intros ms r H; discriminate]);
             discriminate. }
      apply Ascii.eqb_eq in Equote. subst c.
      destruct (lex_string r0) as [[key r1]|] eqn:Ekey.
      2: { split; [discriminate|]. intros ms r H. discriminate. }
      apply lex_string_length in Ekey.
      destruct (skip_ws r1) as [|d r2] eqn:Hs2.
      { split; [discriminate|]. intros ms r H. discriminate. }
      apply skip_ws_cons in Hs2.
      destruct (Ascii.eqb d ":") eqn:Ecolon.
      2: { destruct d as [[] [] [] [] [] [] [] []];
             try (split; [discriminate|intros ms r H; discriminate]);
             discriminate. }
      apply Ascii.eqb_eq in Ecolon. subst d.
      destruct (IHv r2 ltac:(lia)) as [Hv1 Hv2].
      destruct (parse_value fuel r2) as [v r3| |]; [| |contradiction].
      2: { split; [discriminate|]. intros ms r H. discriminate. }
      specialize (Hv2 v r3 eq_refl).
      destruct (skip_ws r3) as [|d r4] eqn:Hs4.
      { split; [discriminate|]. intros ms r H. discriminate. }
      apply skip_ws_cons in Hs4.
      destruct (Ascii.eqb d ",") eqn:Ecomma.
      { apply Ascii.eqb_eq in Ecomma. subst d.
        destruct (IHm r4 ltac:(lia)) as [He1 He2].
        destruct (parse_members fuel r4) as [ms r5| |]; [| |contradiction].
        - split; [discriminate|]. intros ms' r H. inversion H; subst.
          specialize (He2 ms r eq_refl). lia.
        - split; [discriminate|]. intros ms' r H. discriminate. }
      destruct (Ascii.eqb d "}") eqn:Eclose.
      { apply Ascii.eqb_eq in Eclose. subst d. split; [discriminate|].
        intros ms r H. inversion H; subst. lia. }
      destruct d as [[] [] [] [] [] [] [] []];
        try (split; [discriminate|intros ms r H; discriminate]);
        discriminate.
Qed.

(** The fuel that [parse] supplies is never exhausted: a text that
    [parse] rejects is rejected for its syntax. *)
Lemma parse_never_out_of_fuel s : parse_value (enough_fuel s) s <> OutOfFuel.
Proof.
  apply (enough_fuel_all (enough_fuel s) s). unfold enough_fuel. lia.
Qed.

End JsonFuel.

(** ** The build number *)

Lemma insert_sorted_head (a : PipelineBuildRow) l :
  match l with
  | [] => True
  | h :: _ => forall x, In x l -> pb_build_number x <= pb_build_number h
  end ->
  match insert_sorted by_build_number_desc a l with
  | [] => False
  | h :: _ => In h (a :: l) /\ forall x, In x (a :: l) -> pb_build_number x <= pb_build_number h
  end.
Proof.
  destruct l as [|b rest]; simpl.
  - intros _. split; [auto|]. intros x [->|[]]. lia.
  - intros Hmax. unfold by_build_number_desc.
    destruct (pb_build_number a <? pb_build_number b) eqn:E.
    + apply Z.ltb_lt in E. split; [auto|].
      intros x [->|Hx]; [lia|]. apply Hmax. exact Hx.
    + apply Z.ltb_ge in E. split; [auto|].
      intros x [->|Hx]; [lia|]. specialize (Hmax x Hx). lia.
Qed.

Lemma insert_sorted_In {A} before (a : A) l x :
  In x (insert_sorted before a l) <-> x = a \/ In x l.
Proof.
  induction l as [|b rest IH]; simpl.
  - intuition.
  - destruct (before b a); simpl; rewrite ?IH; intuition.
Qed.

Lemma order_by_In {A} before (l : list A) x : In x (order_by before l) <-> In x l.
Proof.
  induction l as [|a l IH]; simpl; [tauto|].
  rewrite insert_sorted_In, IH. intuition.
Qed.

Lemma order_by_head l :
  match order_by by_build_number_desc l with
  | [] => l = []
  | h :: _ => In h l /\ forall x, In x l -> pb_build_number x <= pb_build_number h
  end.
Proof.
  induction l as [|a l IH]; simpl; [reflexivity|].
  pose proof (insert_sorted_head a (order_by by_build_number_desc l)) as H.
  destruct (order_by by_build_number_desc l) as [|h t] eqn:E.
  - subst l. simpl. split; [auto|]. intros x [->|[]]. lia.
  - destruct IH as [IH1 IH2].
    assert (Hpre : forall x, In x (h :: t) -> pb_build_number x <= pb_build_number h).
    { intros x Hx. apply IH2. apply (order_by_In by_build_number_desc). rewrite E. exact Hx. }
    specialize (H Hpre).
    destruct (insert_sorted by_build_number_desc a (h :: t)) as [|h' t'] eqn:E'; [contradiction|].
    destruct H as [H1 H2]. split.
    + destruct H1 as [->|H1]; [left; reflexivity|right].
      apply (order_by_In by_build_number_desc). rewrite E. exact H1.
    + intros x [->|Hx]; apply H2; [left; reflexivity|right].
      rewrite <- E. apply order_by_In. exact Hx.
Qed.

Lemma GetLastBuildNumber_spec pipID appID envID s :
  exists last,
    GetLastBuildNumber pipID appID envID s = (Ok last, s)
    /\ last_build_number (prior_builds s pipID appID envID) last.
Proof.
  unfold GetLastBuildNumber, prior_builds, mbind, M_bind, get, mret, M_ret, limit.
  pose proof (order_by_head (List.filter (triple_is pipID appID envID) (t_pipeline_build s))) as H.
  destruct (order_by by_build_number_desc _) as [|h t] eqn:E.
  - exists 0. split; [reflexivity|]. apply last_none. exact H.
  - exists (pb_build_number h). split; [simpl; reflexivity|].
    destruct H. apply last_highest; assumption.
Qed.


(** ** What a successful [InsertPipelineBuild] has done *)

Lemma Load_state a b c d e f s r s' :
  LoadPipelineBuildsByApplicationAndPipeline a b c d e f s = (r, s') -> s' = s.
Proof.
  unfold LoadPipelineBuildsByApplicationAndPipeline, mbind, M_bind, get, lift.
  intros H. inversion H. reflexivity.
Qed.

Lemma map_columns_update id args rows :
  List.map row_columns (List.map (fun r => if pb_id r =? id then row_set_args args r else r) rows)
  = List.map row_columns rows.
Proof.
  rewrite List.map_map. apply List.map_ext. intros r.
  destruct (pb_id r =? id); reflexivity.
Qed.

Lemma InsertPipelineBuild_inv env project p app applicationPipelineArgs params e version trigger s pb s' :
  InsertPipelineBuild env project p app applicationPipelineArgs params e version trigger s
    = (Ok pb, s') ->
  exists last mapVar row,
    let buildNumber := Int64.add last 1 in
    let version' := resolve_version version buildNumber trigger app p in
    GetLastBuildNumber (Pip_ID p) (App_ID app) (Env_ID e) s = (Ok last, s)
    /\ build_parameters (repository_client env project app) p app e buildNumber version'
         params trigger = Ok (PB_Parameters pb, PB_Trigger pb)
    /\ ProcessPipelineBuildVariables (Pip_Parameter p) applicationPipelineArgs (PB_Parameters pb)
       = Ok mapVar
    /\ PB_ID pb = seq_pipeline_build s
    /\ PB_BuildNumber pb = buildNumber
    /\ PB_Version pb = version'
    /\ PB_Status pb = StatusBuilding
    /\ PB_Done pb = zero_time
    /\ List.map row_columns (t_pipeline_build s')
       = List.map row_columns (t_pipeline_build s)
           ++ [(PB_ID pb, Pip_ID p, App_ID app, Env_ID e, buildNumber, version',
                StatusBuilding, Some (env_now env (S (ticks s))))]
    /\ In row (t_pipeline_build s')
    /\ pb_id row = PB_ID pb
    /\ (pb_args row = Marshal encode_Param (final_arguments env mapVar)
        \/ exists previousHash,
             pb_args row = Marshal encode_Param
                             (AddParameter (final_arguments env mapVar) "git.previousHash"
                                StringParameter previousHash)).
Proof.
  intros H.
  destruct (GetLastBuildNumber_spec (Pip_ID p) (App_ID app) (Env_ID e) s) as (last & Hget & _).
  unfold InsertPipelineBuild in H.
  step H bn s1 H1.
  rewrite Hget in H1. inversion H1; subst bn s1; clear H1.
  apply bind_Ok in H. destruct H as ([params' trigger'] & s1 & H1 & H).
  apply lift_Ok in H1. destruct H1 as [Hbuilt ->].
  apply bind_Ok in H. destruct H as (mapVar & s1 & H1 & H).
  apply lift_Ok in H1. destruct H1 as [Hmap ->].
  apply bind_Ok in H. destruct H as (p' & s1 & H1 & H).
  apply wrapping_Ok in H1. unfold LoadPipelineStage, mbind, M_bind, get, mret, M_ret in H1.
  inversion H1; subst p' s1; clear H1.
  apply bind_Ok in H. destruct H as (id & s1 & H1 & H).
  apply wrapping_Ok in H1.
  unfold insertPipelineBuild, mbind, M_bind, get, mret, M_ret, Now, modify in H1.
  inversion H1; subst id s1; clear H1.
  apply bind_Ok in H. destruct H as ([] & s1 & H1 & H).
  unfold PipelineEvent, modify in H1. inversion H1; subst s1; clear H1.
  apply bind_Ok in H. destruct H as (loaded & s1 & H1 & H).
  apply try_Ok in H1. apply Load_state in H1. subst s1.
  apply bind_Ok in H. destruct H as ([] & s1 & H1 & H).
  apply bind_Ok in H. destruct H as ([] & s2 & H2 & H).
  unfold PublishPipelineBuild, modify in H2. inversion H2; subst s2; clear H2.
  unfold mret, M_ret in H. inversion H; subst pb s'; clear H.
  cbn [fst snd] in *.
  set (buildNumber := Int64.add last 1) in *.
  set (version' := resolve_version version buildNumber trigger app p) in *.
  match type of H1 with
  | context [with_pipeline_build (fun rows => rows ++ [?r])] => set (new_row := r) in *
  end.
  assert (Hcases :
    t_pipeline_build s1 = t_pipeline_build s ++ [new_row]
    \/ exists previousHash,
         t_pipeline_build s1
         = List.map (fun r => if pb_id r =? seq_pipeline_build s
                              then row_set_args
                                     (Marshal encode_Param
                                        (AddParameter (final_arguments env mapVar)
                                           "git.previousHash" StringParameter previousHash)) r
                              else r)
             (t_pipeline_build s ++ [new_row])).
  { destruct (previous_of _) as [prev|].
    - destruct (negb _).
      + right. eexists. apply wrapping_Ok in H1. unfold update_where_id, modify in H1.
        inversion H1; subst s1; clear H1. reflexivity.
      + left. unfold mret, M_ret in H1. inversion H1; subst s1; clear H1. reflexivity.
    - left. unfold mret, M_ret in H1. inversion H1; subst s1; clear H1. reflexivity. }
  clear H1.
  cbn [PB_ID PB_BuildNumber PB_Version PB_Status PB_Done PB_Parameters PB_Trigger
       t_pipeline_build with_published].
  destruct Hcases as [Hrows | [previousHash Hrows]].
  - exists last, mapVar, new_row. cbn zeta.
    repeat split; try reflexivity; try assumption.
    + rewrite Hrows, List.map_app. reflexivity.
    + rewrite Hrows. apply in_or_app. right. left. reflexivity.
    + left. reflexivity.
  - exists last, mapVar,
      (row_set_args (Marshal encode_Param
                       (AddParameter (final_arguments env mapVar) "git.previousHash"
                          StringParameter previousHash)) new_row).
    cbn zeta.
    repeat split; try reflexivity; try assumption.
    + rewrite Hrows, map_columns_update, List.map_app. reflexivity.
    + rewrite Hrows, List.map_app. apply in_or_app. right. cbn [List.map].
      subst new_row. cbn [pb_id]. rewrite Z.eqb_refl. left. reflexivity.
    + right. exists previousHash. reflexivity.
Qed.

Lemma columns_In s s' (c : Z * Z * Z * Z * Z * Z * string * option Time) :
  List.map row_columns (t_pipeline_build s') = List.map row_columns (t_pipeline_build s) ++ [c] ->
  exists r, In r (t_pipeline_build s') /\ row_columns r = c.
Proof.
  intros H.
  assert (Hin : In c (List.map row_columns (t_pipeline_build s'))).
  { rewrite H. apply in_or_app. right. left. reflexivity. }
  apply in_map_iff in Hin. destruct Hin as (r & Hr & Hin). eauto.
Qed.



(** ** The version *)

(** C2, as stated, fails: a child build of a parent in the same
    application, on a pipeline of type [build], is given version 5 and
    keeps it, although its build number is 1 and the claim lets only
    pipelines of another type inherit. *)
Lemma version_rule_counterexample :
  exists pb s',
    InsertPipelineBuild Fixture.env_no_vcs Fixture.project (Fixture.pipeline_of "build")
      Fixture.application [] [] Fixture.environment 5
      (Fixture.manual (Some Fixture.parent_build) "master" "") (Fixture.store [])
    = (Ok pb, s')
    /\ 0 < 5
    /\ stored_version s' (PB_ID pb) (PB_Version pb)
    /\ ~ version_as_claimed 5 (Fixture.manual (Some Fixture.parent_build) "master" "")
           Fixture.application (Fixture.pipeline_of "build") pb.
Proof.
  eexists. eexists. split; [vm_compute; reflexivity|].
  split; [lia|]. split; [left; reflexivity|].
  unfold version_as_claimed. vm_compute. discriminate.
Qed.

(** C2, amended: a build created by [InsertPipelineBuild] with a positive
    supplied version stores its build number as version when it has no
    parent build, or when its parent is in another application and the
    type of the pipeline is [build]; in every other case, that is when
    the parent is in the same application or the type of the pipeline is
    not [build], it stores the supplied version. *)
Theorem InsertPipelineBuild_version :
  forall env project p app applicationPipelineArgs params e version trigger s pb s',
    0 < version ->
    InsertPipelineBuild env project p app applicationPipelineArgs params e version trigger s
      = (Ok pb, s') ->
    PB_Version pb = (if keeps_supplied_version trigger app p then version else PB_BuildNumber pb)
    /\ stored_version s' (PB_ID pb) (PB_Version pb).
Proof.
  intros env project p app apa params e version trigger s pb s' Hpos H.
  apply InsertPipelineBuild_inv in H.
  destruct H as (last & mapVar & row & _ & _ & _ & Hid & Hbn & Hver & _ & _ & Hrows & _).
  split.
  - rewrite Hver, Hbn. unfold resolve_version, keeps_supplied_version.
    destruct (Z.leb_spec version 0) as [Hle|_]; [lia|]. cbn [orb].
    destruct (Trigger_ParentPipelineBuild trigger) as [parent|]; [|reflexivity].
    destruct (App_ID app =? App_ID (PB_Application parent)); cbn [negb andb orb].
    + reflexivity.
    + destruct (String.eqb (Pip_Type p) BuildPipeline); reflexivity.
  - apply columns_In in Hrows. destruct Hrows as (r & Hr & Hc).
    unfold stored_version. apply in_map_iff. exists r. split; [|exact Hr].
    unfold row_columns in Hc. injection Hc as E1 _ _ _ _ E6 _ _.
    rewrite E1, E6, Hver. reflexivity.
Qed.

Lemma InsertPipelineBuild_version_witness :
  exists pb s',
    InsertPipelineBuild Fixture.env_no_vcs Fixture.project (Fixture.pipeline_of "deployment")
      Fixture.application [] [] Fixture.environment 5
      (Fixture.manual (Some Fixture.parent_build) "master" "") (Fixture.store [])
    = (Ok pb, s')
    /\ PB_Version pb
       = (if keeps_supplied_version (Fixture.manual (Some Fixture.parent_build) "master" "")
               Fixture.application (Fixture.pipeline_of "deployment")
          then 5 else PB_BuildNumber pb)
    /\ stored_version s' (PB_ID pb) (PB_Version pb).
Proof.
  eexists. eexists.
  refine ((fun H => conj H (InsertPipelineBuild_version _ _ _ _ _ _ _ _ _ _ _ _ _ H)) _).
  - lia.
  - vm_compute. reflexivity.
Defined.

(** ** The [done] column *)

(** C3, as stated, fails: the row that [InsertPipelineBuild] has just
    inserted has status Building and a [done] column that is neither NULL
    nor the zero time. *)
Lemma done_iff_terminal_counterexample :
  exists pb s' row,
    InsertPipelineBuild Fixture.env_no_vcs Fixture.project (Fixture.pipeline_of "build")
      Fixture.application [] [] Fixture.environment 0
      (Fixture.manual None "master" "") (Fixture.store [])
    = (Ok pb, s')
    /\ In row (t_pipeline_build s')
    /\ pb_id row = PB_ID pb
    /\ pb_status row = StatusBuilding
    /\ ~ done_iff_terminal row.
Proof.
  eexists. eexists. eexists. split; [vm_compute; reflexivity|].
  split; [left; reflexivity|]. split; [reflexivity|]. split; [reflexivity|].
  unfold done_iff_terminal. intros [H _]. vm_compute in H.
  specialize (H eq_refl). discriminate H.
Qed.

(** [UpdatePipelineBuildStatusAndStage] never fails; what it writes. *)
Lemma UpdatePipelineBuildStatusAndStage_runs env pb newStatus s :
  exists pb' s',
    UpdatePipelineBuildStatusAndStage env pb newStatus s = (Ok pb', s')
    /\ t_pipeline_build s'
       = List.map (fun r => if pb_id r =? PB_ID pb
                            then row_set_status_stages_done newStatus
                                   (Marshal encode_Stage (PB_Stages pb)) (Some (PB_Done pb)) r
                            else r) (t_pipeline_build s)
    /\ t_build_log s' = t_build_log s
    /\ t_artifact s' = t_artifact s
    /\ t_pipeline_test_result s' = t_pipeline_test_result s
    /\ PB_ID pb' = PB_ID pb
    /\ PB_Status pb' = newStatus
    /\ PB_Done pb' = PB_Done pb
    /\ PB_Start pb' = PB_Start pb
    /\ PB_Stages pb' = PB_Stages pb
    /\ (PB_Status pb = newStatus -> published s' = published s)
    /\ (PB_Status pb <> newStatus ->
        exists previous, published s'
                         = published s ++ [{| event_build := pb'; event_previous := previous |}]).
Proof.
  unfold UpdatePipelineBuildStatusAndStage, mbind, M_bind, update_where_id, modify, try,
    LoadPipelineBuildsByApplicationAndPipeline, get, lift, mret, M_ret, PublishPipelineBuild.
  set (pb1 := match App_RepositoriesManager (PB_Application pb) with
              | Some _ => _
              | None => _
              end).
  assert (Hpb1 : PB_ID pb1 = PB_ID pb /\ PB_Status pb1 = PB_Status pb /\ PB_Done pb1 = PB_Done pb
                 /\ PB_Start pb1 = PB_Start pb /\ PB_Stages pb1 = PB_Stages pb).
  { subst pb1. unfold reload_repository.
    destruct (env_LoadFromApplicationByID env _) as [rfn rm].
    destruct (App_RepositoriesManager (PB_Application pb));
      [destruct (String.eqb _ "")|]; repeat split; reflexivity. }
  destruct Hpb1 as (Hid & Hst & Hdone & Hstart & Hstages).
  rewrite Hst.
  destruct (String.eqb_spec (PB_Status pb) newStatus) as [Heq|Hne]; cbn [negb].
  - eexists. eexists. split; [reflexivity|].
    cbn. repeat split; try assumption; try reflexivity. intros Hne. contradiction.
  - eexists. eexists. split; [reflexivity|].
    cbn. repeat split; try assumption; try reflexivity.
    + intros Heq. contradiction.
    + intros _. eexists. reflexivity.
Qed.

(** C3, amended: a row inserted by [InsertPipelineBuild] has status
    Building and a [done] column that holds the time of the insertion,
    not NULL; later [UpdatePipelineBuildStatusAndStage] writes into the
    row the new status together with the [Done] of the build that it is
    given, whatever the status. *)
Theorem done_column_follows_the_writer :
  (forall env project p app applicationPipelineArgs params e version trigger s pb s',
      InsertPipelineBuild env project p app applicationPipelineArgs params e version trigger s
        = (Ok pb, s') ->
      exists row,
        In row (t_pipeline_build s') /\ pb_id row = PB_ID pb
        /\ pb_status row = StatusBuilding
        /\ pb_done row = Some (env_now env (S (ticks s))))
  /\ (forall env pb newStatus s,
        exists pb' s',
          UpdatePipelineBuildStatusAndStage env pb newStatus s = (Ok pb', s')
          /\ forall row, In row (t_pipeline_build s') -> pb_id row = PB_ID pb ->
                         pb_status row = newStatus /\ pb_done row = Some (PB_Done pb)).
Proof.
  split.
  - intros env project p app apa params e version trigger s pb s' H.
    apply InsertPipelineBuild_inv in H.
    destruct H as (last & mapVar & row0 & _ & _ & _ & _ & _ & _ & _ & _ & Hrows & _).
    apply columns_In in Hrows. destruct Hrows as (r & Hr & Hc).
    exists r. unfold row_columns in Hc. injection Hc as E1 _ _ _ _ _ E7 E8.
    repeat split; assumption.
  - intros env pb newStatus s.
    destruct (UpdatePipelineBuildStatusAndStage_runs env pb newStatus s)
      as (pb' & s' & Hrun & Hrows & _).
    exists pb', s'. split; [exact Hrun|].
    intros row Hin Hid. rewrite Hrows in Hin. apply in_map_iff in Hin.
    destruct Hin as (r0 & Hr0 & _).
    destruct (pb_id r0 =? PB_ID pb) eqn:E.
    + subst row. split; reflexivity.
    + subst row. apply Z.eqb_neq in E. contradiction.
Qed.


Lemma done_column_follows_the_writer_witness :
  exists pb s',
    InsertPipelineBuild Fixture.env_no_vcs Fixture.project (Fixture.pipeline_of "build")
      Fixture.application [] [] Fixture.environment 0
      (Fixture.manual None "master" "") (Fixture.store [])
    = (Ok pb, s')
    /\ exists row,
         In row (t_pipeline_build s') /\ pb_id row = PB_ID pb
         /\ pb_status row = StatusBuilding
         /\ pb_done row = Some (env_now Fixture.env_no_vcs (S (ticks (Fixture.store [])))).
Proof.
  eexists. eexists.
  refine ((fun H => conj H (proj1 done_column_follows_the_writer _ _ _ _ _ _ _ _ _ _ _ _ H)) _).
  vm_compute. reflexivity.
Defined.

(** ** Restart *)

Lemma log_of_none_app a b l : log_of_none (a ++ b) l = log_of_none a l && log_of_none b l.
Proof.
  unfold log_of_none. rewrite List.map_app, existsb_app, negb_orb. reflexivity.
Qed.

Lemma delete_logs_of_jobs (jobs : list PipelineBuildJob) (wanted : PipelineBuildJob -> bool) s :
  exists s1,
    for_each jobs (fun pbJob => if wanted pbJob then DeleteBuildLogs (Job_ID pbJob) else mret tt) s
    = (Ok tt, s1)
    /\ t_build_log s1 = List.filter (log_of_none (List.filter wanted jobs)) (t_build_log s)
    /\ same_but_logs s s1.
Proof.
  revert s. induction jobs as [|j jobs IH]; intros s.
  - exists s. split; [reflexivity|]. split.
    + cbn. symmetry. apply filter_true.
    + repeat split.
  - cbn [for_each]. unfold mbind, M_bind.
    destruct (wanted j) eqn:E.
    + unfold DeleteBuildLogs at 1, modify.
      destruct (IH (with_build_log
                      (List.filter (fun l => negb (log_pipeline_build_job_id l =? Job_ID j))) s))
        as (s1 & Hrun & Hlogs & Ha & Ht & Hk).
      exists s1. split; [exact Hrun|]. split.
      * rewrite Hlogs. cbn [t_build_log with_build_log List.filter]. rewrite E.
        rewrite filter_filter. apply List.filter_ext. intros l.
        unfold log_of_none. cbn [List.map existsb]. rewrite negb_orb. reflexivity.
      * repeat split; assumption.
    + unfold mret at 1, M_ret.
      destruct (IH s) as (s1 & Hrun & Hlogs & Hsame).
      exists s1. split; [exact Hrun|]. split; [|exact Hsame].
      rewrite Hlogs. cbn [List.filter]. rewrite E. reflexivity.
Qed.

Lemma restart_all_stages_runs stages : forall i s,
  exists s1,
    restart_all_stages i stages s
    = (Ok (List.map (set_Stage_Jobs [])
             (match i, stages with
              | O, first :: others => set_Stage_Status StatusWaiting first :: others
              | _, _ => stages
              end)), s1)
    /\ t_build_log s1 = List.filter (log_of_none (jobs_of stages)) (t_build_log s)
    /\ same_but_logs s s1.
Proof.
  induction stages as [|stage rest IH]; intros i s.
  - exists s. split; [destruct i; reflexivity|]. split.
    + cbn. symmetry. apply filter_true.
    + repeat split.
  - cbn [restart_all_stages]. unfold mbind, M_bind.
    set (stage' := if (i =? 0)%nat then set_Stage_Status StatusWaiting stage else stage).
    assert (Hjobs : Stage_PipelineBuildJobs stage' = Stage_PipelineBuildJobs stage).
    { subst stage'. destruct (i =? 0)%nat; reflexivity. }
    rewrite Hjobs.
    destruct (delete_logs_of_jobs (Stage_PipelineBuildJobs stage) (fun _ => true) s)
      as (s1 & Hrun & Hlogs & Ha & Ht & Hk).
    cbn beta iota in Hrun. rewrite Hrun.
    destruct (IH (S i) s1) as (s2 & Hrun2 & Hlogs2 & Ha2 & Ht2 & Hk2).
    rewrite Hrun2. exists s2. split.
    + unfold mret, M_ret. subst stage'. destruct i; reflexivity.
    + split.
      * rewrite Hlogs2, Hlogs, filter_filter. apply List.filter_ext. intros l.
        unfold jobs_of. cbn [List.map List.concat].
        rewrite log_of_none_app, filter_true. reflexivity.
      * repeat split; congruence.
Qed.

Lemma restart_failed_stages_runs stages : forall s,
  exists s1,
    restart_failed_stages stages s = (Ok (failed_stages_reset stages), s1)
    /\ t_build_log s1
       = List.filter (log_of_none (failed_jobs (jobs_of (failed_stages stages)))) (t_build_log s)
    /\ same_but_logs s s1.
Proof.
  induction stages as [|stage rest IH]; intros s.
  - exists s. split; [reflexivity|]. split.
    + cbn. symmetry. apply filter_true.
    + repeat split.
  - cbn [restart_failed_stages failed_stages_reset List.map]. unfold mbind, M_bind.
    unfold failed_stages. cbn [List.filter].
    destruct (String.eqb (Stage_Status stage) StatusFail) eqn:E; cbn [negb].
    + cbn [Stage_PipelineBuildJobs set_Stage_Status].
      destruct (delete_logs_of_jobs (Stage_PipelineBuildJobs stage)
                  (fun j => String.eqb (Job_Status j) StatusFail) s)
        as (s1 & Hrun & Hlogs & Ha & Ht & Hk).
      rewrite Hrun.
      destruct (IH s1) as (s2 & Hrun2 & Hlogs2 & Ha2 & Ht2 & Hk2).
      rewrite Hrun2. exists s2. split; [reflexivity|]. split.
      * rewrite Hlogs2, Hlogs, filter_filter. apply List.filter_ext. intros l.
        unfold jobs_of, failed_jobs. cbn [List.map List.concat].
        rewrite List.filter_app, log_of_none_app. reflexivity.
      * repeat split; congruence.
    + destruct (IH s) as (s1 & Hrun & Hlogs & Hsame).
      rewrite Hrun. exists s1. split; [reflexivity|]. split; assumption.
Qed.

Lemma delete_artifacts (arts : list ArtifactRow) s :
  exists s1,
    for_each arts (fun a => DeleteArtifact (artifact_id a)) s = (Ok tt, s1)
    /\ t_artifact s1
       = List.filter (fun a => negb (existsb (Z.eqb (artifact_id a)) (List.map artifact_id arts)))
           (t_artifact s)
    /\ t_build_log s1 = t_build_log s
    /\ t_pipeline_test_result s1 = t_pipeline_test_result s.
Proof.
  revert s. induction arts as [|a arts IH]; intros s.
  - exists s. split; [reflexivity|]. split; [|split; reflexivity].
    cbn. symmetry. apply filter_true.
  - cbn [for_each]. unfold mbind, M_bind, DeleteArtifact at 1, modify.
    destruct (IH (with_artifact (List.filter (fun x => negb (artifact_id x =? artifact_id a))) s))
      as (s1 & Hrun & Harts & Hlogs & Htests).
    exists s1. split; [exact Hrun|]. split; [|split; assumption].
    rewrite Harts. cbn [t_artifact with_artifact]. rewrite filter_filter.
    apply List.filter_ext. intros x. cbn [List.map existsb]. rewrite negb_orb. reflexivity.
Qed.

Lemma updated_rows pb newStatus stages done rows row :
  In row (List.map (fun r => if pb_id r =? PB_ID pb
                             then row_set_status_stages_done newStatus stages done r
                             else r) rows) ->
  pb_id row = PB_ID pb ->
  pb_status row = newStatus /\ pb_done row = done /\ pb_stages row = stages.
Proof.
  intros Hin Hid. apply in_map_iff in Hin. destruct Hin as (r0 & Hr0 & _).
  destruct (pb_id r0 =? PB_ID pb) eqn:E; subst row.
  - repeat split.
  - apply Z.eqb_neq in E. contradiction.
Qed.

(** C4, as stated, fails: after the restart of a failed build the log
    of job 11, a job of the failed stage that had itself succeeded, is
    still there. *)
Lemma restart_keeps_logs_counterexample :
  exists pb' s',
    RestartPipelineBuild Fixture.env_no_vcs Fixture.failed_build Fixture.failed_store
    = (Ok pb', s')
    /\ PB_Status Fixture.failed_build = StatusFail
    /\ In (Fixture.job 11 StatusSuccess)
         (jobs_of (failed_stages (PB_Stages Fixture.failed_build)))
    /\ In (Fixture.log_of 11) (t_build_log s')
    /\ t_build_log s'
       <> List.filter (log_of_none (jobs_of (failed_stages (PB_Stages Fixture.failed_build))))
            (t_build_log Fixture.failed_store).
Proof.
  eexists. eexists. split; [vm_compute; reflexivity|].
  split; [reflexivity|]. split; [left; reflexivity|].
  split; [right; left; reflexivity|].
  vm_compute. discriminate.
Qed.

(** C4, amended: [RestartPipelineBuild] on a build whose status is
    Success clears the job list of every stage, resets the first stage to
    Waiting, deletes the logs of the jobs of its stages, its artifacts and
    its test results, clears [Done] and sets the build Building; on a
    build whose status is Fail it resets exactly the stages whose status
    is Fail to Waiting and clears their jobs, deletes the logs of those of
    their jobs whose status is Fail, keeps the other stages, among them
    the successful ones, with their jobs, clears [Done] and sets the
    build Building. *)
Theorem RestartPipelineBuild_restarts env pb s :
  (PB_Status pb = StatusSuccess ->
   exists pb' s',
     RestartPipelineBuild env pb s = (Ok pb', s')
     /\ PB_Stages pb' = all_jobs_cleared_first_waiting (PB_Stages pb)
     /\ t_build_log s' = List.filter (log_of_none (jobs_of (PB_Stages pb))) (t_build_log s)
     /\ (forall a, In a (t_artifact s') -> In a (t_artifact s) /\ artifact_of_build pb a = false)
     /\ t_pipeline_test_result s'
        = List.filter (fun t => negb (test_pipeline_build_id t =? PB_ID pb))
            (t_pipeline_test_result s)
     /\ PB_Done pb' = zero_time
     /\ PB_Status pb' = StatusBuilding
     /\ forall row, In row (t_pipeline_build s') -> pb_id row = PB_ID pb ->
          pb_status row = StatusBuilding /\ pb_done row = Some zero_time
          /\ pb_stages row = Marshal encode_Stage (PB_Stages pb'))
  /\ (PB_Status pb = StatusFail ->
      exists pb' s',
        RestartPipelineBuild env pb s = (Ok pb', s')
        /\ PB_Stages pb' = failed_stages_reset (PB_Stages pb)
        /\ (forall stage, In stage (PB_Stages pb) -> Stage_Status stage = StatusSuccess ->
              In stage (PB_Stages pb'))
        /\ t_build_log s'
           = List.filter (log_of_none (failed_jobs (jobs_of (failed_stages (PB_Stages pb)))))
               (t_build_log s)
        /\ t_artifact s' = t_artifact s
        /\ t_pipeline_test_result s' = t_pipeline_test_result s
        /\ PB_Done pb' = zero_time
        /\ PB_Status pb' = StatusBuilding
        /\ forall row, In row (t_pipeline_build s') -> pb_id row = PB_ID pb ->
             pb_status row = StatusBuilding /\ pb_done row = Some zero_time
             /\ pb_stages row = Marshal encode_Stage (PB_Stages pb')).
Proof.
  split; intros Hstatus; unfold RestartPipelineBuild; rewrite Hstatus.
  - cbn [String.eqb Ascii.eqb Bool.eqb StatusSuccess andb]. unfold mbind at 1, M_bind at 1.
    unfold mbind, M_bind.
    destruct (restart_all_stages_runs (PB_Stages pb) 0%nat s)
      as (s1 & Hrun1 & Hlogs1 & Ha1 & Ht1 & _).
    rewrite Hrun1. unfold Now, LoadArtifactsByBuildNumber, get, mbind, M_bind, mret, M_ret.
    cbn [PB_Pipeline PB_Application PB_BuildNumber PB_Environment set_Stages_Start_Done
         t_artifact with_ticks PB_ID].
    set (s2 := with_ticks (S (ticks s1)) s1).
    set (arts := List.filter _ (t_artifact s1)).
    destruct (delete_artifacts arts s2) as (s3 & Hrun3 & Harts3 & Hlogs3 & Htests3).
    rewrite Hrun3. unfold DeletePipelineTestResults, modify.
    set (pb2 := set_Stages_Start_Done _ _ _ pb).
    set (s4 := with_pipeline_test_result _ s3).
    destruct (UpdatePipelineBuildStatusAndStage_runs env pb2 StatusBuilding s4)
      as (pb' & s' & Hrun & Hrows & Hlogs & Harts & Htests & Hid & Hst & Hdone & _ & Hstages & _).
    rewrite Hrun. exists pb', s'. split; [reflexivity|].
    split.
    { rewrite Hstages. subst pb2. cbn [PB_Stages set_Stages_Start_Done].
      destruct (PB_Stages pb); reflexivity. }
    split.
    { rewrite Hlogs. subst s4. cbn [t_build_log with_pipeline_test_result].
      rewrite Hlogs3. subst s2. cbn [t_build_log with_ticks]. exact Hlogs1. }
    split.
    { intros a Hin. rewrite Harts in Hin. subst s4. cbn [t_artifact with_pipeline_test_result] in Hin.
      rewrite Harts3 in Hin. subst s2. cbn [t_artifact with_ticks] in Hin.
      apply filter_In in Hin. destruct Hin as [Hin Hnot]. rewrite Ha1 in Hin.
      split; [exact Hin|].
      destruct (artifact_of_build pb a) eqn:E; [|reflexivity].
      exfalso. apply negb_true_iff in Hnot.
      assert (Hex : existsb (Z.eqb (artifact_id a)) (List.map artifact_id arts) = true).
      { apply existsb_exists. exists (artifact_id a). split; [|apply Z.eqb_refl].
        apply in_map. subst arts. apply filter_In. split; [rewrite Ha1; exact Hin|].
        exact E. }
      congruence. }
    split.
    { rewrite Htests. subst s4. cbn [t_pipeline_test_result with_pipeline_test_result].
      rewrite Htests3. subst s2. cbn [t_pipeline_test_result with_ticks]. rewrite Ht1.
      reflexivity. }
    split; [rewrite Hdone; reflexivity|]. split; [exact Hst|].
    intros row Hin Hrow. rewrite Hrows in Hin.
    apply (updated_rows pb2) in Hin; [|exact Hrow].
    rewrite Hstages. exact Hin.
  - cbn [String.eqb Ascii.eqb Bool.eqb StatusFail StatusSuccess andb]. unfold mbind at 1, M_bind at 1.
    unfold mbind, M_bind.
    destruct (restart_failed_stages_runs (PB_Stages pb) s) as (s1 & Hrun1 & Hlogs1 & Ha1 & Ht1 & _).
    rewrite Hrun1. unfold mret, M_ret.
    set (pb2 := set_Stages_Start_Done _ _ _ pb).
    destruct (UpdatePipelineBuildStatusAndStage_runs env pb2 StatusBuilding s1)
      as (pb' & s' & Hrun & Hrows & Hlogs & Harts & Htests & Hid & Hst & Hdone & _ & Hstages & _).
    rewrite Hrun. exists pb', s'. split; [reflexivity|].
    split; [rewrite Hstages; reflexivity|].
    split.
    { intros stage Hin Hsuccess. rewrite Hstages. subst pb2.
      cbn [PB_Stages set_Stages_Start_Done]. unfold failed_stages_reset.
      apply in_map_iff. exists stage. split; [|exact Hin].
      rewrite Hsuccess. reflexivity. }
    split; [rewrite Hlogs; exact Hlogs1|].
    split; [congruence|]. split; [congruence|].
    split; [rewrite Hdone; reflexivity|]. split; [exact Hst|].
    intros row Hin Hrow. rewrite Hrows in Hin.
    apply (updated_rows pb2) in Hin; [|exact Hrow].
    rewrite Hstages. exact Hin.
Qed.

Lemma RestartPipelineBuild_restarts_witness :
  exists pb' s',
    RestartPipelineBuild Fixture.env_no_vcs Fixture.failed_build Fixture.failed_store
    = (Ok pb', s')
    /\ PB_Stages pb' = failed_stages_reset (PB_Stages Fixture.failed_build)
    /\ (forall stage, In stage (PB_Stages Fixture.failed_build) ->
          Stage_Status stage = StatusSuccess -> In stage (PB_Stages pb'))
    /\ t_build_log s'
       = List.filter
           (log_of_none (failed_jobs (jobs_of (failed_stages (PB_Stages Fixture.failed_build)))))
           (t_build_log Fixture.failed_store)
    /\ t_artifact s' = t_artifact Fixture.failed_store
    /\ t_pipeline_test_result s' = t_pipeline_test_result Fixture.failed_store
    /\ PB_Done pb' = zero_time
    /\ PB_Status pb' = StatusBuilding
    /\ forall row, In row (t_pipeline_build s') -> pb_id row = PB_ID Fixture.failed_build ->
         pb_status row = StatusBuilding /\ pb_done row = Some zero_time
         /\ pb_stages row = Marshal encode_Stage (PB_Stages pb').
Proof.
  exact (proj2 (RestartPipelineBuild_restarts Fixture.env_no_vcs Fixture.failed_build
                  Fixture.failed_store) eq_refl).
Defined.

(** ** Purge of a branch *)

(** C5: the code at a store where branch [feature] of application 42 has
    a finished build, 1, and a running build, 2.  [DeleteBranchBuilds]
    stops and deletes build 2 and leaves build 1 in the table. *)
Theorem DeleteBranchBuilds_keeps_finished_builds :
  exists pbs s',
    LoadPipelineBuildByApplicationAndBranch 42 "feature" Fixture.feature_store
    = (Ok pbs, Fixture.feature_store)
    /\ List.map (fun pb => (PB_ID pb, PB_Status pb)) pbs
       = [(1, StatusSuccess); (2, StatusBuilding)]
    /\ DeleteBranchBuilds 42 "feature" Fixture.feature_store = (Ok tt, s')
    /\ List.map pb_id (t_pipeline_build s') = [1]
    /\ List.map (fun ev => PB_ID (event_build ev)) (published s') = [2].
Proof.
  eexists. eexists. split; [vm_compute; reflexivity|].
  split; [reflexivity|]. split; [vm_compute; reflexivity|].
  split; reflexivity.
Qed.

(** ** The event of a change of status *)

(** C7: the code at a store where builds 1 and 3 are on branch [main]
    and build 2 on branch [dev], the branch being recorded in the trigger
    columns and in parameter [git.branch].  When build 3 becomes
    successful the event that [UpdatePipelineBuildStatusAndStage]
    publishes carries build 2, of the other branch, as previous build,
    not build 1. *)
Theorem status_event_previous_of_other_branch :
  exists pb1 pb2 pb3 pb' s',
    LoadPipelineBuildsByApplicationAndPipeline 42 7 3 10 "" "" Fixture.two_branches_store
    = (Ok [pb3; pb2; pb1], Fixture.two_branches_store)
    /\ List.map (fun pb => (PB_BuildNumber pb, Trigger_VCSChangesBranch (PB_Trigger pb),
                            ParameterValue (PB_Parameters pb) "git.branch"))
         [pb3; pb2; pb1]
       = [(3, "main", "main"); (2, "dev", "dev"); (1, "main", "main")]
    /\ UpdatePipelineBuildStatusAndStage Fixture.env_no_vcs pb3 StatusSuccess
         Fixture.two_branches_store
       = (Ok pb', s')
    /\ published s' = [{| event_build := pb'; event_previous := Some pb2 |}].
Proof.
  eexists. eexists. eexists. eexists. eexists.
  split; [vm_compute; reflexivity|].
  split; [reflexivity|]. split; [vm_compute; reflexivity|]. reflexivity.
Qed.

(** ** The commits of a build *)

(** The first row of an ORDER BY is one before which no row ranks. *)
Lemma order_by_first {A : Type} (before : A -> A -> bool) :
  (forall a b, before a b = true -> before b a = false) ->
  (forall a b c, before a c = true -> before a b = true \/ before b c = true) ->
  forall l,
    match order_by before l with
    | [] => l = []
    | h :: _ => In h l /\ forall x, In x l -> before x h = false
    end.
Proof.
  intros Hasym Hneg. induction l as [|a l IH]; [reflexivity|].
  cbn [order_by fold_right]. fold (order_by before l).
  destruct (order_by before l) as [|h t] eqn:E.
  - subst l. cbn. split; [auto|]. intros x [Hx|[]]. subst x.
    destruct (before a a) eqn:Ex; [|reflexivity]. rewrite (Hasym _ _ Ex) in Ex. discriminate.
  - destruct IH as [Hin Hmax]. cbn [insert_sorted].
    destruct (before h a) eqn:Eha.
    + split; [right; exact Hin|].
      intros x [Hx|Hx]; [subst x; apply Hasym; exact Eha|apply Hmax; exact Hx].
    + split; [left; reflexivity|]. intros x [Hx|Hx].
      * subst x. destruct (before a a) eqn:Ex; [|reflexivity].
        rewrite (Hasym _ _ Ex) in Ex. discriminate.
      * destruct (before x a) eqn:Exa; [|reflexivity].
        destruct (Hneg x h a Exa) as [H|H]; [|congruence].
        rewrite (Hmax x Hx) in H. discriminate.
Qed.

Lemma previous_order_asymmetric a b :
  by_previous_build_number_desc a b = true -> by_previous_build_number_desc b a = false.
Proof.
  unfold by_previous_build_number_desc.
  destruct (snd a) as [pa|], (snd b) as [pb|]; try reflexivity; try discriminate.
  intros H. apply Z.ltb_lt in H. apply Z.ltb_ge. lia.
Qed.

Lemma previous_order_negatively_transitive a b c :
  by_previous_build_number_desc a c = true ->
  by_previous_build_number_desc a b = true \/ by_previous_build_number_desc b c = true.
Proof.
  unfold by_previous_build_number_desc.
  destruct (snd a) as [pa|], (snd b) as [pb|], (snd c) as [pc|]; try discriminate; auto.
  intros H. apply Z.ltb_lt in H.
  destruct (Z.ltb_spec (pb_build_number pb) (pb_build_number pa)); [left; reflexivity|].
  right. apply Z.ltb_lt. lia.
Qed.

(** [CurrentAndPreviousPipelineBuildNumberAndHash] reads the store only;
    the build it calls previous is, among the builds of the same
    pipeline, application and environment with a smaller number and the
    branch of the current build, one with the highest number. *)
Lemma previous_build_on_branch s buildNumber pipelineID applicationID environmentID cur prev s' :
  CurrentAndPreviousPipelineBuildNumberAndHash buildNumber pipelineID applicationID environmentID s
    = (Ok (cur, prev), s') ->
  s' = s
  /\ exists c,
       In c (t_pipeline_build s) /\ pb_build_number c = buildNumber
       /\ triple_is pipelineID applicationID environmentID c = true
       /\ cur = {| BNH_BuildNumber := pb_build_number c;
                   BNH_Hash := null_string (pb_vcs_changes_hash c);
                   BNH_Branch := null_string (pb_vcs_changes_branch c) |}
       /\ match prev with
          | None =>
              forall p, In p (t_pipeline_build s) ->
                        triple_is pipelineID applicationID environmentID p = true ->
                        pb_build_number p < buildNumber ->
                        sql_eq (pb_vcs_changes_branch p) (pb_vcs_changes_branch c) = false
          | Some pr =>
              exists p,
                In p (t_pipeline_build s)
                /\ triple_is pipelineID applicationID environmentID p = true
                /\ pb_build_number p < buildNumber
                /\ sql_eq (pb_vcs_changes_branch p) (pb_vcs_changes_branch c) = true
                /\ pr = {| BNH_BuildNumber := pb_build_number p;
                           BNH_Hash := null_string (pb_vcs_changes_hash p);
                           BNH_Branch := null_string (pb_vcs_changes_branch p) |}
                /\ forall p', In p' (t_pipeline_build s) ->
                      triple_is pipelineID applicationID environmentID p' = true ->
                      pb_build_number p' < buildNumber ->
                      sql_eq (pb_vcs_changes_branch p') (pb_vcs_changes_branch c) = true ->
                      pb_build_number p' <= pb_build_number p
          end.
Proof.
  unfold CurrentAndPreviousPipelineBuildNumberAndHash, mbind, M_bind, get, fail, mret, M_ret.
  unfold current_and_previous_rows.
  set (current :=
         List.filter (fun r => (pb_build_number r =? buildNumber)
                               && triple_is pipelineID applicationID environmentID r)
           (t_pipeline_build s)).
  set (previous :=
         order_by by_build_number_desc
           (List.filter (fun r => (pb_build_number r <? buildNumber)
                                  && triple_is pipelineID applicationID environmentID r)
              (t_pipeline_build s))).
  set (matches := fun c : PipelineBuildRow =>
                    List.filter (fun p => (pb_pipeline_id p =? pb_pipeline_id c)
                                          && sql_eq (pb_vcs_changes_branch p)
                                               (pb_vcs_changes_branch c)) previous).
  match goal with
  | |- context [limit 1 (order_by _ (List.filter ?f ?j))] =>
      set (joined_rows := j); set (selected_rows := List.filter f joined_rows)
  end.
  pose proof (order_by_first by_previous_build_number_desc previous_order_asymmetric
                previous_order_negatively_transitive selected_rows) as Hfirst.
  assert (Hprevious : forall p, In p previous <->
            In p (t_pipeline_build s) /\ pb_build_number p < buildNumber
            /\ triple_is pipelineID applicationID environmentID p = true).
  { intros p. subst previous. rewrite order_by_In, filter_In, andb_true_iff, Z.ltb_lt. tauto. }
  assert (Hjoined : forall c o, In (c, o) joined_rows ->
            In c current
            /\ match o with
               | None => matches c = []
               | Some p => In p (matches c)
               end).
  { intros c o Hin. subst joined_rows. apply list_elem_of_In in Hin.
    apply list_elem_of_bind in Hin. destruct Hin as (c0 & Hin & Hc0).
    apply list_elem_of_In in Hc0. apply list_elem_of_In in Hin. fold (matches c0) in Hin.
    destruct (matches c0) as [|m ms] eqn:Em.
    - destruct Hin as [Hin|[]]. injection Hin as <- <-. split; [exact Hc0|exact Em].
    - apply in_map_iff in Hin. destruct Hin as (p & Hp & Hin). injection Hp as <- <-.
      split; [exact Hc0|]. rewrite Em. exact Hin. }
  assert (Hback : forall c p, In c current -> In p (matches c) -> In (c, Some p) selected_rows).
  { intros c p Hc Hp. subst selected_rows. apply filter_In. split.
    - subst joined_rows. apply list_elem_of_In. apply list_elem_of_bind. exists c.
      split; [|apply list_elem_of_In; exact Hc]. apply list_elem_of_In. fold (matches c).
      destruct (matches c) as [|m ms] eqn:Em; [destruct Hp|].
      apply (in_map (fun p0 : PipelineBuildRow => (c, Some p0))). exact Hp.
    - cbn [fst]. subst current. apply filter_In in Hc. destruct Hc as [_ Hc].
      apply andb_true_iff in Hc. tauto. }
  destruct (order_by by_previous_build_number_desc selected_rows) as [|[c o] rest] eqn:E.
  - cbn. intros H. discriminate.
  - destruct Hfirst as [Hin Hmax]. unfold limit. cbn [Z.to_nat Pos.to_nat Pos.iter_op firstn].
    subst selected_rows. apply filter_In in Hin. destruct Hin as [Hin _].
    apply Hjoined in Hin. destruct Hin as [Hc Ho].
    assert (Hc' := Hc). subst current. apply filter_In in Hc'. destruct Hc' as [Hc1 Hc2].
    apply andb_true_iff in Hc2. destruct Hc2 as [Hbn Htriple]. apply Z.eqb_eq in Hbn.
    assert (Hpip : forall p, triple_is pipelineID applicationID environmentID p = true ->
                             (pb_pipeline_id p =? pb_pipeline_id c) = true).
    { intros p Hp. unfold triple_is in *. apply andb_true_iff in Hp. destruct Hp as [Hp _].
      apply andb_true_iff in Hp. destruct Hp as [Hp _]. apply Z.eqb_eq in Hp.
      apply andb_true_iff in Htriple. destruct Htriple as [Ht _].
      apply andb_true_iff in Ht. destruct Ht as [Ht _]. apply Z.eqb_eq in Ht.
      apply Z.eqb_eq. congruence. }
    destruct o as [p|]; intros H; injection H as <- <- <-; (split; [reflexivity|]);
      exists c; (split; [exact Hc1|]); (split; [exact Hbn|]); (split; [exact Htriple|]);
      (split; [reflexivity|]).
    + unfold matches in Ho. apply filter_In in Ho. destruct Ho as [Hp Hcond].
      apply Hprevious in Hp. destruct Hp as (Hp1 & Hp2 & Hp3).
      apply andb_true_iff in Hcond. destruct Hcond as [_ Hbranch].
      exists p. repeat (split; [assumption|]). split; [reflexivity|].
      intros p' Hp'1 Hp'2 Hp'3 Hp'4.
      assert (Hsel : In (c, Some p') (List.filter
                (fun cp : PipelineBuildRow * option PipelineBuildRow =>
                   pb_build_number (fst cp) =? buildNumber) joined_rows)).
      { apply Hback; [exact Hc|]. unfold matches. apply filter_In. split.
        - apply Hprevious. tauto.
        - rewrite (Hpip p' Hp'2), Hp'4. reflexivity. }
      apply Hmax in Hsel. unfold by_previous_build_number_desc in Hsel. cbn [snd] in Hsel.
      apply Z.ltb_ge in Hsel. exact Hsel.
    + intros p Hp1 Hp2 Hp3.
      destruct (sql_eq (pb_vcs_changes_branch p) (pb_vcs_changes_branch c)) eqn:Ebr;
        [|reflexivity].
      exfalso. assert (Hm : In p (matches c)).
      { unfold matches. apply filter_In. split.
        - apply Hprevious. tauto.
        - rewrite (Hpip p Hp2), Ebr. reflexivity. }
      rewrite Ho in Hm. destruct Hm.
Qed.

Lemma commits_between_amended client app cur prev res :
  commits_as_amended client app cur prev res ->
  commits_between client app cur prev = Ok res.
Proof.
  intros H. unfold commits_between. destruct H as [prev Hsame | prev commits Hc Hp Hne Hcommits
    | commits Hc Hcommits | prev br cm Hc Hprev Hbr Hlatest Hcm].
  - rewrite Hsame, String.eqb_refl. reflexivity.
  - rewrite (eqb_false_of_neq (BNH_Hash cur) (BNH_Hash prev)) by congruence.
    rewrite (eqb_false_of_neq _ _ Hc), (eqb_false_of_neq _ _ Hp). cbn [negb andb].
    rewrite Hcommits. reflexivity.
  - rewrite (eqb_false_of_neq _ _ Hc). cbn [negb]. rewrite Hcommits. reflexivity.
  - assert (Hsame : match prev with
                    | Some pr => String.eqb (BNH_Hash cur) (BNH_Hash pr)
                    | None => false
                    end = false).
    { destruct prev as [pr|]; [|reflexivity]. apply eqb_false_of_neq.
      rewrite Hc. intros E. apply (Hprev pr eq_refl). symmetry. exact E. }
    rewrite Hsame. rewrite Hc. cbn [String.eqb negb andb].
    destruct prev; rewrite Hbr, (eqb_false_of_neq _ _ Hlatest), Hcm; reflexivity.
Qed.

(** C6, as stated, fails: the current build and the previous build on
    its branch both have an empty hash; the repositories manager knows
    the branch and its latest commit, and the list is empty, not that
    commit alone. *)
Lemma latest_commit_counterexample :
  exists cur prev br cm s',
    CurrentAndPreviousPipelineBuildNumberAndHash 2 7 42 3 Fixture.no_hash_store
    = (Ok (cur, Some prev), Fixture.no_hash_store)
    /\ BNH_Hash cur = ""
    /\ Branch Fixture.vcs_client (App_RepositoryFullname Fixture.application_vcs) (BNH_Branch cur)
       = Ok (Some br)
    /\ Commit Fixture.vcs_client (App_RepositoryFullname Fixture.application_vcs)
         (Branch_LatestCommit br) = Ok cm
    /\ UpdatePipelineBuildCommits Fixture.env_vcs Fixture.project (Fixture.pipeline_of "build")
         Fixture.application_vcs Fixture.environment
         (Fixture.build 2 2 StatusBuilding "main" []) Fixture.no_hash_store
       = (Ok [], s')
    /\ [] <> [cm].
Proof.
  eexists. eexists. eexists. eexists. eexists.
  split; [vm_compute; reflexivity|]. split; [reflexivity|].
  split; [reflexivity|]. split; [reflexivity|].
  split; [vm_compute; reflexivity|]. discriminate.
Qed.

(** C6, amended: [UpdatePipelineBuildCommits] computes the commit list of
    the build from the current build and the previous build on the same
    branch: when a previous build exists and its hash equals the current
    hash the list is empty; when both hashes are known and differ the
    list is the range of commits that the repositories manager gives
    between the previous and the current hash; when there is no previous
    build and the current hash is not empty, the commits up to the current
    hash; when the current hash is empty, the previous build, if any,
    has a hash, and the repositories manager knows the branch and its
    latest commit, that commit alone; the list is written into the
    commits column of the rows of the build. *)
Theorem UpdatePipelineBuildCommits_cases :
  forall env p pip app e pb s rm client cur prev res,
    App_RepositoriesManager app = Some rm ->
    env_AuthorizedClient env (Project_Key p) (RM_Name rm) = Ok client ->
    CurrentAndPreviousPipelineBuildNumberAndHash
      (PB_BuildNumber pb) (Pip_ID pip) (App_ID app) (Env_ID e) s = (Ok (cur, prev), s) ->
    commits_as_amended client app cur prev res ->
    exists s',
      UpdatePipelineBuildCommits env p pip app e pb s = (Ok res, s')
      /\ t_pipeline_build s'
         = List.map (fun r => if pb_id r =? PB_ID pb
                              then row_set_commits (Marshal encode_Commit res) r
                              else r) (t_pipeline_build s).
Proof.
  intros env p pip app e pb s rm client cur prev res Hrm Hclient Hcp Hcase.
  unfold UpdatePipelineBuildCommits. rewrite Hrm, Hclient.
  unfold wrap, mbind, M_bind, mret, M_ret, wrapping. rewrite Hcp.
  cbn [fst snd]. unfold lift. rewrite (commits_between_amended _ _ _ _ _ Hcase).
  unfold updatePipelineBuildCommits, update_where_id, modify.
  eexists. split; reflexivity.
Qed.

Lemma UpdatePipelineBuildCommits_cases_witness :
  exists s',
    UpdatePipelineBuildCommits Fixture.env_vcs Fixture.project (Fixture.pipeline_of "build")
      Fixture.application_vcs Fixture.environment
      (Fixture.build 2 2 StatusBuilding "main" []) Fixture.two_hashes_store
    = (Ok [Fixture.commit_of "b"], s')
    /\ t_pipeline_build s'
       = List.map (fun r => if pb_id r =? PB_ID (Fixture.build 2 2 StatusBuilding "main" [])
                            then row_set_commits
                                   (Marshal encode_Commit [Fixture.commit_of "b"]) r
                            else r) (t_pipeline_build Fixture.two_hashes_store).
Proof.
  apply (UpdatePipelineBuildCommits_cases Fixture.env_vcs Fixture.project
           (Fixture.pipeline_of "build") Fixture.application_vcs Fixture.environment
           (Fixture.build 2 2 StatusBuilding "main" []) Fixture.two_hashes_store
           {| RM_Name := "git" |} Fixture.vcs_client
           {| BNH_BuildNumber := 2; BNH_Hash := "b"; BNH_Branch := "main" |}
           (Some {| BNH_BuildNumber := 1; BNH_Hash := "a"; BNH_Branch := "main" |})).
  - reflexivity.
  - reflexivity.
  - vm_compute. reflexivity.
  - apply both_hashes_known; [discriminate|discriminate|discriminate|reflexivity].
Defined.

(** ** The parameters of a build *)

Lemma has_key_AddParameter params name type value n :
  has_key (AddParameter params name type value) n <-> has_key params n \/ n = name.
Proof.
  unfold has_key, AddParameter. rewrite List.map_app, in_app_iff. cbn.
  intuition.
Qed.

Lemma scan_git_parameters_found params : forall found hashFound branch hash,
  fst (fst (fst (fold_left
    (fun (acc : bool * bool * string * string) p =>
       let '(found, hashFound, br, h) := acc in
       let '(found, br) :=
         if String.eqb (Param_Name p) "git.branch" && negb (String.eqb (Param_Value p) "")
         then (true, Param_Value p) else (found, br) in
       let '(hashFound, h) :=
         if String.eqb (Param_Name p) "git.hash" && negb (String.eqb (Param_Value p) "")
         then (true, Param_Value p) else (hashFound, h) in
       (found, hashFound, br, h))
    params (found, hashFound, branch, hash)))) = true ->
  found = true \/ has_key params "git.branch".
Proof.
  induction params as [|p params IH]; intros found hashFound branch hash H.
  - left. exact H.
  - cbn [fold_left] in H.
    destruct (String.eqb (Param_Name p) "git.branch" && negb (String.eqb (Param_Value p) "")) eqn:E1;
    destruct (String.eqb (Param_Name p) "git.hash" && negb (String.eqb (Param_Value p) "")) eqn:E2;
    apply IH in H.
    all: try (apply andb_true_iff in E1; destruct E1 as [E1 _]; apply String.eqb_eq in E1;
              right; left; exact E1).
    all: destruct H as [H|H]; [left; exact H | right; right; exact H].
Qed.

Lemma git_parameters_keys client app params trigger :
  let '(params', _) := git_parameters client app params trigger in
  (forall n, has_key params n -> has_key params' n)
  /\ has_key params' "git.branch"
  /\ (Trigger_VCSChangesBranch trigger <> "" -> has_key params' "git.hash").
Proof.
  unfold git_parameters.
  destruct (String.eqb_spec (Trigger_VCSChangesBranch trigger) "") as [Hb|Hb]; cbn [negb].
  - destruct (default_branch_and_hashes client app) as [defautlBranch lastGitHash].
    destruct (scan_git_parameters params _ _) as [[[found hashFound] branch] hash] eqn:Escan.
    assert (Hfound : found = true -> has_key params "git.branch").
    { intros ->. unfold scan_git_parameters in Escan.
      pose proof (scan_git_parameters_found params false false
                    (Trigger_VCSChangesBranch trigger) (Trigger_VCSChangesHash trigger)) as H.
      rewrite Escan in H. destruct (H eq_refl) as [H'|H']; [discriminate|exact H']. }
    destruct found; cbn [negb].
    + destruct (negb hashFound && negb (String.eqb (hash_of lastGitHash branch) "")).
      * split; [|split].
        -- intros n Hn. apply has_key_AddParameter. left. exact Hn.
        -- apply has_key_AddParameter. left. apply Hfound. reflexivity.
        -- intros Hne. contradiction.
      * split; [|split]; [tauto|apply Hfound; reflexivity|intros Hne; contradiction].
    + destruct (negb (String.eqb (hash_of lastGitHash defautlBranch) "")).
      * split; [|split].
        -- intros n Hn. apply has_key_AddParameter. left. apply has_key_AddParameter. left. exact Hn.
        -- apply has_key_AddParameter. left. apply has_key_AddParameter. right. reflexivity.
        -- intros Hne. contradiction.
      * split; [|split].
        -- intros n Hn. apply has_key_AddParameter. left. exact Hn.
        -- apply has_key_AddParameter. right. reflexivity.
        -- intros Hne. contradiction.
  - split; [|split].
    + intros n Hn. apply has_key_AddParameter. left. apply has_key_AddParameter. left. exact Hn.
    + apply has_key_AddParameter. left. apply has_key_AddParameter. right. reflexivity.
    + intros _. apply has_key_AddParameter. right. reflexivity.
Qed.

Lemma build_parameters_keys client p app e buildNumber version params trigger params' trigger' :
  build_parameters client p app e buildNumber version params trigger = Ok (params', trigger') ->
  (forall n, In n keys_of_every_build -> has_key params' n)
  /\ (Trigger_VCSChangesBranch trigger <> "" -> has_key params' "git.hash")
  /\ (forall n, has_key params n -> has_key params' n).
Proof.
  unfold build_parameters. intros H.
  set (params0 := canonical_parameters params p app e buildNumber version) in *.
  assert (H0 : forall n, (has_key params n \/ In n ["cds.pipeline"; "cds.project"; "cds.application";
                            "cds.environment"; "cds.buildNumber"; "cds.version"]) ->
                         has_key params0 n).
  { intros n Hn. subst params0. unfold canonical_parameters.
    repeat rewrite has_key_AddParameter. cbn [In] in Hn. intuition. }
  destruct (repository_parameters client app params0) as [params1|err] eqn:E1; [|discriminate].
  assert (H1 : forall n, has_key params0 n -> has_key params1 n).
  { intros n Hn. unfold repository_parameters in E1. destruct client as [c|].
    - destruct (RepoByFullname c _); [|discriminate]. inversion E1; subst params1.
      repeat rewrite has_key_AddParameter. auto.
    - inversion E1; subst params1. exact Hn. }
  set (params2 := triggered_by_parameters params1 trigger) in *.
  assert (H2 : forall n, has_key params1 n -> has_key params2 n).
  { intros n Hn. subst params2. unfold triggered_by_parameters.
    destruct (Trigger_TriggeredBy trigger); [|exact Hn].
    repeat rewrite has_key_AddParameter. auto. }
  pose proof (git_parameters_keys client app params2 trigger) as H3.
  destruct (git_parameters client app params2 trigger) as [params3 trigger3].
  destruct H3 as (H3 & Hbranch & Hhash).
  assert (H4 : forall n, has_key params3 n -> has_key params' n).
  { intros n Hn. unfold commit_parameters in H. destruct client as [c|].
    - destruct (negb (String.eqb (Trigger_VCSChangesHash trigger3) "")).
      + destruct (Commit c _ _); inversion H; subst; [|exact Hn].
        repeat rewrite has_key_AddParameter. auto.
      + inversion H; subst. exact Hn.
    - inversion H; subst. exact Hn. }
  split; [|split].
  - intros n Hn. cbn [keys_of_every_build In] in Hn.
    destruct Hn as [<-|[<-|[<-|[<-|[<-|[<-|[<-|[]]]]]]]].
    all: try (apply H4, H3, H2, H1, H0; right; cbn [In]; tauto).
    apply H4. exact Hbranch.
  - intros Hne. apply H4, Hhash, Hne.
  - intros n Hn. apply H4, H3, H2, H1, H0. left. exact Hn.
Qed.

Lemma has_key_AddParameter_other params name type value n :
  n <> name -> (has_key (AddParameter params name type value) n <-> has_key params n).
Proof. intros Hne. rewrite has_key_AddParameter. tauto. Qed.

Lemma scan_git_parameters_hashFound params : forall found hashFound branch hash,
  snd (fst (fst (fold_left
    (fun (acc : bool * bool * string * string) p =>
       let '(found, hashFound, br, h) := acc in
       let '(found, br) :=
         if String.eqb (Param_Name p) "git.branch" && negb (String.eqb (Param_Value p) "")
         then (true, Param_Value p) else (found, br) in
       let '(hashFound, h) :=
         if String.eqb (Param_Name p) "git.hash" && negb (String.eqb (Param_Value p) "")
         then (true, Param_Value p) else (hashFound, h) in
       (found, hashFound, br, h))
    params (found, hashFound, branch, hash)))) = true ->
  hashFound = true \/ has_key params "git.hash".
Proof.
  induction params as [|p params IH]; intros found hashFound branch hash H.
  - left. exact H.
  - cbn [fold_left] in H.
    destruct (String.eqb (Param_Name p) "git.branch" && negb (String.eqb (Param_Value p) "")) eqn:E1;
    destruct (String.eqb (Param_Name p) "git.hash" && negb (String.eqb (Param_Value p) "")) eqn:E2;
    apply IH in H.
    all: try (apply andb_true_iff in E2; destruct E2 as [E2 _]; apply String.eqb_eq in E2;
              right; left; exact E2).
    all: destruct H as [H|H]; [left; exact H | right; right; exact H].
Qed.

Lemma git_parameters_hash client app params trigger :
  has_key (fst (git_parameters client app params trigger)) "git.hash"
  <-> has_key params "git.hash"
      \/ Trigger_VCSChangesBranch trigger <> ""
      \/ latest_commit_of client app
           (Trigger_VCSChangesBranch (snd (git_parameters client app params trigger))) <> "".
Proof.
  unfold git_parameters, latest_commit_of.
  destruct (String.eqb_spec (Trigger_VCSChangesBranch trigger) "") as [Hb|Hb]; cbn [negb].
  - destruct (default_branch_and_hashes client app) as [defautlBranch lastGitHash]. cbn [snd].
    destruct (scan_git_parameters params _ _) as [[[found hashFound] branch] hash] eqn:Escan.
    assert (Hhash : hashFound = true -> has_key params "git.hash").
    { intros ->. unfold scan_git_parameters in Escan.
      pose proof (scan_git_parameters_hashFound params false false
                    (Trigger_VCSChangesBranch trigger) (Trigger_VCSChangesHash trigger)) as H.
      rewrite Escan in H. destruct (H eq_refl) as [H'|H']; [discriminate|exact H']. }
    destruct found; cbn [negb].
    + destruct hashFound; cbn [negb andb].
      * cbn [fst snd Trigger_VCSChangesBranch set_Trigger_VCS]. specialize (Hhash eq_refl). tauto.
      * destruct (String.eqb_spec (hash_of lastGitHash branch) "") as [E|E]; cbn [negb fst snd
          Trigger_VCSChangesBranch set_Trigger_VCS].
        -- rewrite E. tauto.
        -- rewrite has_key_AddParameter. tauto.
    + destruct (String.eqb_spec (hash_of lastGitHash defautlBranch) "") as [E|E]; cbn [negb fst snd
        Trigger_VCSChangesBranch set_Trigger_VCS].
      * rewrite E. rewrite has_key_AddParameter_other by discriminate. tauto.
      * rewrite has_key_AddParameter. tauto.
  - cbn [fst snd]. rewrite has_key_AddParameter. tauto.
Qed.

Lemma build_parameters_hash client p app e buildNumber version params trigger params' trigger' :
  build_parameters client p app e buildNumber version params trigger = Ok (params', trigger') ->
  (has_key params' "git.hash"
   <-> has_key params "git.hash"
       \/ Trigger_VCSChangesBranch trigger <> ""
       \/ latest_commit_of client app (Trigger_VCSChangesBranch trigger') <> "").
Proof.
  unfold build_parameters. intros H.
  set (params0 := canonical_parameters params p app e buildNumber version) in *.
  assert (H0 : has_key params0 "git.hash" <-> has_key params "git.hash").
  { subst params0. unfold canonical_parameters.
    repeat rewrite has_key_AddParameter_other by discriminate. tauto. }
  destruct (repository_parameters client app params0) as [params1|err] eqn:E1; [|discriminate].
  assert (H1 : has_key params1 "git.hash" <-> has_key params0 "git.hash").
  { unfold repository_parameters in E1. destruct client as [c|].
    - destruct (RepoByFullname c _); [|discriminate]. injection E1 as <-.
      repeat rewrite has_key_AddParameter_other by discriminate. tauto.
    - injection E1 as <-. tauto. }
  set (params2 := triggered_by_parameters params1 trigger) in *.
  assert (H2 : has_key params2 "git.hash" <-> has_key params1 "git.hash").
  { subst params2. unfold triggered_by_parameters.
    destruct (Trigger_TriggeredBy trigger); [|tauto].
    repeat rewrite has_key_AddParameter_other by discriminate. tauto. }
  pose proof (git_parameters_hash client app params2 trigger) as H3.
  destruct (git_parameters client app params2 trigger) as [params3 trigger3].
  cbn [fst snd] in H3.
  assert (H4 : (has_key params' "git.hash" <-> has_key params3 "git.hash")
               /\ Trigger_VCSChangesBranch trigger' = Trigger_VCSChangesBranch trigger3).
  { unfold commit_parameters in H. destruct client as [c|].
    - destruct (negb (String.eqb (Trigger_VCSChangesHash trigger3) "")).
      + destruct (Commit c _ _); injection H as <- <-.
        * repeat rewrite has_key_AddParameter_other by discriminate. split; [tauto|reflexivity].
        * split; [tauto|reflexivity].
      + injection H as <- <-. split; [tauto|reflexivity].
    - injection H as <- <-. split; [tauto|reflexivity]. }
  destruct H4 as [H4 Hbranch]. rewrite Hbranch. tauto.
Qed.

(** C8, as stated, fails: without repositories manager, without branch
    in the trigger and without parameter of the caller, the build has no
    parameter [git.hash], neither in memory nor in its row. *)
Lemma canonical_keys_counterexample :
  exists pb s',
    InsertPipelineBuild Fixture.env_no_vcs Fixture.project (Fixture.pipeline_of "build")
      Fixture.application [] [] Fixture.environment 0
      (Fixture.manual None "" "") (Fixture.store [])
    = (Ok pb, s')
    /\ In "git.hash" canonical_keys
    /\ ~ has_key (PB_Parameters pb) "git.hash"
    /\ forall row params, In row (t_pipeline_build s') ->
         Unmarshal decode_Param (pb_args row) = Ok params -> ~ has_key params "git.hash".
Proof.
  eexists. eexists. split; [vm_compute; reflexivity|].
  split; [cbn; tauto|]. split.
  - vm_compute. intuition discriminate.
  - intros row params [<-|[]] H. vm_compute in H. inversion H; subst params.
    vm_compute. intuition discriminate.
Qed.

(** C8, amended: every build created by [InsertPipelineBuild] has a
    parameter list that contains the keys cds.pipeline, cds.project,
    cds.application, cds.environment, cds.buildNumber, cds.version and
    git.branch, whether or not a repositories manager is bound; it
    contains git.hash exactly when the caller supplied a parameter of
    that name, or the trigger names a branch, or the repositories manager
    reports a latest commit for the branch of the build. *)
Theorem InsertPipelineBuild_canonical_keys :
  forall env project p app applicationPipelineArgs params e version trigger s pb s',
    InsertPipelineBuild env project p app applicationPipelineArgs params e version trigger s
      = (Ok pb, s') ->
    (forall key, In key keys_of_every_build -> has_key (PB_Parameters pb) key)
    /\ (has_key (PB_Parameters pb) "git.hash"
        <-> has_key params "git.hash"
            \/ Trigger_VCSChangesBranch trigger <> ""
            \/ latest_commit_of (repository_client env project app) app
                 (Trigger_VCSChangesBranch (PB_Trigger pb)) <> "").
Proof.
  intros env project p app apa params e version trigger s pb s' H.
  apply InsertPipelineBuild_inv in H.
  destruct H as (last & mapVar & row & _ & Hbuilt & _).
  split.
  - apply build_parameters_keys in Hbuilt. destruct Hbuilt as (H1 & _). exact H1.
  - eapply build_parameters_hash. exact Hbuilt.
Qed.

Lemma InsertPipelineBuild_canonical_keys_witness :
  exists pb s',
    InsertPipelineBuild Fixture.env_no_vcs Fixture.project (Fixture.pipeline_of "build")
      Fixture.application [] [] Fixture.environment 0
      (Fixture.manual None "main" "abc") (Fixture.store [])
    = (Ok pb, s')
    /\ (forall key, In key keys_of_every_build -> has_key (PB_Parameters pb) key)
    /\ (has_key (PB_Parameters pb) "git.hash"
        <-> has_key [] "git.hash"
            \/ Trigger_VCSChangesBranch (Fixture.manual None "main" "abc") <> ""
            \/ latest_commit_of
                 (repository_client Fixture.env_no_vcs Fixture.project Fixture.application)
                 Fixture.application (Trigger_VCSChangesBranch (PB_Trigger pb)) <> "").
Proof.
  eexists. eexists.
  refine ((fun H => conj H (InsertPipelineBuild_canonical_keys _ _ _ _ _ _ _ _ _ _ _ _ H)) _).
  vm_compute. reflexivity.
Defined.

(** ** The arguments that are stored *)



Lemma last_named_Some_iff name params :
  (exists p, last_named name params = Some p) <-> In name (List.map Param_Name params).
Proof.
  unfold last_named. induction params as [|q params IH] using rev_ind.
  - cbn. split; [intros [p H]; discriminate|tauto].
  - rewrite fold_left_app, List.map_app, in_app_iff. cbn [fold_left List.map In].
    destruct (String.eqb_spec (Param_Name q) name) as [E|Hne].
    + split; [tauto|]. intros _. eauto.
    + rewrite IH. tauto.
Qed.









(** ** Reading a row back *)

Lemma Unmarshal_invalid {A : Type} (decode : Json.value -> option A) data :
  Json.valid data = false -> Unmarshal decode data = Err ErrJSONSyntax.
Proof.
  unfold Json.valid, Unmarshal. destruct (Json.parse data); [discriminate|reflexivity].
Qed.

(** A row that does not scan makes the whole Load fail. *)
Lemma scan_rows_error rows : forall pbResult err,
  In pbResult rows -> scanPipelineBuild pbResult = Err err ->
  exists err', scan_rows rows = Err err'.
Proof.
  induction rows as [|r rows IH]; intros pbResult err Hin Hscan; [destruct Hin|].
  cbn [scan_rows]. destruct Hin as [->|Hin].
  - rewrite Hscan. eauto.
  - destruct (scanPipelineBuild r); [|eauto].
    destruct (IH pbResult err Hin Hscan) as [err' ->]. eauto.
Qed.

(** C10: [scanPipelineBuild], through which every Load function reads
    its rows, returns an error when the args column is not valid JSON and
    when the stages column is not valid JSON, and then the Load function
    fails as well; a commits column that is the empty string is not
    decoded: the row is read as a build without commits, although the
    empty string is no JSON text. *)
Theorem scanPipelineBuild_decoding :
  forall pbResult : PipelineBuildDbResult,
    (Json.valid (Res_Args pbResult) = false ->
     scanPipelineBuild pbResult
     = Err (Wrapped ErrJSONSyntax "scanPipelineBuild> Unable to Unmarshal parameter"))
    /\ (Json.valid (Res_Stages pbResult) = false ->
        exists err, scanPipelineBuild pbResult = Err err)
    /\ (forall rows,
          In pbResult rows ->
          Json.valid (Res_Args pbResult) = false \/ Json.valid (Res_Stages pbResult) = false ->
          exists err, scan_rows rows = Err err)
    /\ (Res_Commits pbResult = "" ->
        forall parameters stages,
          Unmarshal decode_Param (Res_Args pbResult) = Ok parameters ->
          Unmarshal decode_Stage (Res_Stages pbResult) = Ok stages ->
          exists pb, scanPipelineBuild pbResult = Ok pb /\ PB_Commits pb = [])
    /\ Json.valid "" = false
    /\ Unmarshal decode_Commit "" = Err ErrJSONSyntax.
Proof.
  intros pbResult.
  assert (Hargs : Json.valid (Res_Args pbResult) = false ->
                  scanPipelineBuild pbResult
                  = Err (Wrapped ErrJSONSyntax "scanPipelineBuild> Unable to Unmarshal parameter")).
  { intros H. unfold scanPipelineBuild. rewrite (Unmarshal_invalid _ _ H). reflexivity. }
  assert (Hstages : Json.valid (Res_Stages pbResult) = false ->
                    exists err, scanPipelineBuild pbResult = Err err).
  { intros H. unfold scanPipelineBuild.
    destruct (Unmarshal decode_Param (Res_Args pbResult)) as [parameters|err].
    - rewrite (Unmarshal_invalid _ _ H). eexists. reflexivity.
    - eexists. reflexivity. }
  split; [exact Hargs|]. split; [exact Hstages|]. split; [|split; [|split]].
  - intros rows Hin [H|H].
    + eapply scan_rows_error; [exact Hin|]. apply Hargs. exact H.
    + destruct (Hstages H) as [err Herr]. eapply scan_rows_error; [exact Hin|exact Herr].
  - intros Hcommits parameters stages Hp Hs. unfold scanPipelineBuild.
    rewrite Hp, Hs, Hcommits. cbn [String.eqb]. eexists. split; reflexivity.
  - reflexivity.
  - reflexivity.
Qed.

Lemma scanPipelineBuild_decoding_witness :
  scanPipelineBuild (Fixture.selected "{" "[]" "[]")
  = Err (Wrapped ErrJSONSyntax "scanPipelineBuild> Unable to Unmarshal parameter")
  /\ exists pb, scanPipelineBuild (Fixture.selected "[]" "[]" "") = Ok pb /\ PB_Commits pb = [].
Proof.
  split.
  - apply (proj1 (scanPipelineBuild_decoding (Fixture.selected "{" "[]" "[]"))).
    vm_compute. reflexivity.
  - apply (proj1 (proj2 (proj2 (proj2 (scanPipelineBuild_decoding
                                          (Fixture.selected "[]" "[]" "")))))
             eq_refl [] []).
    + vm_compute. reflexivity.
    + vm_compute. reflexivity.
Defined.

(** Encoding and decoding agree on an example with characters that the
    encoder escapes. *)
Example codec_roundtrip :
  Unmarshal decode_Stage
    (Marshal encode_Stage
       [Fixture.stage "a<b" (-3) StatusFail [Fixture.job 12 StatusFail]])
  = Ok [Fixture.stage "a<b" (-3) StatusFail [Fixture.job 12 StatusFail]].
Proof. vm_compute. reflexivity. Qed.

(** * Further properties *)

(** ** Rows that a query selects *)

Lemma selectPipelineBuild_In s where_ res :
  In res (selectPipelineBuild s where_) ->
  exists pb app pip env proj username,
    In pb (t_pipeline_build s) /\ where_ pb = true
    /\ res = joined pb app pip env proj username.
Proof.
  unfold selectPipelineBuild. intros H. apply list_elem_of_In in H.
  apply list_elem_of_bind in H. destruct H as (pb & H & Hpb).
  apply list_elem_of_In, filter_In in Hpb. destruct Hpb as [Hpb Hw].
  apply list_elem_of_bind in H. destruct H as (app & H & _).
  apply list_elem_of_bind in H. destruct H as (pip & H & _).
  apply list_elem_of_bind in H. destruct H as (env & H & _).
  apply list_elem_of_bind in H. destruct H as (proj & H & _).
  exists pb, app, pip, env, proj.
  destruct (List.filter _ (t_user s)) as [|u us].
  - apply list_elem_of_In in H. destruct H as [<-|[]]. eauto.
  - apply list_elem_of_In, in_map_iff in H. destruct H as (u' & <- & _). eauto.
Qed.

Lemma scan_rows_Ok rows : forall pbs,
  scan_rows rows = Ok pbs ->
  Forall2 (fun r pb => scanPipelineBuild r = Ok pb) rows pbs.
Proof.
  induction rows as [|r rows IH]; intros pbs H; cbn [scan_rows] in H.
  - injection H as <-. constructor.
  - destruct (scanPipelineBuild r) as [pb|err] eqn:E; [|discriminate].
    destruct (scan_rows rows) as [rest|err]; [|discriminate].
    injection H as <-. constructor; [exact E|]. apply IH. reflexivity.
Qed.

Lemma scanPipelineBuild_Ok r pb :
  scanPipelineBuild r = Ok pb ->
  PB_ID pb = Res_ID r
  /\ App_ID (PB_Application pb) = Res_ApplicationID r
  /\ Pip_ID (PB_Pipeline pb) = Res_PipelineID r
  /\ Env_ID (PB_Environment pb) = Res_EnvironmentID r
  /\ PB_BuildNumber pb = Res_BuildNumber r
  /\ PB_Version pb = Res_Version r
  /\ PB_Status pb = StatusFromString (Res_Status r)
  /\ Trigger_VCSChangesBranch (PB_Trigger pb) = null_string (Res_VCSChangesBranch r)
  /\ Trigger_VCSChangesHash (PB_Trigger pb) = null_string (Res_VCSChangesHash r).
Proof.
  unfold scanPipelineBuild.
  destruct (Unmarshal decode_Param _); [|discriminate].
  destruct (Unmarshal decode_Stage _); [|discriminate].
  destruct (if String.eqb _ "" then _ else _); [|discriminate].
  intros H. injection H as <-. repeat split; reflexivity.
Qed.

Lemma scan_rows_In rows pbs pb :
  scan_rows rows = Ok pbs -> In pb pbs ->
  exists r, In r rows /\ scanPipelineBuild r = Ok pb.
Proof.
  intros H Hin. apply scan_rows_Ok in H.
  induction H as [|r p rows pbs Hr _ IH]; [destruct Hin|].
  destruct Hin as [->|Hin].
  - exists r. split; [left; reflexivity|exact Hr].
  - destruct (IH Hin) as (r' & Hr' & Hs). exists r'. split; [right; exact Hr'|exact Hs].
Qed.

Lemma scan_rows_ids rows pbs :
  scan_rows rows = Ok pbs -> List.map PB_ID pbs = List.map Res_ID rows.
Proof.
  intros H. apply scan_rows_Ok in H.
  induction H as [|r p rows pbs Hr _ IH]; [reflexivity|].
  cbn [List.map]. rewrite IH. apply scanPipelineBuild_Ok in Hr.
  destruct Hr as (-> & _). reflexivity.
Qed.

Lemma scanPipelineBuild_Err r err :
  scanPipelineBuild r = Err err -> exists cause context, err = Wrapped cause context.
Proof.
  unfold scanPipelineBuild, WrapError.
  destruct (Unmarshal decode_Param _); [|intros H; injection H as <-; eauto].
  destruct (Unmarshal decode_Stage _); [|intros H; injection H as <-; eauto].
  destruct (if String.eqb _ "" then _ else _); [discriminate|].
  intros H; injection H as <-; eauto.
Qed.

Lemma scan_rows_Err rows err :
  scan_rows rows = Err err ->
  exists r, In r rows /\ scanPipelineBuild r = Err err.
Proof.
  induction rows as [|r rows IH]; cbn [scan_rows]; [discriminate|].
  destruct (scanPipelineBuild r) as [pb|e] eqn:E.
  - destruct (scan_rows rows) as [pbs|e]; [discriminate|].
    intros H. injection H as ->. destruct (IH eq_refl) as (r' & Hr' & Hs).
    exists r'. split; [right; exact Hr'|exact Hs].
  - intros H. injection H as ->. exists r. split; [left; reflexivity|exact E].
Qed.

(** ** ORDER BY sorts *)



Section Sorting.
Context {A : Type} (before : A -> A -> bool).
Hypothesis before_asymmetric : forall a b, before a b = true -> before b a = false.
Hypothesis before_negatively_transitive :
  forall a b c, before a b = false -> before b c = false -> before a c = false.

(** [x] comes no later than [y]. *)
Let not_after (x y : A) : Prop := before y x = false.

Lemma insert_sorted_sorted a l :
  StronglySorted not_after l -> StronglySorted not_after (insert_sorted before a l).
Proof.
  induction 1 as [|b rest Hrest IH Hb]; cbn [insert_sorted].
  - repeat constructor.
  - destruct (before b a) eqn:E.
    + constructor; [exact IH|].
      apply List.Forall_forall. intros x Hx. apply insert_sorted_In in Hx.
      destruct Hx as [->|Hx].
      * unfold not_after. apply before_asymmetric. exact E.
      * rewrite List.Forall_forall in Hb. apply Hb. exact Hx.
    + constructor; [constructor; assumption|].
      constructor; [exact E|].
      apply List.Forall_forall. intros x Hx. rewrite List.Forall_forall in Hb.
      unfold not_after. apply (before_negatively_transitive x b a); [|exact E].
      apply Hb. exact Hx.
Qed.

Lemma order_by_sorted l : StronglySorted not_after (order_by before l).
Proof.
  induction l as [|a l IH]; cbn [order_by fold_right]; [constructor|].
  apply insert_sorted_sorted. exact IH.
Qed.

End Sorting.







Lemma In_firstn {A} n : forall (l : list A) x, In x (firstn n l) -> In x l.
Proof.
  induction n as [|n IH]; intros [|a l] x H; cbn [firstn] in H; try destruct H as [].
  - left. assumption.
  - right. apply IH. assumption.
Qed.

Lemma StronglySorted_firstn {A} (R : A -> A -> Prop) n : forall l,
  StronglySorted R l -> StronglySorted R (firstn n l).
Proof.
  induction n as [|n IH]; intros l H; [constructor|].
  destruct H as [|a l Hl Ha]; cbn [firstn]; [constructor|].
  constructor; [apply IH; exact Hl|].
  apply List.Forall_forall. intros x Hx. rewrite List.Forall_forall in Ha.
  apply Ha. eapply In_firstn. exact Hx.
Qed.

Lemma QueryRow_Ok {A} (rows : list A) a : QueryRow rows = Ok a -> In a rows.
Proof. destruct rows; [discriminate|]. intros H. injection H as ->. left. reflexivity. Qed.

Lemma QueryRow_Err {A} (rows : list A) e : QueryRow rows = Err e -> rows = [] /\ e = ErrNoRows.
Proof. destruct rows; [|discriminate]. intros H. injection H as <-. auto. Qed.

Lemma LoadPipelineBuildID_found applicationID pipelineID environmentID buildNumber s :
  match LoadPipelineBuildID applicationID pipelineID environmentID buildNumber s with
  | (Ok id, s') =>
      s' = s /\ exists r, In r (t_pipeline_build s) /\ pb_id r = id
                          /\ build_of applicationID pipelineID environmentID buildNumber r
  | (Err err, s') =>
      s' = s /\ err = ErrNoRows
      /\ forall r, In r (t_pipeline_build s) ->
                   ~ build_of applicationID pipelineID environmentID buildNumber r
  end.
Proof.
  unfold LoadPipelineBuildID, mbind, M_bind, get, lift.
  destruct (QueryRow _) as [id|err] eqn:E.
  - split; [reflexivity|]. apply QueryRow_Ok, in_map_iff in E.
    destruct E as (r & Hid & Hr). apply filter_In in Hr. destruct Hr as [Hr Hw].
    exists r. split; [exact Hr|]. split; [exact Hid|].
    repeat (apply andb_prop in Hw; destruct Hw as [Hw ?]).
    unfold build_of. repeat split; apply Z.eqb_eq; assumption.
  - apply QueryRow_Err in E. destruct E as [E ->]. split; [reflexivity|].
    split; [reflexivity|]. intros r Hr (H1 & H2 & H3 & H4).
    assert (Hin : In (pb_id r)
                    (List.map pb_id
                       (List.filter (fun r => (pb_application_id r =? applicationID)
                                              && (pb_pipeline_id r =? pipelineID)
                                              && (pb_environment_id r =? environmentID)
                                              && (pb_build_number r =? buildNumber))
                          (t_pipeline_build s)))).
    { apply in_map. apply filter_In. split; [exact Hr|].
      rewrite H1, H2, H3, H4, !Z.eqb_refl. reflexivity. }
    rewrite E in Hin. destruct Hin.
Qed.

(** X1: [LoadPipelineBuildChildren] does not fail when no build has the
    number for the pipeline, the application and the environment: it
    answers with no build.  The builds that it returns were selected by
    their parent column, which holds the id of a build of that number. *)
Theorem LoadPipelineBuildChildren_of_parent pipelineID applicationID buildNumber environmentID s :
  match LoadPipelineBuildChildren pipelineID applicationID buildNumber environmentID s with
  | (Ok pbs, s') =>
      s' = s
      /\ ((forall r, In r (t_pipeline_build s) ->
                     ~ build_of applicationID pipelineID environmentID buildNumber r) ->
          pbs = [])
      /\ forall pb, In pb pbs ->
           exists parent child,
             In parent (t_pipeline_build s)
             /\ build_of applicationID pipelineID environmentID buildNumber parent
             /\ In child (t_pipeline_build s)
             /\ pb_parent_pipeline_build_id child = Some (pb_id parent)
             /\ PB_ID pb = pb_id child
  | (Err err, s') =>
      s' = s /\ err <> ErrNoRows
      /\ exists r, In r (t_pipeline_build s)
                   /\ build_of applicationID pipelineID environmentID buildNumber r
  end.
Proof.
  unfold LoadPipelineBuildChildren, mbind, M_bind, try.
  pose proof (LoadPipelineBuildID_found applicationID pipelineID environmentID buildNumber s) as H.
  destruct (LoadPipelineBuildID applicationID pipelineID environmentID buildNumber s)
    as [[pbID|err] s1].
  - destruct H as (-> & parent & Hparent & Hid & Hbuild). unfold get, lift.
    destruct (scan_rows _) as [pbs|err] eqn:E.
    + split; [reflexivity|]. split.
      * intros Hnone. exfalso. exact (Hnone parent Hparent Hbuild).
      * intros pb Hpb. destruct (scan_rows_In _ _ _ E Hpb) as (res & Hres & Hscan).
        apply selectPipelineBuild_In in Hres.
        destruct Hres as (child & a & p & e & pr & u & Hchild & Hw & ->).
        exists parent, child. repeat split; try assumption; try apply Hbuild.
        -- unfold parent_is in Hw. destruct (pb_parent_pipeline_build_id child) as [x|];
             [|discriminate]. apply Z.eqb_eq in Hw. congruence.
        -- apply scanPipelineBuild_Ok in Hscan. destruct Hscan as (-> & _). reflexivity.
    + split; [reflexivity|]. split; [|eauto].
      intros ->. apply scan_rows_Err in E. destruct E as (res & _ & E).
      apply scanPipelineBuild_Err in E. destruct E as (cause & context & E). discriminate E.
  - destruct H as (-> & -> & Hnone). unfold mret, M_ret.
    split; [reflexivity|]. split; [reflexivity|]. intros pb [].
Qed.

(** ** Builds that are building *)

Lemma count_of_columns appID rows :
  length (List.filter (fun r => (pb_application_id r =? appID)
                                && String.eqb (pb_status r) StatusBuilding) rows)
  = length (List.filter (fun c : Z * Z * Z * Z * Z * Z * string * option Time =>
                           match c with
                           | (_, _, a, _, _, _, st, _) => (a =? appID) && String.eqb st StatusBuilding
                           end) (List.map row_columns rows)).
Proof.
  induction rows as [|r rows IH]; [reflexivity|].
  cbn [List.filter List.map row_columns].
  destruct ((pb_application_id r =? appID) && String.eqb (pb_status r) StatusBuilding);
    cbn [length]; rewrite IH; reflexivity.
Qed.

(** X2: A successful [InsertPipelineBuild] adds one to the number of building
    builds that [CountBuildingPipelineByApplication] counts for the
    application of the build, and leaves the count of every other
    application as it was. *)
Theorem InsertPipelineBuild_counts_as_building :
  forall env project p app applicationPipelineArgs params e version trigger s pb s' appID,
    InsertPipelineBuild env project p app applicationPipelineArgs params e version trigger s
      = (Ok pb, s') ->
    exists n,
      CountBuildingPipelineByApplication appID s = (Ok n, s)
      /\ 0 <= n
      /\ CountBuildingPipelineByApplication appID s'
         = (Ok (if appID =? App_ID app then n + 1 else n), s').
Proof.
  intros env project p app apa params e version trigger s pb s' appID H.
  apply InsertPipelineBuild_inv in H.
  destruct H as (last & mapVar & row & _ & _ & _ & _ & _ & _ & _ & _ & Hrows & _).
  unfold CountBuildingPipelineByApplication, mbind, M_bind, get, mret, M_ret.
  eexists. split; [reflexivity|]. split; [lia|].
  f_equal. f_equal.
  rewrite !count_of_columns, Hrows, List.filter_app, List.length_app.
  cbn [List.filter]. rewrite (Z.eqb_sym (App_ID app) appID).
  destruct (appID =? App_ID app); cbn [andb String.eqb length]; [|lia].
  change (String.eqb StatusBuilding StatusBuilding) with true. cbn [length]. lia.
Qed.


(** ** The builds of a version *)

Lemma by_id_desc_sorted rows :
  StronglySorted Z.ge (List.map Res_ID (order_by by_id_desc rows)).
Proof.
  assert (H : StronglySorted (fun x y => by_id_desc y x = false) (order_by by_id_desc rows)).
  { apply (order_by_sorted by_id_desc); unfold by_id_desc.
    - intros a b H. apply Z.ltb_lt in H. apply Z.ltb_ge. lia.
    - intros a b c H1 H2. apply Z.ltb_ge in H1, H2. apply Z.ltb_ge. lia. }
  induction H as [|a l Hl IH Ha]; cbn [List.map]; constructor; [exact IH|].
  apply List.Forall_forall. intros x Hx. apply in_map_iff in Hx.
  destruct Hx as (y & <- & Hy). rewrite List.Forall_forall in Ha.
  specialize (Ha y Hy). unfold by_id_desc in Ha. apply Z.ltb_ge in Ha. lia.
Qed.

Lemma firstn_map {A B} (f : A -> B) n : forall l,
  firstn n (List.map f l) = List.map f (firstn n l).
Proof. induction n as [|n IH]; intros [|a l]; cbn; [reflexivity..|]. rewrite IH. reflexivity. Qed.

(** X4: [LoadPipelineBuildByApplicationPipelineEnvVersion] reads the store
    only.  When it neither fails nor panics, it returns at most [limit]
    builds, all of the version, the pipeline, the application and the
    environment asked for, the highest ids first; it panics exactly when
    every row has been scanned and the limit is negative; and whether it
    fails does not depend on the limit, since every selected row is
    scanned before the list is cut. *)
Theorem LoadPipelineBuildByApplicationPipelineEnvVersion_limit
    applicationID pipelineID environmentID version limit_ s :
  match LoadPipelineBuildByApplicationPipelineEnvVersion
          applicationID pipelineID environmentID version limit_ s with
  | (Ok (Returns pbs), s') =>
      s' = s /\ 0 <= limit_ /\ Z.of_nat (length pbs) <= limit_
      /\ StronglySorted Z.ge (List.map PB_ID pbs)
      /\ forall pb, In pb pbs ->
           PB_Version pb = version /\ App_ID (PB_Application pb) = applicationID
           /\ Pip_ID (PB_Pipeline pb) = pipelineID /\ Env_ID (PB_Environment pb) = environmentID
  | (Ok (Panics _), s') => s' = s /\ limit_ < 0
  | (Err err, s') =>
      s' = s
      /\ forall limit', LoadPipelineBuildByApplicationPipelineEnvVersion
                          applicationID pipelineID environmentID version limit' s
                        = (Err err, s)
  end.
Proof.
  unfold LoadPipelineBuildByApplicationPipelineEnvVersion, mbind, M_bind, get, lift.
  destruct (scan_rows _) as [pbs|err] eqn:E.
  - assert (Hall : forall pb, In pb pbs ->
              PB_Version pb = version /\ App_ID (PB_Application pb) = applicationID
              /\ Pip_ID (PB_Pipeline pb) = pipelineID
              /\ Env_ID (PB_Environment pb) = environmentID).
    { intros pb Hpb. destruct (scan_rows_In _ _ _ E Hpb) as (res & Hres & Hscan).
      apply order_by_In, selectPipelineBuild_In in Hres.
      destruct Hres as (row & a & p & e & pr & u & _ & Hw & ->).
      apply scanPipelineBuild_Ok in Hscan.
      destruct Hscan as (_ & Ha & Hp & He & _ & Hv & _).
      repeat (apply andb_prop in Hw; destruct Hw as [Hw ?]).
      rewrite Ha, Hp, He, Hv. cbn [joined Res_Version Res_ApplicationID Res_PipelineID
                                    Res_EnvironmentID].
      repeat split; apply Z.eqb_eq; assumption. }
    assert (Hsorted : StronglySorted Z.ge (List.map PB_ID pbs)).
    { rewrite (scan_rows_ids _ _ E). apply by_id_desc_sorted. }
    destruct (limit_ <? Z.of_nat (length pbs)) eqn:El.
    + apply Z.ltb_lt in El. destruct (limit_ <? 0) eqn:E0; unfold mret, M_ret.
      * apply Z.ltb_lt in E0. split; [reflexivity|exact E0].
      * apply Z.ltb_ge in E0. split; [reflexivity|]. split; [exact E0|].
        split; [|split].
        -- pose proof (firstn_le_length (Z.to_nat limit_) pbs). lia.
        -- rewrite <- firstn_map. apply StronglySorted_firstn. exact Hsorted.
        -- intros pb Hpb. apply Hall. eapply In_firstn. exact Hpb.
    + apply Z.ltb_ge in El. unfold mret, M_ret. split; [reflexivity|].
      split; [lia|]. split; [exact El|]. split; [exact Hsorted|exact Hall].
  - split; [reflexivity|]. intros limit'. reflexivity.
Qed.

(** ** A deleted build *)


Lemma selectPipelineBuild_ext s s' where_ :
  List.filter where_ (t_pipeline_build s') = List.filter where_ (t_pipeline_build s) ->
  t_application s' = t_application s -> t_pipeline s' = t_pipeline s ->
  t_environment s' = t_environment s -> t_project s' = t_project s ->
  t_user s' = t_user s ->
  selectPipelineBuild s' where_ = selectPipelineBuild s where_.
Proof.
  intros H1 H2 H3 H4 H5 H6. unfold selectPipelineBuild.
  rewrite H1, H2, H3, H4, H5, H6. reflexivity.
Qed.


(** ** The row of a new build *)

(** The rows after a successful [InsertPipelineBuild]: those of before
    and a new one, each as it was or with other arguments. *)
Lemma InsertPipelineBuild_new_row env project p app applicationPipelineArgs params e version
    trigger s pb s' :
  InsertPipelineBuild env project p app applicationPipelineArgs params e version trigger s
    = (Ok pb, s') ->
  exists new_row f,
    t_pipeline_build s' = List.map f (t_pipeline_build s ++ [new_row])
    /\ (forall r, f r = r \/ exists args, f r = row_set_args args r)
    /\ pb_id new_row = PB_ID pb
    /\ pb_pipeline_id new_row = Pip_ID p
    /\ pb_application_id new_row = App_ID app
    /\ pb_environment_id new_row = Env_ID e
    /\ pb_build_number new_row = PB_BuildNumber pb
    /\ pb_version new_row = PB_Version pb
    /\ pb_status new_row = StatusBuilding
    /\ pb_vcs_changes_branch new_row = Some (Trigger_VCSChangesBranch (PB_Trigger pb))
    /\ pb_vcs_changes_hash new_row = Some (Trigger_VCSChangesHash (PB_Trigger pb))
    /\ pb_vcs_changes_author new_row = Some (Trigger_VCSChangesAuthor (PB_Trigger pb))
    /\ pb_parent_pipeline_build_id new_row
       = match Trigger_ParentPipelineBuild (PB_Trigger pb) with
         | Some parent => if PB_ID parent =? 0 then None else Some (PB_ID parent)
         | None => None
         end
    /\ t_application s' = t_application s /\ t_pipeline s' = t_pipeline s
    /\ t_environment s' = t_environment s /\ t_project s' = t_project s
    /\ t_user s' = t_user s.
Proof.
  intros H.
  destruct (GetLastBuildNumber_spec (Pip_ID p) (App_ID app) (Env_ID e) s) as (last & Hget & _).
  unfold InsertPipelineBuild in H.
  step H bn s1 H1.
  rewrite Hget in H1. inversion H1; subst bn s1; clear H1.
  apply bind_Ok in H. destruct H as ([params' trigger'] & s1 & H1 & H).
  apply lift_Ok in H1. destruct H1 as [Hbuilt ->].
  apply bind_Ok in H. destruct H as (mapVar & s1 & H1 & H).
  apply lift_Ok in H1. destruct H1 as [Hmap ->].
  apply bind_Ok in H. destruct H as (p' & s1 & H1 & H).
  apply wrapping_Ok in H1. unfold LoadPipelineStage, mbind, M_bind, get, mret, M_ret in H1.
  inversion H1; subst p' s1; clear H1.
  apply bind_Ok in H. destruct H as (id & s1 & H1 & H).
  apply wrapping_Ok in H1.
  unfold insertPipelineBuild, mbind, M_bind, get, mret, M_ret, Now, modify in H1.
  inversion H1; subst id s1; clear H1.
  apply bind_Ok in H. destruct H as ([] & s1 & H1 & H).
  unfold PipelineEvent, modify in H1. inversion H1; subst s1; clear H1.
  apply bind_Ok in H. destruct H as (loaded & s1 & H1 & H).
  apply try_Ok in H1. apply Load_state in H1. subst s1.
  apply bind_Ok in H. destruct H as ([] & s1 & H1 & H).
  apply bind_Ok in H. destruct H as ([] & s2 & H2 & H).
  unfold PublishPipelineBuild, modify in H2. inversion H2; subst s2; clear H2.
  unfold mret, M_ret in H. inversion H; subst pb s'; clear H.
  cbn [fst snd] in *.
  match type of H1 with
  | context [with_pipeline_build (fun rows => rows ++ [?r])] => set (new_row := r) in *
  end.
  exists new_row.
  destruct (previous_of _) as [prev|];
    [destruct (negb _)|];
    [apply wrapping_Ok in H1; unfold update_where_id, modify in H1
    |unfold mret, M_ret in H1|unfold mret, M_ret in H1];
    inversion H1; subst s1; clear H1.
  - eexists (fun r => if pb_id r =? seq_pipeline_build s then row_set_args _ r else r).
    split; [reflexivity|]. split.
    { intros r. destruct (pb_id r =? seq_pipeline_build s); [right; eauto|left; reflexivity]. }
    cbn. destruct (Trigger_ParentPipelineBuild trigger'); repeat split; reflexivity.
  - exists (fun r => r). split; [cbn; rewrite List.map_id; reflexivity|].
    split; [left; reflexivity|].
    cbn. destruct (Trigger_ParentPipelineBuild trigger'); repeat split; reflexivity.
  - exists (fun r => r). split; [cbn; rewrite List.map_id; reflexivity|].
    split; [left; reflexivity|].
    cbn. destruct (Trigger_ParentPipelineBuild trigger'); repeat split; reflexivity.
Qed.

(** X6: A build that [InsertPipelineBuild] has created is found by
    [BuildExists] under the trigger that the build carries, whose branch
    and hash are those that the insertion resolved. *)
Theorem InsertPipelineBuild_then_BuildExists :
  forall env project p app applicationPipelineArgs params e version trigger s pb s',
    InsertPipelineBuild env project p app applicationPipelineArgs params e version trigger s
      = (Ok pb, s') ->
    BuildExists (App_ID app) (Pip_ID p) (Env_ID e) (PB_Trigger pb) s' = (Ok true, s').
Proof.
  intros env project p app apa params e version trigger s pb s' H.
  apply InsertPipelineBuild_new_row in H.
  destruct H as (new_row & f & Hrows & Hf & _ & Hpip & Happ & Henv & _ & _ & _ & Hbr & Hhash & _).
  unfold BuildExists, mbind, M_bind, get, mret, M_ret. f_equal. f_equal.
  rewrite Hrows, List.map_app, List.filter_app, List.length_app. cbn [List.map List.filter].
  assert (Hsel : (pb_application_id (f new_row) =? App_ID app)
                 && (pb_pipeline_id (f new_row) =? Pip_ID p)
                 && (pb_environment_id (f new_row) =? Env_ID e)
                 && column_eq (pb_vcs_changes_hash (f new_row))
                      (Trigger_VCSChangesHash (PB_Trigger pb))
                 && column_eq (pb_vcs_changes_branch (f new_row))
                      (Trigger_VCSChangesBranch (PB_Trigger pb)) = true).
  { destruct (Hf new_row) as [->|[args ->]]; cbn [row_set_args pb_application_id pb_pipeline_id
      pb_environment_id pb_vcs_changes_hash pb_vcs_changes_branch];
      rewrite Happ, Hpip, Henv, Hbr, Hhash; cbn [column_eq];
      rewrite !Z.eqb_refl, !String.eqb_refl; reflexivity. }
  rewrite Hsel. cbn [length]. apply Z.ltb_lt. lia.
Qed.

(** ** Versions and branches of an application *)




(** X8: [GetAllLastBuildByApplication] reads the store only.  Every build
    that it returns belongs to the application and has the id of a
    build of the application that passes the filter on branch and
    version and whose id is the highest among the builds of its pipeline
    and environment that pass the filter. *)
Theorem GetAllLastBuildByApplication_highest_id applicationID branchName version s pbs s' :
  GetAllLastBuildByApplication applicationID branchName version s = (Ok pbs, s') ->
  s' = s
  /\ forall pb, In pb pbs ->
       App_ID (PB_Application pb) = applicationID
       /\ exists r,
            In r (t_pipeline_build s) /\ pb_id r = PB_ID pb
            /\ pb_application_id r = applicationID
            /\ last_build_filter branchName version r = true
            /\ forall r', In r' (t_pipeline_build s) ->
                 pb_application_id r' = applicationID ->
                 last_build_filter branchName version r' = true ->
                 pb_pipeline_id r' = pb_pipeline_id r ->
                 pb_environment_id r' = pb_environment_id r ->
                 pb_id r' <= pb_id r.
Proof.
  unfold GetAllLastBuildByApplication, mbind, M_bind, get, lift.
  destruct (scan_rows _) as [l|err] eqn:E; [|discriminate].
  intros H. injection H as <- <-. split; [reflexivity|].
  intros pb Hpb. destruct (scan_rows_In _ _ _ E Hpb) as (res & Hres & Hscan).
  apply selectPipelineBuild_In in Hres.
  destruct Hres as (row & a & p & e & pr & u & Hrow & Hw & ->).
  apply scanPipelineBuild_Ok in Hscan. destruct Hscan as (Hid & Happ & _).
  cbn [joined Res_ID Res_ApplicationID] in Hid, Happ.
  apply andb_prop in Hw. destruct Hw as [Hsub Hw]. apply Z.eqb_eq in Hw.
  split; [congruence|].
  apply existsb_exists in Hsub. destruct Hsub as (id & Hin & Heq). apply Z.eqb_eq in Heq.
  unfold max_id_by_pipeline_and_environment in Hin. apply in_map_iff in Hin.
  destruct Hin as (r & Hrid & Hr). apply filter_In in Hr. destruct Hr as [Hr Hmax].
  apply filter_In in Hr. destruct Hr as [Hr Hcond].
  apply andb_prop in Hcond. destruct Hcond as [Hrapp Hfilter]. apply Z.eqb_eq in Hrapp.
  exists r. split; [exact Hr|]. split; [congruence|]. split; [exact Hrapp|].
  split; [exact Hfilter|].
  intros r' Hr' Happ' Hfilter' Hpip Henv.
  rewrite forallb_forall in Hmax.
  assert (Hin' : In r' (List.filter (fun r0 => (pb_application_id r0 =? applicationID)
                                               && last_build_filter branchName version r0)
                          (t_pipeline_build s))).
  { apply filter_In. split; [exact Hr'|]. rewrite Happ', Z.eqb_refl, Hfilter'. reflexivity. }
  specialize (Hmax r' Hin'). rewrite Hpip, Henv, !Z.eqb_refl in Hmax. cbn in Hmax.
  apply Z.leb_le. exact Hmax.
Qed.


Lemma InsertPipelineBuild_counts_as_building_witness :
  exists pb s',
    InsertPipelineBuild Fixture.env_no_vcs Fixture.project (Fixture.pipeline_of "build")
      Fixture.application [] [] Fixture.environment 0
      (Fixture.manual None "feature" "") Fixture.feature_store
    = (Ok pb, s')
    /\ exists n,
         CountBuildingPipelineByApplication 42 Fixture.feature_store
         = (Ok n, Fixture.feature_store)
         /\ 0 <= n
         /\ CountBuildingPipelineByApplication 42 s'
            = (Ok (if 42 =? App_ID Fixture.application then n + 1 else n), s').
Proof.
  eexists. eexists.
  refine ((fun H => conj H (InsertPipelineBuild_counts_as_building _ _ _ _ _ _ _ _ _ _ _ _ 42 H)) _).
  vm_compute. reflexivity.
Defined.

Lemma InsertPipelineBuild_then_BuildExists_witness :
  exists pb s',
    InsertPipelineBuild Fixture.env_no_vcs Fixture.project (Fixture.pipeline_of "build")
      Fixture.application [] (Fixture.git "feature") Fixture.environment 0
      (Fixture.manual None "" "") (Fixture.store [])
    = (Ok pb, s')
    /\ BuildExists (App_ID Fixture.application) (Pip_ID (Fixture.pipeline_of "build"))
         (Env_ID Fixture.environment) (PB_Trigger pb) s' = (Ok true, s').
Proof.
  eexists. eexists.
  refine ((fun H => conj H (InsertPipelineBuild_then_BuildExists _ _ _ _ _ _ _ _ _ _ _ _ H)) _).
  vm_compute. reflexivity.
Defined.

Lemma GetAllLastBuildByApplication_highest_id_witness :
  exists pbs,
    GetAllLastBuildByApplication 42 "main" 0 Fixture.two_branches_store
    = (Ok pbs, Fixture.two_branches_store)
    /\ List.map PB_ID pbs = [3]
    /\ forall pb, In pb pbs ->
         App_ID (PB_Application pb) = 42
         /\ exists r,
              In r (t_pipeline_build Fixture.two_branches_store) /\ pb_id r = PB_ID pb
              /\ pb_application_id r = 42
              /\ last_build_filter "main" 0 r = true
              /\ forall r', In r' (t_pipeline_build Fixture.two_branches_store) ->
                   pb_application_id r' = 42 ->
                   last_build_filter "main" 0 r' = true ->
                   pb_pipeline_id r' = pb_pipeline_id r ->
                   pb_environment_id r' = pb_environment_id r ->
                   pb_id r' <= pb_id r.
Proof.
  destruct (GetAllLastBuildByApplication 42 "main" 0 Fixture.two_branches_store)
    as [[pbs|err] s0] eqn:H; [|vm_compute in H; discriminate H].
  exists pbs.
  destruct (GetAllLastBuildByApplication_highest_id 42 "main" 0 _ _ _ H) as [-> Hall].
  split; [reflexivity|]. split; [|exact Hall].
  vm_compute in H. injection H as <-. reflexivity.
Defined.

(** ** The event of a stop *)





(** ** The event of a change of status, continued *)


(** ** The commits of a build, continued *)

Lemma commits_between_Err client app cur prev err :
  commits_between client app cur prev = Err err -> exists cause context, err = Wrapped cause context.
Proof.
  unfold commits_between, WrapError.
  repeat match goal with
         | |- context [if ?c then _ else _] => destruct c
         | |- context [match ?x with _ => _ end] => destruct x
         end; intros H; try discriminate H; injection H as <-; eauto.
Qed.

(** X12: [UpdatePipelineBuildCommits] on an application without repositories
    manager returns no commit and writes nothing; when it fails, it has
    written nothing either, and its error is one that it has wrapped. *)
Theorem UpdatePipelineBuildCommits_writes_only_on_success env p pip app e pb s :
  (App_RepositoriesManager app = None ->
   UpdatePipelineBuildCommits env p pip app e pb s = (Ok [], s))
  /\ forall err s',
       UpdatePipelineBuildCommits env p pip app e pb s = (Err err, s') ->
       s' = s /\ exists cause context, err = Wrapped cause context.
Proof.
  unfold UpdatePipelineBuildCommits. split.
  - intros ->. reflexivity.
  - intros err s'. destruct (App_RepositoriesManager app) as [rm|]; [|discriminate].
    unfold mbind, M_bind, wrap, wrapping, lift, mret, M_ret, fail.
    destruct (env_AuthorizedClient env _ _) as [client|errclient].
    + destruct (CurrentAndPreviousPipelineBuildNumberAndHash _ _ _ _ s) as [[cp|errcurr] s1] eqn:Hcp.
      * assert (s1 = s) as ->.
        { destruct cp as [cur prev]. apply previous_build_on_branch in Hcp. apply Hcp. }
        destruct (commits_between client app cp.1 cp.2) as [res|errc] eqn:Hc.
        -- unfold updatePipelineBuildCommits, update_where_id, modify. discriminate.
        -- intros H. injection H as <- <-. split; [reflexivity|].
           eapply commits_between_Err. exact Hc.
      * intros H. injection H as <- <-.
        assert (s1 = s) as ->.
        { unfold CurrentAndPreviousPipelineBuildNumberAndHash, mbind, M_bind, get, fail,
            mret, M_ret in Hcp.
          destruct (current_and_previous_rows _ _ _ _ _) as [|[c [pr|]] l];
            inversion Hcp; reflexivity. }
        split; [reflexivity|]. eauto.
    + intros H. injection H as <- <-. split; [reflexivity|]. eauto.
Qed.

(** ** The current and the previous build *)

Lemma current_and_previous_rows_nonempty s buildNumber pipelineID applicationID environmentID c :
  In c (t_pipeline_build s) -> pb_build_number c = buildNumber ->
  triple_is pipelineID applicationID environmentID c = true ->
  current_and_previous_rows s buildNumber pipelineID applicationID environmentID <> [].
Proof.
  intros Hc Hn Ht. unfold current_and_previous_rows.
  match goal with
  | |- limit 1 (order_by ?o (List.filter ?f ?j)) <> [] =>
      set (joined_rows := j); set (keep := f)
  end.
  assert (Hj : exists o, In (c, o) joined_rows).
  { subst joined_rows.
    match goal with
    | |- exists o, In _ (mbind ?k ?current) =>
        assert (Hcur : In c current)
          by (apply filter_In; split; [exact Hc|]; rewrite Hn, Z.eqb_refl, Ht; reflexivity);
        destruct (k c) as [|x l] eqn:Ek
    end.
    - cbv beta in Ek.
      match type of Ek with
      | context [match ?f with _ => _ end] => destruct f; discriminate Ek
      end.
    - assert (Hx : In x (x :: l)) by (left; reflexivity). rewrite <- Ek in Hx.
      assert (fst x = c) as Hfst.
      { cbv beta in Hx.
        match type of Hx with
        | context [match ?f with _ => _ end] => destruct f as [|q qs]
        end.
        - destruct Hx as [<-|[]]. reflexivity.
        - apply in_map_iff in Hx. destruct Hx as (y & <- & _). reflexivity. }
      exists (snd x). rewrite <- Hfst, <- surjective_pairing.
      apply list_elem_of_In, list_elem_of_bind. exists c.
      split; apply list_elem_of_In; [rewrite Ek; left; reflexivity|exact Hcur]. }
  destruct Hj as (o & Hj).
  assert (Hk : In (c, o) (order_by by_previous_build_number_desc (List.filter keep joined_rows))).
  { apply order_by_In, filter_In. split; [exact Hj|]. subst keep. cbn [fst].
    rewrite Hn. apply Z.eqb_refl. }
  destruct (order_by by_previous_build_number_desc (List.filter keep joined_rows)) as [|x l];
    [destruct Hk|]. discriminate.
Qed.

(** X13: [CurrentAndPreviousPipelineBuildNumberAndHash] reads the store
    only.  It fails, with [sdk.ErrNoPipelineBuild], exactly when the
    pipeline, the application and the environment have no build of that
    number.  Otherwise the current build is such a build, and the
    previous build is, among the builds of the three with a smaller
    number and the branch of the current build, one with the highest
    number; there is none when no such build exists, in particular when
    the branch column of the current build is NULL. *)
Theorem CurrentAndPreviousPipelineBuildNumberAndHash_on_branch
    buildNumber pipelineID applicationID environmentID s :
  match CurrentAndPreviousPipelineBuildNumberAndHash
          buildNumber pipelineID applicationID environmentID s with
  | (Ok (cur, prev), s') =>
      s' = s
      /\ exists c,
           In c (t_pipeline_build s) /\ pb_build_number c = buildNumber
           /\ triple_is pipelineID applicationID environmentID c = true
           /\ cur = number_and_hash c
           /\ match prev with
              | Some pr =>
                  exists p branch,
                    In p (t_pipeline_build s)
                    /\ triple_is pipelineID applicationID environmentID p = true
                    /\ pb_build_number p < buildNumber
                    /\ pb_vcs_changes_branch c = Some branch
                    /\ pb_vcs_changes_branch p = Some branch
                    /\ pr = number_and_hash p
                    /\ forall p', In p' (t_pipeline_build s) ->
                         triple_is pipelineID applicationID environmentID p' = true ->
                         pb_build_number p' < buildNumber ->
                         pb_vcs_changes_branch p' = Some branch ->
                         pb_build_number p' <= pb_build_number p
              | None =>
                  forall p, In p (t_pipeline_build s) ->
                    triple_is pipelineID applicationID environmentID p = true ->
                    pb_build_number p < buildNumber ->
                    pb_vcs_changes_branch c = None
                    \/ pb_vcs_changes_branch p <> pb_vcs_changes_branch c
              end
  | (Err err, s') =>
      s' = s /\ err = ErrNoPipelineBuild
      /\ forall r, In r (t_pipeline_build s) ->
           triple_is pipelineID applicationID environmentID r = true ->
           pb_build_number r <> buildNumber
  end.
Proof.
  destruct (CurrentAndPreviousPipelineBuildNumberAndHash _ _ _ _ s) as [[[cur prev]|err] s'] eqn:H.
  - apply previous_build_on_branch in H. destruct H as (-> & c & Hc & Hn & Ht & -> & Hprev).
    split; [reflexivity|]. exists c. repeat (split; [assumption || reflexivity|]).
    destruct prev as [pr|].
    + destruct Hprev as (p & Hp & Htp & Hlt & Heq & -> & Hmax).
      unfold sql_eq in Heq.
      destruct (pb_vcs_changes_branch p) as [bp|] eqn:Ebp; [|discriminate].
      destruct (pb_vcs_changes_branch c) as [bc|] eqn:Ebc; [|discriminate].
      apply String.eqb_eq in Heq. subst bp.
      exists p, bc. repeat (split; [assumption || reflexivity|]).
      split; [unfold number_and_hash; rewrite Ebp; reflexivity|].
      intros p' Hp' Htp' Hlt' Hbr'. apply Hmax; try assumption.
      rewrite Hbr'. cbn. apply String.eqb_refl.
    + intros p Hp Htp Hlt. specialize (Hprev p Hp Htp Hlt). unfold sql_eq in Hprev.
      destruct (pb_vcs_changes_branch c) as [bc|]; [|left; reflexivity]. right.
      destruct (pb_vcs_changes_branch p) as [bp|]; [|discriminate].
      intros E. injection E as ->. rewrite String.eqb_refl in Hprev. discriminate.
  - unfold CurrentAndPreviousPipelineBuildNumberAndHash, mbind, M_bind, get, fail, mret, M_ret in H.
    destruct (current_and_previous_rows s buildNumber pipelineID applicationID environmentID)
      as [|[c [pr|]] l] eqn:E; try discriminate H. injection H as <- <-.
    split; [reflexivity|]. split; [reflexivity|].
    intros r Hr Ht Hn.
    exact (current_and_previous_rows_nonempty s _ _ _ _ r Hr Hn Ht E).
Qed.

(** ** The branch of a new build *)

Lemma scan_git_parameters_branch params : forall acc found hashFound branch hash found0 branch0,
  found = match acc with Some _ => true | None => found0 end ->
  branch = match acc with Some b => b | None => branch0 end ->
  let r := fold_left
             (fun (acc : bool * bool * string * string) p =>
                let '(found, hashFound, br, h) := acc in
                let '(found, br) :=
                  if String.eqb (Param_Name p) "git.branch" && negb (String.eqb (Param_Value p) "")
                  then (true, Param_Value p) else (found, br) in
                let '(hashFound, h) :=
                  if String.eqb (Param_Name p) "git.hash" && negb (String.eqb (Param_Value p) "")
                  then (true, Param_Value p) else (hashFound, h) in
                (found, hashFound, br, h))
             params (found, hashFound, branch, hash) in
  let last := fold_left (fun acc p =>
                           if String.eqb (Param_Name p) "git.branch"
                              && negb (String.eqb (Param_Value p) "")
                           then Some (Param_Value p) else acc) params acc in
  fst (fst (fst r)) = match last with Some _ => true | None => found0 end
  /\ snd (fst r) = match last with Some b => b | None => branch0 end.
Proof.
  induction params as [|p params IH]; intros acc found hashFound branch hash found0 branch0 Hf Hb.
  - cbn. auto.
  - cbn [fold_left].
    destruct (String.eqb (Param_Name p) "git.branch" && negb (String.eqb (Param_Value p) ""));
      destruct (String.eqb (Param_Name p) "git.hash" && negb (String.eqb (Param_Value p) ""));
      apply IH; cbn; auto.
Qed.

Lemma last_nonempty_AddParameter name params n type value :
  n <> name -> last_nonempty name (AddParameter params n type value) = last_nonempty name params.
Proof.
  intros Hne. unfold last_nonempty, AddParameter. rewrite fold_left_app. cbn.
  rewrite (eqb_false_of_neq _ _ Hne). reflexivity.
Qed.

Lemma build_parameters_branch client p app e buildNumber version params trigger params' trigger' :
  build_parameters client p app e buildNumber version params trigger = Ok (params', trigger') ->
  Trigger_VCSChangesBranch trigger'
  = if negb (String.eqb (Trigger_VCSChangesBranch trigger) "")
    then Trigger_VCSChangesBranch trigger
    else match last_nonempty "git.branch" params with
         | Some branch => branch
         | None => fst (default_branch_and_hashes client app)
         end.
Proof.
  unfold build_parameters.
  destruct (repository_parameters client app _) as [params1|err] eqn:Hrepo; [|discriminate].
  set (params2 := triggered_by_parameters params1 trigger).
  assert (Hlast : last_nonempty "git.branch" params2 = last_nonempty "git.branch" params).
  { subst params2. unfold triggered_by_parameters.
    assert (H1 : last_nonempty "git.branch" params1 = last_nonempty "git.branch" params).
    { unfold repository_parameters in Hrepo. destruct client as [c|].
      - destruct (RepoByFullname c _); [|discriminate]. injection Hrepo as <-.
        unfold canonical_parameters.
        rewrite !last_nonempty_AddParameter by discriminate. reflexivity.
      - injection Hrepo as <-. unfold canonical_parameters.
        rewrite !last_nonempty_AddParameter by discriminate. reflexivity. }
    destruct (Trigger_TriggeredBy trigger);
      rewrite ?last_nonempty_AddParameter by discriminate; exact H1. }
  destruct (git_parameters client app params2 trigger) as [params3 trigger3] eqn:Hgit.
  intros H.
  assert (Hkeep : Trigger_VCSChangesBranch trigger' = Trigger_VCSChangesBranch trigger3).
  { unfold commit_parameters in H.
    destruct client as [c|]; [|injection H as <- <-; reflexivity].
    destruct (negb _); [|injection H as <- <-; reflexivity].
    destruct (Commit c _ _); injection H as <- <-; reflexivity. }
  rewrite Hkeep. clear H Hkeep. unfold git_parameters in Hgit.
  destruct (negb (String.eqb (Trigger_VCSChangesBranch trigger) "")) eqn:Eb.
  - injection Hgit as <- <-. reflexivity.
  - destruct (default_branch_and_hashes client app) as [defautlBranch lastGitHash].
    pose proof (scan_git_parameters_branch params2 None false false
                  (Trigger_VCSChangesBranch trigger) (Trigger_VCSChangesHash trigger)
                  false (Trigger_VCSChangesBranch trigger) eq_refl eq_refl) as Hscan.
    cbv zeta in Hscan. fold (last_nonempty "git.branch" params2) in Hscan.
    fold (scan_git_parameters params2 (Trigger_VCSChangesBranch trigger)
            (Trigger_VCSChangesHash trigger)) in Hscan.
    destruct (scan_git_parameters params2 _ _) as [[[found hashFound] branch] hash].
    cbn [fst snd] in Hscan. destruct Hscan as [Hfound Hbranch].
    rewrite Hlast in Hfound, Hbranch. cbn [fst].
    destruct (last_nonempty "git.branch" params) as [b|]; subst found branch; cbn [negb] in Hgit.
    + destruct (negb hashFound && _); injection Hgit as <- <-; reflexivity.
    + destruct (negb (String.eqb (hash_of lastGitHash defautlBranch) ""));
        injection Hgit as <- <-; reflexivity.
Qed.

(** X14: The branch of a build that [InsertPipelineBuild] creates, which it
    writes into the branch column of the row: the branch of the trigger
    when the trigger names one; otherwise the value of the last of the
    parameters given by the caller that is called [git.branch] and is
    not empty; otherwise the default branch of the repository, which is
    [master] when there is no client of a repositories manager. *)
Theorem InsertPipelineBuild_branch :
  forall env project p app applicationPipelineArgs params e version trigger s pb s',
    InsertPipelineBuild env project p app applicationPipelineArgs params e version trigger s
      = (Ok pb, s') ->
    (exists row, In row (t_pipeline_build s') /\ pb_id row = PB_ID pb
                 /\ pb_vcs_changes_branch row = Some (Trigger_VCSChangesBranch (PB_Trigger pb)))
    /\ (Trigger_VCSChangesBranch trigger <> "" ->
        Trigger_VCSChangesBranch (PB_Trigger pb) = Trigger_VCSChangesBranch trigger)
    /\ (Trigger_VCSChangesBranch trigger = "" ->
        match last_nonempty "git.branch" params with
        | Some branch => Trigger_VCSChangesBranch (PB_Trigger pb) = branch
        | None =>
            Trigger_VCSChangesBranch (PB_Trigger pb)
            = fst (default_branch_and_hashes (repository_client env project app) app)
            /\ (repository_client env project app = None ->
                Trigger_VCSChangesBranch (PB_Trigger pb) = "master")
        end).
Proof.
  intros env project p app apa params e version trigger s pb s' H.
  pose proof (InsertPipelineBuild_new_row _ _ _ _ _ _ _ _ _ _ _ _ H)
    as (new_row & f & Hrows & Hf & Hid & _ & _ & _ & _ & _ & _ & Hbr & _).
  apply InsertPipelineBuild_inv in H.
  destruct H as (last & mapVar & row & _ & Hbuilt & _).
  apply build_parameters_branch in Hbuilt.
  split; [|split].
  - exists (f new_row). split.
    + rewrite Hrows, List.map_app. apply in_or_app. right. left. reflexivity.
    + destruct (Hf new_row) as [->|[args ->]]; cbn [row_set_args pb_id pb_vcs_changes_branch];
        split; assumption.
  - intros Hne. rewrite Hbuilt, (eqb_false_of_neq _ _ Hne). reflexivity.
  - intros Heq. rewrite Heq in Hbuilt. cbn [String.eqb negb] in Hbuilt.
    destruct (last_nonempty "git.branch" params) as [b|]; [exact Hbuilt|].
    split; [exact Hbuilt|]. intros Hnone. rewrite Hbuilt, Hnone. reflexivity.
Qed.

Lemma InsertPipelineBuild_branch_witness :
  exists pb s',
    InsertPipelineBuild Fixture.env_no_vcs Fixture.project (Fixture.pipeline_of "build")
      Fixture.application [] (Fixture.git "feature" ++ Fixture.git "release")
      Fixture.environment 0 (Fixture.manual None "" "") (Fixture.store [])
    = (Ok pb, s')
    /\ Trigger_VCSChangesBranch (PB_Trigger pb) = "release".
Proof.
  destruct (InsertPipelineBuild Fixture.env_no_vcs Fixture.project (Fixture.pipeline_of "build")
              Fixture.application [] (Fixture.git "feature" ++ Fixture.git "release")
              Fixture.environment 0 (Fixture.manual None "" "") (Fixture.store []))
    as [[pb|err] s'] eqn:H; [|vm_compute in H; discriminate H].
  exists pb, s'. split; [reflexivity|].
  exact (proj2 (proj2 (InsertPipelineBuild_branch _ _ _ _ _ _ _ _ _ _ _ _ H)) eq_refl).
Defined.

(** X15: When the application has a client of a repositories manager and
    that client cannot give the repository, [InsertPipelineBuild] fails
    with the error of the client and has written nothing. *)
Theorem InsertPipelineBuild_repository_error :
  forall env project p app applicationPipelineArgs params e version trigger s client err,
    repository_client env project app = Some client ->
    RepoByFullname client (App_RepositoryFullname app) = Err err ->
    InsertPipelineBuild env project p app applicationPipelineArgs params e version trigger s
    = (Err err, s).
Proof.
  intros env project p app apa params e version trigger s client err Hclient Hrepo.
  destruct (GetLastBuildNumber_spec (Pip_ID p) (App_ID app) (Env_ID e) s) as (last & Hget & _).
  unfold InsertPipelineBuild, mbind, M_bind. rewrite Hget, Hclient.
  unfold build_parameters, repository_parameters. rewrite Hrepo. reflexivity.
Qed.

Lemma InsertPipelineBuild_repository_error_witness :
  InsertPipelineBuild Sample.env_without_repository Fixture.project
    (Fixture.pipeline_of "build") Fixture.application_vcs [] [] Fixture.environment 0
    (Fixture.manual None "master" "") Fixture.one_build
  = (Err (ErrExternal "repository not found"), Fixture.one_build).
Proof.
  apply (InsertPipelineBuild_repository_error Sample.env_without_repository Fixture.project
           (Fixture.pipeline_of "build") Fixture.application_vcs [] [] Fixture.environment 0
           (Fixture.manual None "master" "") Fixture.one_build
           Sample.client_without_repository).
  - reflexivity.
  - reflexivity.
Defined.

(** ** The router *)

Section RouteConfiguration.
Import Router.
Context {DbMap : Type}.

Lemma configure_auth (h : RouterConfigParam DbMap) rc :
  auth (configure h rc) = match h with Auth v => v | _ => auth rc end.
Proof. destruct h; reflexivity. Qed.

Lemma configure_needAdmin (h : RouterConfigParam DbMap) rc :
  needAdmin (configure h rc) = match h with NeedAdmin v => v | _ => needAdmin rc end.
Proof. destruct h; reflexivity. Qed.

Lemma configure_needUsernameOrAdmin (h : RouterConfigParam DbMap) rc :
  needUsernameOrAdmin (configure h rc)
  = match h with NeedUsernameOrAdmin v => v | _ => needUsernameOrAdmin rc end.
Proof. destruct h; reflexivity. Qed.

Lemma configure_needHatchery (h : RouterConfigParam DbMap) rc :
  needHatchery (configure h rc) = match h with NeedHatchery => true | _ => needHatchery rc end.
Proof. destruct h; reflexivity. Qed.

Lemma configure_needWorker (h : RouterConfigParam DbMap) rc :
  needWorker (configure h rc) = match h with NeedWorker => true | _ => needWorker rc end.
Proof. destruct h; reflexivity. Qed.

Lemma configure_isExecution (h : RouterConfigParam DbMap) rc :
  isExecution (configure h rc)
  = match h with POSTEXECUTE _ _ => true | _ => isExecution rc end.
Proof. destruct h; reflexivity. Qed.

Lemma configured_auth (handlers : list (RouterConfigParam DbMap)) : forall rc,
  (forall h, In h handlers -> h <> Auth false) -> auth rc = true ->
  auth (fold_left (fun rc h => configure h rc) handlers rc) = true.
Proof.
  induction handlers as [|h hs IH]; intros rc Hno Hrc; [exact Hrc|].
  cbn [fold_left]. apply IH.
  - intros h' Hh'. apply Hno. right. exact Hh'.
  - rewrite configure_auth. destruct h; try exact Hrc.
    destruct v; [reflexivity|]. exfalso. apply (Hno (Auth false)); [left|]; reflexivity.
Qed.

Lemma configured_auth_kept (handlers : list (RouterConfigParam DbMap)) : forall rc,
  (forall h v, In h handlers -> h <> Auth v) ->
  auth (fold_left (fun rc h => configure h rc) handlers rc) = auth rc.
Proof.
  induction handlers as [|h hs IH]; intros rc Hno; [reflexivity|].
  cbn [fold_left]. rewrite IH.
  - rewrite configure_auth. destruct h; try reflexivity.
    exfalso. apply (Hno (Auth v) v); [left|]; reflexivity.
  - intros h' v Hh'. apply Hno. right. exact Hh'.
Qed.

Lemma configured_flag (flag : routerConfig DbMap -> bool) (sets : RouterConfigParam DbMap)
    (handlers : list (RouterConfigParam DbMap)) :
  (forall h rc, flag (configure h rc) = true -> flag rc = true \/ h = sets) ->
  forall rc,
    flag (fold_left (fun rc h => configure h rc) handlers rc) = true ->
    flag rc = true \/ In sets handlers.
Proof.
  intros Hstep. induction handlers as [|h hs IH]; intros rc H; [left; exact H|].
  cbn [fold_left] in H. apply IH in H. destruct H as [H|H]; [|right; right; exact H].
  apply Hstep in H. destruct H as [H|H]; [left; exact H|right; left; exact H].
Qed.

Lemma configured_sticky (flag : routerConfig DbMap -> bool)
    (handlers : list (RouterConfigParam DbMap)) :
  (forall h rc, flag rc = true -> flag (configure h rc) = true) ->
  forall rc, flag rc = true ->
    flag (fold_left (fun rc h => configure h rc) handlers rc) = true.
Proof.
  intros Hstep. induction handlers as [|h hs IH]; intros rc H; [exact H|].
  cbn [fold_left]. apply IH, Hstep, H.
Qed.

(** X16: The configuration that [Handle] makes of its options.  A route
    asks for authentication unless [Auth(false)] is among the options
    given to [Handle] itself, and of several [Auth] options the last one
    decides; it needs an administrator, or the user named in the route,
    only when [NeedAdmin(true)], or [NeedUsernameOrAdmin(true)], is among
    those options, and a hatchery or a worker exactly when [NeedHatchery],
    or [NeedWorker], is among them.  An option given inside [GET],
    [POST], [PUT] or [DELETE] changes none of this. *)
Theorem route_config_of_top_level_options (handlers : list (RouterConfigParam DbMap)) :
  ((forall h, In h handlers -> h <> Auth false) -> auth (route_config handlers) = true)
  /\ (forall before v after,
        handlers = before ++ Auth v :: after ->
        (forall h v', In h after -> h <> Auth v') ->
        auth (route_config handlers) = v)
  /\ (needAdmin (route_config handlers) = true -> In (NeedAdmin true) handlers)
  /\ (needUsernameOrAdmin (route_config handlers) = true ->
      In (NeedUsernameOrAdmin true) handlers)
  /\ (needHatchery (route_config handlers) = true <-> In NeedHatchery handlers)
  /\ (needWorker (route_config handlers) = true <-> In NeedWorker handlers)
  /\ forall h cfg option (rc : routerConfig DbMap),
       In option [GET h cfg; POST h cfg; POSTEXECUTE h cfg; PUT h cfg; DELETE h cfg] ->
       auth (configure option rc) = auth rc
       /\ needAdmin (configure option rc) = needAdmin rc
       /\ needUsernameOrAdmin (configure option rc) = needUsernameOrAdmin rc
       /\ needHatchery (configure option rc) = needHatchery rc
       /\ needWorker (configure option rc) = needWorker rc.
Proof.
  unfold route_config.
  split; [|split; [|split; [|split; [|split; [|split]]]]].
  - intros Hno. apply configured_auth; [exact Hno|reflexivity].
  - intros before v after -> Hafter. rewrite fold_left_app. cbn [fold_left].
    rewrite configured_auth_kept by exact Hafter. reflexivity.
  - intros H. apply (configured_flag needAdmin (NeedAdmin true)) in H.
    + destruct H as [H|H]; [discriminate H|exact H].
    + intros h rc Hh. rewrite configure_needAdmin in Hh.
      destruct h; auto. destruct admin; [right; reflexivity|discriminate].
  - intros H. apply (configured_flag needUsernameOrAdmin (NeedUsernameOrAdmin true)) in H.
    + destruct H as [H|H]; [discriminate H|exact H].
    + intros h rc Hh. rewrite configure_needUsernameOrAdmin in Hh.
      destruct h; auto. destruct need; [right; reflexivity|discriminate].
  - split.
    + intros H. apply (configured_flag needHatchery NeedHatchery) in H.
      * destruct H as [H|H]; [discriminate H|exact H].
      * intros h rc Hh. rewrite configure_needHatchery in Hh. destruct h; auto.
    + intros H. apply in_split in H. destruct H as (l1 & l2 & ->).
      rewrite fold_left_app. cbn [fold_left]. apply configured_sticky; [|reflexivity].
      intros h rc Hrc. rewrite configure_needHatchery. destruct h; auto.
  - split.
    + intros H. apply (configured_flag needWorker NeedWorker) in H.
      * destruct H as [H|H]; [discriminate H|exact H].
      * intros h rc Hh. rewrite configure_needWorker in Hh. destruct h; auto.
    + intros H. apply in_split in H. destruct H as (l1 & l2 & ->).
      rewrite fold_left_app. cbn [fold_left]. apply configured_sticky; [|reflexivity].
      intros h rc Hrc. rewrite configure_needWorker. destruct h; auto.
  - intros h cfg option rc Hin. cbn [In] in Hin.
    destruct Hin as [<-|[<-|[<-|[<-|[<-|[]]]]]]; repeat split; reflexivity.
Qed.

End RouteConfiguration.

Section Serving.
Import Router.
Context {DbMap : Type}.
Context
  (HatcheryAgent WorkerAgent : string)
  (CheckHatcheryAuth CheckWorkerAuth CheckAuthHeader
     : option DbMap -> (string -> string) -> Ctx -> errorable Ctx)
  (loadUserPermissions : option DbMap -> User -> errorable User)
  (loadGroupPermissions : option DbMap -> Z -> errorable Group)
  (RefreshWorker : option DbMap -> string -> option Error)
  (LoadWorkerModelByID : option DbMap -> Z -> errorable Model)
  (SharedInfraGroup : Group)
  (checkWorkerPermission
     : option DbMap -> routerConfig DbMap -> (string -> string) -> Ctx -> bool)
  (checkPermission : (string -> string) -> Ctx -> Z -> bool)
  (getPermissionByMethod : string -> bool -> Z)
  (X_Api_Time ETag : string).

Abbreviation permission := (permission checkWorkerPermission checkPermission getPermissionByMethod).
Abbreviation serve :=
  (serve HatcheryAgent WorkerAgent CheckHatcheryAuth CheckWorkerAuth CheckAuthHeader
     loadUserPermissions loadGroupPermissions RefreshWorker LoadWorkerModelByID
     SharedInfraGroup checkWorkerPermission checkPermission getPermissionByMethod
     X_Api_Time ETag).
Abbreviation checkAuthentication :=
  (checkAuthentication HatcheryAgent WorkerAgent CheckHatcheryAuth CheckWorkerAuth
     CheckAuthHeader).

(** X17: Whether the router lets a request through to the handler, lines
    246-274.  A route without authentication lets every request through.
    On a route with authentication a context without user makes the
    function panic; with a user, a route that needs nothing lets every
    request through, whatever [checkPermission] answers; on a route
    that does not need an administrator, a user who is none is let
    through exactly when [checkPermission] says so, whatever the checks
    for hatchery, worker and user name said before; on a route that
    needs an administrator and nothing else, exactly administrators are
    let through. *)
Theorem permission_decision (rc : routerConfig DbMap) req db c events :
  (auth rc = false -> permission rc req db c events = (events, Continue true))
  /\ (auth rc = true -> Ctx_User c = None ->
      permission rc req db c events = (events, Panic nil_dereference))
  /\ forall user,
       auth rc = true -> Ctx_User c = Some user ->
       exists permissionOk,
         permission rc req db c events = (events, Continue permissionOk)
         /\ (needAdmin rc = false -> needHatchery rc = false -> needWorker rc = false ->
             needUsernameOrAdmin rc = false -> permissionOk = true)
         /\ (needAdmin rc = false -> User_Admin user = false ->
             needHatchery rc = true \/ needWorker rc = true \/ needUsernameOrAdmin rc = true ->
             permissionOk
             = checkPermission (Vars req) c (getPermissionByMethod (Method req) (isExecution rc)))
         /\ (needAdmin rc = true -> User_Admin user = true -> permissionOk = true)
         /\ (needAdmin rc = true -> needHatchery rc = false -> needWorker rc = false ->
             needUsernameOrAdmin rc = false -> permissionOk = User_Admin user)
         /\ (needUsernameOrAdmin rc = true ->
             needAdmin rc = true \/ User_Admin user = true ->
             User_Admin user = true \/ User_Username user = Vars req "username" ->
             permissionOk = true).
Proof.
  unfold Router.permission.
  split; [|split].
  - intros ->. reflexivity.
  - intros -> ->. cbn [negb]. unfold mbind, R_bind, deref, panic, mret, R_ret.
    destruct (needUsernameOrAdmin rc); [reflexivity|].
    destruct (needAdmin rc); reflexivity.
  - intros user -> ->. cbn [negb]. unfold mbind, R_bind, deref, mret, R_ret.
    destruct (needUsernameOrAdmin rc) eqn:E1, (needAdmin rc) eqn:E2, (needHatchery rc) eqn:E3,
      (needWorker rc) eqn:E4, (User_Admin user) eqn:E5;
      cbn [negb andb orb fst snd];
      (eexists; split; [reflexivity|]);
      repeat split; intros; try discriminate; try reflexivity;
      repeat match goal with
             | H : _ \/ _ |- _ => destruct H
             end; try discriminate;
      try match goal with
          | H : User_Username user = _ |- _ => rewrite H, String.eqb_refl
          end; try reflexivity.
Qed.

(** X18: Three answers that [Handle] gives before any handler runs and
    before it looks at the permissions: a request of method OPTIONS is
    answered 200 on every route, even without database and without
    credentials; any other request is answered
    [sdk.ErrServiceUnavailable] when there is no database, unless its
    path is [/hook]; and on a route with authentication a request whose
    authentication fails is answered [sdk.ErrUnauthorized]. *)
Theorem serve_answers_before_the_handler (rc : routerConfig DbMap) req db events :
  (Method req = "OPTIONS" ->
   serve rc req db events = (events ++ response_headers X_Api_Time ETag ++ [WriteHeader 200], Return_))
  /\ (Method req <> "OPTIONS" -> db = None -> URL_Path req <> "/hook" ->
      serve rc req db events
      = (events ++ response_headers X_Api_Time ETag ++ [WriteError ErrServiceUnavailable],
         Return_))
  /\ (Method req <> "OPTIONS" -> db <> None \/ URL_Path req = "/hook" -> auth rc = true ->
      forall err,
        checkAuthentication db (Header_Get req) empty_Ctx = Failure err ->
        serve rc req db events
        = (events ++ response_headers X_Api_Time ETag
             ++ [WriteError (ErrWrapped ErrUnauthorized "Router> Authorization denied")],
           Return_)).
Proof.
  unfold Router.serve, mbind, R_bind, emit, return_, answer, mret, R_ret.
  split; [|split].
  - intros ->. cbn [String.eqb Ascii.eqb Bool.eqb]. rewrite <- app_assoc. reflexivity.
  - intros Hm -> Hp. rewrite (eqb_false_of_neq _ _ Hm), (eqb_false_of_neq _ _ Hp). cbn [negb].
    unfold mbind, R_bind, emit, return_. rewrite <- app_assoc. reflexivity.
  - intros Hm Hdb Hauth err Herr. rewrite (eqb_false_of_neq _ _ Hm).
    assert (Hp : db = None -> String.eqb (URL_Path req) "/hook" = true).
    { intros ->. destruct Hdb as [Hdb|Hdb]; [contradiction|]. apply String.eqb_eq. exact Hdb. }
    destruct db as [d|]; [|rewrite (Hp eq_refl); cbn [negb]];
      unfold authenticate; rewrite Hauth, Herr; unfold answer, mbind, R_bind, emit, return_;
      rewrite <- app_assoc; reflexivity.
Qed.

(** X19: A route that needs an administrator and nothing else, and a request
    that the authentication gives a user, no hatchery and no worker:
    the request reaches the handler of its method exactly when the user,
    as [loadUserPermissions] gives it back, is an administrator; another
    user is answered [sdk.ErrForbidden] and no handler runs. *)
Theorem serve_admin_route (rc : routerConfig DbMap) req db events c user user' :
  Method req <> "OPTIONS" ->
  auth rc = true -> needAdmin rc = true -> needHatchery rc = false ->
  needWorker rc = false -> needUsernameOrAdmin rc = false ->
  checkAuthentication (Some db) (Header_Get req) empty_Ctx = Success c ->
  Ctx_User c = Some user -> Ctx_Hatchery c = None -> Ctx_Worker c = None ->
  loadUserPermissions (Some db) user = Success user' ->
  serve rc req (Some db) events
  = if User_Admin user'
    then defer_ (log_route rc req) (dispatch rc req (Some db) (set_User user' c))
           (events ++ response_headers X_Api_Time ETag)
    else (events ++ response_headers X_Api_Time ETag ++ [WriteError ErrForbidden], Return_).
Proof.
  intros Hm Hauth Hadmin Hh Hw Hu Hc Huser Hhatch Hworker Hload.
  unfold Router.serve, mbind, R_bind, emit, return_, mret, R_ret.
  rewrite (eqb_false_of_neq _ _ Hm).
  unfold authenticate. rewrite Hauth, Hc. unfold mret, R_ret.
  unfold load_user. rewrite Huser, Hload. unfold mret, R_ret.
  unfold load_hatchery. cbn [set_User Ctx_Hatchery]. rewrite Hhatch. unfold mret, R_ret.
  unfold load_worker. cbn [set_User Ctx_Worker]. rewrite Hworker. unfold mret, R_ret.
  unfold Router.permission. rewrite Hauth, Hadmin, Hh, Hw, Hu.
  cbn [negb andb]. unfold mbind, R_bind, deref, mret, R_ret. cbn [set_User Ctx_User].
  destruct (User_Admin user'); cbn [negb].
  - reflexivity.
  - unfold answer, mbind, R_bind, emit, return_. rewrite <- app_assoc. reflexivity.
Qed.

End Serving.

(** ** The count of the panics *)

Section PanicCounter.
Import Router.

Lemma count_panic_fields since now p :
  0 <= nbPanic p < Int64.max_int ->
  let p' := count_panic since now p in
  lastPanic p' = Some now
  /\ 1 <= nbPanic p' <= nbPanic p + 1
  /\ panicked p' = (if nbPanicsBeforeFail <? nbPanic p' then true else panicked p)
  /\ (forall last, lastPanic p = Some last -> since - last <= two_minutes ->
      nbPanic p' = nbPanic p + 1).
Proof.
  intros Hnb. cbv zeta. unfold count_panic. cbn [lastPanic nbPanic panicked].
  split; [reflexivity|].
  assert (Hadd : forall n, 0 <= n <= nbPanic p -> Int64.add n 1 = n + 1).
  { intros n Hn. unfold Int64.add. apply wrap_small.
    unfold Int64.min_int, Int64.max_int in *. lia. }
  split; [|split; [reflexivity|]].
  - destruct (lastPanic p) as [last|]; [destruct (two_minutes <? since - last)|];
      rewrite Hadd; lia.
  - intros last -> Hclose. apply Z.ltb_ge in Hclose. rewrite Hclose. apply Hadd. lia.
Qed.

Lemma count_panics_few times : forall p,
  panicked p = false -> 0 <= nbPanic p ->
  nbPanic p + Z.of_nat (length times) <= nbPanicsBeforeFail ->
  panicked (count_panics times p) = false
  /\ 0 <= nbPanic (count_panics times p) <= nbPanic p + Z.of_nat (length times).
Proof.
  unfold nbPanicsBeforeFail.
  induction times as [|t times IH]; intros p Hp Hnb Hlen; cbn [count_panics fold_left length] in *.
  - split; [exact Hp|lia].
  - destruct (count_panic_fields (fst t) (snd t) p) as (_ & Hn & Hpan & _).
    { unfold Int64.max_int. lia. }
    fold (count_panics times (count_panic (fst t) (snd t) p)).
    destruct (IH (count_panic (fst t) (snd t) p)) as [H1 H2].
    + rewrite Hpan. unfold nbPanicsBeforeFail.
      destruct (50 <? nbPanic (count_panic (fst t) (snd t) p)) eqn:E; [|exact Hp].
      apply Z.ltb_lt in E. lia.
    + lia.
    + lia.
    + split; [exact H1|lia].
Qed.

Lemma count_panics_panicked times : forall p,
  panicked p = true -> panicked (count_panics times p) = true.
Proof.
  induction times as [|t times IH]; intros p Hp; [exact Hp|].
  cbn [count_panics fold_left]. apply IH. unfold count_panic. cbn [panicked].
  rewrite Hp. destruct (nbPanicsBeforeFail <? _); reflexivity.
Qed.

Lemma count_panics_close times : forall p last,
  lastPanic p = Some last ->
  close_together ((last, last) :: times) ->
  0 <= nbPanic p -> nbPanic p + Z.of_nat (length times) < Int64.max_int ->
  nbPanic (count_panics times p) = nbPanic p + Z.of_nat (length times)
  /\ (times <> [] -> nbPanicsBeforeFail < nbPanic p + Z.of_nat (length times) ->
      panicked (count_panics times p) = true).
Proof.
  induction times as [|t times IH]; intros p last Hlast Hclose Hnb Hlen.
  - cbn. split; [lia|]. intros Hne. contradiction.
  - cbn [count_panics fold_left length] in *.
    fold (count_panics times (count_panic (fst t) (snd t) p)).
    destruct Hclose as [Hfirst Hclose]. cbn [fst snd] in Hfirst.
    destruct (count_panic_fields (fst t) (snd t) p) as (Hl & _ & Hpan & Hinc).
    { lia. }
    specialize (Hinc last Hlast Hfirst).
    destruct (IH (count_panic (fst t) (snd t) p) (snd t) Hl) as [H1 H2].
    + destruct times as [|t' times]; [exact I|]. cbn [close_together fst snd] in *. exact Hclose.
    + lia.
    + lia.
    + split; [lia|]. intros _ Hmany.
      destruct times as [|t' times].
      * cbn [count_panics fold_left length] in *. rewrite Hpan.
        replace (nbPanicsBeforeFail <? nbPanic (count_panic (fst t) (snd t) p)) with true;
          [reflexivity|]. symmetry. apply Z.ltb_lt. lia.
      * apply H2; [discriminate|]. lia.
Qed.

(** X20: The flag [panicked] that [recoverWrap] keeps.  It is not set by the
    first 50 panics of the process, whenever they happen; once set it
    stays set; and it is set by 51 panics in a row each of which is
    recovered at most two minutes after the one before, whatever
    happened earlier. *)
Theorem panicked_after_fifty_panics :
  (forall times, (length times <= 50)%nat ->
                 panicked (count_panics times no_panic_yet) = false)
  /\ (forall times p, panicked p = true -> panicked (count_panics times p) = true)
  /\ (forall times p,
        length times = 51%nat -> close_together times ->
        0 <= nbPanic p < Int64.max_int - 51 ->
        panicked (count_panics times p) = true).
Proof.
  split; [|split].
  - intros times Hlen.
    apply count_panics_few; cbn; unfold nbPanicsBeforeFail; try reflexivity; lia.
  - intros times p. apply count_panics_panicked.
  - intros [|t times] p Hlen Hclose Hnb; [discriminate Hlen|].
    cbn [length] in Hlen. injection Hlen as Hlen.
    cbn [count_panics fold_left].
    fold (count_panics times (count_panic (fst t) (snd t) p)).
    destruct (count_panic_fields (fst t) (snd t) p) as (Hl & Hn & _ & _).
    { lia. }
    destruct (count_panics_close times (count_panic (fst t) (snd t) p) (snd t) Hl) as [_ H].
    + destruct times as [|t' times]; [exact I|]. cbn [close_together fst snd] in *. exact Hclose.
    + lia.
    + rewrite Hlen. lia.
    + apply H; [destruct times; [discriminate Hlen|discriminate]|].
      rewrite Hlen. unfold nbPanicsBeforeFail. lia.
Qed.

End PanicCounter.

Lemma serve_admin_route_witness :
  SampleRouter.serve_sample SampleRouter.admin_route
    (SampleRouter.request "GET" "/admin" "alice") (Some tt) []
  = ([] ++ Router.response_headers "now" "0" ++ [Router.WriteError Router.ErrForbidden],
     Router.Return_).
Proof.
  apply (serve_admin_route "CDS/hatchery" "CDS/worker" SampleRouter.by_name SampleRouter.by_name
           SampleRouter.by_name (fun _ user => Router.Success user)
           (fun _ id => Router.Success {| Router.Group_ID := id |})
           (fun _ _ => None) (fun _ id => Router.Success {| Router.Model_GroupID := id |})
           {| Router.Group_ID := 1 |} (fun _ _ _ _ => false) (fun _ _ _ => false) (fun _ _ => 0)
           "now" "0" SampleRouter.admin_route (SampleRouter.request "GET" "/admin" "alice") tt []
           (Router.set_User (SampleRouter.user_of "alice" false)
              (Router.set_Agent "" Router.empty_Ctx))
           (SampleRouter.user_of "alice" false) (SampleRouter.user_of "alice" false));
    try reflexivity.
  discriminate.
Defined.

(** ** What is written is read back *)

Section JsonRoundTrip.
Import Json Written.

Ltac all_chars c := destruct c as [[] [] [] [] [] [] [] []].

Ltac step_both fn fuel s :=
  let X := fresh "X" in
  let EX := fresh "EX" in
  let f' := fresh "f" in
  let Ef := fresh "Ef" in
  remember (fn (S (S fuel)) s) as X eqn:EX;
  cbn [parse_value parse_elements parse_members];
  remember (S fuel) as f' eqn:Ef in EX;
  cbn [parse_value parse_elements parse_members] in EX;
  subst f' X.

(** More fuel does not change what the parser finds. *)
Lemma parse_more_fuel : forall fuel,
  (forall s, parse_value fuel s <> OutOfFuel -> parse_value (S fuel) s = parse_value fuel s)
  /\ (forall s, parse_elements fuel s <> OutOfFuel ->
                parse_elements (S fuel) s = parse_elements fuel s)
  /\ (forall s, parse_members fuel s <> OutOfFuel ->
                parse_members (S fuel) s = parse_members fuel s).
Proof.
  induction fuel as [|fuel (IHv & IHe & IHm)].
  - repeat split; intros s H; exfalso; apply H; reflexivity.
  - repeat split; intros s;
      [step_both parse_value fuel s|step_both parse_elements fuel s
      |step_both parse_members fuel s].
    + destruct (skip_ws s) as [|c rest]; [reflexivity|].
      pose proof (IHe rest) as He. pose proof (IHm rest) as Hm.
      destruct (parse_elements fuel rest);
        [rewrite He by discriminate|rewrite He by discriminate|clear He];
        (destruct (parse_members fuel rest);
         [rewrite Hm by discriminate|rewrite Hm by discriminate|clear Hm]);
        try reflexivity;
        repeat (match goal with
                | |- context [if ?b then _ else _] => destruct b
                end; try reflexivity);
        (destruct (skip_ws rest) as [|c' r']; [|all_chars c']);
        intros H; try reflexivity; exfalso; apply H; reflexivity.
    + pose proof (IHv s) as Hv.
      destruct (parse_value fuel s) as [v r| |];
        [rewrite Hv by discriminate|rewrite Hv by discriminate; reflexivity
        |intros H; exfalso; apply H; reflexivity].
      destruct (skip_ws r) as [|c' r']; [reflexivity|].
      pose proof (IHe r') as He.
      destruct (parse_elements fuel r');
        [rewrite He by discriminate|rewrite He by discriminate|clear He];
        try reflexivity.
      all_chars c'; intros H; try reflexivity; exfalso; apply H; reflexivity.
    + destruct (skip_ws s) as [|c0 r0]; [reflexivity|].
      destruct (lex_string r0) as [[key r1]|]; [|all_chars c0; reflexivity].
      destruct (skip_ws r1) as [|c1 r2]; [all_chars c0; reflexivity|].
      pose proof (IHv r2) as Hv.
      destruct (parse_value fuel r2) as [v r3| |];
        [rewrite Hv by discriminate|rewrite Hv by discriminate; reflexivity|].
      * destruct (skip_ws r3) as [|c3 r4]; [reflexivity|].
        pose proof (IHm r4) as Hm.
        destruct (parse_members fuel r4);
          [rewrite Hm by discriminate|rewrite Hm by discriminate|clear Hm];
          try reflexivity.
        all_chars c0; try (intros _; reflexivity);
          all_chars c1; try (intros _; reflexivity);
          all_chars c3; intros H; try reflexivity; exfalso; apply H; reflexivity.
      * all_chars c0; try (intros _; reflexivity);
          all_chars c1; intros H; try reflexivity; exfalso; apply H; reflexivity.
Qed.


Lemma string_app_cons (x : ascii) (a b : string) : String x a +:+ b = String x (a +:+ b).
Proof. reflexivity. Qed.

Lemma string_app_nil (b : string) : "" +:+ b = b.
Proof. reflexivity. Qed.

Ltac push_app := repeat first [rewrite string_app_cons | rewrite string_app_nil].

Lemma string_app_assoc (a b c : string) : (a +:+ b) +:+ c = a +:+ (b +:+ c).
Proof. induction a as [|x a IH]; [reflexivity|]. push_app. f_equal. exact IH. Qed.

Lemma string_app_empty (a : string) : a +:+ "" = a.
Proof. induction a as [|x a IH]; [reflexivity|]. push_app. f_equal. exact IH. Qed.

(** *** Integers in decimal *)

Lemma pretty_N_char_digit n :
  (n < 10)%N ->
  is_digit (pretty_N_char n) = true
  /\ Z.of_N (N_of_ascii (pretty_N_char n)) - 48 = Z.of_N n.
Proof.
  intros H. rewrite <- (N2Nat.id n).
  assert (N.to_nat n < 10)%nat as Hm by lia.
  revert Hm. generalize (N.to_nat n). intros m Hm.
  do 10 (destruct m as [|m]; [split; reflexivity|]). lia.
Qed.

Lemma take_digits_pretty_N_go x : forall s rest,
  (forall r, take_digits (s +:+ r) = (s +:+ fst (take_digits r), snd (take_digits r))) ->
  take_digits (pretty_N_go x s +:+ rest)
  = (pretty_N_go x s +:+ fst (take_digits rest), snd (take_digits rest)).
Proof.
  induction (N.lt_wf_0 x) as [x _ IH]. intros s rest Hs.
  destruct (decide (x = 0%N)) as [->|Hx].
  - rewrite pretty_N_go_0. apply Hs.
  - rewrite pretty_N_go_step by lia. apply IH.
    + apply N.div_lt; lia.
    + intros r. push_app. cbn [take_digits].
      destruct (pretty_N_char_digit (x mod 10)%N) as [-> _].
      { apply N.mod_lt. lia. }
      rewrite Hs. reflexivity.
Qed.

Lemma digits_value_pretty_N_go x : forall s,
  exists P, forall acc,
    digits_value acc (pretty_N_go x s) = digits_value (acc * P + Z.of_N x) s.
Proof.
  induction (N.lt_wf_0 x) as [x _ IH]. intros s.
  destruct (decide (x = 0%N)) as [->|Hx].
  - exists 1. intros acc. rewrite pretty_N_go_0. f_equal. lia.
  - destruct (IH (x / 10)%N) with (s := String (pretty_N_char (x mod 10)) s)
      as [P HP].
    { apply N.div_lt; lia. }
    exists (P * 10). intros acc.
    rewrite pretty_N_go_step by lia. rewrite HP.
    cbn [digits_value].
    destruct (pretty_N_char_digit (x mod 10)%N) as [-> Hd].
    { apply N.mod_lt. lia. }
    f_equal.
    pose proof (N.div_mod x 10 ltac:(lia)) as Hdm.
    lia.
Qed.

Lemma pretty_N_go_head x : forall s,
  (0 < x)%N ->
  exists c t, pretty_N_go x s = String c t
              /\ In c ["1"; "2"; "3"; "4"; "5"; "6"; "7"; "8"; "9"]%char.
Proof.
  induction (N.lt_wf_0 x) as [x _ IH]. intros s Hx.
  rewrite pretty_N_go_step by lia.
  destruct (decide (x < 10)%N) as [Hs|Hl].
  - rewrite N.div_small, N.mod_small, pretty_N_go_0 by lia.
    eexists _, _. split; [reflexivity|].
    rewrite <- (N2Nat.id x).
    assert (0 < N.to_nat x < 10)%nat as Hm by lia.
    revert Hm. generalize (N.to_nat x). intros m Hm.
    destruct m as [|m]; [lia|].
    do 9 (destruct m as [|m]; [cbn; tauto|]). lia.
  - apply IH.
    + apply N.div_lt; lia.
    + apply N.div_str_pos. lia.
Qed.

Lemma after_value_lex rest :
  after_value rest ->
  take_digits rest = ("", rest) /\ lex_frac rest = Some ("", rest)
  /\ lex_exp rest = Some ("", rest) /\ skip_ws rest = rest.
Proof.
  intros [->|(c & r & -> & Hc)]; [repeat split|].
  cbn in Hc.
  repeat (destruct Hc as [<-|Hc]; [repeat split|]).
  destruct Hc.
Qed.

Lemma lex_int_pretty_N_go p rest :
  after_value rest ->
  lex_int (pretty_N_go (N.pos p) "" +:+ rest) = Some (pretty_N_go (N.pos p) "", rest).
Proof.
  intros Hrest.
  destruct (after_value_lex rest Hrest) as (Htd & _).
  pose proof (take_digits_pretty_N_go (N.pos p) "" rest) as Ht.
  rewrite Htd in Ht. cbn [fst snd] in Ht. rewrite string_app_empty in Ht.
  specialize (Ht ltac:(intros r; push_app; destruct (take_digits r); reflexivity)).
  destruct (pretty_N_go_head (N.pos p) "" ltac:(lia)) as (c & t & E & Hc).
  rewrite E in Ht |- *.
  cbn in Hc.
  repeat (destruct Hc as [<-|Hc];
          [rewrite string_app_cons in Ht |- *; cbn [lex_int]; rewrite Ht; reflexivity|]).
  destruct Hc.
Qed.


Lemma pretty_Z_pos p : pretty (Z.pos p) = pretty_N_go (N.pos p) "".
Proof. reflexivity. Qed.

Lemma pretty_Z_neg p : pretty (Z.neg p) = String "-" (pretty_N_go (N.pos p) "").
Proof. reflexivity. Qed.

Lemma lex_number_pretty (z : Z) rest :
  after_value rest -> lex_number (pretty z +:+ rest) = Some (pretty z, rest).
Proof.
  intros Hrest.
  destruct (after_value_lex rest Hrest) as (_ & Hf & He & _).
  destruct z as [|p|p].
  - change (pretty 0) with "0". push_app. unfold lex_number. cbn [lex_int].
    rewrite Hf, He. reflexivity.
  - rewrite pretty_Z_pos.
    pose proof (lex_int_pretty_N_go p rest Hrest) as Hi.
    destruct (pretty_N_go_head (N.pos p) "" ltac:(lia)) as (c & t & E & Hc).
    rewrite E in Hi |- *. cbn in Hc.
    repeat (destruct Hc as [<-|Hc];
            [rewrite string_app_cons in Hi |- *; unfold lex_number;
             cbv iota beta; rewrite Hi, Hf, He; push_app;
             rewrite !string_app_empty; reflexivity|]).
    destruct Hc.
  - rewrite pretty_Z_neg. push_app. unfold lex_number. cbv iota beta.
    rewrite (lex_int_pretty_N_go p rest Hrest), Hf, He. push_app.
    rewrite !string_app_empty. reflexivity.
Qed.

Lemma digits_value_pretty_N p :
  digits_value 0 (pretty_N_go (N.pos p) "") = Some (Z.pos p).
Proof.
  destruct (digits_value_pretty_N_go (N.pos p) "") as [P HP].
  rewrite HP. reflexivity.
Qed.

(** An integer of the range of [int64] is read back from its decimal. *)
Lemma as_int64_pretty (z : Z) :
  Int64.in_range z -> as_int64 (Some (JNumber (pretty z))) = Some z.
Proof.
  intros [Hlo Hhi]. unfold as_int64.
  assert (forall signed, signed = Some z ->
            match signed with
            | Some z0 =>
                if (Int64.min_int <=? z0) && (z0 <=? Int64.max_int)
                then Some z0 else None
            | None => None
            end = Some z) as Hr.
  { intros ? ->.
    destruct (Z.leb_spec Int64.min_int z); [|lia].
    destruct (Z.leb_spec z Int64.max_int); [|lia]. reflexivity. }
  destruct z as [|p|p].
  - apply Hr. reflexivity.
  - rewrite pretty_Z_pos.
    pose proof (digits_value_pretty_N p) as Hd.
    destruct (pretty_N_go_head (N.pos p) "" ltac:(lia)) as (c & t & E & Hc).
    rewrite E in Hd |- *. cbn in Hc.
    repeat (destruct Hc as [<-|Hc]; [apply Hr; exact Hd|]).
    destruct Hc.
  - rewrite pretty_Z_neg. apply Hr. rewrite digits_value_pretty_N. reflexivity.
Qed.

(** *** String literals *)

Lemma hex4_u00 c :
  hex4 "0" "0" (hex_char (N_of_ascii c / 16)) (hex_char (N_of_ascii c mod 16))
  = Some (N_of_ascii c).
Proof. all_chars c; vm_compute; reflexivity. Qed.

Lemma unicode_escape_ascii c :
  (N_of_ascii c <? 128)%N = true -> unicode_escape (N_of_ascii c) = String c "".
Proof. all_chars c; vm_compute; intros H; try discriminate H; reflexivity. Qed.

Lemma below_32_ascii c :
  (N_of_ascii c <? 32)%N = true -> (N_of_ascii c <? 128)%N = true.
Proof. rewrite !N.ltb_lt. lia. Qed.

Lemma lex_string_backslash_u h1 h2 h3 h4 rest2 :
  lex_string (String "\" (String "u" (String h1 (String h2 (String h3 (String h4 rest2))))))
  = match hex4 h1 h2 h3 h4 with
    | Some n =>
        match lex_string rest2 with
        | Some (body, r) => Some (unicode_escape n +:+ body, r)
        | None => None
        end
    | None => None
    end.
Proof. reflexivity. Qed.

Lemma lex_string_u00 c tail :
  (N_of_ascii c <? 128)%N = true ->
  lex_string (u00 c +:+ tail)
  = match lex_string tail with
    | Some (body, r) => Some (String c body, r)
    | None => None
    end.
Proof.
  intros Hc. unfold u00. push_app.
  rewrite lex_string_backslash_u, hex4_u00, (unicode_escape_ascii c Hc).
  destruct (lex_string tail) as [[body r]|]; reflexivity.
Qed.

Lemma lex_string_escape_char c tail :
  lex_string (escape_char c +:+ tail)
  = match lex_string tail with
    | Some (body, r) => Some (String c body, r)
    | None => None
    end.
Proof.
  unfold escape_char.
  destruct (Ascii.eqb_spec c "034") as [->|N1]; [reflexivity|].
  destruct (Ascii.eqb_spec c "\") as [->|N2]; [reflexivity|].
  destruct (Ascii.eqb_spec c "010") as [->|_]; [reflexivity|].
  destruct (Ascii.eqb_spec c "013") as [->|_]; [reflexivity|].
  destruct (Ascii.eqb_spec c "009") as [->|_]; [reflexivity|].
  destruct (N_of_ascii c <? 32)%N eqn:E32.
  { apply lex_string_u00, below_32_ascii, E32. }
  destruct (Ascii.eqb_spec c "<") as [->|_]; [apply lex_string_u00; reflexivity|].
  destruct (Ascii.eqb_spec c ">") as [->|_]; [apply lex_string_u00; reflexivity|].
  destruct (Ascii.eqb_spec c "&") as [->|_]; [apply lex_string_u00; reflexivity|].
  cbv [orb]. push_app. cbn [lex_string].
  destruct (Ascii.eqb_spec c "034") as [E|_]; [contradiction|].
  destruct (Ascii.eqb_spec c "\") as [E|_]; [contradiction|].
  rewrite E32. reflexivity.
Qed.

Lemma lex_string_escape s rest :
  lex_string (escape s +:+ String "034" rest) = Some (s, rest).
Proof.
  induction s as [|c s IH]; [reflexivity|].
  cbn [escape]. rewrite string_app_assoc, lex_string_escape_char, IH. reflexivity.
Qed.

Lemma lex_string_quote s rest :
  exists body, quote s +:+ rest = String "034" body /\ lex_string body = Some (s, rest).
Proof.
  exists (escape s +:+ String "034" rest). split; [|apply lex_string_escape].
  unfold quote, dquote. push_app. rewrite string_app_assoc. reflexivity.
Qed.


(** *** Values *)

Abbreviation elems :=
  (fix elems (l : list value) : string :=
     match l with
     | nil => EmptyString
     | x :: nil => print x
     | x :: r => print x +:+ "," +:+ elems r
     end).

Abbreviation membs :=
  (fix membs (l : list (string * value)) : string :=
     match l with
     | nil => EmptyString
     | (k, x) :: nil => quote k +:+ ":" +:+ print x
     | (k, x) :: r => quote k +:+ ":" +:+ print x +:+ "," +:+ membs r
     end).

Abbreviation heads :=
  ["n"; "t"; "f"; "034"; "["; "{"; "-"; "0"; "1"; "2"; "3"; "4"; "5"; "6"; "7";
   "8"; "9"]%char.

Lemma after_value_comma r : after_value (String "," r).
Proof. right. exists ","%char, r. cbn. tauto. Qed.

Lemma after_value_bracket r : after_value (String "]" r).
Proof. right. exists "]"%char, r. cbn. tauto. Qed.

Lemma after_value_brace r : after_value (String "}" r).
Proof. right. exists "}"%char, r. cbn. tauto. Qed.

Lemma print_head v :
  written v -> exists c t, print v = String c t /\ In c heads.
Proof.
  intros H. inversion H as [|b|z|s|vs Hvs|ms Hms]; subst.
  - eexists _, _. split; [reflexivity|]. cbn. tauto.
  - destruct b; (eexists _, _; split; [reflexivity|]; cbn; tauto).
  - cbn [print]. destruct z as [|p|p].
    + eexists _, _. split; [reflexivity|]. cbn. tauto.
    + rewrite pretty_Z_pos.
      destruct (pretty_N_go_head (N.pos p) "" ltac:(lia)) as (c & t & E & Hc).
      exists c, t. split; [exact E|]. cbn in Hc |- *. tauto.
    + rewrite pretty_Z_neg. eexists _, _. split; [reflexivity|]. cbn. tauto.
  - eexists _, _. split; [reflexivity|]. cbn. tauto.
  - eexists _, _. split; [reflexivity|]. cbn. tauto.
  - eexists _, _. split; [reflexivity|]. cbn. tauto.
Qed.

Lemma parse_value_number f c t :
  In c ["-"; "0"; "1"; "2"; "3"; "4"; "5"; "6"; "7"; "8"; "9"]%char ->
  parse_value (S f) (String c t)
  = match lex_number (String c t) with
    | Some (lexeme, r) => Parsed (JNumber lexeme) r
    | None => SyntaxError
    end.
Proof.
  intros Hc. cbn in Hc.
  repeat (destruct Hc as [<-|Hc]; [reflexivity|]). destruct Hc.
Qed.

Lemma parse_value_array f c t :
  In c heads ->
  parse_value (S f) (String "[" (String c t))
  = match parse_elements f (String c t) with
    | Parsed vs r => Parsed (JArray vs) r
    | SyntaxError => SyntaxError
    | OutOfFuel => OutOfFuel
    end.
Proof.
  intros Hc. cbn in Hc.
  repeat (destruct Hc as [<-|Hc]; [reflexivity|]). destruct Hc.
Qed.

Lemma elems_cons x r tail :
  elems (x :: r) +:+ tail
  = print x +:+ match r with
                | [] => tail
                | _ :: _ => String "," (elems r +:+ tail)
                end.
Proof.
  destruct r as [|y r]; [reflexivity|].
  rewrite !string_app_assoc. reflexivity.
Qed.

Lemma membs_cons k x r tail :
  membs ((k, x) :: r) +:+ tail
  = quote k +:+ String ":" (print x +:+ match r with
                                          | [] => tail
                                          | _ :: _ => String "," (membs r +:+ tail)
                                          end).
Proof.
  destruct r as [|y r]; rewrite !string_app_assoc; reflexivity.
Qed.

Lemma print_parse_elements vs :
  vs <> [] ->
  Forall written vs ->
  Forall (fun v => written v ->
            exists F, forall fuel rest, (F <= fuel)%nat -> after_value rest ->
              parse_value fuel (print v +:+ rest) = Parsed v rest) vs ->
  exists F, forall fuel rest, (F <= fuel)%nat ->
    parse_elements fuel (elems vs +:+ String "]" rest) = Parsed vs rest.
Proof.
  induction vs as [|x r IH]; [congruence|]. intros _ Hw HP.
  apply List.Forall_cons_iff in Hw as [Hx Hr].
  apply List.Forall_cons_iff in HP as [Px Pr].
  destruct (Px Hx) as [Fx HFx].
  destruct r as [|y r].
  - exists (S Fx). intros [|fuel] rest Hfuel; [lia|].
    change (elems [x] +:+ String "]" rest) with (print x +:+ String "]" rest).
    cbn [parse_elements].
    rewrite HFx by (lia || apply after_value_bracket). reflexivity.
  - destruct IH as [Fr HFr]; [congruence|assumption|assumption|].
    exists (S (Fx + Fr)). intros [|fuel] rest Hfuel; [lia|].
    change (elems (x :: y :: r)) with (print x +:+ "," +:+ elems (y :: r)).
    rewrite !string_app_assoc. push_app. cbn [parse_elements].
    rewrite HFx by (lia || apply after_value_comma). cbn [skip_ws is_ws].
    rewrite HFr by lia. reflexivity.
Qed.

Lemma parse_members_quote f k tail :
  parse_members (S f) (quote k +:+ String ":" tail)
  = match parse_value f tail with
    | Parsed v r3 =>
        match skip_ws r3 with
        | String "," r4 =>
            match parse_members f r4 with
            | Parsed ms r5 => Parsed ((k, v) :: ms) r5
            | SyntaxError => SyntaxError
            | OutOfFuel => OutOfFuel
            end
        | String "}" r4 => Parsed ((k, v) :: nil) r4
        | _ => SyntaxError
        end
    | SyntaxError => SyntaxError
    | OutOfFuel => OutOfFuel
    end.
Proof.
  destruct (lex_string_quote k (String ":" tail)) as (body & -> & Hbody).
  cbn [parse_members skip_ws is_ws]. rewrite Hbody. reflexivity.
Qed.

Lemma parse_value_object f k tail :
  parse_value (S f) (String "{" (quote k +:+ tail))
  = match parse_members f (quote k +:+ tail) with
    | Parsed ms r => Parsed (JObject ms) r
    | SyntaxError => SyntaxError
    | OutOfFuel => OutOfFuel
    end.
Proof.
  destruct (lex_string_quote k tail) as (body & -> & _). reflexivity.
Qed.

Lemma print_parse_members ms :
  ms <> [] ->
  Forall (fun kv => written (snd kv)) ms ->
  Forall (fun kv => written (snd kv) ->
            exists F, forall fuel rest, (F <= fuel)%nat -> after_value rest ->
              parse_value fuel (print (snd kv) +:+ rest) = Parsed (snd kv) rest) ms ->
  exists F, forall fuel rest, (F <= fuel)%nat ->
    parse_members fuel (membs ms +:+ String "}" rest) = Parsed ms rest.
Proof.
  induction ms as [|[k x] r IH]; [congruence|]. intros _ Hw HP.
  apply List.Forall_cons_iff in Hw as [Hx Hr].
  apply List.Forall_cons_iff in HP as [Px Pr].
  destruct (Px Hx) as [Fx HFx]. cbn [snd] in *.
  destruct r as [|y r].
  - exists (S Fx). intros [|fuel] rest Hfuel; [lia|].
    change (membs [(k, x)]) with (quote k +:+ ":" +:+ print x).
    rewrite !string_app_assoc. push_app. rewrite parse_members_quote.
    rewrite HFx by (lia || apply after_value_brace). reflexivity.
  - destruct IH as [Fr HFr]; [congruence|assumption|assumption|].
    exists (S (Fx + Fr)). intros [|fuel] rest Hfuel; [lia|].
    change (membs ((k, x) :: y :: r))
      with (quote k +:+ ":" +:+ print x +:+ "," +:+ membs (y :: r)).
    rewrite !string_app_assoc. push_app. rewrite parse_members_quote.
    rewrite HFx by (lia || apply after_value_comma). cbn [skip_ws is_ws].
    rewrite HFr by lia. reflexivity.
Qed.

(** With enough fuel the parser reads a written value back, and stops
    right after it. *)
Lemma print_parse_value v :
  written v ->
  exists F, forall fuel rest, (F <= fuel)%nat -> after_value rest ->
    parse_value fuel (print v +:+ rest) = Parsed v rest.
Proof.
  induction v as [|b|lexeme|s|vs IH|ms IH] using value_induction; intros Hw.
  - exists 1%nat. intros [|fuel] rest Hfuel _; [lia|]. reflexivity.
  - exists 1%nat. intros [|fuel] rest Hfuel _; [lia|]. destruct b; reflexivity.
  - exists 1%nat. intros [|fuel] rest Hfuel Hrest; [lia|].
    inversion Hw as [| |z| | |]; subst. cbn [print].
    pose proof (lex_number_pretty z rest Hrest) as Hl.
    destruct (print_head (JNumber (pretty z)) Hw) as (c & t & E & Hc).
    cbn [print] in E. rewrite E in Hl |- *. rewrite string_app_cons in Hl |- *.
    assert (In c ["-"; "0"; "1"; "2"; "3"; "4"; "5"; "6"; "7"; "8"; "9"]%char) as Hd.
    { destruct z as [|p|p].
      - injection E as <- _. cbn. tauto.
      - rewrite pretty_Z_pos in E.
        destruct (pretty_N_go_head (N.pos p) "" ltac:(lia)) as (c' & t' & E' & Hc').
        rewrite E' in E. injection E as <- _. cbn in Hc' |- *. tauto.
      - rewrite pretty_Z_neg in E. injection E as <- _. cbn. tauto. }
    rewrite (parse_value_number fuel c _ Hd), Hl. reflexivity.
  - exists 1%nat. intros [|fuel] rest Hfuel _; [lia|].
    cbn [print].
    destruct (lex_string_quote s rest) as (body & -> & Hbody).
    cbn [parse_value skip_ws is_ws]. cbn. rewrite Hbody. reflexivity.
  - inversion Hw as [| | | |vs' Hvs|]; subst.
    destruct vs as [|x r].
    { exists 1%nat. intros [|fuel] rest Hfuel _; [lia|]. reflexivity. }
    destruct (print_parse_elements (x :: r)) as [F HF];
      [congruence|assumption|assumption|].
    exists (S F). intros [|fuel] rest Hfuel _; [lia|].
    change (print (JArray (x :: r))) with ("[" +:+ elems (x :: r) +:+ "]").
    push_app. rewrite string_app_assoc. push_app.
    specialize (HF fuel rest ltac:(lia)).
    rewrite elems_cons in HF |- *.
    apply List.Forall_cons_iff in Hvs as [Hx _].
    destruct (print_head x Hx) as (c & t & E & Hc).
    rewrite E in HF |- *. rewrite string_app_cons in HF |- *.
    rewrite (parse_value_array fuel c _ Hc), HF. reflexivity.
  - inversion Hw as [| | | | |ms' Hms]; subst.
    destruct ms as [|[k x] r].
    { exists 1%nat. intros [|fuel] rest Hfuel _; [lia|]. reflexivity. }
    destruct (print_parse_members ((k, x) :: r)) as [F HF];
      [congruence|assumption|assumption|].
    exists (S F). intros [|fuel] rest Hfuel _; [lia|].
    change (print (JObject ((k, x) :: r))) with ("{" +:+ membs ((k, x) :: r) +:+ "}").
    push_app. rewrite string_app_assoc. push_app.
    match goal with
    | |- context [String "{" ?b] =>
        assert (parse_members fuel b = Parsed ((k, x) :: r) rest) as HF'
          by (apply HF; lia);
        pose proof (membs_cons k x r (String "}" rest) : b = _) as E;
        rewrite E in HF' |- *
    end.
    rewrite parse_value_object, HF'. reflexivity.
Qed.

(** What [print] writes, [parse] reads back. *)
Lemma parse_print v : written v -> parse (print v) = Some v.
Proof.
  intros Hw. destruct (print_parse_value v Hw) as [F HF].
  unfold parse.
  assert (forall k, parse_value (k + enough_fuel (print v)) (print v)
                   = parse_value (enough_fuel (print v)) (print v)) as Hk.
  { induction k as [|k IH]; [reflexivity|].
    cbn [Nat.add]. rewrite <- IH.
    apply (parse_more_fuel (k + enough_fuel (print v))).
    rewrite IH. apply parse_never_out_of_fuel. }
  rewrite <- (Hk F).
  specialize (HF (F + enough_fuel (print v))%nat "" ltac:(lia) ltac:(left; reflexivity)).
  rewrite string_app_empty in HF. rewrite HF. reflexivity.
Qed.


(** *** The three slices of a build *)

Lemma all_some_map {A : Type} (dec : value -> option A) (enc : A -> value) (l : list A) :
  Forall (fun a => dec (enc a) = Some a) l ->
  all_some (List.map dec (List.map enc l)) = Some l.
Proof.
  induction 1 as [|a l Ha _ IH]; [reflexivity|].
  cbn [List.map all_some]. rewrite Ha, IH. reflexivity.
Qed.

Lemma Unmarshal_Marshal {A : Type} (dec : value -> option A) (enc : A -> value) (l : list A) :
  Forall (fun a => written (enc a)) l ->
  Forall (fun a => dec (enc a) = Some a) l ->
  Unmarshal dec (Marshal enc l) = Ok l.
Proof.
  intros Hw Hd. unfold Unmarshal, Marshal.
  rewrite parse_print.
  - cbn [as_slice]. rewrite (all_some_map dec enc l Hd). reflexivity.
  - constructor. apply List.Forall_map. exact Hw.
Qed.

Lemma in_int64_range z : in_int64 z = true -> Int64.in_range z.
Proof.
  unfold in_int64, Int64.in_range. rewrite andb_true_iff, !Z.leb_le. tauto.
Qed.

Lemma written_encode_Param p : written (encode_Param p).
Proof. repeat constructor. Qed.

Lemma written_encode_Job j : written (encode_Job j).
Proof. repeat constructor. Qed.

Lemma written_encode_Stage st : written (encode_Stage st).
Proof.
  unfold encode_Stage. constructor.
  repeat (apply List.Forall_cons; [cbn [snd]; try constructor|]); [|constructor].
  apply List.Forall_map, List.Forall_forall. intros j _. apply written_encode_Job.
Qed.

Lemma written_encode_Commit c : written (encode_Commit c).
Proof. repeat constructor. Qed.

Lemma decode_encode_Param p : decode_Param (encode_Param p) = Some p.
Proof. destruct p. reflexivity. Qed.

Lemma decode_encode_Commit c : decode_Commit (encode_Commit c) = Some c.
Proof. destruct c. reflexivity. Qed.

Lemma decode_encode_Job j : plain_Job j = true -> decode_Job (encode_Job j) = Some j.
Proof.
  unfold plain_Job. rewrite andb_true_iff. intros [Hid _].
  destruct j as [id status]. unfold encode_Job, decode_Job. cbn [Job_ID Job_Status] in *.
  change (field "id" _) with (Some (JNumber (pretty id))).
  rewrite (as_int64_pretty id (in_int64_range id Hid)). reflexivity.
Qed.

Lemma decode_encode_Stage st : plain_Stage st = true -> decode_Stage (encode_Stage st) = Some st.
Proof.
  unfold plain_Stage. rewrite !andb_true_iff. intros [[[_ Ho] _] Hj].
  destruct st as [name order enabled status jobs]. unfold encode_Stage, decode_Stage.
  cbn [Stage_Name Stage_BuildOrder Stage_Enabled Stage_Status Stage_PipelineBuildJobs] in *.
  change (field "name" _) with (Some (JString name)).
  change (field "order" _) with (Some (JNumber (pretty order))).
  change (field "enabled" _) with (Some (JBool enabled)).
  change (field "status" _) with (Some (JString status)).
  change (field "jobs" _) with (Some (JArray (List.map encode_Job jobs))).
  rewrite (as_int64_pretty order (in_int64_range order Ho)).
  cbn [as_string as_bool as_slice mbind option_bind].
  rewrite (all_some_map decode_Job encode_Job jobs); [reflexivity|].
  apply List.Forall_forall. intros j Hin. apply decode_encode_Job.
  rewrite forallb_forall in Hj. apply Hj. exact Hin.
Qed.

End JsonRoundTrip.

(** ** A build that is read back *)

Lemma Marshal_not_empty {A : Type} (enc : A -> Json.value) l :
  String.eqb (Marshal enc l) "" = false.
Proof. reflexivity. Qed.

Lemma forallb_Forall {A : Type} (f : A -> bool) (P : A -> Prop) l :
  (forall a, f a = true -> P a) -> forallb f l = true -> Forall P l.
Proof.
  intros H Hl. apply List.Forall_forall. intros a Hin. apply H.
  rewrite forallb_forall in Hl. apply Hl. exact Hin.
Qed.

Lemma Unmarshal_Marshal_Param params :
  Unmarshal decode_Param (Marshal encode_Param params) = Ok params.
Proof.
  apply Unmarshal_Marshal; apply List.Forall_forall; intros q _;
    [apply written_encode_Param|apply decode_encode_Param].
Qed.

Lemma Unmarshal_Marshal_Commit commits :
  Unmarshal decode_Commit (Marshal encode_Commit commits) = Ok commits.
Proof.
  apply Unmarshal_Marshal; apply List.Forall_forall; intros q _;
    [apply written_encode_Commit|apply decode_encode_Commit].
Qed.

Lemma Unmarshal_Marshal_Stage stages :
  forallb plain_Stage stages = true ->
  Unmarshal decode_Stage (Marshal encode_Stage stages) = Ok stages.
Proof.
  intros H. apply Unmarshal_Marshal.
  - apply List.Forall_forall. intros q _. apply written_encode_Stage.
  - eapply forallb_Forall; [|exact H]. apply decode_encode_Stage.
Qed.

(** A row whose three columns hold what [json.Marshal] wrote. *)
Lemma scanPipelineBuild_Marshal pbResult params stages commits :
  forallb plain_Stage stages = true ->
  Res_Args pbResult = Marshal encode_Param params ->
  Res_Stages pbResult = Marshal encode_Stage stages ->
  Res_Commits pbResult = Marshal encode_Commit commits ->
  exists pb,
    scanPipelineBuild pbResult = Ok pb
    /\ PB_Parameters pb = params /\ PB_Stages pb = stages /\ PB_Commits pb = commits
    /\ PB_ID pb = Res_ID pbResult
    /\ PB_BuildNumber pb = Res_BuildNumber pbResult
    /\ PB_Version pb = Res_Version pbResult
    /\ PB_Status pb = StatusFromString (Res_Status pbResult)
    /\ App_ID (PB_Application pb) = Res_ApplicationID pbResult
    /\ App_Name (PB_Application pb) = Res_ApplicatioName pbResult
    /\ Pip_ID (PB_Pipeline pb) = Res_PipelineID pbResult
    /\ Pip_Name (PB_Pipeline pb) = Res_PipelineName pbResult
    /\ Env_ID (PB_Environment pb) = Res_EnvironmentID pbResult
    /\ Env_Name (PB_Environment pb) = Res_EnvironmentName pbResult
    /\ Trigger_VCSChangesBranch (PB_Trigger pb) = null_string (Res_VCSChangesBranch pbResult)
    /\ Trigger_VCSChangesHash (PB_Trigger pb) = null_string (Res_VCSChangesHash pbResult)
    /\ Trigger_VCSChangesAuthor (PB_Trigger pb) = null_string (Res_VCSChangesAuthor pbResult).
Proof.
  intros Hs Ea Est Ec. unfold scanPipelineBuild.
  rewrite Ea, Est, Ec, Unmarshal_Marshal_Param, (Unmarshal_Marshal_Stage stages Hs),
    Marshal_not_empty, Unmarshal_Marshal_Commit.
  eexists. repeat split; reflexivity.
Qed.

Lemma filter_key {A : Type} (key : A -> Z) (l : list A) (x : A) :
  List.NoDup (List.map key l) -> In x l ->
  List.filter (fun y => key y =? key x) l = [x].
Proof.
  induction l as [|y l IH]; intros Hnd Hin; [destruct Hin|].
  cbn [List.map] in Hnd. apply List.NoDup_cons_iff in Hnd as [Hy Hnd].
  cbn [List.filter]. destruct Hin as [->|Hin].
  - rewrite Z.eqb_refl. f_equal.
    clear IH Hnd. induction l as [|z l IH]; [reflexivity|].
    cbn [List.filter List.map] in *.
    destruct (Z.eqb_spec (key z) (key x)) as [E|_].
    + exfalso. apply Hy. left. exact E.
    + apply IH. intros H. apply Hy. right. exact H.
  - destruct (Z.eqb_spec (key y) (key x)) as [E|_]; [|apply IH; assumption].
    exfalso. apply Hy. rewrite E. apply in_map. exact Hin.
Qed.

Lemma filter_key_at_most_one {A : Type} (key : A -> Z) (l : list A) (k : Z) :
  List.NoDup (List.map key l) ->
  List.filter (fun y => key y =? k) l = []
  \/ exists x, List.filter (fun y => key y =? k) l = [x].
Proof.
  intros Hnd.
  destruct (List.filter (fun y => key y =? k) l) as [|x rest] eqn:E; [left; reflexivity|].
  right. exists x.
  assert (In x (List.filter (fun y => key y =? k) l)) as Hx by (rewrite E; left; reflexivity).
  apply filter_In in Hx as [Hin Hk]. apply Z.eqb_eq in Hk. subst k.
  rewrite (filter_key key l x Hnd Hin) in E. symmetry. exact E.
Qed.

(** The join of one build whose application, pipeline, environment and
    project are there is one row. *)
Lemma selectPipelineBuild_one s where_ row a pi en pr :
  List.filter where_ (t_pipeline_build s) = [row] ->
  List.NoDup (List.map application_id (t_application s)) ->
  List.NoDup (List.map pipeline_id (t_pipeline s)) ->
  List.NoDup (List.map environment_id (t_environment s)) ->
  List.NoDup (List.map project_id (t_project s)) ->
  List.NoDup (List.map user_id (t_user s)) ->
  In a (t_application s) -> application_id a = pb_application_id row ->
  In pi (t_pipeline s) -> pipeline_id pi = pb_pipeline_id row ->
  In en (t_environment s) -> environment_id en = pb_environment_id row ->
  In pr (t_project s) -> project_id pr = application_project_id a ->
  exists username, selectPipelineBuild s where_ = [joined row a pi en pr username].
Proof.
  intros Hrow Na Np Ne Nj Nu Ia Ea Ip Ep Ie Ee Ij Ej.
  unfold selectPipelineBuild. rewrite Hrow.
  cbn [mbind list_bind].
  rewrite <- Ea, (filter_key application_id _ a Na Ia). cbn [mbind list_bind].
  rewrite <- Ep, (filter_key pipeline_id _ pi Np Ip). cbn [mbind list_bind].
  rewrite <- Ee, (filter_key environment_id _ en Ne Ie). cbn [mbind list_bind].
  rewrite <- Ej, (filter_key project_id _ pr Nj Ij). cbn [mbind list_bind].
  rewrite !app_nil_r.
  destruct (pb_triggered_by row) as [t|].
  - destruct (filter_key_at_most_one user_id (t_user s) t Nu) as [->|[u ->]];
      eexists; reflexivity.
  - assert (List.filter (fun _ : UserRow => false) (t_user s) = []) as ->.
    { clear. induction (t_user s) as [|u l IH]; [reflexivity|exact IH]. }
    eexists. reflexivity.
Qed.

(** The row of the new build after a successful [InsertPipelineBuild],
    with the three columns that hold JSON. *)
Lemma InsertPipelineBuild_stored env project p app applicationPipelineArgs params e version
    trigger s pb s' :
  InsertPipelineBuild env project p app applicationPipelineArgs params e version trigger s
    = (Ok pb, s') ->
  exists mapVar stored new_row f,
    ProcessPipelineBuildVariables (Pip_Parameter p) applicationPipelineArgs (PB_Parameters pb)
      = Ok mapVar
    /\ (stored = final_arguments env mapVar
        \/ exists previousHash,
             stored = AddParameter (final_arguments env mapVar) "git.previousHash"
                        StringParameter previousHash)
    /\ PB_ID pb = seq_pipeline_build s
    /\ t_pipeline_build s' = List.map f (t_pipeline_build s ++ [new_row])
    /\ (forall r, pb_id (f r) = pb_id r)
    /\ f new_row = row_set_args (Marshal encode_Param stored) new_row
    /\ pb_id new_row = PB_ID pb
    /\ pb_pipeline_id new_row = Pip_ID p
    /\ pb_application_id new_row = App_ID app
    /\ pb_environment_id new_row = Env_ID e
    /\ pb_build_number new_row = PB_BuildNumber pb
    /\ pb_version new_row = PB_Version pb
    /\ pb_status new_row = StatusBuilding
    /\ pb_vcs_changes_branch new_row = Some (Trigger_VCSChangesBranch (PB_Trigger pb))
    /\ pb_vcs_changes_hash new_row = Some (Trigger_VCSChangesHash (PB_Trigger pb))
    /\ pb_vcs_changes_author new_row = Some (Trigger_VCSChangesAuthor (PB_Trigger pb))
    /\ pb_stages new_row = Marshal encode_Stage (Pip_Stages (PB_Pipeline pb))
    /\ pb_commits new_row = Marshal encode_Commit []
    /\ t_application s' = t_application s /\ t_pipeline s' = t_pipeline s
    /\ t_environment s' = t_environment s /\ t_project s' = t_project s
    /\ t_user s' = t_user s.
Proof.
  intros H.
  destruct (GetLastBuildNumber_spec (Pip_ID p) (App_ID app) (Env_ID e) s) as (last & Hget & _).
  unfold InsertPipelineBuild in H.
  step H bn s1 H1.
  rewrite Hget in H1. inversion H1; subst bn s1; clear H1.
  apply bind_Ok in H. destruct H as ([params' trigger'] & s1 & H1 & H).
  apply lift_Ok in H1. destruct H1 as [Hbuilt ->].
  apply bind_Ok in H. destruct H as (mapVar & s1 & H1 & H).
  apply lift_Ok in H1. destruct H1 as [Hmap ->].
  apply bind_Ok in H. destruct H as (p' & s1 & H1 & H).
  apply wrapping_Ok in H1. unfold LoadPipelineStage, mbind, M_bind, get, mret, M_ret in H1.
  inversion H1; subst p' s1; clear H1.
  apply bind_Ok in H. destruct H as (id & s1 & H1 & H).
  apply wrapping_Ok in H1.
  unfold insertPipelineBuild, mbind, M_bind, get, mret, M_ret, Now, modify in H1.
  inversion H1; subst id s1; clear H1.
  apply bind_Ok in H. destruct H as ([] & s1 & H1 & H).
  unfold PipelineEvent, modify in H1. inversion H1; subst s1; clear H1.
  apply bind_Ok in H. destruct H as (loaded & s1 & H1 & H).
  apply try_Ok in H1. apply Load_state in H1. subst s1.
  apply bind_Ok in H. destruct H as ([] & s1 & H1 & H).
  apply bind_Ok in H. destruct H as ([] & s2 & H2 & H).
  unfold PublishPipelineBuild, modify in H2. inversion H2; subst s2; clear H2.
  unfold mret, M_ret in H. inversion H; subst pb s'; clear H.
  cbn [fst snd] in *.
  match type of H1 with
  | context [with_pipeline_build (fun rows => rows ++ [?r])] => set (new_row := r) in *
  end.
  exists mapVar.
  destruct (previous_of _) as [prev|];
    [destruct (negb _)|];
    [apply wrapping_Ok in H1; unfold update_where_id, modify in H1
    |unfold mret, M_ret in H1|unfold mret, M_ret in H1];
    inversion H1; subst s1; clear H1.
  - eexists _, new_row,
      (fun r => if pb_id r =? seq_pipeline_build s then row_set_args _ r else r).
    split; [exact Hmap|]. split; [right; eexists; reflexivity|].
    split; [reflexivity|]. split; [reflexivity|].
    split; [intros r; destruct (pb_id r =? seq_pipeline_build s); reflexivity|].
    split; [cbn [new_row pb_id]; rewrite Z.eqb_refl; reflexivity|].
    cbn. repeat split; reflexivity.
  - exists (final_arguments env mapVar), new_row, (fun r => r).
    split; [exact Hmap|]. split; [left; reflexivity|].
    split; [reflexivity|]. split; [cbn; rewrite List.map_id; reflexivity|].
    split; [reflexivity|]. split; [reflexivity|].
    cbn. repeat split; reflexivity.
  - exists (final_arguments env mapVar), new_row, (fun r => r).
    split; [exact Hmap|]. split; [left; reflexivity|].
    split; [reflexivity|]. split; [cbn; rewrite List.map_id; reflexivity|].
    split; [reflexivity|]. split; [reflexivity|].
    cbn. repeat split; reflexivity.
Qed.

Lemma filter_new_row (f : PipelineBuildRow -> PipelineBuildRow) rows new_row id :
  (forall r, pb_id (f r) = pb_id r) ->
  Forall (fun r => pb_id r < id) rows ->
  pb_id new_row = id ->
  List.filter (fun r => pb_id r =? id) (List.map f (rows ++ [new_row])) = [f new_row].
Proof.
  intros Hf Hrows Hid. rewrite List.map_app, List.filter_app. cbn [List.map List.filter].
  rewrite Hf, Hid, Z.eqb_refl.
  assert (List.filter (fun r => pb_id r =? id) (List.map f rows) = []) as ->; [|reflexivity].
  induction Hrows as [|r rows Hr _ IH]; [reflexivity|].
  cbn [List.map List.filter]. rewrite Hf.
  destruct (Z.eqb_spec (pb_id r) id); [lia|exact IH].
Qed.

(** X21: [scanPipelineBuild] reads back what [json.Marshal] wrote into the
    three JSON columns of a row: when they hold the encoding of
    parameters, of stages and of commits (of ASCII text, with orders and
    job ids in the range of [int64]), the build that is scanned has
    exactly these parameters, stages and commits, and the id, build
    number, version and status of the row. *)
Theorem scanPipelineBuild_reads_Marshal :
  forall pbResult params stages commits,
    forallb plain_Param params = true ->
    forallb plain_Stage stages = true ->
    forallb plain_Commit commits = true ->
    Res_Args pbResult = Marshal encode_Param params ->
    Res_Stages pbResult = Marshal encode_Stage stages ->
    Res_Commits pbResult = Marshal encode_Commit commits ->
    exists pb,
      scanPipelineBuild pbResult = Ok pb
      /\ PB_Parameters pb = params /\ PB_Stages pb = stages /\ PB_Commits pb = commits
      /\ PB_ID pb = Res_ID pbResult
      /\ PB_BuildNumber pb = Res_BuildNumber pbResult
      /\ PB_Version pb = Res_Version pbResult
      /\ PB_Status pb = StatusFromString (Res_Status pbResult).
Proof.
  intros pbResult params stages commits _ Hs _ Ea Est Ec.
  destruct (scanPipelineBuild_Marshal pbResult params stages commits Hs Ea Est Ec)
    as (pb & H & Hp & Hst & Hc & Hid & Hbn & Hv & Hstatus & _).
  exists pb. repeat split; assumption.
Qed.

(** X22: a build that [InsertPipelineBuild] has created is read back by
    [LoadPipelineBuildByID] when the ids of the store are keys, the rows
    of its application, pipeline, environment and project are there and
    what was written is ASCII text with stage orders and job ids in the
    range of [int64]: the build that is loaded has the id, the build
    number, the version and the VCS branch, hash and author of the build
    that was returned, the status Building, the names of the rows, as
    stages the stages of the pipeline of the returned build, no commits,
    and as parameters not those of the returned build but the arguments
    that were merged from the defaults of the pipeline, the values of
    the application and the parameters of the build, followed by
    [git.previousHash] when that was added. *)
Theorem InsertPipelineBuild_then_LoadPipelineBuildByID :
  forall env project p app applicationPipelineArgs params e version trigger s pb s'
         a pi en pr,
    InsertPipelineBuild env project p app applicationPipelineArgs params e version trigger s
      = (Ok pb, s') ->
    well_keyed s ->
    referenced s app p e a pi en pr ->
    forallb plain_Stage (Pip_Stages (PB_Pipeline pb)) = true ->
    (forall row, In row (t_pipeline_build s') -> pb_id row = PB_ID pb ->
                 ascii_text (pb_args row) = true) ->
    exists loaded mapVar,
      LoadPipelineBuildByID (PB_ID pb) s' = (Ok loaded, s')
      /\ PB_ID loaded = PB_ID pb
      /\ PB_BuildNumber loaded = PB_BuildNumber pb
      /\ PB_Version loaded = PB_Version pb
      /\ PB_Status loaded = StatusBuilding
      /\ App_ID (PB_Application loaded) = App_ID app
      /\ App_Name (PB_Application loaded) = application_name a
      /\ Pip_ID (PB_Pipeline loaded) = Pip_ID p
      /\ Pip_Name (PB_Pipeline loaded) = pipeline_name pi
      /\ Env_ID (PB_Environment loaded) = Env_ID e
      /\ Env_Name (PB_Environment loaded) = environment_name en
      /\ Trigger_VCSChangesBranch (PB_Trigger loaded) = Trigger_VCSChangesBranch (PB_Trigger pb)
      /\ Trigger_VCSChangesHash (PB_Trigger loaded) = Trigger_VCSChangesHash (PB_Trigger pb)
      /\ Trigger_VCSChangesAuthor (PB_Trigger loaded) = Trigger_VCSChangesAuthor (PB_Trigger pb)
      /\ PB_Stages loaded = Pip_Stages (PB_Pipeline pb)
      /\ PB_Commits loaded = []
      /\ ProcessPipelineBuildVariables (Pip_Parameter p) applicationPipelineArgs
           (PB_Parameters pb) = Ok mapVar
      /\ (PB_Parameters loaded = final_arguments env mapVar
          \/ exists previousHash,
               PB_Parameters loaded
               = AddParameter (final_arguments env mapVar) "git.previousHash"
                   StringParameter previousHash).
Proof.
  intros env project p app apa params e version trigger s pb s' a pi en pr
         H (Na & Np & Ne & Nj & Nu & Hseq) (Ia & Ea & Ip & Ep & Ie & Ee & Ij & Ej) Hstages _.
  apply InsertPipelineBuild_stored in H.
  destruct H as (mapVar & stored & new_row & f & Hmap & Hstored & Hid & Hrows & Hf & Hnew
                 & Rid & Rpip & Rapp & Renv & Rbn & Rv & Rstatus & Rbranch & Rhash & Rauthor
                 & Rstages & Rcommits & Ta & Tp & Te & Tj & Tu).
  assert (Hone : List.filter (fun r => pb_id r =? PB_ID pb) (t_pipeline_build s') = [f new_row]).
  { rewrite Hrows. apply filter_new_row; [exact Hf| |exact Rid]. rewrite Hid. exact Hseq. }
  destruct (selectPipelineBuild_one s' (fun r => pb_id r =? PB_ID pb) (f new_row) a pi en pr)
    as [username Hsel]; rewrite ?Ta, ?Tp, ?Te, ?Tj, ?Tu, ?Hnew; try assumption;
    cbn [row_set_args pb_application_id pb_pipeline_id pb_environment_id]; try congruence.
  destruct (scanPipelineBuild_Marshal
              (joined (f new_row) a pi en pr username) stored (Pip_Stages (PB_Pipeline pb)) [])
    as (loaded & Hscan & Hp & Hst & Hc & Lid & Lbn & Lv & Lstatus & Lapp & Lappn & Lpip & Lpipn
        & Lenv & Lenvn & Lbranch & Lhash & Lauthor);
    rewrite ?Hnew; cbn [joined Res_Args Res_Stages Res_Commits row_set_args pb_args pb_stages
                          pb_commits]; try assumption; try reflexivity.
  rewrite Hnew in Lid, Lbn, Lv, Lstatus, Lapp, Lpip, Lenv, Lbranch, Lhash, Lauthor.
  cbn [joined row_set_args Res_ID Res_BuildNumber Res_Version Res_Status Res_ApplicationID
       Res_ApplicatioName Res_PipelineID Res_PipelineName Res_EnvironmentID Res_EnvironmentName
       Res_VCSChangesBranch Res_VCSChangesHash Res_VCSChangesAuthor
       pb_id pb_build_number pb_version pb_status pb_application_id pb_pipeline_id
       pb_environment_id pb_vcs_changes_branch pb_vcs_changes_hash pb_vcs_changes_author] in *.
  exists loaded, mapVar.
  split.
  { unfold LoadPipelineBuildByID, mbind, M_bind, get, lift. rewrite Hsel. cbn [SelectOne].
    rewrite Hscan. reflexivity. }
  rewrite Lid, Lbn, Lv, Lstatus, Lapp, Lappn, Lpip, Lpipn, Lenv, Lenvn, Lbranch, Lhash, Lauthor,
    Rid, Rbn, Rv, Rstatus, Rapp, Rpip, Renv, Rbranch, Rhash, Rauthor, Hst, Hc, Hp.
  cbn [null_string].
  repeat (split; [reflexivity|]).
  split; [exact Hmap|]. exact Hstored.
Qed.

Lemma scanPipelineBuild_reads_Marshal_witness :
  exists pb,
    scanPipelineBuild
      (Fixture.selected (Marshal encode_Param (Fixture.git "a<b"))
         (Marshal encode_Stage Fixture.failed_stages_of_build)
         (Marshal encode_Commit [Fixture.commit_of "abc"]))
    = Ok pb
    /\ PB_Parameters pb = Fixture.git "a<b"
    /\ PB_Stages pb = Fixture.failed_stages_of_build
    /\ PB_Commits pb = [Fixture.commit_of "abc"].
Proof.
  destruct (scanPipelineBuild_reads_Marshal
              (Fixture.selected (Marshal encode_Param (Fixture.git "a<b"))
                 (Marshal encode_Stage Fixture.failed_stages_of_build)
                 (Marshal encode_Commit [Fixture.commit_of "abc"]))
              (Fixture.git "a<b") Fixture.failed_stages_of_build [Fixture.commit_of "abc"])
    as (pb & H & Hp & Hs & Hc & _); try (vm_compute; reflexivity).
  exists pb. repeat split; assumption.
Defined.

Lemma InsertPipelineBuild_then_LoadPipelineBuildByID_witness :
  exists pb s' loaded,
    InsertPipelineBuild Fixture.env_no_vcs Fixture.project (Fixture.pipeline_of "build")
      Fixture.application [] (Fixture.git "master") Fixture.environment 0
      Sample.triggered_by_alice Sample.store_with_stages
    = (Ok pb, s')
    /\ LoadPipelineBuildByID (PB_ID pb) s' = (Ok loaded, s')
    /\ PB_Stages loaded = Pip_Stages (PB_Pipeline pb)
    /\ PB_Stages loaded <> [].
Proof.
  destruct (InsertPipelineBuild Fixture.env_no_vcs Fixture.project (Fixture.pipeline_of "build")
              Fixture.application [] (Fixture.git "master") Fixture.environment 0
              Sample.triggered_by_alice Sample.store_with_stages) as [[pb|err] s'] eqn:H;
    [|vm_compute in H; discriminate H].
  destruct (InsertPipelineBuild_then_LoadPipelineBuildByID _ _ _ _ _ _ _ _ _ _ _ _
              {| application_id := 42; application_name := "app"; application_project_id := 1 |}
              {| pipeline_id := 7; pipeline_name := "pip"; pipeline_type := "build" |}
              {| environment_id := 3; environment_name := "env" |}
              {| project_id := 1; project_projectkey := "KEY" |} H)
    as (loaded & mapVar & Hload & _ & _ & _ & _ & _ & _ & _ & _ & _ & _ & _ & _ & _ & Hst & _).
  - repeat split; repeat constructor; cbn; tauto.
  - repeat split; cbn; tauto.
  - vm_compute in H. injection H as <- <-. vm_compute. reflexivity.
  - vm_compute in H. injection H as <- <-. intros row Hin _.
    cbn in Hin. destruct Hin as [<-|[<-|[]]]; vm_compute; reflexivity.
  - exists pb, s', loaded. split; [reflexivity|]. split; [exact Hload|].
    split; [exact Hst|]. rewrite Hst.
    vm_compute in H. injection H as <- <-. discriminate.
Defined.

(** ** A build that is read back after an update *)

Lemma map_list_bind {A B C : Type} (G : B -> C) (f : A -> list B) (l : list A) :
  List.map G (l ≫= f) = l ≫= (fun x => List.map G (f x)).
Proof.
  induction l as [|x l IH]; [reflexivity|].
  rewrite !bind_cons, List.map_app, IH. reflexivity.
Qed.

(** An update of columns that the joins and the WHERE clause do not read
    changes the selected rows one by one. *)
Lemma selectPipelineBuild_map s s' (g : PipelineBuildRow -> PipelineBuildRow)
    (G : PipelineBuildDbResult -> PipelineBuildDbResult) where_ :
  t_pipeline_build s' = List.map g (t_pipeline_build s) ->
  t_application s' = t_application s -> t_pipeline s' = t_pipeline s ->
  t_environment s' = t_environment s -> t_project s' = t_project s ->
  t_user s' = t_user s ->
  (forall r, where_ (g r) = where_ r) ->
  (forall r, pb_application_id (g r) = pb_application_id r) ->
  (forall r, pb_pipeline_id (g r) = pb_pipeline_id r) ->
  (forall r, pb_environment_id (g r) = pb_environment_id r) ->
  (forall r, pb_triggered_by (g r) = pb_triggered_by r) ->
  (forall r a pi en pr u, joined (g r) a pi en pr u = G (joined r a pi en pr u)) ->
  selectPipelineBuild s' where_ = List.map G (selectPipelineBuild s where_).
Proof.
  intros Hrows Ta Tp Te Tj Tu Hw Ha Hp He Ht Hj.
  unfold selectPipelineBuild. rewrite Hrows, Ta, Tp, Te, Tj, Tu. clear Hrows Ta Tp Te Tj Tu.
  induction (t_pipeline_build s) as [|r rows IH]; [reflexivity|].
  rewrite List.map_cons. cbn [List.filter]. rewrite Hw.
  destruct (where_ r); [|exact IH].
  rewrite !bind_cons, List.map_app, IH. f_equal.
  rewrite Ha, Hp, He, Ht.
  rewrite map_list_bind. apply list_bind_ext; [|reflexivity]. intros a.
  rewrite map_list_bind. apply list_bind_ext; [|reflexivity]. intros pi.
  rewrite map_list_bind. apply list_bind_ext; [|reflexivity]. intros en.
  rewrite map_list_bind. apply list_bind_ext; [|reflexivity]. intros pr.
  destruct (List.filter _ (t_user s)) as [|u us].
  - cbn [List.map]. rewrite Hj. reflexivity.
  - rewrite List.map_map. apply List.map_ext. intros u'. apply Hj.
Qed.

Lemma SelectOne_Ok {A : Type} (rows : list A) row : SelectOne rows = Ok row -> rows = [row].
Proof.
  destruct rows as [|x [|y rows]]; cbn [SelectOne]; intros H; try discriminate H.
  injection H as ->. reflexivity.
Qed.

Lemma LoadPipelineBuildByID_Ok id s pb s' :
  LoadPipelineBuildByID id s = (Ok pb, s') ->
  exists row,
    selectPipelineBuild s (fun r => pb_id r =? id) = [row]
    /\ Res_ID row = id /\ scanPipelineBuild row = Ok pb.
Proof.
  unfold LoadPipelineBuildByID, mbind, M_bind, get, lift.
  destruct (SelectOne _) as [row|err] eqn:E; [|discriminate].
  apply SelectOne_Ok in E. intros H. exists row. split; [exact E|].
  split.
  - assert (In row (selectPipelineBuild s (fun r => pb_id r =? id))) as Hin
      by (rewrite E; left; reflexivity).
    apply selectPipelineBuild_In in Hin.
    destruct Hin as (r & a & pi & en & pr & u & _ & Hid & ->). apply Z.eqb_eq. exact Hid.
  - destruct (scanPipelineBuild row); [|discriminate]. injection H as -> _. reflexivity.
Qed.

Lemma LoadPipelineBuildByID_of_row id s row :
  selectPipelineBuild s (fun r => pb_id r =? id) = [row] ->
  LoadPipelineBuildByID id s = (scanPipelineBuild row, s).
Proof.
  intros H. unfold LoadPipelineBuildByID, mbind, M_bind, get, lift. rewrite H.
  cbn [SelectOne]. destruct (scanPipelineBuild row); reflexivity.
Qed.

Lemma UpdatePipelineBuildStatusAndStage_rows env pb newStatus s updated s' :
  UpdatePipelineBuildStatusAndStage env pb newStatus s = (Ok updated, s') ->
  t_pipeline_build s'
  = List.map (fun r => if pb_id r =? PB_ID pb
                       then row_set_status_stages_done newStatus
                              (Marshal encode_Stage (PB_Stages pb)) (Some (PB_Done pb)) r
                       else r) (t_pipeline_build s)
  /\ t_application s' = t_application s /\ t_pipeline s' = t_pipeline s
  /\ t_environment s' = t_environment s /\ t_project s' = t_project s
  /\ t_user s' = t_user s.
Proof.
  unfold UpdatePipelineBuildStatusAndStage. intros H.
  step H u s1 H1. unfold update_where_id, modify in H1. injection H1 as _ <-.
  step H loaded s2 H2. apply try_Ok, Load_state in H2. subst s2.
  step H u2 s3 H3. unfold modify in H3. injection H3 as _ <-.
  step H u3 s4 H4.
  assert (t_pipeline_build s4 = t_pipeline_build
            (with_pipeline_build
               (List.map (fun r => if pb_id r =? PB_ID pb
                                   then row_set_status_stages_done newStatus
                                          (Marshal encode_Stage (PB_Stages pb))
                                          (Some (PB_Done pb)) r
                                   else r)) s)
          /\ t_application s4 = t_application s /\ t_pipeline s4 = t_pipeline s
          /\ t_environment s4 = t_environment s /\ t_project s4 = t_project s
          /\ t_user s4 = t_user s) as Hs4.
  { destruct (negb _) in H4;
      [unfold PublishPipelineBuild, modify in H4|unfold mret, M_ret in H4];
      injection H4 as _ <-; repeat split; reflexivity. }
  unfold mret, M_ret in H. injection H as _ <-. exact Hs4.
Qed.

Lemma UpdatePipelineBuildCommits_rows env p pip app e pb s res s' rm :
  App_RepositoriesManager app = Some rm ->
  UpdatePipelineBuildCommits env p pip app e pb s = (Ok res, s') ->
  t_pipeline_build s'
  = List.map (fun r => if pb_id r =? PB_ID pb
                       then row_set_commits (Marshal encode_Commit res) r
                       else r) (t_pipeline_build s)
  /\ t_application s' = t_application s /\ t_pipeline s' = t_pipeline s
  /\ t_environment s' = t_environment s /\ t_project s' = t_project s
  /\ t_user s' = t_user s.
Proof.
  intros Hrm. unfold UpdatePipelineBuildCommits. rewrite Hrm. intros H.
  step H client s1 H1.
  assert (s1 = s) as ->.
  { unfold wrap in H1. destruct (env_AuthorizedClient env _ _);
      [unfold mret, M_ret in H1; injection H1 as _ <-; reflexivity|discriminate H1]. }
  step H cp s2 H2. apply wrapping_Ok in H2. destruct cp as [cur prev].
  apply previous_build_on_branch in H2. destruct H2 as [-> _].
  step H res' s3 H3. apply lift_Ok in H3. destruct H3 as [_ ->].
  step H u s4 H4. apply wrapping_Ok in H4.
  unfold updatePipelineBuildCommits, update_where_id, modify in H4. injection H4 as _ <-.
  unfold mret, M_ret in H. injection H as <- <-. repeat split; reflexivity.
Qed.

(** The build that is read after [UPDATE pipeline_build set status = $1,
    stages = $2, done = $4 WHERE id = $3]. *)
Lemma load_after_status_update id newStatus stages done s s' old :
  t_pipeline_build s'
  = List.map (fun r => if pb_id r =? id
                       then row_set_status_stages_done newStatus
                              (Marshal encode_Stage stages) (Some done) r
                       else r) (t_pipeline_build s) ->
  t_application s' = t_application s -> t_pipeline s' = t_pipeline s ->
  t_environment s' = t_environment s -> t_project s' = t_project s ->
  t_user s' = t_user s ->
  LoadPipelineBuildByID id s = (Ok old, s) ->
  forallb plain_Stage stages = true ->
  LoadPipelineBuildByID id s'
  = (Ok {| PB_ID := PB_ID old; PB_Application := PB_Application old;
           PB_Pipeline := PB_Pipeline old; PB_Environment := PB_Environment old;
           PB_BuildNumber := PB_BuildNumber old; PB_Version := PB_Version old;
           PB_Status := StatusFromString newStatus; PB_Start := PB_Start old;
           PB_Done := done; PB_Trigger := PB_Trigger old;
           PB_Parameters := PB_Parameters old; PB_Stages := stages;
           PB_Commits := PB_Commits old |}, s').
Proof.
  intros Hrows Ta Tp Te Tj Tu Hold Hstages.
  apply LoadPipelineBuildByID_Ok in Hold. destruct Hold as (row & Hsel & Hid & Hscan).
  set (stagesB := Marshal encode_Stage stages) in *.
  rewrite (LoadPipelineBuildByID_of_row id s'
             (res_set_status_stages_done newStatus stagesB (Some done) row)).
  - f_equal. unfold scanPipelineBuild in Hscan |- *.
    cbn [res_set_status_stages_done Res_Args Res_Stages Res_Commits].
    destruct (Unmarshal decode_Param (Res_Args row)) as [parameters|]; [|discriminate].
    destruct (Unmarshal decode_Stage (Res_Stages row)) as [stages0|]; [|discriminate].
    subst stagesB. rewrite (Unmarshal_Marshal_Stage _ Hstages).
    destruct (if String.eqb (Res_Commits row) "" then _ else _) as [commits|]; [|discriminate].
    injection Hscan as <-. reflexivity.
  - rewrite (selectPipelineBuild_map s s'
               (fun r => if pb_id r =? id
                         then row_set_status_stages_done newStatus stagesB (Some done) r
                         else r)
               (fun res => if Res_ID res =? id
                           then res_set_status_stages_done newStatus stagesB (Some done) res
                           else res)); try assumption;
      try (intros r; destruct (pb_id r =? id); reflexivity).
    + rewrite Hsel. cbn [List.map]. rewrite Hid, Z.eqb_refl. reflexivity.
    + intros r. destruct (pb_id r =? id) eqn:E; [|exact E]. exact E.
    + intros r a pi en pr u. cbn [joined Res_ID].
      destruct (pb_id r =? id); reflexivity.
Qed.

(** X23: after [UpdatePipelineBuildStatusAndStage], [LoadPipelineBuildByID]
    reads the build as it read it before, with the new status, the
    [Done] time and the stages of the build that was passed (stages of
    ASCII text, with orders and job ids in the range of [int64]);
    nothing else of the build has changed. *)
Theorem UpdatePipelineBuildStatusAndStage_then_LoadPipelineBuildByID :
  forall env pb newStatus s updated s' old,
    UpdatePipelineBuildStatusAndStage env pb newStatus s = (Ok updated, s') ->
    LoadPipelineBuildByID (PB_ID pb) s = (Ok old, s) ->
    forallb plain_Stage (PB_Stages pb) = true ->
    LoadPipelineBuildByID (PB_ID pb) s'
    = (Ok {| PB_ID := PB_ID old; PB_Application := PB_Application old;
             PB_Pipeline := PB_Pipeline old; PB_Environment := PB_Environment old;
             PB_BuildNumber := PB_BuildNumber old; PB_Version := PB_Version old;
             PB_Status := StatusFromString newStatus; PB_Start := PB_Start old;
             PB_Done := PB_Done pb; PB_Trigger := PB_Trigger old;
             PB_Parameters := PB_Parameters old; PB_Stages := PB_Stages pb;
             PB_Commits := PB_Commits old |}, s').
Proof.
  intros env pb newStatus s updated s' old Hup Hold Hstages.
  apply UpdatePipelineBuildStatusAndStage_rows in Hup.
  destruct Hup as (Hrows & Ta & Tp & Te & Tj & Tu).
  apply (load_after_status_update (PB_ID pb) newStatus (PB_Stages pb) (PB_Done pb) s s' old);
    assumption.
Qed.

(** X24: after [UpdatePipelineBuildCommits] on an application with a
    repositories manager, [LoadPipelineBuildByID] reads the build as it
    read it before, with the commits that the call has returned (of
    ASCII text); nothing else of the build has changed. *)
Theorem UpdatePipelineBuildCommits_then_LoadPipelineBuildByID :
  forall env p pip app e pb s res s' old rm,
    App_RepositoriesManager app = Some rm ->
    UpdatePipelineBuildCommits env p pip app e pb s = (Ok res, s') ->
    LoadPipelineBuildByID (PB_ID pb) s = (Ok old, s) ->
    forallb plain_Commit res = true ->
    LoadPipelineBuildByID (PB_ID pb) s'
    = (Ok {| PB_ID := PB_ID old; PB_Application := PB_Application old;
             PB_Pipeline := PB_Pipeline old; PB_Environment := PB_Environment old;
             PB_BuildNumber := PB_BuildNumber old; PB_Version := PB_Version old;
             PB_Status := PB_Status old; PB_Start := PB_Start old;
             PB_Done := PB_Done old; PB_Trigger := PB_Trigger old;
             PB_Parameters := PB_Parameters old; PB_Stages := PB_Stages old;
             PB_Commits := res |}, s').
Proof.
  intros env p pip app e pb s res s' old rm Hrm Hup Hold _.
  apply (UpdatePipelineBuildCommits_rows env p pip app e pb s res s' rm Hrm) in Hup.
  destruct Hup as (Hrows & Ta & Tp & Te & Tj & Tu).
  apply LoadPipelineBuildByID_Ok in Hold. destruct Hold as (row & Hsel & Hid & Hscan).
  set (commitsB := Marshal encode_Commit res) in *.
  rewrite (LoadPipelineBuildByID_of_row (PB_ID pb) s' (res_set_commits commitsB row)).
  - f_equal. unfold scanPipelineBuild in Hscan |- *.
    cbn [res_set_commits Res_Args Res_Stages Res_Commits].
    destruct (Unmarshal decode_Param (Res_Args row)) as [parameters|]; [|discriminate].
    destruct (Unmarshal decode_Stage (Res_Stages row)) as [stages|]; [|discriminate].
    subst commitsB. rewrite Marshal_not_empty, Unmarshal_Marshal_Commit.
    destruct (if String.eqb (Res_Commits row) "" then _ else _) as [commits|]; [|discriminate].
    injection Hscan as <-. reflexivity.
  - rewrite (selectPipelineBuild_map s s'
               (fun r => if pb_id r =? PB_ID pb then row_set_commits commitsB r else r)
               (fun res => if Res_ID res =? PB_ID pb then res_set_commits commitsB res else res));
      try assumption;
      try (intros r; destruct (pb_id r =? PB_ID pb); reflexivity).
    + rewrite Hsel. cbn [List.map]. rewrite Hid, Z.eqb_refl. reflexivity.
    + intros r. destruct (pb_id r =? PB_ID pb) eqn:E; [|exact E]. exact E.
    + intros r a pi en pr u. cbn [joined Res_ID].
      destruct (pb_id r =? PB_ID pb); reflexivity.
Qed.

Lemma UpdatePipelineBuildStatusAndStage_then_LoadPipelineBuildByID_witness :
  exists updated s' loaded,
    UpdatePipelineBuildStatusAndStage Fixture.env_no_vcs
      (Fixture.build 1 1 StatusBuilding "master" Fixture.failed_stages_of_build) StatusFail
      Fixture.one_build = (Ok updated, s')
    /\ LoadPipelineBuildByID 1 s' = (Ok loaded, s')
    /\ PB_Status loaded = StatusFail
    /\ PB_Stages loaded = Fixture.failed_stages_of_build.
Proof.
  destruct (UpdatePipelineBuildStatusAndStage Fixture.env_no_vcs
              (Fixture.build 1 1 StatusBuilding "master" Fixture.failed_stages_of_build)
              StatusFail Fixture.one_build) as [[updated|err] s'] eqn:H;
    [|vm_compute in H; discriminate H].
  destruct (LoadPipelineBuildByID 1 Fixture.one_build) as [[old|err] s0] eqn:Hold;
    [|vm_compute in Hold; discriminate Hold].
  assert (s0 = Fixture.one_build) as ->
    by (vm_compute in Hold; injection Hold as _ <-; reflexivity).
  pose proof (UpdatePipelineBuildStatusAndStage_then_LoadPipelineBuildByID
                Fixture.env_no_vcs
                (Fixture.build 1 1 StatusBuilding "master" Fixture.failed_stages_of_build)
                StatusFail Fixture.one_build updated s' old H Hold eq_refl) as Hload.
  exists updated, s'. eexists. split; [reflexivity|]. split; [exact Hload|].
  split; reflexivity.
Defined.

Lemma UpdatePipelineBuildCommits_then_LoadPipelineBuildByID_witness :
  exists res s' loaded,
    UpdatePipelineBuildCommits Fixture.env_vcs Fixture.project (Fixture.pipeline_of "build")
      Fixture.application_vcs Fixture.environment
      (Fixture.build 1 1 StatusSuccess "master" []) Fixture.one_build = (Ok res, s')
    /\ LoadPipelineBuildByID 1 s' = (Ok loaded, s')
    /\ PB_Commits loaded = res
    /\ res = [Fixture.commit_of "abc"].
Proof.
  destruct (UpdatePipelineBuildCommits Fixture.env_vcs Fixture.project
              (Fixture.pipeline_of "build") Fixture.application_vcs Fixture.environment
              (Fixture.build 1 1 StatusSuccess "master" []) Fixture.one_build)
    as [[res|err] s'] eqn:H; [|vm_compute in H; discriminate H].
  destruct (LoadPipelineBuildByID 1 Fixture.one_build) as [[old|err] s0] eqn:Hold;
    [|vm_compute in Hold; discriminate Hold].
  assert (s0 = Fixture.one_build) as ->
    by (vm_compute in Hold; injection Hold as _ <-; reflexivity).
  assert (res = [Fixture.commit_of "abc"]) as Hres
    by (vm_compute in H; injection H as <- _; reflexivity).
  pose proof (UpdatePipelineBuildCommits_then_LoadPipelineBuildByID
                Fixture.env_vcs Fixture.project (Fixture.pipeline_of "build")
                Fixture.application_vcs Fixture.environment
                (Fixture.build 1 1 StatusSuccess "master" []) Fixture.one_build res s' old
                {| RM_Name := "git" |} eq_refl H Hold
                ltac:(rewrite Hres; vm_compute; reflexivity)) as Hload.
  exists res, s'. eexists. split; [reflexivity|]. split; [exact Hload|].
  split; [reflexivity|exact Hres].
Defined.

(** ** The builds of a branch that is deleted *)

Lemma StopPipelineBuild_state pb s :
  exists previous s',
    StopPipelineBuild pb s = (Ok tt, s')
    /\ published s' = published s ++ [{| event_build := pb; event_previous := previous |}]
    /\ t_pipeline_build s' = t_pipeline_build s.
Proof.
  unfold StopPipelineBuild, StopBuildingPipelineBuildJob, PublishPipelineBuild,
    mbind, M_bind, modify, try.
  match goal with
  | |- context [LoadPipelineBuildsByApplicationAndPipeline ?a ?b ?c ?d ?e ?f ?st] =>
      destruct (LoadPipelineBuildsByApplicationAndPipeline a b c d e f st)
        as [loaded s1] eqn:Hload
  end.
  pose proof (Load_state _ _ _ _ _ _ _ _ _ Hload) as ->.
  eexists. eexists. split; [reflexivity|]. split; reflexivity.
Qed.

Lemma DeletePipelineBuildByID_state pbID s :
  exists s',
    DeletePipelineBuildByID pbID s = (Ok tt, s')
    /\ published s' = published s
    /\ t_pipeline_build s'
       = List.filter (fun r => negb (pb_id r =? pbID)) (t_pipeline_build s).
Proof.
  unfold DeletePipelineBuildByID, DeleteBuildLogsByPipelineBuildID, DeletePipelineBuildJob,
    mbind, M_bind, get, modify.
  eexists. split; [reflexivity|]. split; reflexivity.
Qed.

(** The loop of [DeleteBranchBuilds]: the builds that are building are
    stopped and deleted, one after the other. *)
Lemma delete_building pbs : forall s,
  exists s',
    for_each pbs (fun pb =>
      if negb (String.eqb (PB_Status pb) StatusBuilding) then mret tt
      else
        stopped ← try (StopPipelineBuild pb);
        match stopped with
        | Err _ => mret tt
        | Ok _ =>
            deleted ← try (DeletePipelineBuildByID (PB_ID pb));
            mret tt
        end) s = (Ok tt, s')
    /\ t_pipeline_build s'
       = List.filter
           (fun r => negb (existsb (Z.eqb (pb_id r))
                             (List.map PB_ID
                                (List.filter (fun pb => String.eqb (PB_Status pb) StatusBuilding)
                                   pbs))))
           (t_pipeline_build s)
    /\ List.map event_build (published s')
       = List.map event_build (published s)
         ++ List.filter (fun pb => String.eqb (PB_Status pb) StatusBuilding) pbs.
Proof.
  induction pbs as [|pb pbs IH]; intros s.
  - exists s. split; [reflexivity|]. cbn [List.filter List.map existsb negb].
    rewrite filter_true, app_nil_r. split; reflexivity.
  - cbn [for_each List.filter].
    destruct (String.eqb (PB_Status pb) StatusBuilding) eqn:Eb; cbn [negb].
    + destruct (StopPipelineBuild_state pb s) as (previous & s1 & Hstop & Hpub1 & Hrows1).
      destruct (DeletePipelineBuildByID_state (PB_ID pb) s1) as (s2 & Hdel & Hpub2 & Hrows2).
      destruct (IH s2) as (s' & Hloop & Hrows & Hpub).
      exists s'. split.
      { unfold mbind, M_bind, try at 1. rewrite Hstop.
        unfold try. rewrite Hdel. unfold mret, M_ret. exact Hloop. }
      split.
      * rewrite Hrows, Hrows2, Hrows1, filter_filter. apply List.filter_ext. intros r.
        cbn [List.map existsb]. rewrite negb_orb. reflexivity.
      * rewrite Hpub, Hpub2, Hpub1, List.map_app, <- List.app_assoc. reflexivity.
    + destruct (IH s) as (s' & Hloop & Hrows & Hpub).
      exists s'. split; [|split; assumption].
      unfold mbind, M_bind, mret, M_ret. exact Hloop.
Qed.

Lemma StatusFromString_Building x : StatusFromString x = StatusBuilding -> x = StatusBuilding.
Proof.
  unfold StatusFromString. destruct (existsb _ _); [tauto|discriminate].
Qed.

(** X25: [DeleteBranchBuilds] fails only when the builds of the branch
    cannot be loaded, and then it changes nothing.  Otherwise it removes
    from [pipeline_build] the rows whose id is that of a loaded build
    with status Building and no other row, and publishes one event for
    each of these builds, in the order in which they were loaded: a row
    that is removed has the id of a row of the application on that
    branch whose status is Building, so that the finished builds of the
    branch stay. *)
Theorem DeleteBranchBuilds_removes_only_building appID branch s :
  match LoadPipelineBuildByApplicationAndBranch appID branch s with
  | (Err err, _) => DeleteBranchBuilds appID branch s = (Err err, s)
  | (Ok pbs, _) =>
      exists s',
        DeleteBranchBuilds appID branch s = (Ok tt, s')
        /\ t_pipeline_build s'
           = List.filter
               (fun r => negb (existsb (Z.eqb (pb_id r))
                                 (List.map PB_ID
                                    (List.filter
                                       (fun pb => String.eqb (PB_Status pb) StatusBuilding)
                                       pbs))))
               (t_pipeline_build s)
        /\ List.map event_build (published s')
           = List.map event_build (published s)
             ++ List.filter (fun pb => String.eqb (PB_Status pb) StatusBuilding) pbs
        /\ forall r, In r (t_pipeline_build s) -> ~ In r (t_pipeline_build s') ->
             exists r', In r' (t_pipeline_build s) /\ pb_id r' = pb_id r
                        /\ pb_application_id r' = appID
                        /\ pb_vcs_changes_branch r' = Some branch
                        /\ pb_status r' = StatusBuilding
  end.
Proof.
  destruct (LoadPipelineBuildByApplicationAndBranch appID branch s) as [[pbs|err] s0] eqn:Hload.
  - assert (s0 = s) as ->.
    { unfold LoadPipelineBuildByApplicationAndBranch, mbind, M_bind, get, lift in Hload.
      injection Hload as _ <-. reflexivity. }
    destruct (delete_building pbs s) as (s' & Hloop & Hrows & Hpub).
    exists s'. split.
    { unfold DeleteBranchBuilds, mbind, M_bind. rewrite Hload. exact Hloop. }
    split; [exact Hrows|]. split; [exact Hpub|].
    intros r Hin Hout.
    assert (existsb (Z.eqb (pb_id r))
              (List.map PB_ID
                 (List.filter (fun pb => String.eqb (PB_Status pb) StatusBuilding) pbs))
            = true) as Hid.
    { destruct (existsb _ _) eqn:E; [reflexivity|]. exfalso. apply Hout.
      rewrite Hrows. apply filter_In. split; [exact Hin|]. rewrite E. reflexivity. }
    apply existsb_exists in Hid. destruct Hid as (id & Hid & Heq).
    apply Z.eqb_eq in Heq. subst id.
    apply in_map_iff in Hid. destruct Hid as (pb & Hpb & Hb).
    apply filter_In in Hb. destruct Hb as [Hb Hstatus]. apply String.eqb_eq in Hstatus.
    unfold LoadPipelineBuildByApplicationAndBranch, mbind, M_bind, get, lift in Hload.
    injection Hload as Hscan.
    destruct (scan_rows_In _ _ _ Hscan Hb) as (res & Hres & Hres_scan).
    apply order_by_In, selectPipelineBuild_In in Hres.
    destruct Hres as (r' & a & pi & en & pr & u & Hr' & Hw & ->).
    apply scanPipelineBuild_Ok in Hres_scan.
    destruct Hres_scan as (Hpid & _ & _ & _ & _ & _ & Hst & _).
    cbn [joined Res_ID Res_Status] in Hpid, Hst.
    apply andb_prop in Hw. destruct Hw as [Happ Hbranch]. apply Z.eqb_eq in Happ.
    exists r'. split; [exact Hr'|]. split; [congruence|]. split; [exact Happ|]. split.
    + unfold column_eq in Hbranch. destruct (pb_vcs_changes_branch r') as [b|]; [|discriminate].
      apply String.eqb_eq in Hbranch. subst b. reflexivity.
    + apply StatusFromString_Building. rewrite <- Hst. exact Hstatus.
  - unfold DeleteBranchBuilds, mbind, M_bind. rewrite Hload.
    unfold LoadPipelineBuildByApplicationAndBranch, mbind, M_bind, get, lift in Hload.
    injection Hload as _ <-. reflexivity.
Qed.

(** ** A variable of the build *)

Section BuildVariableProperties.
Context {Job : Type}
        (append_parameter : Job -> Param -> Job)
        (GetPipelineBuildJobByPipelineBuildID : Z -> M (list Job))
        (UpdatePipelineBuildJob : Job -> M unit).

Abbreviation InsertBuildVariable' :=
  (InsertBuildVariable append_parameter GetPipelineBuildJobByPipelineBuildID
     UpdatePipelineBuildJob).

Lemma same_builds_refl s : same_builds s s.
Proof. repeat split. Qed.

Lemma same_builds_trans s1 s2 s3 : same_builds s1 s2 -> same_builds s2 s3 -> same_builds s1 s3.
Proof.
  unfold same_builds. intros (A1 & A2 & A3 & A4 & A5 & A6) (B1 & B2 & B3 & B4 & B5 & B6).
  repeat split; congruence.
Qed.

Lemma for_each_same_builds (body : Job -> M unit) jobs :
  (forall j s s', body j s = (Ok tt, s') -> same_builds s s') ->
  forall s s', for_each jobs body s = (Ok tt, s') -> same_builds s s'.
Proof.
  intros Hbody. induction jobs as [|j jobs IH]; intros s s' H; cbn [for_each] in H.
  - unfold mret, M_ret in H. injection H as <-. apply same_builds_refl.
  - step H u s1 H1. destruct u. eapply same_builds_trans; [eapply Hbody; exact H1|].
    apply IH. exact H.
Qed.

(** X26: [InsertBuildVariable] answers [sql.ErrNoRows] when no build has
    the id and the error of [json.Unmarshal] when the arguments of the
    build are not the JSON of a list of parameters, and has then written
    nothing.  When it succeeds on a build that [LoadPipelineBuildByID]
    could read, in a store where the id is a key, with functions for
    the jobs that leave the builds alone, the build is read afterwards
    as before with one more parameter at the end, [cds.build.] followed
    by the name of the variable, of type string, with the value of the
    variable. *)
Theorem InsertBuildVariable_appends_parameter :
  forall pbID v s,
    (List.filter (fun r => pb_id r =? pbID) (t_pipeline_build s) = [] ->
     InsertBuildVariable' pbID v s = (Err ErrNoRows, s))
    /\ (forall r rest err,
          List.filter (fun r => pb_id r =? pbID) (t_pipeline_build s) = r :: rest ->
          Unmarshal decode_Param (pb_args r) = Err err ->
          InsertBuildVariable' pbID v s = (Err err, s))
    /\ (forall old s',
          LoadPipelineBuildByID pbID s = (Ok old, s) ->
          List.NoDup (List.map pb_id (t_pipeline_build s)) ->
          forallb plain_Param (PB_Parameters old ++ [build_variable v]) = true ->
          (forall id s0 jobs s1,
             GetPipelineBuildJobByPipelineBuildID id s0 = (Ok jobs, s1) -> same_builds s0 s1) ->
          (forall j s0 s1, UpdatePipelineBuildJob j s0 = (Ok tt, s1) -> same_builds s0 s1) ->
          InsertBuildVariable' pbID v s = (Ok tt, s') ->
          LoadPipelineBuildByID pbID s'
          = (Ok {| PB_ID := PB_ID old; PB_Application := PB_Application old;
                   PB_Pipeline := PB_Pipeline old; PB_Environment := PB_Environment old;
                   PB_BuildNumber := PB_BuildNumber old; PB_Version := PB_Version old;
                   PB_Status := PB_Status old; PB_Start := PB_Start old;
                   PB_Done := PB_Done old; PB_Trigger := PB_Trigger old;
                   PB_Parameters := PB_Parameters old ++ [build_variable v];
                   PB_Stages := PB_Stages old; PB_Commits := PB_Commits old |}, s')).
Proof.
  intros pbID v s. split; [|split].
  - intros Hnone. unfold InsertBuildVariable, mbind, M_bind, get, lift. rewrite Hnone.
    reflexivity.
  - intros r rest err Hrows Herr. unfold InsertBuildVariable, mbind, M_bind, get, lift.
    rewrite Hrows. cbn [List.map QueryRow]. rewrite Herr. reflexivity.
  - intros old s' Hold Hkey _ Hget Hupd H.
    apply LoadPipelineBuildByID_Ok in Hold. destruct Hold as (row & Hsel & Hid & Hscan).
    assert (In row (selectPipelineBuild s (fun r => pb_id r =? pbID))) as Hin
      by (rewrite Hsel; left; reflexivity).
    apply selectPipelineBuild_In in Hin.
    destruct Hin as (r & a & pi & en & pr & u & Hr & Hrid & Hrow).
    apply Z.eqb_eq in Hrid.
    assert (List.filter (fun r0 => pb_id r0 =? pbID) (t_pipeline_build s) = [r]) as Hrows.
    { rewrite <- Hrid. apply (filter_key pb_id); assumption. }
    subst row. unfold scanPipelineBuild in Hscan.
    cbn [joined Res_Args Res_Stages Res_Commits] in Hscan.
    destruct (Unmarshal decode_Param (pb_args r)) as [parameters|] eqn:Hargs; [|discriminate].
    destruct (Unmarshal decode_Stage (pb_stages r)) as [stages|] eqn:Hstages; [|discriminate].
    destruct (if String.eqb (pb_commits r) "" then _ else _) as [commits|] eqn:Hcommits;
      [|discriminate].
    injection Hscan as <-.
    unfold InsertBuildVariable in H.
    step H s0 s1 H1. unfold get in H1. injection H1 as <- <-.
    step H argsJSON s1 H1. apply lift_Ok in H1. destruct H1 as [H1 ->].
    rewrite Hrows in H1. cbn [List.map QueryRow] in H1. injection H1 as <-.
    step H params s1 H1. apply lift_Ok in H1. destruct H1 as [H1 ->].
    rewrite Hargs in H1. injection H1 as <-.
    step H u0 s1 H1. unfold update_where_id, modify in H1. injection H1 as _ <-.
    step H jobs s2 H2. apply Hget in H2.
    apply (for_each_same_builds _ jobs) in H; [|intros j sa sb Hj; eapply Hupd; exact Hj].
    pose proof (same_builds_trans _ _ _ H2 H) as (Trows & Ta & Tp & Te & Tj & Tu).
    cbn [t_pipeline_build t_application t_pipeline t_environment t_project t_user
         with_pipeline_build] in Trows, Ta, Tp, Te, Tj, Tu.
    set (data := Marshal encode_Param (parameters ++ [build_variable v])) in *.
    rewrite (LoadPipelineBuildByID_of_row pbID s'
               (res_set_args data (joined r a pi en pr u))).
    + f_equal. unfold scanPipelineBuild.
      cbn [res_set_args joined Res_Args Res_Stages Res_Commits].
      subst data. rewrite Unmarshal_Marshal_Param, Hstages, Hcommits. reflexivity.
    + rewrite (selectPipelineBuild_map s s'
                 (fun r => if pb_id r =? pbID then row_set_args data r else r)
                 (fun res => if Res_ID res =? pbID then res_set_args data res else res));
        try assumption;
        try (intros r0; destruct (pb_id r0 =? pbID); reflexivity).
      * rewrite Hsel. cbn [List.map joined Res_ID]. rewrite Hrid, Z.eqb_refl. reflexivity.
      * intros r0. destruct (pb_id r0 =? pbID) eqn:E; [|exact E]. exact E.
      * intros r0 a0 pi0 en0 pr0 u0'. cbn [joined Res_ID].
        destruct (pb_id r0 =? pbID); reflexivity.
Qed.

End BuildVariableProperties.

Lemma InsertBuildVariable_appends_parameter_witness :
  exists s' loaded,
    InsertBuildVariable (fun (j : unit) _ => j) (fun _ => mret []) (fun _ => mret tt)
      1 {| Var_Name := "tag"; Var_Value := "v1" |} Fixture.one_build = (Ok tt, s')
    /\ LoadPipelineBuildByID 1 s' = (Ok loaded, s')
    /\ PB_Parameters loaded
       = Fixture.git "master" ++ [build_variable {| Var_Name := "tag"; Var_Value := "v1" |}].
Proof.
  destruct (InsertBuildVariable (fun (j : unit) _ => j) (fun _ => mret []) (fun _ => mret tt)
              1 {| Var_Name := "tag"; Var_Value := "v1" |} Fixture.one_build)
    as [[[]|err] s'] eqn:H; [|vm_compute in H; discriminate H].
  destruct (LoadPipelineBuildByID 1 Fixture.one_build) as [[old|err] s0] eqn:Hold;
    [|vm_compute in Hold; discriminate Hold].
  assert (s0 = Fixture.one_build) as ->
    by (vm_compute in Hold; injection Hold as _ <-; reflexivity).
  assert (PB_Parameters old = Fixture.git "master") as Hp
    by (vm_compute in Hold; injection Hold as <-; reflexivity).
  pose proof (proj2 (proj2 (InsertBuildVariable_appends_parameter
                              (fun (j : unit) _ => j) (fun _ => mret []) (fun _ => mret tt)
                              1 {| Var_Name := "tag"; Var_Value := "v1" |} Fixture.one_build))
                old s' Hold) as Hload.
  exists s'. eexists. split; [reflexivity|]. split.
  - apply Hload.
    + repeat constructor. cbn. tauto.
    + rewrite Hp. vm_compute. reflexivity.
    + intros id sa jobs sb Hj. unfold mret, M_ret in Hj. injection Hj as _ <-.
      repeat split.
    + intros j sa sb Hj. unfold mret, M_ret in Hj. injection Hj as <-. repeat split.
    + exact H.
  - cbn [PB_Parameters]. rewrite Hp. reflexivity.
Defined.

(** ** A build by its number and by its hash *)



(** X28: [LoadPipelineBuildByHash] only reads the store.  Every build it
    returns is the build of a row whose hash column holds the hash that
    was asked for, and carries that hash in its trigger; there is one
    build for each selected row, in the order of the rows; when it
    fails it is because a row does not scan. *)
Theorem LoadPipelineBuildByHash_of_hash hash s :
  match LoadPipelineBuildByHash hash s with
  | (Ok pbs, s') =>
      s' = s
      /\ List.map PB_ID pbs
         = List.map Res_ID
             (selectPipelineBuild s (fun pb => column_eq (pb_vcs_changes_hash pb) hash))
      /\ forall pb, In pb pbs ->
           Trigger_VCSChangesHash (PB_Trigger pb) = hash
           /\ exists r, In r (t_pipeline_build s) /\ pb_id r = PB_ID pb
                        /\ pb_vcs_changes_hash r = Some hash
  | (Err err, s') =>
      s' = s
      /\ exists r, In r (selectPipelineBuild s (fun pb => column_eq (pb_vcs_changes_hash pb) hash))
                   /\ scanPipelineBuild r = Err err
  end.
Proof.
  unfold LoadPipelineBuildByHash, mbind, M_bind, get, lift.
  destruct (scan_rows _) as [pbs|err] eqn:E.
  - split; [reflexivity|]. split; [apply scan_rows_ids; exact E|].
    intros pb Hpb. destruct (scan_rows_In _ _ _ E Hpb) as (res & Hres & Hscan).
    apply selectPipelineBuild_In in Hres.
    destruct Hres as (r & a & pi & en & pr & u & Hr & Hw & ->).
    apply scanPipelineBuild_Ok in Hscan.
    destruct Hscan as (Hid & _ & _ & _ & _ & _ & _ & _ & Hhash).
    cbn [joined Res_ID Res_VCSChangesHash] in Hid, Hhash.
    unfold column_eq in Hw. destruct (pb_vcs_changes_hash r) as [h|] eqn:Eh; [|discriminate].
    apply String.eqb_eq in Hw. subst h. cbn [null_string] in Hhash.
    split; [exact Hhash|]. exists r. split; [exact Hr|]. split; [congruence|exact Eh].
  - split; [reflexivity|]. apply scan_rows_Err. exact E.
Qed.


(** ** A build that is read back after a restart *)

Lemma DeleteBuildLogs_same_builds id s s' :
  DeleteBuildLogs id s = (Ok tt, s') -> same_builds s s'.
Proof.
  unfold DeleteBuildLogs, modify. intros H. injection H as <-. repeat split.
Qed.

Lemma restart_all_stages_same_builds stages : forall i s stages' s',
  restart_all_stages i stages s = (Ok stages', s') -> same_builds s s'.
Proof.
  induction stages as [|stage rest IH]; intros i s stages' s' H; cbn [restart_all_stages] in H.
  - unfold mret, M_ret in H. injection H as _ <-. apply same_builds_refl.
  - step H u s1 H1. step H rest' s2 H2. unfold mret, M_ret in H. injection H as _ <-.
    eapply same_builds_trans; [|eapply IH; exact H2].
    destruct u. eapply for_each_same_builds; [|exact H1].
    intros j sa sb Hj. eapply DeleteBuildLogs_same_builds. exact Hj.
Qed.

Lemma restart_failed_stages_same_builds stages : forall s stages' s',
  restart_failed_stages stages s = (Ok stages', s') -> same_builds s s'.
Proof.
  induction stages as [|stage rest IH]; intros s stages' s' H; cbn [restart_failed_stages] in H.
  - unfold mret, M_ret in H. injection H as _ <-. apply same_builds_refl.
  - destruct (negb _) in H.
    + step H rest' s1 H1. unfold mret, M_ret in H. injection H as _ <-.
      eapply IH. exact H1.
    + step H u s1 H1. step H rest' s2 H2. unfold mret, M_ret in H. injection H as _ <-.
      eapply same_builds_trans; [|eapply IH; exact H2].
      destruct u. eapply for_each_same_builds; [|exact H1].
      intros j sa sb Hj. cbv beta in Hj.
      destruct (String.eqb (Job_Status j) StatusFail) in Hj.
      * eapply DeleteBuildLogs_same_builds. exact Hj.
      * unfold mret, M_ret in Hj. injection Hj as <-. apply same_builds_refl.
Qed.

Lemma LoadPipelineBuildByID_same_builds id s s1 old :
  same_builds s s1 ->
  LoadPipelineBuildByID id s = (Ok old, s) -> LoadPipelineBuildByID id s1 = (Ok old, s1).
Proof.
  intros (Hr & Ta & Tp & Te & Tj & Tu) H.
  unfold LoadPipelineBuildByID, mbind, M_bind, get, lift in H |- *.
  rewrite (selectPipelineBuild_ext s s1); try assumption; [|rewrite Hr; reflexivity].
  destruct (SelectOne _) as [row|err]; [|discriminate].
  destruct (scanPipelineBuild row) as [pb|err]; [|discriminate].
  injection H as ->. reflexivity.
Qed.

(** X29: after [RestartPipelineBuild], [LoadPipelineBuildByID] reads the
    build as it read it before, with status Building, no [Done] time and
    the stages of the build that the call returns.  The start of a
    successful build that is restarted is the time of the restart in the
    build that is returned only: no row gets another start, and the
    build that is read has the start it had. *)
Theorem RestartPipelineBuild_then_LoadPipelineBuildByID :
  forall env pb s pb' s' old,
    RestartPipelineBuild env pb s = (Ok pb', s') ->
    LoadPipelineBuildByID (PB_ID pb) s = (Ok old, s) ->
    forallb plain_Stage (PB_Stages pb') = true ->
    LoadPipelineBuildByID (PB_ID pb) s'
    = (Ok {| PB_ID := PB_ID old; PB_Application := PB_Application old;
             PB_Pipeline := PB_Pipeline old; PB_Environment := PB_Environment old;
             PB_BuildNumber := PB_BuildNumber old; PB_Version := PB_Version old;
             PB_Status := StatusBuilding; PB_Start := PB_Start old;
             PB_Done := zero_time; PB_Trigger := PB_Trigger old;
             PB_Parameters := PB_Parameters old; PB_Stages := PB_Stages pb';
             PB_Commits := PB_Commits old |}, s')
    /\ List.map pb_start (t_pipeline_build s') = List.map pb_start (t_pipeline_build s)
    /\ (PB_Status pb = StatusSuccess -> PB_Start pb' = env_now env (ticks s)).
Proof.
  intros env pb s pb' s' old H Hold Hstages.
  unfold RestartPipelineBuild in H. step H pb2 s4 H1.
  assert (same_builds s s4 /\ PB_ID pb2 = PB_ID pb /\ PB_Done pb2 = zero_time
          /\ (PB_Status pb = StatusSuccess -> PB_Start pb2 = env_now env (ticks s)))
    as (Hsame & Hid & Hdone & Hstart).
  { destruct (String.eqb_spec (PB_Status pb) StatusSuccess) as [Hs|Hs].
    - step H1 stages s1 Hst.
      destruct (restart_all_stages_runs (PB_Stages pb) 0%nat s) as (s1' & Hrun & _ & _ & _ & Ht).
      rewrite Hrun in Hst. injection Hst as <- <-.
      pose proof (restart_all_stages_same_builds _ _ _ _ _ Hrun) as Hb1.
      step H1 start s2 Hnow. unfold Now in Hnow. injection Hnow as <- <-.
      step H1 arts s3 Harts.
      unfold LoadArtifactsByBuildNumber, mbind, M_bind, get, mret, M_ret in Harts.
      injection Harts as _ <-.
      step H1 u s5 Hdel. destruct u.
      apply (for_each_same_builds _ arts) in Hdel;
        [|intros a sa sb Ha; unfold DeleteArtifact, modify in Ha; injection Ha as <-;
          repeat split].
      step H1 u s6 Htest. unfold DeletePipelineTestResults, modify in Htest.
      injection Htest as _ <-.
      unfold mret, M_ret in H1. injection H1 as <- <-.
      split.
      { eapply same_builds_trans; [exact Hb1|].
        eapply same_builds_trans; [|eapply same_builds_trans; [exact Hdel|]]; repeat split. }
      split; [reflexivity|]. split; [reflexivity|].
      intros _. cbn [PB_Start set_Stages_Start_Done]. rewrite Ht. reflexivity.
    - step H1 stages s1 Hst.
      pose proof (restart_failed_stages_same_builds _ _ _ _ Hst) as Hb1.
      unfold mret, M_ret in H1. injection H1 as <- <-.
      split; [exact Hb1|]. split; [reflexivity|]. split; [reflexivity|].
      intros Hc. contradiction. }
  destruct (UpdatePipelineBuildStatusAndStage_runs env pb2 StatusBuilding s4)
    as (pb'' & s'' & Hrun & _ & _ & _ & _ & _ & _ & _ & Hstart' & Hstages' & _).
  rewrite Hrun in H. injection H as <- <-.
  pose proof (UpdatePipelineBuildStatusAndStage_rows _ _ _ _ _ _ Hrun)
    as (Hrows & Ta & Tp & Te & Tj & Tu).
  destruct Hsame as (Sr & Sa & Sp & Se & Sj & Su).
  split; [|split].
  - rewrite Hstages' in Hstages |- *.
    pose proof (load_after_status_update (PB_ID pb2) StatusBuilding (PB_Stages pb2)
                  (PB_Done pb2) s4 s'' old Hrows Ta Tp Te Tj Tu) as Hload.
    rewrite Hid, Hdone in Hload. apply Hload; [|exact Hstages].
    apply (LoadPipelineBuildByID_same_builds _ s); [repeat split; assumption|exact Hold].
  - rewrite Hrows, Sr, List.map_map. apply List.map_ext. intros r.
    destruct (pb_id r =? PB_ID pb2); reflexivity.
  - intros Hs. rewrite Hstart'. apply Hstart. exact Hs.
Qed.

Lemma RestartPipelineBuild_then_LoadPipelineBuildByID_witness :
  exists pb' s' loaded,
    RestartPipelineBuild Fixture.env_no_vcs
      (Fixture.build 1 1 StatusSuccess "master" Fixture.failed_stages_of_build)
      Fixture.one_build = (Ok pb', s')
    /\ LoadPipelineBuildByID 1 s' = (Ok loaded, s')
    /\ PB_Status loaded = StatusBuilding
    /\ PB_Start loaded = 500
    /\ PB_Start pb' = 1000.
Proof.
  destruct (RestartPipelineBuild Fixture.env_no_vcs
              (Fixture.build 1 1 StatusSuccess "master" Fixture.failed_stages_of_build)
              Fixture.one_build) as [[pb'|err] s'] eqn:H;
    [|vm_compute in H; discriminate H].
  destruct (LoadPipelineBuildByID 1 Fixture.one_build) as [[old|err] s0] eqn:Hold;
    [|vm_compute in Hold; discriminate Hold].
  assert (s0 = Fixture.one_build) as ->
    by (vm_compute in Hold; injection Hold as _ <-; reflexivity).
  assert (PB_Start old = 500) as Hstart
    by (vm_compute in Hold; injection Hold as <-; reflexivity).
  destruct (RestartPipelineBuild_then_LoadPipelineBuildByID Fixture.env_no_vcs
              (Fixture.build 1 1 StatusSuccess "master" Fixture.failed_stages_of_build)
              Fixture.one_build pb' s' old H Hold) as (Hload & _ & Hnew).
  - vm_compute in H. injection H as <- _. vm_compute. reflexivity.
  - exists pb', s'. eexists. split; [reflexivity|]. split; [exact Hload|].
    split; [reflexivity|]. split; [exact Hstart|]. rewrite Hnew; reflexivity.
Defined.

(** ** The history of an application, a pipeline and an environment *)





